(** * Pit-crew agents: a shallow embedding of the agent runtime and the
      analyzer pipeline, with the properties of the specification.

    Sources embedded here:
    - [packages/agents/src/ipc/socket_client.py]
        (modules [SocketClient], [SocketThreads], [Connection])
    - [packages/agents/src/quality_agent.py]
        (modules [QualityAgent], [QualityAnalysis], [QualityReport],
         [QualityRun])
    - [packages/agents/src/security_agent.py]
        (modules [SecurityAgent], [SecurityDeps])
    - [packages/agents/src/plugins/base.py]
        (record [QaIssue], module [Plugins])
    - [packages/agents/src/plugins/yaml_syntax.py]
        (module [YamlSyntax])
    - [packages/agents/src/plugins/typescript_syntax.py]
        (module [TypeScriptSyntax])
    - [packages/agents/quality_agent.py]
        (modules [QualityCli], [CliReport], [QualityCliReport],
         [LizardTable])
    - [packages/agents/security_agent.py]
        (modules [SecurityCli], [CliReport], [SecurityCliReport])

    The two files under [src/] are the agents that talk to the orchestrator
    over the socket; the two files beside them are the command-line agents.

    Conventions.  Wall-clock readings ([time.time()]) are exact rationals;
    rounding of binary floating point is not modelled.  Python exceptions are
    explicit: a computation is a state transformer that returns either a value
    or a raised exception, together with the state reached.  Bytes written to
    the orchestrator socket are recorded, oldest first, in the [outbox] field
    of the client. *)

From Stdlib Require Import ZArith QArith Qround Lia Lqa Sorted.
From stdpp Require Import base list strings gmap pretty.

Set Warnings "-register-all".
Local Open Scope Z_scope.
Local Open Scope string_scope.
Local Open Scope list_scope.

(** ** Python values and exceptions *)

(** A raised exception: the class name ([type(e).__name__]) and what it is
    about. *)
Record exn := Exn { exn_type : string; exn_about : string }.

(** Dynamically typed values: decoded JSON documents and the payloads the
    agents build.  [PFmt] is an f-string: its template and the values of its
    holes, in order.  [PErr e] is [str(e)]. *)
Inductive pyval :=
| PNone
| PBool (b : bool)
| PInt (z : Z)
| PFloat (q : Q)
| PStr (s : string)
| PFmt (template : string) (holes : list pyval)
| PErr (e : exn)
| PList (items : list pyval)
| PDict (entries : list (string * pyval)).

Inductive outcome (A : Type) :=
| Ret (a : A)
| Raise (e : exn).
Arguments Ret {A} a.
Arguments Raise {A} e.

(** ** Dictionaries with insertion order

    A Python [dict] iterates in insertion order; [_cleanup_timed_out_tasks]
    depends on it, so a dict is a list of bindings with distinct keys. *)
Section Dict.
Context {V : Type}.

Fixpoint dict_get (k : string) (d : list (string * V)) : option V :=
  match d with
  | [] => None
  | (k', v) :: d' => if String.eqb k k' then Some v else dict_get k d'
  end.

Definition dict_mem (k : string) (d : list (string * V)) : bool :=
  match dict_get k d with Some _ => true | None => false end.

(** [del d[k]] *)
Fixpoint dict_del (k : string) (d : list (string * V)) : list (string * V) :=
  match d with
  | [] => []
  | (k', v) :: d' =>
      if String.eqb k k' then dict_del k d' else (k', v) :: dict_del k d'
  end.

(** [d[k] = v]: an existing key keeps its position. *)
Fixpoint dict_set (k : string) (v : V) (d : list (string * V))
  : list (string * V) :=
  match d with
  | [] => [(k, v)]
  | (k', v') :: d' =>
      if String.eqb k k' then (k, v) :: d' else (k', v') :: dict_set k v d'
  end.

Definition dict_keys (d : list (string * V)) : list string := map fst d.
End Dict.

(** ** Computations with state and exceptions *)

Definition M (S A : Type) : Type := S -> outcome A * S.

Definition ret {S A} (a : A) : M S A := fun s => (Ret a, s).
Definition raise {S A} (e : exn) : M S A := fun s => (Raise e, s).
Definition bind {S A B} (c : M S A) (k : A -> M S B) : M S B :=
  fun s => match c s with
           | (Ret a, s') => k a s'
           | (Raise e, s') => (Raise e, s')
           end.
Definition get_state {S} : M S S := fun s => (Ret s, s).
Definition modify {S} (f : S -> S) : M S unit := fun s => (Ret tt, f s).
(** [try: c except Exception as e: h e] *)
Definition try_except {S A} (c : M S A) (h : exn -> M S A) : M S A :=
  fun s => match c s with
           | (Ret a, s') => (Ret a, s')
           | (Raise e, s') => h e s'
           end.

Declare Scope py_scope.
Delimit Scope py_scope with py.
Notation "x <~ c ;; k" := (bind c (fun x => k))
  (at level 100, c at next level, right associativity) : py_scope.
Notation "c ;;; k" := (bind c (fun _ => k))
  (at level 100, right associativity) : py_scope.
Local Open Scope py_scope.

(** ** Rational clock helpers *)

Definition Qltb (x y : Q) : bool := negb (Qle_bool y x).

(** Python's [int(x)] on a float: truncation toward zero. *)
Definition py_int (x : Q) : Z := Z.quot (Qnum x) (Zpos (Qden x)).


(** Truthiness of a value ([if x:], [not x]). *)
Definition py_truthy (v : pyval) : bool :=
  match v with
  | PNone => false
  | PBool b => b
  | PInt z => negb (Z.eqb z 0)
  | PFloat q => negb (Qeq_bool q 0)
  | PStr s => negb (String.eqb s "")
  | PFmt _ _ => true
  | PErr _ => true
  | PList l => match l with [] => false | _ => true end
  | PDict d => match d with [] => false | _ => true end
  end.

(** Exceptions without state. *)
Definition obind {A B} (o : outcome A) (k : A -> outcome B) : outcome B :=
  match o with Ret a => k a | Raise e => Raise e end.
Notation "'try!' x := o 'in' k" := (obind o (fun x => k))
  (at level 100, x name, o at next level, right associativity) : py_scope.

Definition attribute_error (what : string) : exn := Exn "AttributeError" what.
Definition type_error (what : string) : exn := Exn "TypeError" what.

(** [v.get(k, dflt)]: defined on dicts only. *)
Definition py_get (v : pyval) (k : string) (dflt : pyval) : outcome pyval :=
  match v with
  | PDict d => Ret (default dflt (dict_get k d))
  | _ => Raise (attribute_error "object has no attribute 'get'")
  end.

(** [for x in v]: the values a loop over [v] visits. *)
Definition py_iter (v : pyval) : outcome (list pyval) :=
  match v with
  | PList l => Ret l
  | PDict d => Ret (map (fun kv => PStr (fst kv)) d)
  | PStr s => Ret (map (fun a => PStr (String a EmptyString)) (String.list_ascii_of_string s))
  | _ => Raise (type_error "object is not iterable")
  end.

(** [s.startswith(p)], [p in s] and [s.endswith(p)] on strings. *)
Definition startswith (p s : string) : bool := String.prefix p s.
Definition contains (p s : string) : bool :=
  match String.index 0 p s with Some _ => true | None => false end.
Definition endswith (p s : string) : bool :=
  String.prefix (String.rev p) (String.rev s).

(** [x in l] for a list or set of strings. *)
Definition str_in (x : string) (l : list string) : bool :=
  existsb (String.eqb x) l.

(** [s.lower()] and [s.upper()], on ASCII letters. *)
Definition ascii_lower (a : Ascii.ascii) : Ascii.ascii :=
  let n := Ascii.nat_of_ascii a in
  if Nat.leb 65 n && Nat.leb n 90 then Ascii.ascii_of_nat (n + 32) else a.
Definition ascii_upper (a : Ascii.ascii) : Ascii.ascii :=
  let n := Ascii.nat_of_ascii a in
  if Nat.leb 97 n && Nat.leb n 122 then Ascii.ascii_of_nat (n - 32) else a.
Fixpoint str_map (f : Ascii.ascii -> Ascii.ascii) (s : string) : string :=
  match s with
  | EmptyString => EmptyString
  | String a r => String (f a) (str_map f r)
  end.
Definition lower : string -> string := str_map ascii_lower.
Definition upper : string -> string := str_map ascii_upper.

(** [os.path.basename] with [/] as separator. *)
Fixpoint basename_from (acc s : string) : string :=
  match s with
  | EmptyString => acc
  | String a r =>
      if Ascii.eqb a (Ascii.ascii_of_nat 47) then basename_from EmptyString r
      else basename_from (acc ++ String a EmptyString) r
  end.
Definition basename (s : string) : string := basename_from EmptyString s.

(** ** Shared pieces of the two agents *)

(** A parser loop appends one finding per record; an exception leaves the
    loop and the findings appended so far are returned. *)
Fixpoint collect {A B} (f : A -> outcome B) (items : list A) : list B :=
  match items with
  | [] => []
  | x :: rest =>
      match f x with
      | Ret y => y :: collect f rest
      | Raise _ => []
      end
  end.

(** How a child process ends. *)
Inductive Process :=
| Completed (returncode : Z) (stdout stderr : string)
| TimeoutExpired
| FileNotFound
| SpawnError (e : exn).

(** [breakdown[key] += 1] *)
Definition bump (key : string) (breakdown : list (string * nat))
  : list (string * nat) :=
  match dict_get key breakdown with
  | Some n => dict_set key (n + 1)%nat breakdown
  | None => breakdown
  end.

Definition counts_val (d : list (string * nat)) : pyval :=
  PDict (map (fun kv => (fst kv, PInt (Z.of_nat (snd kv)))) d).

(** * The IPC client: [socket_client.py] *)
Module SocketClient.

(** An outbound [IPCMessage].  The [timestamp] field is left out: it is a
    wall-clock string that no property here reads. *)
Record IPCMessage := mkMsg {
  msg_id : string;
  msg_type : string;
  msg_agent : option string;
  msg_data : option pyval;
}.

(** The [data] of an inbound task message, with the fields of the wire
    protocol.  A field is [None] when its key is absent. *)
Record TaskData := mkTaskData {
  td_scope : option (list string);
  td_context : option (list (string * pyval));
  td_output : option string;
  td_config : option (list (string * pyval));
  td_mode : option string;
  td_timeout_seconds : option Q;
}.

(** An inbound message of type [task]. *)
Record TaskMessage := mkTaskMsg {
  tm_id : string;
  tm_data : option TaskData;
}.

(** [not message.data]: the payload is [None] or the empty dict. *)
Definition data_missing (d : option TaskData) : bool :=
  match d with
  | None => true
  | Some (mkTaskData None None None None None None) => true
  | Some _ => false
  end.

(** One value of [self.active_tasks]. *)
Record ActiveTask := mkActive {
  task_data : TaskData;
  start_time : Q;
  timeout : Q;
}.

(** The fields of [SocketClient] that the task path reads or writes.
    [socket] is [self.socket is not None]; [wire_up] is the environment: whether
    [self.socket.send] succeeds. *)
Record Client := mkClient {
  agent_name : string;
  is_connected : bool;
  socket : bool;
  wire_up : bool;
  active_tasks : list (string * ActiveTask);
  max_active_tasks : Z;
  outbox : list IPCMessage;
}.

Definition set_active_tasks (f : list (string * ActiveTask) ->
                                 list (string * ActiveTask)) (c : Client) :=
  mkClient (agent_name c) (is_connected c) (socket c) (wire_up c)
           (f (active_tasks c)) (max_active_tasks c) (outbox c).

Definition push_outbox (m : IPCMessage) (c : Client) :=
  mkClient (agent_name c) (is_connected c) (socket c) (wire_up c)
           (active_tasks c) (max_active_tasks c) (outbox c ++ [m]).

(** The state at the end of [__init__]. *)
Definition init (name : string) : Client :=
  mkClient name false false false [] 10 [].

Definition heartbeat_interval : Z := 30.
Definition reconnect_interval : Z := 10.
Definition max_reconnect_attempts : nat := 30.

(** What [send_message] raises when anything fails inside its [try]: the
    handler clause [except (socket.error, OSError, json.JSONEncodeError)] is
    evaluated then, and the [json] module has no [JSONEncodeError]. *)
Definition send_failure : exn :=
  Exn "AttributeError" "module 'json' has no attribute 'JSONEncodeError'".

Definition fill_agent (name : string) (m : IPCMessage) : IPCMessage :=
  match msg_agent m with
  | None | Some "" => mkMsg (msg_id m) (msg_type m) (Some name) (msg_data m)
  | Some _ => m
  end.

Definition send_message (message : IPCMessage) : M Client bool :=
  fun c =>
    if negb (is_connected c) || negb (socket c) then (Ret false, c)
    else if wire_up c
         then (Ret true, push_outbox (fill_agent (agent_name c) message) c)
         else (Raise send_failure, c).

Definition opt_int (d : option Z) : pyval :=
  match d with Some z => PInt z | None => PNone end.

Definition task_response (name task_id status : string) (results : pyval)
  (duration_ms : option Z) : IPCMessage :=
  mkMsg task_id "task" None
        (Some (PDict [("status", PStr status);
                      ("results", results);
                      ("duration_ms", opt_int duration_ms);
                      ("agent", PStr name)])).

Definition send_task_response (task_id status : string) (results : pyval)
  (duration_ms : option Z) : M Client bool :=
  c <~ get_state ;;
  let message := task_response (agent_name c) task_id status results duration_ms in
  (if dict_mem task_id (active_tasks c)
   then modify (set_active_tasks (dict_del task_id))
   else ret tt) ;;;
  send_message message.

(** [current_time - start_time > timeout] *)
Definition expired (current_time : Q) (t : ActiveTask) : bool :=
  Qltb (timeout t) (current_time - start_time t).

(** The first loop of [_cleanup_timed_out_tasks]: the ids to sweep, in dict
    order. *)
Definition timed_out_tasks (current_time : Q)
  (d : list (string * ActiveTask)) : list string :=
  map fst (List.filter (fun kv => expired current_time (snd kv)) d).

(** The variable [timeout] after that loop: the timeout of the last entry
    visited, whether or not it expired. *)
Definition loop_timeout (d : list (string * ActiveTask)) : pyval :=
  match last d with
  | Some (_, t) => PFloat (timeout t)
  | None => PNone
  end.

Definition timeout_results (reported : pyval) (task_id : string) : pyval :=
  PDict [("error", PFmt "Task exceeded {timeout}s timeout" [reported]);
         ("task_id", PStr task_id)].

(** The second loop of [_cleanup_timed_out_tasks]. *)
Fixpoint sweep (reported : pyval) (ids : list string) : M Client unit :=
  match ids with
  | [] => ret tt
  | task_id :: rest =>
      c <~ get_state ;;
      (if dict_mem task_id (active_tasks c)
       then modify (set_active_tasks (dict_del task_id)) ;;;
            _ <~ send_task_response task_id "timeout"
                   (timeout_results reported task_id) None ;;
            ret tt
       else ret tt) ;;;
      sweep reported rest
  end.

Definition _cleanup_timed_out_tasks (current_time : Q) : M Client unit :=
  c <~ get_state ;;
  sweep (loop_timeout (active_tasks c))
        (timed_out_tasks current_time (active_tasks c)).

(** ** Subclasses

    [handle_task] is overridden by each agent.  An agent state [S] contains
    the client; [E] is what the environment supplies to one call of the
    handler (clock readings, the file system, the outcome of the tools). *)
Class HasClient (S : Type) := {
  client : S -> Client;
  with_client : Client -> S -> S;
}.

Class Agent (S E : Type) `{HasClient S} := {
  handle_task : E -> string -> TaskData -> M S unit;
}.

(** A method of the base class run on an agent. *)
Definition on_client {S} `{HasClient S} {A} (c : M Client A) : M S A :=
  fun s => let (r, cl) := c (client s) in (r, with_client cl s).

(** One pass of the heartbeat thread over the active tasks.  An exception
    raised there is caught by [_heartbeat_loop]; it never reaches the code of
    another thread. *)
Definition heartbeat_sweep {S} `{HasClient S} (current_time : Q) : M S unit :=
  try_except (on_client (_cleanup_timed_out_tasks current_time))
             (fun _ => ret tt).

Fixpoint heartbeat_sweeps {S} `{HasClient S} (times : list Q) : M S unit :=
  match times with
  | [] => ret tt
  | t :: rest => heartbeat_sweep t ;;; heartbeat_sweeps rest
  end.

Definition overload_results (c : Client) : pyval :=
  PDict [("error",
          PFmt "Agent overloaded: {len(self.active_tasks)}/{self.max_active_tasks} tasks running"
               [PInt (Z.of_nat (length (active_tasks c)));
                PInt (max_active_tasks c)])].

Definition new_active (task_data : TaskData) (now : Q) : ActiveTask :=
  mkActive task_data now (default 300%Q (td_timeout_seconds task_data)).

(** [_handle_task].  [now] is the reading of [time.time()] stored as
    [start_time].  The handler coroutine is run to completion before
    [_handle_task] returns: the listen thread has no running event loop. *)
Definition _handle_task {S E} `{Agent S E} (env : E) (now : Q)
  (message : TaskMessage) : M S unit :=
  match tm_data message with
  | Some task_data =>
      if data_missing (tm_data message) then ret tt
      else
        let task_id := tm_id message in
        s <~ get_state ;;
        if Z.leb (max_active_tasks (client s))
                (Z.of_nat (length (active_tasks (client s))))
        then _ <~ on_client (send_task_response task_id "rejected"
                               (overload_results (client s)) None) ;;
             ret tt
        else
          on_client (modify (set_active_tasks
                               (dict_set task_id (new_active task_data now)))) ;;;
          try_except (handle_task env task_id task_data)
            (fun e => _ <~ on_client (send_task_response task_id "failed"
                                        (PDict [("error", PErr e)]) None) ;;
                      ret tt)
  | None => ret tt
  end.

(** [SocketClient.handle_task], the default of the base class. *)
Definition handle_task_default (task_id : string) (_ : TaskData)
  : M Client unit :=
  _ <~ send_task_response task_id "failed"
         (PDict [("error", PStr "handle_task not implemented")]) None ;;
  ret tt.

#[global] Instance base_client : HasClient Client := {
  client c := c;
  with_client c _ := c;
}.

#[global] Instance base_agent : Agent Client unit := {
  handle_task _ := handle_task_default;
}.

(** ** The reconnect loop: [_main_loop] *)

(** What other threads do to the flags while the main thread sleeps. *)
Inductive Interrupt := Quiet | Drop | Stop.

(** What the environment supplies to one iteration: the result of
    [self.connect()] if it is called, and what happens during the sleep. *)
Record World := mkWorld { connect_result : bool; during_sleep : Interrupt }.

Inductive Action :=
| AConnect (ok : bool)
| ASleep (seconds : Z).

Inductive Exit := MaxAttemptsReached | Stopped | StillRunning.

Record MainState := mkMain {
  m_is_running : bool;
  m_is_connected : bool;
  reconnect_attempts : nat;
}.

Definition max_reconnect_interval : Z := 60.

Definition current_interval (base_reconnect_interval : Z) (attempts : nat) : Z :=
  Z.min (base_reconnect_interval * 2 ^ Z.of_nat attempts) max_reconnect_interval.

Definition after_sleep (i : Interrupt) (running connected : bool) (attempts : nat)
  : MainState :=
  match i with
  | Quiet => mkMain running connected attempts
  | Drop => mkMain running false attempts
  | Stop => mkMain false connected attempts
  end.

(** One iteration of the [while self.is_running] loop that does not leave it:
    the actions taken and the state at the next test. *)
Definition main_iteration (w : World) (st : MainState)
  : list Action * MainState :=
  if m_is_connected st
  then ([ASleep 1],
        after_sleep (during_sleep w) true true (reconnect_attempts st))
  else
    let interval := current_interval reconnect_interval (reconnect_attempts st) in
    if connect_result w
    then ([AConnect true; ASleep 1],
          after_sleep (during_sleep w) true true 0)
    else ([AConnect false; ASleep interval],
          after_sleep (during_sleep w) true false (S (reconnect_attempts st))).

(** [_main_loop] from a given loop state, against the worlds supplied. *)
Fixpoint main_loop_from (worlds : list World) (st : MainState)
  : list Action * Exit :=
  if negb (m_is_running st) then ([], Stopped)
  else if negb (m_is_connected st) &&
          (max_reconnect_attempts <=? reconnect_attempts st)%nat
  then ([], MaxAttemptsReached)
  else match worlds with
       | [] => ([], StillRunning)
       | w :: rest =>
           let (acts, st') := main_iteration w st in
           let (more, how) := main_loop_from rest st' in
           (acts ++ more, how)
       end.

(** [_main_loop] as [start] calls it: [reconnect_attempts = 0]. *)
Definition _main_loop (connected : bool) (worlds : list World)
  : list Action * Exit :=
  main_loop_from worlds (mkMain true connected 0).

End SocketClient.

(** * Plugin issues: [plugins/base.py] *)

(** [QaIssue] after [__post_init__]: [data] is a dict, empty when none was
    given. *)
Record QaIssue := mkIssue {
  qi_file : string;
  qi_rule_id : string;
  qi_message : string;
  qi_severity : string;
  qi_start_line : Z;
  qi_start_column : option Z;
  qi_end_line : option Z;
  qi_end_column : option Z;
  qi_data : list (string * pyval);
}.

(** * The quality agent: [src/quality_agent.py] *)
Module QualityAgent.
Import SocketClient.

Record QualityConfig := mkConfig {
  timeout_seconds : pyval;
  max_file_size_mb : Z;
  scan_complexity : pyval;
  scan_duplication : pyval;
  complexity_threshold : pyval;
  duplication_threshold : pyval;
  yaml_syntax_enabled : bool;
  typescript_syntax_enabled : bool;
  analysis_mode : string;
}.

Definition default_config : QualityConfig :=
  mkConfig (PInt 45) 5 (PBool true) (PBool true) (PInt 10) (PFloat (8 # 10))
           true true "standard".

Record QualityFinding := mkFinding {
  tool : pyval;
  rule_id : pyval;
  message : pyval;
  severity : string;
  file_path : pyval;
  line_number : pyval;
  column_number : pyval;
  end_line_number : pyval;
  end_column_number : pyval;
  category : option string;
  score : pyval;
  fix_suggestion : pyval;
  metadata : pyval;
}.

Record QAgent := mkAgent {
  base : Client;
  config : QualityConfig;
  findings : list QualityFinding;
  consecutive_errors : Z;
  max_consecutive_errors : Z;
  last_successful_run : Q;
  error_threshold_cooldown : Z;
}.

(** The state at the end of [__init__], at clock reading [now]. *)
Definition init (now : Q) : QAgent :=
  mkAgent (SocketClient.init "quality") default_config [] 0 10 now 300.

#[global] Instance quality_client : HasClient QAgent := {
  client := base;
  with_client c a :=
    mkAgent c (config a) (findings a) (consecutive_errors a)
            (max_consecutive_errors a) (last_successful_run a)
            (error_threshold_cooldown a);
}.

Definition set_config (cfg : QualityConfig) (a : QAgent) : QAgent :=
  mkAgent (base a) cfg (findings a) (consecutive_errors a)
          (max_consecutive_errors a) (last_successful_run a)
          (error_threshold_cooldown a).

Definition set_findings (fs : list QualityFinding) (a : QAgent) : QAgent :=
  mkAgent (base a) (config a) fs (consecutive_errors a)
          (max_consecutive_errors a) (last_successful_run a)
          (error_threshold_cooldown a).

Definition set_errors (n : Z) (a : QAgent) : QAgent :=
  mkAgent (base a) (config a) (findings a) n
          (max_consecutive_errors a) (last_successful_run a)
          (error_threshold_cooldown a).

Definition set_last_successful_run (t : Q) (a : QAgent) : QAgent :=
  mkAgent (base a) (config a) (findings a) (consecutive_errors a)
          (max_consecutive_errors a) t (error_threshold_cooldown a).

(** ** Severity and category maps *)

Definition _map_ruff_severity (fix_availability : pyval) : string :=
  match fix_availability with PNone => "error" | _ => "warning" end.

(** [severity == 2] against a decoded JSON value. *)
Definition is_two (v : pyval) : bool :=
  match v with
  | PInt z => Z.eqb z 2
  | PFloat q => Qeq_bool q 2
  | _ => false
  end.

Definition _map_eslint_severity (sev : pyval) : string :=
  if is_two sev then "error" else "warning".

Definition _map_complexity_severity (complexity : Z) : string :=
  if Z.leb 20 complexity then "error"
  else if Z.leb 15 complexity then "warning"
  else "info".

Definition no_startswith : exn :=
  attribute_error "object has no attribute 'startswith'".

Definition _get_ruff_category (rule_code : pyval) : outcome string :=
  match rule_code with
  | PStr c =>
      Ret (if startswith "E" c || startswith "W" c then "style"
           else if startswith "F" c then "error-prone"
           else if startswith "B" c then "bugbear"
           else "other")
  | _ => Raise no_startswith
  end.

Definition _get_eslint_category (rule_id : pyval) : outcome string :=
  if negb (py_truthy rule_id) then Ret "other"
  else match rule_id with
       | PStr r =>
           Ret (if startswith "no-" r then "error-prone"
                else if startswith "prefer-" r then "style"
                else if contains "import" r then "imports"
                else "other")
       | _ => Raise no_startswith
       end.

(** ** Parsers *)

(** The [QualityFinding] built from one record of Ruff's JSON output. *)
Definition ruff_finding (item : pyval) : outcome QualityFinding :=
  try! code := py_get item "code" (PStr "RUFFF") in
  try! msg := py_get item "message" (PStr "") in
  try! fix_ := py_get item "fix" (PDict []) in
  try! availability := py_get fix_ "availability" PNone in
  try! filename := py_get item "filename" (PStr "") in
  try! location := py_get item "location" (PDict []) in
  try! row := py_get location "row" (PInt 0) in
  try! column := py_get location "column" (PInt 0) in
  try! end_location := py_get item "end_location" (PDict []) in
  try! end_row := py_get end_location "row" PNone in
  try! end_column := py_get end_location "column" PNone in
  try! code' := py_get item "code" (PStr "") in
  try! cat := _get_ruff_category code' in
  try! fix_truth := py_get item "fix" PNone in
  try! suggestion :=
    (if py_truthy fix_truth then py_get fix_ "message" PNone else Ret PNone) in
  try! url := py_get item "url" PNone in
  Ret (mkFinding (PStr "ruff") code msg (_map_ruff_severity availability)
         filename row column end_row end_column (Some cat) PNone suggestion
         (PDict [("url", url); ("fix", fix_)])).

(** The parsing part of [_run_ruff_analysis]: [ruff_results] is the decoded
    standard output. *)
Definition parse_ruff (ruff_results : pyval) : list QualityFinding :=
  match py_iter ruff_results with
  | Ret items => collect ruff_finding items
  | Raise _ => []
  end.

(** The last suggestion's description: [suggestions[-1].get("desc")]. *)
Definition last_desc (suggestions : pyval) : outcome pyval :=
  match suggestions with
  | PList l =>
      match last l with
      | Some s => py_get s "desc" PNone
      | None => Raise (Exn "IndexError" "list index out of range")
      end
  | PStr s =>
      match last (String.list_ascii_of_string s) with
      | Some _ => Raise (attribute_error "'str' object has no attribute 'get'")
      | None => Raise (Exn "IndexError" "string index out of range")
      end
  | PDict _ => Raise (Exn "KeyError" "-1")
  | _ => Raise (type_error "object is not subscriptable")
  end.

(** The [QualityFinding] built from one message of one ESLint file result. *)
Definition eslint_finding (file_result message : pyval) : outcome QualityFinding :=
  try! rule := py_get message "ruleId" (PStr "ESLINT") in
  try! msg := py_get message "message" (PStr "") in
  try! sev := py_get message "severity" (PInt 1) in
  try! path := py_get file_result "filePath" (PStr "") in
  try! line := py_get message "line" (PInt 0) in
  try! column := py_get message "column" (PInt 0) in
  try! end_line := py_get message "endLine" PNone in
  try! end_column := py_get message "endColumn" PNone in
  try! rule' := py_get message "ruleId" (PStr "") in
  try! cat := _get_eslint_category rule' in
  try! suggestions := py_get message "suggestions" PNone in
  try! suggestion :=
    (if py_truthy suggestions then last_desc suggestions else Ret PNone) in
  try! rule'' := py_get message "ruleId" PNone in
  try! suggestions' := py_get message "suggestions" (PList []) in
  Ret (mkFinding (PStr "eslint") rule msg (_map_eslint_severity sev)
         path line column end_line end_column (Some cat) PNone suggestion
         (PDict [("ruleId", rule''); ("suggestions", suggestions')])).

(** The two nested loops of [_run_eslint_analysis]: the first exception
    ends both. *)
Fixpoint eslint_files (file_results : list pyval)
  : list QualityFinding * bool :=
  match file_results with
  | [] => ([], true)
  | file_result :: rest =>
      match (try! messages := py_get file_result "messages" (PList []) in
             py_iter messages) with
      | Raise _ => ([], false)
      | Ret messages =>
          let here := collect (eslint_finding file_result) messages in
          if Nat.eqb (length here) (length messages)
          then let (more, ok) := eslint_files rest in (here ++ more, ok)
          else (here, false)
      end
  end.

Definition parse_eslint (eslint_results : pyval) : list QualityFinding :=
  match py_iter eslint_results with
  | Ret file_results => fst (eslint_files file_results)
  | Raise _ => []
  end.

(** ** Running Ruff: [_run_ruff_analysis] *)

Section Tools.
(** [json.loads]; [None] stands for [json.JSONDecodeError]. *)
Variable json_loads : string -> option pyval.

Definition _run_ruff_analysis (p : Process) : list QualityFinding :=
  match p with
  | Completed returncode stdout stderr =>
      if negb (String.eqb stdout "")
      then match json_loads stdout with
           | Some ruff_results => parse_ruff ruff_results
           | None => []
           end
      else []
  | TimeoutExpired | FileNotFound | SpawnError _ => []
  end.

Definition _run_eslint_analysis (p : Process) : list QualityFinding :=
  match p with
  | Completed returncode stdout stderr =>
      if negb (String.eqb stdout "")
      then match json_loads stdout with
           | Some eslint_results => parse_eslint eslint_results
           | None => []
           end
      else []
  | TimeoutExpired | FileNotFound | SpawnError _ => []
  end.
End Tools.

(** ** Plugin findings and breakdowns *)

Definition opt_val (o : option Z) : pyval :=
  match o with Some z => PInt z | None => PNone end.

Definition convert_issue (issue : QaIssue) : QualityFinding :=
  let has_data := match qi_data issue with [] => false | _ => true end in
  mkFinding
    (if has_data then default (PStr "unknown") (dict_get "plugin" (qi_data issue))
     else PStr "unknown")
    (PStr (qi_rule_id issue))
    (PStr (qi_message issue))
    (qi_severity issue)
    (PStr (qi_file issue))
    (PInt (qi_start_line issue))
    (opt_val (qi_start_column issue))
    (opt_val (qi_end_line issue))
    (opt_val (qi_end_column issue))
    (Some "syntax")
    PNone
    (if has_data then default PNone (dict_get "suggestion" (qi_data issue))
     else PNone)
    (PDict (qi_data issue)).

Definition _convert_plugin_issues (plugin_issues : list QaIssue)
  : list QualityFinding :=
  map convert_issue plugin_issues.

Definition _get_severity_breakdown (fs : list QualityFinding)
  : list (string * nat) :=
  fold_left
    (fun breakdown finding =>
       if dict_mem (severity finding) breakdown
       then bump (severity finding) breakdown
       else breakdown)
    fs [("error", 0%nat); ("warning", 0%nat); ("info", 0%nat)].

Definition _get_category_breakdown (fs : list QualityFinding)
  : list (string * nat) :=
  fold_left
    (fun breakdown finding =>
       let cat := match category finding with
                  | Some "" | None => "other"
                  | Some c => c
                  end in
       dict_set cat (default 0%nat (dict_get cat breakdown) + 1)%nat breakdown)
    fs [].

(** ** Task handling *)

Definition set_key (key : string) (cfg : list (string * pyval))
  (old : pyval) : pyval :=
  default old (dict_get key cfg).

Definition _update_config (task_config : list (string * pyval))
  (c : QualityConfig) : QualityConfig :=
  mkConfig (set_key "timeout_seconds" task_config (timeout_seconds c))
           (max_file_size_mb c)
           (set_key "scan_complexity" task_config (scan_complexity c))
           (set_key "scan_duplication" task_config (scan_duplication c))
           (set_key "complexity_threshold" task_config (complexity_threshold c))
           (set_key "duplication_threshold" task_config (duplication_threshold c))
           (yaml_syntax_enabled c) (typescript_syntax_enabled c)
           (analysis_mode c).

Definition set_mode (mode : string) (c : QualityConfig) : QualityConfig :=
  mkConfig (timeout_seconds c) (max_file_size_mb c) (scan_complexity c)
           (scan_duplication c) (complexity_threshold c)
           (duplication_threshold c) (yaml_syntax_enabled c)
           (typescript_syntax_enabled c) mode.

(** What the environment supplies to one call of [handle_task]. *)
Record Env := mkEnv {
  (** readings of [time.time()]: at the cooldown test, at [start_time], when
      [duration_ms] is computed, and when [last_successful_run] is set *)
  t_gate : Q;
  t_start : Q;
  t_done : Q;
  t_success : Q;
  (** the file system: the size of an existing path, [Path(p).suffix] and
      [str(Path(p))] *)
  fs_size : string -> option Z;
  path_suffix : string -> string;
  path_str : string -> string;
  (** the passes of the heartbeat thread while the tools are awaited *)
  sweeps : list Q;
  (** what [_run_quality_analysis] returns (findings, tools used) or raises *)
  analysis : outcome (list QualityFinding * list string);
  (** an exception raised while the report and the summary are built *)
  report_fault : option exn;
}.

Definition quality_extensions (c : QualityConfig) : list string :=
  if String.eqb (analysis_mode c) "yaml_strict" then [".yaml"; ".yml"]
  else [".py"; ".js"; ".jsx"; ".ts"; ".tsx"; ".mjs"; ".cjs"] ++
       (if yaml_syntax_enabled c &&
           str_in (analysis_mode c) ["syntax_extended"; "yaml_strict"]
        then [".yaml"; ".yml"] else []).

Definition _filter_quality_files (env : Env) (c : QualityConfig)
  (scope : list string) : list string :=
  flat_map
    (fun file_path =>
       match fs_size env file_path with
       | None => []
       | Some size =>
           if Z.ltb (max_file_size_mb c * 1024 * 1024) size then []
           else if str_in (lower (path_suffix env file_path))
                          (quality_extensions c)
                then [path_str env file_path]
                else []
       end)
    scope.

Definition cooldown_active (a : QAgent) (now : Q) : bool :=
  Z.leb (max_consecutive_errors a) (consecutive_errors a) &&
  Qltb (now - last_successful_run a) (inject_Z (error_threshold_cooldown a)).

Definition cooldown_remaining (a : QAgent) (now : Q) : Z :=
  py_int (inject_Z (error_threshold_cooldown a) - (now - last_successful_run a)).

Definition cooldown_results (a : QAgent) (now : Q) : pyval :=
  PDict [("error",
          PFmt "Agent in error state: too many consecutive failures ({self.consecutive_errors})"
               [PInt (consecutive_errors a)]);
         ("cooldown_remaining", PInt (cooldown_remaining a now))].

Definition empty_results (output_file : string) : pyval :=
  PDict [("findings_count", PInt 0);
         ("severity_breakdown", PDict []);
         ("tools_used", PList []);
         ("output_file", PStr output_file);
         ("analysis_summary", PStr "No quality-relevant files found")].

Definition _generate_summary (count : nat) (tools_used : list string) : pyval :=
  let tools := PStr (String.concat ", " tools_used) in
  if Nat.eqb count 0
  then PFmt "No quality issues found. Analyzed with: {tools_used}" [tools]
  else if Nat.leb count 5
  then PFmt "Found {findings_count} minor quality issues. Tools: {tools_used}"
            [PInt (Z.of_nat count); tools]
  else if Nat.leb count 15
  then PFmt "Found {findings_count} quality issues. Some attention recommended. Tools: {tools_used}"
            [PInt (Z.of_nat count); tools]
  else PFmt "Found {findings_count} quality issues. Significant refactoring may be needed. Tools: {tools_used}"
            [PInt (Z.of_nat count); tools].

Definition done_results (a : QAgent) (tools_used : list string)
  (files_analyzed : nat) (output_file : string) : pyval :=
  PDict [("findings_count", PInt (Z.of_nat (length (findings a))));
         ("severity_breakdown", counts_val (_get_severity_breakdown (findings a)));
         ("category_breakdown", counts_val (_get_category_breakdown (findings a)));
         ("tools_used", PList (map PStr tools_used));
         ("files_analyzed", PInt (Z.of_nat files_analyzed));
         ("output_file", PStr output_file);
         ("analysis_summary", _generate_summary (length (findings a)) tools_used)].

Definition duration_ms (env : Env) : Z :=
  py_int ((t_done env - t_start env) * 1000).

(** The [try] block of [handle_task]. *)
Definition analyse (env : Env) (task_id : string) (task_data : TaskData)
  : M QAgent unit :=
  let scope := default [] (td_scope task_data) in
  let output_file := default "" (td_output task_data) in
  let cfg := default [] (td_config task_data) in
  let mode := default "standard" (td_mode task_data) in
  modify (fun a => set_config (set_mode mode (_update_config cfg (config a))) a) ;;;
  a <~ get_state ;;
  let quality_files := _filter_quality_files env (config a) scope in
  match quality_files with
  | [] =>
      _ <~ on_client (send_task_response task_id "done"
                        (empty_results output_file) (Some 0)) ;;
      ret tt
  | _ :: _ =>
      heartbeat_sweeps (sweeps env) ;;;
      match analysis env with
      | Raise e => raise e
      | Ret (fs, tools_used) =>
          modify (set_findings fs) ;;;
          match report_fault env with
          | Some e => raise e
          | None =>
              a' <~ get_state ;;
              _ <~ on_client (send_task_response task_id "done"
                                (done_results a' tools_used
                                   (length quality_files) output_file)
                                (Some (duration_ms env))) ;;
              modify (fun a => set_last_successful_run (t_success env)
                                 (set_errors 0 a))
          end
      end
  end.

(** The [except Exception as e] block of [handle_task]. *)
Definition on_failure (env : Env) (task_id : string) (e : exn)
  : M QAgent unit :=
  modify (fun a => set_errors (consecutive_errors a + 1) a) ;;;
  _ <~ on_client (send_task_response task_id "failed"
                    (PDict [("error", PErr e);
                            ("error_type", PStr "quality_analysis_error")])
                    (Some (duration_ms env))) ;;
  ret tt.

Definition handle_task (env : Env) (task_id : string) (task_data : TaskData)
  : M QAgent unit :=
  a <~ get_state ;;
  if cooldown_active a (t_gate env)
  then _ <~ on_client (send_task_response task_id "failed"
                         (cooldown_results a (t_gate env)) None) ;;
       ret tt
  else try_except (analyse env task_id task_data) (on_failure env task_id).

#[global] Instance quality_agent : Agent QAgent Env := {
  handle_task := handle_task;
}.

End QualityAgent.

(** * The security agent: [src/security_agent.py] *)
Module SecurityAgent.
Import SocketClient.

Record SecurityConfig := mkConfig {
  timeout_seconds : pyval;
  scan_secrets : pyval;
  scan_dependencies : pyval;
  semgrep_rules : pyval;
  gitleaks_enabled : pyval;
  osv_scanner_enabled : pyval;
}.

Definition default_config : SecurityConfig :=
  mkConfig (PInt 60) (PBool true) (PBool true)
           (PList [PStr "p/security-audit"; PStr "p/owasp-top-ten";
                   PStr "p/cwe-top-25"])
           (PBool true) (PBool true).

Record SecurityFinding := mkFinding {
  rule_id : pyval;
  message : pyval;
  severity : string;
  file_path : pyval;
  line_number : pyval;
  column_number : pyval;
  cwe_id : pyval;
  owasp_category : pyval;
  confidence : pyval;
  metadata : pyval;
}.

(** An element of [self.findings]: a [SecurityFinding], or a string.  Strings
    get there when [results["findings"].extend(dep_results)] is run on the
    dict that [_run_dependency_analysis] returns: extending a list with a
    dict appends its keys. *)
Inductive Found :=
| AFinding (f : SecurityFinding)
| AKey (key : string).

Record SAgent := mkAgent {
  base : Client;
  config : SecurityConfig;
  findings : list Found;
  consecutive_errors : Z;
  max_consecutive_errors : Z;
  last_successful_run : Q;
  error_threshold_cooldown : Z;
}.

Definition init (now : Q) : SAgent :=
  mkAgent (SocketClient.init "security") default_config [] 0 10 now 300.

#[global] Instance security_client : HasClient SAgent := {
  client := base;
  with_client c a :=
    mkAgent c (config a) (findings a) (consecutive_errors a)
            (max_consecutive_errors a) (last_successful_run a)
            (error_threshold_cooldown a);
}.

Definition set_config (cfg : SecurityConfig) (a : SAgent) : SAgent :=
  mkAgent (base a) cfg (findings a) (consecutive_errors a)
          (max_consecutive_errors a) (last_successful_run a)
          (error_threshold_cooldown a).

Definition set_findings (fs : list Found) (a : SAgent) : SAgent :=
  mkAgent (base a) (config a) fs (consecutive_errors a)
          (max_consecutive_errors a) (last_successful_run a)
          (error_threshold_cooldown a).

Definition set_errors (n : Z) (a : SAgent) : SAgent :=
  mkAgent (base a) (config a) (findings a) n
          (max_consecutive_errors a) (last_successful_run a)
          (error_threshold_cooldown a).

Definition set_last_successful_run (t : Q) (a : SAgent) : SAgent :=
  mkAgent (base a) (config a) (findings a) (consecutive_errors a)
          (max_consecutive_errors a) t (error_threshold_cooldown a).

(** ** Severity maps and the Semgrep parser *)

Definition no_upper : exn := attribute_error "object has no attribute 'upper'".

Definition _convert_semgrep_severity (semgrep_severity : pyval)
  : outcome string :=
  match semgrep_severity with
  | PStr s =>
      Ret (default "info"
             (dict_get (upper s)
                [("ERROR", "error"); ("WARNING", "warning"); ("INFO", "info")]))
  | _ => Raise no_upper
  end.

Definition semgrep_finding (result : pyval) : outcome SecurityFinding :=
  try! rule := py_get result "rule_id" (PStr "unknown") in
  try! msg := py_get result "message" (PStr "") in
  try! meta := py_get result "metadata" (PDict []) in
  try! sev_raw := py_get meta "severity" (PStr "INFO") in
  try! sev := _convert_semgrep_severity sev_raw in
  try! path := py_get result "path" (PStr "") in
  try! start := py_get result "start" (PDict []) in
  try! line := py_get start "line" (PInt 0) in
  try! col := py_get start "col" (PInt 0) in
  try! cwe := py_get meta "cwe" (PDict []) in
  try! cwe_id := py_get cwe "id" PNone in
  try! conf := py_get meta "confidence" (PStr "unknown") in
  Ret (mkFinding rule msg sev path line col cwe_id PNone conf meta).

(** The two nested loops of [_parse_semgrep_output]; the flag tells whether
    they ran to the end. *)
Fixpoint semgrep_runs (runs : list pyval) : list SecurityFinding * bool :=
  match runs with
  | [] => ([], true)
  | run :: rest =>
      match (try! results := py_get run "results" (PList []) in
             py_iter results) with
      | Raise _ => ([], false)
      | Ret results =>
          let here := collect semgrep_finding results in
          if Nat.eqb (length here) (length results)
          then let (more, ok) := semgrep_runs rest in (here ++ more, ok)
          else (here, false)
      end
  end.

(** [_parse_semgrep_output] on the decoded output. *)
Definition parse_semgrep (data : pyval) : list SecurityFinding :=
  match (try! runs := py_get data "results" (PList []) in py_iter runs) with
  | Ret runs => fst (semgrep_runs runs)
  | Raise _ => []
  end.

(** The records of a Gitleaks report: [_parse_gitleaks_output] on the decoded
    report file. *)
Definition gitleaks_finding (finding : pyval) : outcome SecurityFinding :=
  try! rule := py_get finding "rule" (PStr "gitleaks-secret") in
  try! msg := py_get finding "description" (PStr "") in
  try! path := py_get finding "file" (PStr "") in
  try! line := py_get finding "line" (PInt 0) in
  try! col := py_get finding "start_column" (PInt 0) in
  try! fingerprint := py_get finding "fingerprint" PNone in
  try! tags := py_get finding "tags" (PList []) in
  Ret (mkFinding rule msg "error" path line col PNone PNone PNone
         (PDict [("fingerprint", fingerprint); ("tags", tags)])).

Definition parse_gitleaks (data : pyval) : list SecurityFinding :=
  match (try! fs := py_get data "findings" (PList []) in py_iter fs) with
  | Ret fs => collect gitleaks_finding fs
  | Raise _ => []
  end.

Section Tools.
(** [json.loads]; [None] stands for [json.JSONDecodeError]. *)
Variable json_loads : string -> option pyval.
(** The outcome of building the [subprocess.CompletedProcess] record in
    [_run_semgrep] and [_run_gitleaks]. *)
Variable completed_process : outcome unit.

Definition _parse_semgrep_output (output : string) : list SecurityFinding :=
  match json_loads output with
  | Some data => parse_semgrep data
  | None => []
  end.

Definition _run_semgrep (rules : pyval) (p : Process)
  : list SecurityFinding :=
  if negb (py_truthy rules) then []
  else match p with
       | Completed returncode stdout stderr =>
           match completed_process with
           | Raise _ => []
           | Ret _ =>
               if Z.eqb returncode 0 then _parse_semgrep_output stdout
               else []
           end
       | _ => []
       end.

(** [report] is the decoded content of the report file, [None] when it
    cannot be read or decoded. *)
Definition _run_gitleaks (report : option pyval) (p : Process)
  : list SecurityFinding :=
  match p with
  | Completed returncode stdout stderr =>
      match completed_process with
      | Raise _ => []
      | Ret _ =>
          if Z.eqb returncode 0
          then match report with
               | Some data => parse_gitleaks data
               | None => []
               end
          else []
      end
  | _ => []
  end.
End Tools.

(** [subprocess.CompletedProcess(cmd=cmd, returncode=..., ...)] as
    [_run_semgrep] and [_run_gitleaks] write it: the constructor takes
    [args], not [cmd]. *)
Definition completed_process_cmd : outcome unit :=
  Raise (type_error "__init__() got an unexpected keyword argument 'cmd'").

(** ** The SARIF report *)

Section Sarif.
(** [os.path.relpath(path, start)] *)
Variable relpath : pyval -> pyval -> outcome pyval.

(** One element of [results] in [_generate_sarif_report].  The [hasattr]
    tests fail on a string and succeed on a [SecurityFinding]. *)
Definition sarif_result (context : list (string * pyval)) (finding : Found)
  : outcome pyval :=
  match finding with
  | AFinding f =>
      try! uri := relpath (file_path f)
                    (default (PStr ".") (dict_get "repo_root" context)) in
      Ret (PDict
        [("ruleId", rule_id f);
         ("level", PStr (lower (severity f)));
         ("message", PDict [("text", message f)]);
         ("locations",
          PList [PDict [("physicalLocation",
             PDict [("artifactLocation", PDict [("uri", uri)]);
                    ("region", PDict [("startLine", line_number f);
                                      ("startColumn", column_number f)])])]]);
         ("properties", PDict [("cwe", cwe_id f);
                               ("owasp", owasp_category f);
                               ("confidence", confidence f)])])
  | AKey key =>
      Ret (PDict
        [("ruleId", PStr "basic-security-check");
         ("level", PStr "warning");
         ("message", PDict [("text", PStr key)]);
         ("locations",
          PList [PDict [("physicalLocation",
             PDict [("artifactLocation", PDict [("uri", PStr "unknown")]);
                    ("region", PDict [("startLine", PInt 1);
                                      ("startColumn", PInt 0)])])]]);
         ("properties", PDict [("cwe", PNone); ("owasp", PNone);
                               ("confidence", PNone)])])
  end.

(** The list comprehension: the first exception ends it and is raised. *)
Fixpoint sarif_results (context : list (string * pyval)) (fs : list Found)
  : outcome (list pyval) :=
  match fs with
  | [] => Ret []
  | f :: rest =>
      try! r := sarif_result context f in
      try! more := sarif_results context rest in
      Ret (r :: more)
  end.

Definition _generate_sarif_report (context : list (string * pyval))
  (fs : list Found) : outcome pyval :=
  try! results := sarif_results context fs in
  Ret (PDict
    [("$schema", PStr "https://json.schemastore.org/sarif-2.1.0");
     ("version", PStr "2.1.0");
     ("runs",
      PList [PDict
        [("tool", PDict [("driver", PDict
            [("name", PStr "Pit Crew Security Agent");
             ("version", PStr "1.0.0");
             ("informationUri",
              PStr "https://github.com/felipe/pit-crew-multi-agent")])]);
         ("results", PList results)]])]).
End Sarif.

(** ** Task handling *)

Definition set_key (key : string) (cfg : list (string * pyval))
  (old : pyval) : pyval :=
  default old (dict_get key cfg).

Definition _update_config (task_config : list (string * pyval))
  (c : SecurityConfig) : SecurityConfig :=
  mkConfig (set_key "timeout_seconds" task_config (timeout_seconds c))
           (set_key "scan_secrets" task_config (scan_secrets c))
           (set_key "scan_dependencies" task_config (scan_dependencies c))
           (set_key "semgrep_rules" task_config (semgrep_rules c))
           (set_key "gitleaks_enabled" task_config (gitleaks_enabled c))
           (set_key "osv_scanner_enabled" task_config (osv_scanner_enabled c)).

(** What a path is on disk; a directory comes with the files [os.walk] finds
    under it. *)
Inductive Kind :=
| Missing
| RegularFile
| Directory (walk : list string).

(** What the environment supplies to one call of [handle_task]. *)
Record Env := mkEnv {
  t_gate : Q;
  t_start : Q;
  t_done : Q;
  t_success : Q;
  (** [os.path.join(os.getcwd(), p)] for a relative [p], [p] otherwise *)
  abs_path : string -> string;
  fs_kind : string -> Kind;
  (** the passes of the heartbeat thread while the tools are awaited *)
  sweeps : list Q;
  json_loads : string -> option pyval;
  completed_process : outcome unit;
  semgrep_process : Process;
  gitleaks_process : Process;
  gitleaks_report : option pyval;
  (** [dep_results["tools_used"]] *)
  dep_tools_used : list string;
  scan_time : Q;
  relpath : pyval -> pyval -> outcome pyval;
}.

Definition security_extensions : list string :=
  [".py"; ".js"; ".ts"; ".java"; ".go"; ".rs"; ".c"; ".cpp"; ".h"; ".hpp";
   ".php"; ".rb"; ".swift"; ".kt"].

Definition security_file_names : list string :=
  ["package.json"; "package-lock.json"; "yarn.lock"; "requirements.txt";
   "poetry.lock"; "pipfile.lock"; "dockerfile"; "docker-compose.yml";
   "docker-compose.yaml"; ".env"; ".env.example"; "config"; "secrets";
   "webpack.config.js"; "tsconfig.json"; "babel.config.js"].

Definition _is_security_relevant_file (file_path : string) : bool :=
  let file_path := lower file_path in
  existsb (fun ext => endswith ext file_path) security_extensions ||
  str_in (basename file_path) security_file_names.

(** [list(set(l))]: the order Python gives is unspecified; first occurrences
    are kept here. *)
Definition _filter_security_files (env : Env) (scope : list string)
  : list string :=
  remove_dups
    (flat_map
       (fun file_pattern =>
          let file_pattern := abs_path env file_pattern in
          match fs_kind env file_pattern with
          | Missing => []
          | RegularFile => [file_pattern]
          | Directory walk => List.filter _is_security_relevant_file walk
          end)
       scope).

(** The dict [results] of [_run_security_analysis].  [tools_used] is a set
    while the analysis runs and is returned as a list, in no specified
    order. *)
Record Results := mkResults {
  r_findings : list Found;
  r_tools_used : list string;
  r_scan_time : Q;
  r_files_scanned : nat;
}.

Definition nonempty {A} (l : list A) : bool :=
  match l with [] => false | _ => true end.

Definition _run_security_analysis (env : Env) (scope : list string)
  : M SAgent Results :=
  let security_files := _filter_security_files env scope in
  match security_files with
  | [] => ret (mkResults [] [] 0 0)
  | _ :: _ =>
      heartbeat_sweeps (sweeps env) ;;;
      a <~ get_state ;;
      let cfg := config a in
      let semgrep_results :=
        _run_semgrep (json_loads env) (completed_process env)
                     (semgrep_rules cfg) (semgrep_process env) in
      let gitleaks_results :=
        if py_truthy (scan_secrets cfg) && py_truthy (gitleaks_enabled cfg)
        then _run_gitleaks (completed_process env) (gitleaks_report env)
                           (gitleaks_process env)
        else [] in
      let deps := py_truthy (scan_dependencies cfg) in
      let fs :=
        map AFinding semgrep_results ++ map AFinding gitleaks_results ++
        (if deps then [AKey "findings"; AKey "tools_used"] else []) in
      let tools : gset string :=
        (if nonempty semgrep_results then {["semgrep"]} else ∅) ∪
        (if nonempty gitleaks_results then {["gitleaks"]} else ∅) ∪
        (if deps then list_to_set (dep_tools_used env) else ∅) in
      modify (set_findings fs) ;;;
      ret (mkResults fs (elements tools) (scan_time env)
                     (length security_files))
  end.

Definition no_severity : exn :=
  attribute_error "'str' object has no attribute 'severity'".

Fixpoint breakdown_from (breakdown : list (string * nat)) (fs : list Found)
  : outcome (list (string * nat)) :=
  match fs with
  | [] => Ret breakdown
  | AKey _ :: _ => Raise no_severity
  | AFinding f :: rest =>
      breakdown_from
        (if dict_mem (severity f) breakdown then bump (severity f) breakdown
         else breakdown) rest
  end.

Definition _get_severity_breakdown (fs : list Found)
  : outcome (list (string * nat)) :=
  breakdown_from [("error", 0%nat); ("warning", 0%nat); ("info", 0%nat)] fs.

Definition _generate_summary (fs : list Found) (results : Results)
  : outcome pyval :=
  try! b := _get_severity_breakdown fs in
  Ret (PFmt "Security analysis completed using {tools_used}. Found {len(self.findings)} issues: {error} critical, {warning} warnings, {info} info. Analysis took {scan_time} seconds scanning {files_scanned} files."
         [PStr (String.concat ", " (r_tools_used results));
          PInt (Z.of_nat (length fs));
          PInt (Z.of_nat (default 0%nat (dict_get "error" b)));
          PInt (Z.of_nat (default 0%nat (dict_get "warning" b)));
          PInt (Z.of_nat (default 0%nat (dict_get "info" b)));
          PFloat (r_scan_time results);
          PInt (Z.of_nat (r_files_scanned results))]).

Definition done_results (fs : list Found) (results : Results)
  (output_file : string) : outcome pyval :=
  try! b := _get_severity_breakdown fs in
  try! summary := _generate_summary fs results in
  Ret (PDict [("findings_count", PInt (Z.of_nat (length fs)));
              ("severity_breakdown", counts_val b);
              ("tools_used", PList (map PStr (r_tools_used results)));
              ("output_file", PStr output_file);
              ("analysis_summary", summary)]).

Definition cooldown_active (a : SAgent) (now : Q) : bool :=
  Z.leb (max_consecutive_errors a) (consecutive_errors a) &&
  Qltb (now - last_successful_run a) (inject_Z (error_threshold_cooldown a)).

Definition cooldown_remaining (a : SAgent) (now : Q) : Z :=
  py_int (inject_Z (error_threshold_cooldown a) - (now - last_successful_run a)).

Definition cooldown_results (a : SAgent) (now : Q) : pyval :=
  PDict [("error",
          PFmt "Agent in error state: too many consecutive failures ({self.consecutive_errors})"
               [PInt (consecutive_errors a)]);
         ("cooldown_remaining", PInt (cooldown_remaining a now))].

Definition duration_ms (env : Env) : Z :=
  py_int ((t_done env - t_start env) * 1000).

Definition lift_outcome {S A} (o : outcome A) : M S A :=
  fun s => (o, s).

(** The [try] block of [handle_task]. *)
Definition analyse (env : Env) (task_id : string) (task_data : TaskData)
  : M SAgent unit :=
  let scope := default [] (td_scope task_data) in
  let context := default [] (td_context task_data) in
  let output_file := default "" (td_output task_data) in
  let cfg := default [] (td_config task_data) in
  modify (fun a => set_config (_update_config cfg (config a)) a) ;;;
  results <~ _run_security_analysis env scope ;;
  a <~ get_state ;;
  _ <~ lift_outcome (_generate_sarif_report (relpath env) context (findings a)) ;;
  payload <~ lift_outcome (done_results (findings a) results output_file) ;;
  _ <~ on_client (send_task_response task_id "done" payload
                    (Some (duration_ms env))) ;;
  modify (fun a => set_last_successful_run (t_success env) (set_errors 0 a)).

(** The [except Exception as e] block of [handle_task]. *)
Definition on_failure (env : Env) (task_id : string) (e : exn)
  : M SAgent unit :=
  modify (fun a => set_errors (consecutive_errors a + 1) a) ;;;
  _ <~ on_client (send_task_response task_id "failed"
                    (PDict [("error", PErr e);
                            ("error_type", PStr (exn_type e))])
                    (Some (duration_ms env))) ;;
  ret tt.

Definition handle_task (env : Env) (task_id : string) (task_data : TaskData)
  : M SAgent unit :=
  a <~ get_state ;;
  if cooldown_active a (t_gate env)
  then _ <~ on_client (send_task_response task_id "failed"
                         (cooldown_results a (t_gate env)) None) ;;
       ret tt
  else try_except (analyse env task_id task_data) (on_failure env task_id).

#[global] Instance security_agent : Agent SAgent Env := {
  handle_task := handle_task;
}.

End SecurityAgent.

(** * The command-line agents: [packages/agents/quality_agent.py] and
      [packages/agents/security_agent.py] *)

(** What one tool run returns: the dict with [success] true or false. *)
Inductive ToolRun :=
| Success (findings : pyval) (total_findings : Z) (warning : option string)
| Failure (error : pyval).

(** The file a tool was told to write its JSON output to. *)
Inductive ResultsFile :=
| Absent
| Unparsable
| Parsed (data : pyval).

Definition not_initialized : ToolRun :=
  Failure (PStr "Temporary directory not initialized").

Definition json_decode_error : exn :=
  Exn "JSONDecodeError" "Expecting value".

Definition file_not_found : exn :=
  Exn "FileNotFoundError" "No such file or directory".

(** [len(v)] *)
Definition py_len (v : pyval) : outcome Z :=
  match v with
  | PList l => Ret (Z.of_nat (length l))
  | PDict d => Ret (Z.of_nat (length d))
  | PStr s => Ret (Z.of_nat (String.length s))
  | _ => Raise (type_error "object has no len()")
  end.

Module QualityCli.

Definition _run_ruff (temp_dir : bool) (p : Process) (f : ResultsFile)
  : ToolRun :=
  if negb temp_dir then not_initialized
  else match p with
       | Completed returncode stdout stderr =>
           if negb (Z.eqb returncode 0 || Z.eqb returncode 1)
           then Failure (PStr stderr)
           else match f with
                | Parsed ruff_data =>
                    Success ruff_data
                      (match ruff_data with
                       | PList l => Z.of_nat (length l)
                       | _ => 0
                       end) None
                | Unparsable =>
                    Success (PList []) 0
                            (Some "Output could not be parsed as JSON")
                | Absent => Success (PList []) 0 None
                end
       | TimeoutExpired => Failure (PStr "Analysis timed out")
       | FileNotFound => Failure (PErr file_not_found)
       | SpawnError e => Failure (PErr e)
       end.

(** [sum(len(file_result.get("messages", [])) for file_result in data)] *)
Fixpoint count_messages (file_results : list pyval) : outcome Z :=
  match file_results with
  | [] => Ret 0
  | file_result :: rest =>
      try! messages := py_get file_result "messages" (PList []) in
      try! n := py_len messages in
      try! m := count_messages rest in
      Ret (n + m)
  end.

Definition _run_eslint (temp_dir : bool) (p : Process) (f : ResultsFile)
  : ToolRun :=
  if negb temp_dir then not_initialized
  else match p with
       | Completed returncode stdout stderr =>
           if negb (Z.eqb returncode 0 || Z.eqb returncode 1)
           then Failure (PStr stderr)
           else match f with
                | Parsed eslint_data =>
                    match (try! items := py_iter eslint_data in
                           count_messages items) with
                    | Ret total => Success eslint_data total None
                    | Raise e => Failure (PErr e)
                    end
                | Unparsable => Failure (PErr json_decode_error)
                | Absent => Success (PList []) 0 None
                end
       | TimeoutExpired => Failure (PStr "Analysis timed out")
       | FileNotFound => Failure (PErr file_not_found)
       | SpawnError e => Failure (PErr e)
       end.

Section Lizard.
(** The scan of Lizard's text table for the functions over the threshold;
    it is a parameter here. *)
Variable complex_functions : string -> list pyval.

Definition _run_lizard (temp_dir : bool) (p : Process) : ToolRun :=
  if negb temp_dir then not_initialized
  else match p with
       | Completed returncode stdout stderr =>
           if negb (Z.eqb returncode 0 || Z.eqb returncode 1)
           then Failure (PStr stderr)
           else Success (PList (complex_functions stdout))
                        (Z.of_nat (length (complex_functions stdout))) None
       | TimeoutExpired => Failure (PStr "Analysis timed out")
       | FileNotFound => Failure (PErr file_not_found)
       | SpawnError e => Failure (PErr e)
       end.
End Lizard.

Definition _severity_to_level (sev : pyval) : string :=
  match sev with
  | PInt z =>
      if Z.eqb z 2 then "error" else if Z.eqb z 1 then "warning" else "note"
  | PBool b => if b then "warning" else "note"
  | PStr s =>
      let s := lower s in
      if str_in s ["error"] then "error"
      else if str_in s ["warning"; "warn"] then "warning"
      else "note"
  | _ => "note"
  end.

Definition _rule_level_to_level (rule_level : pyval) : string :=
  match rule_level with
  | PStr "incomplete" => "warning"
  | _ => "note"
  end.

End QualityCli.

Module SecurityCli.

Definition _severity_to_level (sev : string) : string :=
  let s := upper sev in
  if str_in s ["ERROR"; "HIGH"; "CRITICAL"] then "error"
  else if str_in s ["WARNING"; "MEDIUM"] then "warning"
  else "note"%string.

Definition _run_semgrep (temp_dir : bool) (p : Process) (f : ResultsFile)
  : ToolRun :=
  if negb temp_dir then not_initialized
  else match p with
       | Completed returncode stdout stderr =>
           if negb (Z.eqb returncode 0) && negb (Z.eqb returncode 1)
           then Failure (PStr stderr)
           else match f with
                | Parsed semgrep_data =>
                    match (try! results := py_get semgrep_data "results" (PList []) in
                           try! n := py_len results in
                           Ret (results, n)) with
                    | Ret (results, n) => Success results n None
                    | Raise e => Failure (PErr e)
                    end
                | Unparsable => Failure (PErr json_decode_error)
                | Absent => Success (PList []) 0 None
                end
       | TimeoutExpired => Failure (PStr "Scan timed out")
       | FileNotFound => Failure (PErr file_not_found)
       | SpawnError e => Failure (PErr e)
       end.

End SecurityCli.

(** * Vocabulary of the statements, and concrete scenarios *)

Import SocketClient.

(** ** Scenario: a disconnected client with one task in flight *)

Definition c9_task : ActiveTask :=
  mkActive (mkTaskData (Some ["a.py"]) None None None None None) 0 300.

Definition c9_client : Client :=
  mkClient "quality" false false false [("t1", c9_task)] 10 [].

(** ** The reconnect loop *)

(** What the loop does from [k] failed attempts on, over [n] more failures:
    a connection attempt and the sleep that follows it, for each. *)
Definition backoff_trace (k n : nat) : list Action :=
  flat_map (fun i => [AConnect false;
                      ASleep (Z.min (10 * 2 ^ Z.of_nat i) 60)])
           (seq k n).

Definition fails_quietly (w : World) : Prop :=
  connect_result w = false /\ during_sleep w <> Stop.

Definition orchestrator_down : list World :=
  repeat (mkWorld false Quiet) 30.

(** ** Severity counts *)

Definition standard_severity (s : string) : Prop :=
  s = "error" \/ s = "warning" \/ s = "info".

Definition plugin_severity (s : string) : Prop :=
  s = "critical" \/ s = "high" \/ s = "medium" \/ s = "low".

(** How many findings carry exactly the severity [s]. *)
Definition count_severity (s : string) (fs : list QualityAgent.QualityFinding)
  : nat :=
  length (List.filter (fun f => String.eqb (QualityAgent.severity f) s) fs).

Definition counter (key : string) (breakdown : list (string * nat)) : nat :=
  default 0%nat (dict_get key breakdown).

Definition yaml_issues : list QaIssue :=
  [mkIssue "ci.yml" "yaml-syntax" "mapping values are not allowed here"
           "critical" 3 (Some 7) None None [("plugin", PStr "yaml_syntax")];
   mkIssue "ci.yml" "yaml-tabs" "tab character used for indentation"
           "low" 9 None None None []].

(** ** Responses on the wire *)

(** The client can write to the orchestrator. *)
Definition online (c : Client) : Prop :=
  is_connected c = true /\ socket c = true /\ wire_up c = true.

(** The task responses in an outbox that carry the id [task_id]. *)
Definition responses_for (task_id : string) (box : list IPCMessage)
  : list IPCMessage :=
  List.filter (fun m => String.eqb (msg_type m) "task" &&
                        String.eqb (msg_id m) task_id) box.

Definition status_of (m : IPCMessage) : option pyval :=
  match msg_data m with
  | Some (PDict d) => dict_get "status" d
  | _ => None
  end.

Definition results_of (m : IPCMessage) : option pyval :=
  match msg_data m with
  | Some (PDict d) => dict_get "results" d
  | _ => None
  end.

(** A field of the [results] dict of a response. *)
Definition result_field (key : string) (m : IPCMessage) : option pyval :=
  match results_of m with
  | Some (PDict d) => dict_get key d
  | _ => None
  end.

(** The timeout response the sweep writes for [task_id]. *)
Definition timeout_message (name : string) (reported : pyval)
  (task_id : string) : IPCMessage :=
  fill_agent name
    (task_response name task_id "timeout" (timeout_results reported task_id)
                   None).

(** [c'] is [c] after more messages were written by a client that is still
    online: same agent name and task limit, an outbox that extends the old
    one by [msgs]. *)
Definition extends_by (msgs : list IPCMessage) (c c' : Client) : Prop :=
  agent_name c' = agent_name c /\
  max_active_tasks c' = max_active_tasks c /\
  online c' /\
  outbox c' = outbox c ++ msgs.

(** A task response with the given id. *)
Definition response_to (task_id : string) (m : IPCMessage) : Prop :=
  msg_id m = task_id /\ msg_type m = "task".

(** The two laws that relate [client] and [with_client]. *)
Class LawfulClient (S : Type) `{HasClient S} := {
  client_with_client : forall (c : Client) (s : S), client (with_client c s) = c;
  with_client_twice : forall (c c' : Client) (s : S),
      with_client c (with_client c' s) = with_client c s;
  with_client_same : forall s : S, with_client (client s) s = s;
}.

(** A task message that [_handle_task] lets through: it has data and the
    client is below its limit. *)
Definition accepted (m : TaskMessage) (c : Client) : Prop :=
  data_missing (tm_data m) = false /\
  Z.of_nat (length (active_tasks c)) < max_active_tasks c.

(** ** Scenario: a task outlives its deadline *)

Definition online_client (name : string) : Client :=
  mkClient name true true true [] 10 [].

Definition offline_client (name : string) : Client :=
  mkClient name false false false [] 10 [].

(** A quality agent created at [now] and connected. *)
Definition quality_online (now : Q) : QualityAgent.QAgent :=
  with_client (online_client "quality") (QualityAgent.init now).

Definition quality_offline (now : Q) : QualityAgent.QAgent :=
  with_client (offline_client "quality") (QualityAgent.init now).

(** Task [t1] asks for [a.py] with a deadline of one second. *)
Definition short_task : TaskMessage :=
  mkTaskMsg "t1"
    (Some (mkTaskData (Some ["a.py"]) None None None None (Some 1%Q))).

(** [a.py] exists; the tools take 40 seconds and find nothing; the heartbeat
    thread makes its pass 30 seconds after the task started. *)
Definition slow_tools : QualityAgent.Env :=
  QualityAgent.mkEnv 100 100 140 140
    (fun _ => Some 10) (fun _ => ".py") (fun p => p)
    [130%Q] (Ret ([], ["ruff"])) None.

Definition statuses (task_id : string) (c : Client) : list (option pyval) :=
  map status_of (responses_for task_id (outbox c)).

(** A connected client holding task [t0], started at 0 with a deadline of
    one second, and task [t9], started at 0 with the default deadline. *)
Definition overdue_client : Client :=
  mkClient "quality" true true true
    [("t0", mkActive (mkTaskData (Some ["a.py"]) None None None None (Some 1%Q))
                     0 1);
     ("t9", mkActive (mkTaskData (Some ["b.py"]) None None None None None)
                     0 300)]
    10 [].

(** ** Scenario: the security agent scans one file, then nothing *)

Definition security_online (now : Q) : SecurityAgent.SAgent :=
  with_client (online_client "security") (SecurityAgent.init now).

(** [app.py] is the only file on disk; Semgrep and Gitleaks exit with 0 and
    report nothing. *)
Definition app_scan (now : Q) : SecurityAgent.Env :=
  SecurityAgent.mkEnv now now (now + 1) (now + 1)
    (fun p => p)
    (fun p => if String.eqb p "app.py" then SecurityAgent.RegularFile
              else SecurityAgent.Missing)
    [] (fun _ => None) SecurityAgent.completed_process_cmd
    (Completed 0 "" "") (Completed 0 "" "") None [] 1
    (fun p _ => Ret p).

Definition scan_app : TaskMessage :=
  mkTaskMsg "t1" (Some (mkTaskData (Some ["app.py"]) None None None None None)).

Definition scan_nothing : TaskMessage :=
  mkTaskMsg "t2" (Some (mkTaskData (Some []) None None None None None)).

(** ** Scenarios for the admission gate and the cooldown *)

Definition one_task : TaskData :=
  mkTaskData (Some ["a.py"]) None None None None None.

(** A connected quality agent whose limit is one task, with one task in
    flight, ten consecutive errors and a last success at time 0. *)
Definition busy_and_cooling : QualityAgent.QAgent :=
  QualityAgent.mkAgent
    (mkClient "quality" true true true [("t0", mkActive one_task 90 300)] 1 [])
    QualityAgent.default_config [] 10 10 0 300.

(** The same agent with room for the task. *)
Definition cooling : QualityAgent.QAgent :=
  QualityAgent.mkAgent (online_client "quality")
    QualityAgent.default_config [] 10 10 0 300.

Definition security_cooling : SecurityAgent.SAgent :=
  SecurityAgent.mkAgent (online_client "security")
    SecurityAgent.default_config [] 10 10 0 300.

Definition next_task : TaskMessage := mkTaskMsg "t2" (Some one_task).

(** The tools answer at once and find nothing; the gate is read at [now]. *)
Definition quick_tools (now : Q) : QualityAgent.Env :=
  QualityAgent.mkEnv now now now now
    (fun _ => Some 10) (fun _ => ".py") (fun p => p)
    [] (Ret ([], ["ruff"])) None.

(** The report cannot be built: the task fails. *)
Definition broken_tools (now : Q) : QualityAgent.Env :=
  QualityAgent.mkEnv now now now now
    (fun _ => Some 10) (fun _ => ".py") (fun p => p)
    [] (Ret ([], ["ruff"])) (Some (type_error "bad operand type")).

(** A connected quality agent created at time 0 that is sent one failing
    task at each of the given times. *)
Definition after_failures (times : list Q) : QualityAgent.QAgent :=
  fold_left
    (fun a t => snd (_handle_task (broken_tools t) t
                       (mkTaskMsg "job" (Some one_task)) a))
    times (quality_online 0).

(** Ten failures within ten seconds, and ten failures forty seconds apart. *)
Definition quick_failures : list Q := map (fun i => inject_Z (Z.of_nat i)) (seq 1 10).
Definition slow_failures : list Q := map (fun i => inject_Z (40 * Z.of_nat i)) (seq 1 10).

(** The responses to [task_id], reduced to status and one field of the
    results. *)
Definition replies (task_id field : string) (c : Client)
  : list (option pyval * option pyval) :=
  map (fun m => (status_of m, result_field field m))
      (responses_for task_id (outbox c)).

(** The agent after it has answered [scan_app] at time 100. *)
Definition after_scan : SecurityAgent.SAgent :=
  snd (_handle_task (app_scan 100) 100 scan_app (security_online 0)).

(** ** Tool outputs *)

(** What a parser reads at [record[outer][inner]] with the default [dflt]
    for a missing key; [None] when [record[outer]] is not a dict and the
    access raises. *)
Definition reported (outer inner : string) (dflt : pyval)
  (record : list (string * pyval)) : option pyval :=
  match dict_get outer record with
  | None => Some dflt
  | Some (PDict inside) => Some (default dflt (dict_get inner inside))
  | Some _ => None
  end.

(** A Ruff record without [location]. *)
Definition ruff_no_location : pyval :=
  PDict [("code", PStr "F401");
         ("message", PStr "`os` imported but unused");
         ("filename", PStr "a.py")].

(** A Ruff record that ends before it starts. *)
Definition ruff_backwards : pyval :=
  PDict [("code", PStr "E501");
         ("message", PStr "line too long");
         ("filename", PStr "a.py");
         ("location", PDict [("row", PInt 5); ("column", PInt 1)]);
         ("end_location", PDict [("row", PInt 3); ("column", PInt 9)])].

(** A Semgrep result of severity INFO at line 3 of [app.py], and one
    without a position. *)
Definition semgrep_info : pyval :=
  PDict [("rule_id", PStr "python.lang.security.audit.eval-detected");
         ("message", PStr "Detected the use of eval()");
         ("metadata", PDict [("severity", PStr "INFO")]);
         ("path", PStr "app.py");
         ("start", PDict [("line", PInt 3); ("col", PInt 5)])].

Definition semgrep_no_start : pyval :=
  PDict [("rule_id", PStr "python.lang.security.audit.eval-detected");
         ("message", PStr "Detected the use of eval()");
         ("metadata", PDict [("severity", PStr "WARNING")]);
         ("path", PStr "app.py")].

(** A Semgrep output document with the given results in one run. *)
Definition semgrep_output (results : list pyval) : pyval :=
  PDict [("results", PList [PDict [("results", PList results)]])].

Definition info_finding : SecurityAgent.SecurityFinding :=
  SecurityAgent.mkFinding
    (PStr "python.lang.security.audit.eval-detected")
    (PStr "Detected the use of eval()") "info" (PStr "app.py")
    (PInt 3) (PInt 5) PNone PNone (PStr "unknown")
    (PDict [("severity", PStr "INFO")]).

(** A decoder that knows one document. *)
Definition loads_only (text : string) (doc : pyval) (s : string)
  : option pyval :=
  if String.eqb s text then Some doc else None.

(** The [level] of each result of the single run of a SARIF report. *)
Definition result_levels (report : outcome pyval) : list (option pyval) :=
  match report with
  | Ret (PDict top) =>
      match dict_get "runs" top with
      | Some (PList [PDict run]) =>
          match dict_get "results" run with
          | Some (PList results) =>
              map (fun r => match r with
                            | PDict d => dict_get "level" d
                            | _ => None
                            end) results
          | _ => []
          end
      | _ => []
      end
  | _ => []
  end.

Definition sarif_levels : list string := ["error"; "warning"; "note"].

(** [os.path.relpath] on paths that are already relative to the root. *)
Definition relpath_same (path start : pyval) : outcome pyval := Ret path.

(** The findings built from some of these records. *)
Definition ruff_backwards_finding : QualityAgent.QualityFinding :=
  QualityAgent.mkFinding (PStr "ruff") (PStr "E501") (PStr "line too long")
    "error" (PStr "a.py") (PInt 5) (PInt 1) (PInt 3) (PInt 9) (Some "style")
    PNone PNone (PDict [("url", PNone); ("fix", PDict [])]).

Definition eslint_message : pyval :=
  PDict [("ruleId", PStr "no-unused-vars");
         ("message", PStr "'x' is defined but never used");
         ("severity", PInt 2);
         ("line", PInt 4); ("column", PInt 7)].

Definition eslint_message_finding : QualityAgent.QualityFinding :=
  QualityAgent.mkFinding (PStr "eslint") (PStr "no-unused-vars")
    (PStr "'x' is defined but never used") "error" (PStr "")
    (PInt 4) (PInt 7) PNone PNone (Some "error-prone") PNone PNone
    (PDict [("ruleId", PStr "no-unused-vars"); ("suggestions", PList [])]).

Definition gitleaks_record_ : pyval :=
  PDict [("rule", PStr "aws-access-key");
         ("description", PStr "AWS access key");
         ("file", PStr "deploy.sh"); ("line", PInt 12)].

Definition gitleaks_record_finding : SecurityAgent.SecurityFinding :=
  SecurityAgent.mkFinding (PStr "aws-access-key") (PStr "AWS access key")
    "error" (PStr "deploy.sh") (PInt 12) (PInt 0) PNone PNone PNone
    (PDict [("fingerprint", PNone); ("tags", PList [])]).

(** ** Scenarios for the security agent's scanners *)

(** The data of a task that asks for [app.py], and of one that also switches
    dependency scanning off. *)
Definition scan_app_data : TaskData :=
  mkTaskData (Some ["app.py"]) None None None None None.

Definition scan_app_no_deps : TaskData :=
  mkTaskData (Some ["app.py"]) None None
             (Some [("scan_dependencies", PBool false)]) None None.

(** ** Categories and settings of the quality agent *)

(** The key under which [_get_category_breakdown] counts a finding. *)
Definition category_key (f : QualityAgent.QualityFinding) : string :=
  match QualityAgent.category f with
  | Some "" | None => "other"
  | Some c => c
  end.

(** The sum of the counters of a breakdown. *)
Definition counted (breakdown : list (string * nat)) : nat :=
  list_sum (map snd breakdown).

(** A task that lowers the complexity threshold to 3, and the tools failing
    on it. *)
Definition strict_task : TaskData :=
  mkTaskData (Some ["a.py"]) None None
             (Some [("complexity_threshold", PInt 3)]) None None.

(** * The IPC client, continued: events and the heartbeat thread *)

(** [{**base, **extra}]: the bindings of [extra] are written over those of
    [base], in order; a key of [base] keeps its position. *)
Definition dict_update {V} (base extra : list (string * V))
  : list (string * V) :=
  fold_left (fun d kv => dict_set (fst kv) (snd kv) d) extra base.

Module SocketThreads.

(** [send_event]; [now] is the reading of [time.time()] that names the
    message. *)
Definition send_event (now : Q) (event_type : string)
  (data : list (string * pyval)) : M Client bool :=
  c <~ get_state ;;
  send_message
    (mkMsg ("event-" +:+ pretty (py_int now)) "event" None
       (Some (PDict (dict_update
                       [("type", PStr event_type);
                        ("agent", PStr (agent_name c));
                        ("status", PStr "active")]
                       data)))).

(** What the environment supplies to one iteration of [_heartbeat_loop]:
    whether the stop event is set when the loop tests it, and the three
    readings of [time.time()], in [_cleanup_timed_out_tasks], for [uptime]
    and for the message id. *)
Record Beat := mkBeat {
  stop_requested : bool;
  sweep_time : Q;
  uptime : Q;
  stamp : Q;
}.

Section Heartbeat.
(** [os.getpid()] *)
Variable pid : Z.

Definition heartbeat_message (b : Beat) (c : Client) : IPCMessage :=
  mkMsg ("heartbeat-" +:+ pretty (py_int (stamp b))) "heartbeat" None
    (Some (PDict
       [("agent", PStr (agent_name c));
        ("pid", PInt pid);
        ("status", PStr (match active_tasks c with
                         | [] => "idle"
                         | _ :: _ => "busy"
                         end));
        ("active_tasks", PInt (Z.of_nat (length (active_tasks c))));
        ("active_tasks_limit", PInt (max_active_tasks c));
        ("uptime", PFloat (uptime b))])).

(** The statements of the [try] block after the counter is reset, up to the
    wait. *)
Definition beat (b : Beat) : M Client unit :=
  _cleanup_timed_out_tasks (sweep_time b) ;;;
  c <~ get_state ;;
  if is_connected c
  then _ <~ send_message (heartbeat_message b c) ;; ret tt
  else ret tt.

(** How the loop is left. *)
Inductive LoopEnd :=
| StopEvent
| TooManyErrors
| StillLooping.

Definition max_consecutive_errors : Z := 5.

(** The [while] loop, with the local variable [consecutive_errors] as it
    stands at the loop test.  Each iteration resets it first. *)
Fixpoint heartbeat_from (beats : list Beat) (consecutive_errors : Z)
  : M Client LoopEnd :=
  match beats with
  | [] => ret StillLooping
  | b :: rest =>
      if stop_requested b then ret StopEvent
      else
        let consecutive_errors := 0 in
        raised <~ try_except (beat b ;;; ret false) (fun _ => ret true) ;;
        if raised : bool
        then
          let consecutive_errors := consecutive_errors + 1 in
          if Z.leb max_consecutive_errors consecutive_errors
          then ret TooManyErrors
          else heartbeat_from rest consecutive_errors
        else heartbeat_from rest consecutive_errors
  end.

Definition _heartbeat_loop (beats : list Beat) : M Client LoopEnd :=
  heartbeat_from beats 0.

End Heartbeat.

End SocketThreads.

(** ** Scenarios for the heartbeat thread *)

(** The connected client of the timeout scenario, on a socket whose writes
    fail. *)
Definition broken_wire_client : Client :=
  mkClient "quality" true true false (active_tasks overdue_client) 10 [].

(** Three beats, 30 seconds apart, with no stop request. *)
Definition three_beats : list SocketThreads.Beat :=
  [SocketThreads.mkBeat false 50 50 50;
   SocketThreads.mkBeat false 80 80 80;
   SocketThreads.mkBeat false 110 110 110].

(** A client that can write to the orchestrator and is marked connected
    has a socket that fails on every write. *)
Definition wire_broken (c : Client) : Prop :=
  is_connected c = true /\ socket c = true /\ wire_up c = false.

(** The entries of [active_tasks] that have not passed their deadline. *)
Definition in_time (now : Q) (d : list (string * ActiveTask))
  : list (string * ActiveTask) :=
  List.filter (fun kv => negb (expired now (snd kv))) d.

(** A field of the [data] dict of a message. *)
Definition data_field (key : string) (m : IPCMessage) : option pyval :=
  match msg_data m with
  | Some (PDict d) => dict_get key d
  | _ => None
  end.

(** The three fields [send_event] writes before the caller's data. *)
Definition event_defaults (event_type name : string) : list (string * pyval) :=
  [("type", PStr event_type); ("agent", PStr name); ("status", PStr "active")].

(** An event payload that names another agent. *)
Definition progress_data : list (string * pyval) :=
  [("agent", PStr "security"); ("files_done", PInt 3)].

(** * More of Python's strings *)

Definition newline : Ascii.ascii := Ascii.ascii_of_nat 10.
Definition tab : Ascii.ascii := Ascii.ascii_of_nat 9.
Definition space : Ascii.ascii := Ascii.ascii_of_nat 32.

(** [s.split(sep)] for a separator of one character: the pieces between
    the separators, the piece being read in [acc]. *)
Fixpoint split_from (sep : Ascii.ascii) (acc s : string) : list string :=
  match s with
  | EmptyString => [acc]
  | String a r =>
      if Ascii.eqb a sep then acc :: split_from sep EmptyString r
      else split_from sep (acc +:+ String a EmptyString) r
  end.

Definition split (sep : Ascii.ascii) (s : string) : list string :=
  split_from sep EmptyString s.

(** * The quality agent, continued: duplication and the top issues *)

Module QualityAnalysis.
Import QualityAgent.

(** [_calculate_similarity]: the share of the distinct lines of the two
    texts that both have. *)
Definition _calculate_similarity (content1 content2 : string) : Q :=
  let lines1 : gset string := list_to_set (split newline content1) in
  let lines2 : gset string := list_to_set (split newline content2) in
  if bool_decide (lines1 = ∅) || bool_decide (lines2 = ∅) then 0
  else
    let common_lines := lines1 ∩ lines2 in
    let total_lines := lines1 ∪ lines2 in
    if bool_decide (total_lines = ∅) then 0
    else inject_Z (Z.of_nat (size common_lines)) /
         inject_Z (Z.of_nat (size total_lines)).

(** [x > v] for a float [x]: defined against numbers only. *)
Definition float_gt (x : Q) (v : pyval) : outcome bool :=
  match v with
  | PInt z => Ret (Qltb (inject_Z z) x)
  | PFloat q => Ret (Qltb q x)
  | PBool b => Ret (Qltb (if b then 1 else 0) x)
  | _ => Raise (type_error "'>' not supported between these operands")
  end.

Definition duplication_finding (file1 file2 : string) (similarity : Q)
  : QualityFinding :=
  mkFinding (PStr "duplication") (PStr "DUPLICATION")
    (PFmt "High similarity ({similarity:.1%}) detected between files"
          [PFloat similarity])
    "warning" (PStr file1) (PInt 1) PNone PNone PNone (Some "duplication")
    (PFloat similarity)
    (PStr "Consider extracting common code to shared utilities")
    (PDict [("similar_file", PStr file2); ("similarity", PFloat similarity)]).

(** The inner loop of [_run_duplication_detection]: one file against those
    after it.  The flag tells whether the loop ran to its end; an exception
    ends it with the findings appended so far. *)
Fixpoint compare_with (threshold : pyval) (file1 content1 : string)
  (later : list (string * string)) : list QualityFinding * bool :=
  match later with
  | [] => ([], true)
  | (file2, content2) :: rest =>
      let similarity := _calculate_similarity content1 content2 in
      match float_gt similarity threshold with
      | Raise _ => ([], false)
      | Ret above =>
          let here := if above
                      then [duplication_finding file1 file2 similarity]
                      else [] in
          let (more, ok) := compare_with threshold file1 content1 rest in
          (here ++ more, ok)
      end
  end.

(** The outer loop. *)
Fixpoint compare_all (threshold : pyval) (file_list : list (string * string))
  : list QualityFinding * bool :=
  match file_list with
  | [] => ([], true)
  | (file1, content1) :: later =>
      let (here, ok) := compare_with threshold file1 content1 later in
      if ok
      then let (more, ok') := compare_all threshold later in (here ++ more, ok')
      else (here, false)
  end.

Section Duplication.
(** [open(file_path).read()]; [None] when it raises. *)
Variable read_text : string -> option string.

(** The dict [file_contents]: a path read twice keeps its first position. *)
Definition file_contents (files : list string) : list (string * string) :=
  fold_left
    (fun d file_path =>
       match read_text file_path with
       | Some content => dict_set file_path content d
       | None => d
       end)
    files [].

Definition _run_duplication_detection (threshold : pyval)
  (files : list string) : list QualityFinding :=
  fst (compare_all threshold (file_contents files)).
End Duplication.

End QualityAnalysis.

(** ** Vocabulary for duplication *)

(** The distinct lines of a text. *)
Definition line_set (content : string) : gset string :=
  list_to_set (split newline content).

(** The file a duplication finding names as the similar one. *)
Definition similar_file (f : QualityAgent.QualityFinding) : option pyval :=
  match QualityAgent.metadata f with
  | PDict d => dict_get "similar_file" d
  | _ => None
  end.

(** Two files with the same lines in another order, a third that shares
    none, and a scope that names the first file twice. *)
Definition disk (p : string) : option string :=
  if String.eqb p "a.py" then Some ("x = 1" +:+ String newline "y = 2")
  else if String.eqb p "b.py" then Some ("y = 2" +:+ String newline "x = 1")
  else if String.eqb p "c.py" then Some "z = 3"
  else None.

Definition listed_twice : list string := ["a.py"; "b.py"; "a.py"; "c.py"; "gone.py"].

(** * The quality agent, continued: the top issues of the report *)

Module QualityReport.
Import QualityAgent.

(** The first component of the sort key. *)
Definition severity_rank (f : QualityFinding) : Z :=
  if String.eqb (severity f) "error" then 0
  else if String.eqb (severity f) "warning" then 1
  else 2.

(** The second component, [-(f.score or 0)]. *)
Definition neg_score (v : pyval) : outcome Q :=
  if negb (py_truthy v) then Ret 0%Q
  else match v with
       | PInt z => Ret (- inject_Z z)%Q
       | PFloat q => Ret (- q)%Q
       | PBool _ => Ret (- (1))%Q
       | _ => Raise (type_error "bad operand type for unary -")
       end.

(** [a < b] on sort keys: tuples compare component by component. *)
Definition key_lt (a b : Z * Q) : bool :=
  Z.ltb (fst a) (fst b) ||
  (Z.eqb (fst a) (fst b) && Qltb (snd a) (snd b)).

Section Sorted.
Context {A : Type}.

(** [sorted(l, key=...)] on a list that carries its keys.  The sort is
    stable: an element is put after those already placed whose key is
    smaller, and before the others, which came after it in [l]. *)
Fixpoint insert_by (x : (Z * Q) * A) (placed : list ((Z * Q) * A))
  : list ((Z * Q) * A) :=
  match placed with
  | [] => [x]
  | y :: rest =>
      if key_lt (fst y) (fst x) then y :: insert_by x rest
      else x :: y :: rest
  end.

Definition sorted (l : list ((Z * Q) * A)) : list ((Z * Q) * A) :=
  fold_right insert_by [] l.
End Sorted.

(** The keys are computed for every finding before sorting starts; the
    first exception is raised. *)
Fixpoint keyed (fs : list QualityFinding)
  : outcome (list ((Z * Q) * QualityFinding)) :=
  match fs with
  | [] => Ret []
  | f :: rest =>
      try! s := neg_score (score f) in
      try! more := keyed rest in
      Ret (((severity_rank f, s), f) :: more)
  end.

Definition top_issue (f : QualityFinding) : pyval :=
  PDict [("tool", tool f);
         ("rule_id", rule_id f);
         ("message", message f);
         ("severity", PStr (severity f));
         ("file_path", file_path f);
         ("line", line_number f);
         ("score", score f)].

Definition _get_top_issues (fs : list QualityFinding) : outcome (list pyval) :=
  try! sorted_findings := keyed fs in
  Ret (map (fun kf => top_issue (snd kf)) (firstn 10 (sorted sorted_findings))).

End QualityReport.

(** ** Vocabulary for the top issues *)

(** The score a finding is sorted by: 0 when it has none. *)
Definition score_or_zero (f : QualityAgent.QualityFinding) : Q :=
  match QualityReport.neg_score (QualityAgent.score f) with
  | Ret q => (- q)%Q
  | Raise _ => 0%Q
  end.

(** [f] may stand before [g] in the report: it has the more severe rank,
    or the same rank and a score at least as high. *)
Definition ranks_before (f g : QualityAgent.QualityFinding) : Prop :=
  QualityReport.severity_rank f < QualityReport.severity_rank g \/
  (QualityReport.severity_rank f = QualityReport.severity_rank g /\
   (score_or_zero g <= score_or_zero f)%Q).

(** A finding of a given tool, severity and score. *)
Definition scored_finding (tool severity : string) (score : pyval)
  : QualityAgent.QualityFinding :=
  QualityAgent.mkFinding (PStr tool) (PStr "R") (PStr "m") severity
    (PStr "a.py") (PInt 1) PNone PNone PNone None score PNone PNone.

(** Twelve findings: a critical plugin issue first, then ten errors, then
    a warning. *)
Definition twelve_findings : list QualityAgent.QualityFinding :=
  scored_finding "yaml_syntax" "critical" PNone ::
  map (fun i => scored_finding "lizard" "error" (PInt (20 + Z.of_nat i)))
      (seq 0 10) ++
  [scored_finding "ruff" "warning" PNone].

(** [a <= b] on sort keys. *)
Definition key_le (a b : Z * Q) : Prop :=
  fst a < fst b \/ (fst a = fst b /\ (snd a <= snd b)%Q).

(** A pair of [keyed]: the key is the one of the finding beside it. *)
Definition keyed_right (kf : (Z * Q) * QualityAgent.QualityFinding) : Prop :=
  exists s, QualityReport.neg_score (QualityAgent.score (snd kf)) = Ret s /\
            fst kf = (QualityReport.severity_rank (snd kf), s).

(** * Whitespace *)

(** [str.isspace] on one character, for code points below 256. *)
Definition is_space (a : Ascii.ascii) : bool :=
  let n := Ascii.nat_of_ascii a in
  (Nat.leb 9 n && Nat.leb n 13) || (Nat.leb 28 n && Nat.leb n 32) ||
  Nat.eqb n 133 || Nat.eqb n 160.

(** [s.lstrip(chars)] and [s.rstrip(chars)], the characters to drop given
    by a test. *)
Fixpoint lstrip_by (drop : Ascii.ascii -> bool) (s : string) : string :=
  match s with
  | EmptyString => EmptyString
  | String a r => if drop a then lstrip_by drop r else s
  end.

Fixpoint rstrip_by (drop : Ascii.ascii -> bool) (s : string) : string :=
  match s with
  | EmptyString => EmptyString
  | String a r =>
      match rstrip_by drop r with
      | EmptyString => if drop a then EmptyString else String a EmptyString
      | kept => String a kept
      end
  end.

(** [s.strip()], [s.rstrip()] and [s.lstrip(' ')] *)
Definition strip (s : string) : string :=
  rstrip_by is_space (lstrip_by is_space s).
Definition rstrip (s : string) : string := rstrip_by is_space s.
Definition lstrip_spaces (s : string) : string :=
  lstrip_by (Ascii.eqb space) s.

(** [len(s)] *)
Definition len (s : string) : Z := Z.of_nat (String.length s).

(** * The plugins: [plugins/base.py] *)

Module Plugins.

(** A [QaIssue] with the two fields the agent does not read. *)
Record Issue := mkFull {
  seen : QaIssue;
  fingerprint : option string;
  tags : list string;
}.

(** [QaIssue(file=..., ...)] as the plugins call it: no fingerprint. *)
Definition issue (file rule_id message severity : string) (start_line : Z)
  (start_column end_line end_column : option Z) (tags : list string)
  (data : list (string * pyval)) : Issue :=
  mkFull (mkIssue file rule_id message severity start_line start_column
                  end_line end_column data)
         None tags.

Record PluginResult := mkResult {
  plugin : string;
  version : string;
  issues : list Issue;
  sarif_fragment : option pyval;
  stats : list (string * Z);
  execution_time : option Q;
  files_analyzed : nat;
  status : string;
  error_message : option string;
}.

Definition _map_severity_to_sarif_level (severity : string) : string :=
  default "warning"
    (dict_get severity
       [("critical", "error"); ("high", "error"); ("medium", "warning");
        ("low", "note")]).

(** The [region] of a result, after the optional keys were added. *)
Definition region (i : Issue) : list (string * pyval) :=
  [("startLine", PInt (qi_start_line (seen i)))] ++
  match qi_start_column (seen i) with
  | Some column => [("startColumn", PInt column)]
  | None => []
  end ++
  match qi_end_line (seen i) with
  | Some line =>
      ("endLine", PInt line) ::
      match qi_end_column (seen i) with
      | Some column => [("endColumn", PInt column)]
      | None => []
      end
  | None => []
  end.

(** The dict [properties] of a result. *)
Definition properties (i : Issue) : list (string * pyval) :=
  let properties := [] in
  let properties :=
    match fingerprint i with
    | None | Some "" => properties
    | Some fingerprint => dict_set "fingerprint" (PStr fingerprint) properties
    end in
  let properties :=
    match tags i with
    | [] => properties
    | tags => dict_set "tags" (PList (map PStr tags)) properties
    end in
  match qi_data (seen i) with
  | [] => properties
  | data => dict_update properties data
  end.

(** One element of [results] in [create_sarif_fragment]. *)
Definition sarif_result (i : Issue) : pyval :=
  PDict
    ([("ruleId", PStr (qi_rule_id (seen i)));
      ("message", PDict [("text", PStr (qi_message (seen i)))]);
      ("level", PStr (_map_severity_to_sarif_level (qi_severity (seen i))));
      ("locations",
       PList [PDict [("physicalLocation",
          PDict [("artifactLocation", PDict [("uri", PStr (qi_file (seen i)))]);
                 ("region", PDict (region i))])]])] ++
     match properties i with
     | [] => []
     | properties => [("properties", PDict properties)]
     end).

Definition create_sarif_fragment (tool_info : pyval) (issues : list Issue)
  : pyval :=
  PDict [("$schema", PStr "https://json.schemastore.org/sarif-2.1.0");
         ("version", PStr "2.1.0");
         ("runs",
          PList [PDict [("tool", PDict [("driver", tool_info)]);
                        ("results", PList (map sarif_result issues))]])].

(** A plugin: the abstract methods of [QualityPlugin] and what
    [__init__] stores. *)
Record QualityPlugin := mkPlugin {
  name : string;
  plugin_version : string;
  get_supported_extensions : list string;
  analyze : list string -> outcome PluginResult;
  get_tool_info : pyval;
}.

Definition error_sarif (p : QualityPlugin) (error_msg : string) : pyval :=
  PDict [("$schema", PStr "https://json.schemastore.org/sarif-2.1.0");
         ("version", PStr "2.1.0");
         ("runs",
          PList [PDict
            [("tool", PDict [("driver", get_tool_info p)]);
             ("results",
              PList [PDict [("ruleId", PStr (name p +:+ "-error"));
                            ("message", PDict [("text", PStr error_msg)]);
                            ("level", PStr "error");
                            ("locations", PList [])]])]])].

(** [safe_analyze]; [elapsed] is the time the event loop's clock advanced
    until the result was stamped. *)
Definition safe_analyze (elapsed : Q) (p : QualityPlugin)
  (files : list string) : PluginResult :=
  let filtered_files :=
    List.filter
      (fun f => existsb (fun ext => endswith ext f)
                        (get_supported_extensions p))
      files in
  match filtered_files with
  | [] => mkResult (name p) (plugin_version p) [] None [] (Some 0%Q) 0
                   "skipped" None
  | _ :: _ =>
      match analyze p filtered_files with
      | Ret result =>
          mkResult (plugin result) (version result) (issues result)
            (match issues result, sarif_fragment result with
             | _ :: _, None | _ :: _, Some (PDict []) =>
                 Some (create_sarif_fragment (get_tool_info p) (issues result))
             | _, fragment => fragment
             end)
            (stats result) (Some elapsed) (length filtered_files)
            (status result) (error_message result)
      | Raise e =>
          let error_msg := name p +:+ " plugin failed: " +:+ exn_about e in
          mkResult (name p) (plugin_version p) []
                   (Some (error_sarif p error_msg)) []
                   (Some elapsed) (length files) "failed" (Some error_msg)
      end
  end.

End Plugins.

(** * The YAML plugin: [plugins/yaml_syntax.py] *)

Module YamlSyntax.
Import Plugins.

(** How [yaml.safe_load] ends: it returns, raises a [YAMLError], with or
    without a position, or raises something else.  Positions count from
    zero. *)
Inductive Load :=
| Loaded
| YAMLError (e : exn) (problem_mark : option (nat * nat))
| Crashed (e : exn).

(** The file system and the YAML library. *)
Record Env := mkEnv {
  getsize : string -> outcome Z;
  read_text : string -> outcome string;
  safe_load : string -> Load;
}.

(** The dict [stats]. *)
Record Stats := mkStats {
  syntax_errors : Z;
  indentation_errors : Z;
  structure_errors : Z;
}.

Inductive Counter := Syntax | Indentation | Structure.

Definition count (k : Counter) (s : Stats) : Stats :=
  match k with
  | Syntax =>
      mkStats (syntax_errors s + 1) (indentation_errors s) (structure_errors s)
  | Indentation =>
      mkStats (syntax_errors s) (indentation_errors s + 1) (structure_errors s)
  | Structure =>
      mkStats (syntax_errors s) (indentation_errors s) (structure_errors s + 1)
  end.

(** The two objects the loops write to. *)
Record Acc := mkAcc { found : list Issue; stats_of : Stats }.

(** [issues.append(i)] followed by [stats[k] += 1] *)
Definition report (i : Issue) (k : Counter) (acc : Acc) : Acc :=
  mkAcc (found acc ++ [i]) (count k (stats_of acc)).

(** The loop over the lines with tabs. *)
Fixpoint tab_lines (file_path : string) (line_num : Z) (lines : list string)
  (acc : Acc) : Acc :=
  match lines with
  | [] => acc
  | line :: rest =>
      let acc :=
        if negb (String.eqb (strip line) "") &&
           startswith (String tab EmptyString) line
        then report
               (issue file_path "yaml-tab-indentation"
                  "YAML uses spaces for indentation, not tabs" "high"
                  line_num (Some 1) (Some line_num) (Some (len line))
                  ["indentation"; "style"]
                  [("suggestion", PStr "Replace tabs with 2 spaces")])
               Indentation acc
        else acc in
      tab_lines file_path (line_num + 1) rest acc
  end.

(** The three checks of [_check_yaml_structure] on one line. *)
Definition check_colon (file_path : string) (line_num : Z) (stripped : string)
  (acc : Acc) : Acc :=
  match String.index 0 ":" stripped with
  | Some colon_pos =>
      if negb (startswith "-" stripped) &&
         Z.ltb (Z.of_nat colon_pos) (len stripped - 1)
      then
        let char_after_colon := String.get (colon_pos + 1) stripped in
        let plain :=
          match char_after_colon with
          | Some a => negb (Ascii.eqb a space || Ascii.eqb a newline ||
                            Ascii.eqb a tab)
          | None => false
          end in
        if plain && negb (endswith "|" stripped) &&
           negb (endswith ">" stripped)
        then report
               (issue file_path "yaml-missing-space-after-colon"
                  "Missing space after colon in YAML" "medium"
                  line_num (Some (Z.of_nat colon_pos + 2)) None None
                  ["style"; "formatting"]
                  [("suggestion", PStr "Add a space after the colon")])
               Structure acc
        else acc
      else acc
  | None => acc
  end.

Definition check_indentation (file_path : string) (line_num : Z)
  (line : string) (acc : Acc) : Acc :=
  let leading_spaces := len line - len (lstrip_spaces line) in
  if Z.ltb 20 leading_spaces
  then report
         (issue file_path "yaml-excessive-indentation"
            ("YAML indentation too deep (" +:+ pretty leading_spaces +:+
             " spaces). Consider restructuring.")
            "low" line_num (Some 1) (Some line_num) (Some (leading_spaces + 1))
            ["style"; "readability"]
            [("indentation_level", PInt leading_spaces)])
         Indentation acc
  else acc.

Definition check_trailing (file_path : string) (line_num : Z)
  (line : string) (acc : Acc) : Acc :=
  if endswith " " line
  then report
         (issue file_path "yaml-trailing-whitespace"
            "Trailing whitespace in YAML" "low"
            line_num (Some (len (rstrip line) + 1)) (Some line_num)
            (Some (len line + 1))
            ["style"; "formatting"] [])
         Structure acc
  else acc.

Fixpoint structure_lines (file_path : string) (line_num : Z)
  (lines : list string) (acc : Acc) : Acc :=
  match lines with
  | [] => acc
  | line :: rest =>
      let stripped := strip line in
      let acc :=
        if String.eqb stripped "" || startswith "#" stripped then acc
        else
          check_trailing file_path line_num line
            (check_indentation file_path line_num line
               (check_colon file_path line_num stripped acc)) in
      structure_lines file_path (line_num + 1) rest acc
  end.

Definition _check_yaml_structure (content file_path : string) (acc : Acc)
  : Acc :=
  structure_lines file_path 1 (split newline content) acc.

(** The [except Exception] clause of the loop over the files. *)
Definition file_error (file_path : string) (e : exn) (acc : Acc) : Acc :=
  report
    (issue file_path "yaml-file-error"
       ("Error reading YAML file: " +:+ exn_about e) "critical"
       1 (Some 1) None None ["file"; "access"]
       [("error_type", PStr (exn_type e))])
    Structure acc.

Definition syntax_issue (file_path : string) (e : exn)
  (problem_mark : option (nat * nat)) : Issue :=
  match problem_mark with
  | Some (line, column) =>
      issue file_path "yaml-syntax-error"
        ("YAML syntax error: " +:+ exn_about e) "high"
        (Z.of_nat line + 1) (Some (Z.of_nat column + 1)) None None
        ["syntax"; "parsing"] [("error_type", PStr (exn_type e))]
  | None =>
      issue file_path "yaml-syntax-error"
        ("YAML syntax error: " +:+ exn_about e) "high"
        1 (Some 1) None None
        ["syntax"; "parsing"] [("error_type", PStr (exn_type e))]
  end.

Section Analyze.
Variable env : Env.

(** The body of the loop over the files. *)
Definition check_file (file_path : string) (acc : Acc) : Acc :=
  match getsize env file_path with
  | Raise e => file_error file_path e acc
  | Ret file_size =>
      if Z.eqb file_size 0
      then report
             (issue file_path "yaml-empty-file" "YAML file is empty" "low"
                1 (Some 1) None None ["structure"; "empty"] [])
             Structure acc
      else
        match read_text env file_path with
        | Raise e => file_error file_path e acc
        | Ret content =>
            let acc :=
              if contains (String tab EmptyString) content
              then tab_lines file_path 1 (split newline content) acc
              else acc in
            match safe_load env content with
            | Loaded => _check_yaml_structure content file_path acc
            | YAMLError e problem_mark =>
                _check_yaml_structure content file_path
                  (report (syntax_issue file_path e problem_mark) Syntax acc)
            | Crashed e => file_error file_path e acc
            end
        end
  end.

Definition tool_info : pyval :=
  let rule id name text level :=
    PDict [("id", PStr id); ("name", PStr name);
           ("description", PDict [("text", PStr text)]);
           ("defaultConfiguration", PDict [("level", PStr level)])] in
  PDict
    [("name", PStr "YAML Syntax Validator");
     ("version", PStr "1.0.0");
     ("informationUri", PStr "https://yaml.org/");
     ("rules",
      PList
        [rule "yaml-syntax-error" "YAML Syntax Error"
              "Invalid YAML syntax that prevents parsing" "error";
         rule "yaml-tab-indentation" "Tab Indentation"
              "YAML requires spaces for indentation, not tabs" "error";
         rule "yaml-missing-space-after-colon" "Missing Space After Colon"
              "YAML requires a space after colons in key-value pairs" "warning";
         rule "yaml-excessive-indentation" "Excessive Indentation"
              "YAML indentation is too deep, consider restructuring" "note";
         rule "yaml-trailing-whitespace" "Trailing Whitespace"
              "YAML lines should not end with whitespace" "note"])].

Definition stats_dict (s : Stats) : list (string * Z) :=
  [("syntax_errors", syntax_errors s);
   ("indentation_errors", indentation_errors s);
   ("structure_errors", structure_errors s)].

Definition analyze (files : list string) : PluginResult :=
  let acc := fold_left (fun acc file_path => check_file file_path acc) files
                       (mkAcc [] (mkStats 0 0 0)) in
  mkResult "yaml_syntax" "1.0.0" (found acc)
    (match found acc with
     | [] => None
     | issues => Some (create_sarif_fragment tool_info issues)
     end)
    (stats_dict (stats_of acc)) None (length files) "success" None.

Definition YAMLSyntaxPlugin : QualityPlugin :=
  mkPlugin "yaml_syntax" "1.0.0" [".yaml"; ".yml"]
           (fun files => Ret (analyze files)) tool_info.

End Analyze.

End YamlSyntax.

(** ** Vocabulary for plugin issues *)

(** The counters of a plugin result, added up. *)
Definition stats_total (stats : list (string * Z)) : Z :=
  fold_right Z.add 0 (map snd stats).

(** An issue points at a place: its line is at least 1, its end line, when
    given, is the same line, its column is at least 1 and its end column,
    when given, is not before the column. *)
Definition well_placed (i : Plugins.Issue) : Prop :=
  1 <= qi_start_line (Plugins.seen i) /\
  (qi_end_line (Plugins.seen i) = None \/
   qi_end_line (Plugins.seen i) = Some (qi_start_line (Plugins.seen i))) /\
  exists column,
    qi_start_column (Plugins.seen i) = Some column /\
    1 <= column /\
    forall e, qi_end_column (Plugins.seen i) = Some e -> column <= e.

(** What the YAML plugin keeps true of the issues it has reported so far
    and of its counters, for the files [ok]. *)
Definition tallied (ok : string -> Prop) (acc : YamlSyntax.Acc) : Prop :=
  stats_total (YamlSyntax.stats_dict (YamlSyntax.stats_of acc))
  = Z.of_nat (length (YamlSyntax.found acc)) /\
  Forall (fun i => well_placed i /\
                   plugin_severity (qi_severity (Plugins.seen i)) /\
                   ok (qi_file (Plugins.seen i)) /\
                   dict_get "plugin" (qi_data (Plugins.seen i)) = None)
         (YamlSyntax.found acc).

(** The [region] of the first location of a SARIF result. *)
Definition region_of (result : pyval) : option pyval :=
  match result with
  | PDict d =>
      match dict_get "locations" d with
      | Some (PList (PDict location :: _)) =>
          match dict_get "physicalLocation" location with
          | Some (PDict physical) => dict_get "region" physical
          | _ => None
          end
      | _ => None
      end
  | _ => None
  end.

(** An issue with an end column and no end line, graded with one of the
    agent's own severities. *)
Definition loose_issue : Plugins.Issue :=
  Plugins.mkFull
    (mkIssue "ci.yml" "yaml-syntax-error" "bad" "error" 3 (Some 7) None
             (Some 9) [("tags", PStr "mine")])
    (Some "f00d") ["syntax"].

(** A path the YAML plugin supports. *)
Definition yaml_file (f : string) : bool :=
  endswith ".yaml" f || endswith ".yml" f.

(** The findings the quality agent makes of a plugin result. *)
Definition plugin_findings (r : Plugins.PluginResult)
  : list QualityAgent.QualityFinding :=
  QualityAgent._convert_plugin_issues (map Plugins.seen (Plugins.issues r)).

(** * The connection and its metrics: [connect], [disconnect],
      [get_connection_stats] *)

Module Connection.

(** The dict [connection_metrics]. *)
Record Metrics := mkMetrics {
  connect_count : Z;
  disconnect_count : Z;
  reconnect_count : Z;
  last_connect_time : Q;
  total_connected_duration : Q;
  average_connection_duration : Q;
  failed_connections : Z;
  heartbeat_success_count : Z;
  heartbeat_failure_count : Z;
}.

(** The client with the two fields the connection code adds. *)
Record Link := mkLink {
  peer : Client;
  _connection_start_time : option Q;
  connection_metrics : Metrics;
}.

(** The state at the end of [__init__]. *)
Definition init (name : string) : Link :=
  mkLink (SocketClient.init name) None (mkMetrics 0 0 0 0 0 0 0 0 0).

(** How dialling ends: [socket.socket] raises, [socket.connect] raises, or
    the orchestrator accepts; [wire] tells whether writes to the new socket
    succeed. *)
Inductive Dial := NoSocket | Refused | Accepted (wire : bool).

Definition set_socket (connected sock wire : bool) (c : Client) : Client :=
  mkClient (agent_name c) connected sock wire (active_tasks c)
           (max_active_tasks c) (outbox c).

Definition registration (name : string) (pid : Z) (capabilities : pyval)
  : IPCMessage :=
  mkMsg "registration" "event" None
        (Some (PDict [("agent", PStr name); ("pid", PInt pid);
                      ("version", PStr "1.0.0");
                      ("capabilities", capabilities)])).

Section Connect.
Variable pid : Z.
(** What [_get_capabilities] returns. *)
Variable capabilities : pyval.

Definition _send_registration : M Client bool :=
  c <~ get_state ;;
  send_message (registration (agent_name c) pid capabilities).

(** [connect]; [now] is the reading of the clock after the orchestrator
    accepted.  Only [socket.error] and [OSError] are handled, so what
    [send_message] raises leaves [connect]. *)
Definition connect (now : Q) (dial : Dial) : M Link bool :=
  fun l =>
    match dial with
    | NoSocket =>
        (Ret false,
         mkLink (set_socket false (socket (peer l)) (wire_up (peer l)) (peer l))
                (_connection_start_time l) (connection_metrics l))
    | Refused =>
        (Ret false,
         mkLink (set_socket false true false (peer l))
                (_connection_start_time l) (connection_metrics l))
    | Accepted wire =>
        let m := connection_metrics l in
        let metrics :=
          mkMetrics (connect_count m + 1) (disconnect_count m)
                    (reconnect_count m) now (total_connected_duration m)
                    (average_connection_duration m) (failed_connections m)
                    (heartbeat_success_count m) (heartbeat_failure_count m) in
        match _send_registration (set_socket true true wire (peer l)) with
        | (Ret _, c) => (Ret true, mkLink c (Some now) metrics)
        | (Raise e, c) => (Raise e, mkLink c (Some now) metrics)
        end
    end.
End Connect.

(** The truth value of a float. *)
Definition float_truthy (x : Q) : bool := negb (Qeq_bool x 0).

Definition started (start : option Q) : option Q :=
  match start with
  | Some t => if float_truthy t then Some t else None
  | None => None
  end.

(** [disconnect]; [now] is the reading of the clock, taken only when there
    is a socket and a start time.  Whatever closing the socket raises is
    handled. *)
Definition disconnect (now : Q) (l : Link) : Link :=
  let m := connection_metrics l in
  let m :=
    match socket (peer l), started (_connection_start_time l) with
    | true, Some start =>
        let connection_duration := (now - start)%Q in
        let total := (total_connected_duration m + connection_duration)%Q in
        mkMetrics (connect_count m) (disconnect_count m) (reconnect_count m)
                  (last_connect_time m) total
                  (if Z.ltb 0 (disconnect_count m)
                   then (total / inject_Z (disconnect_count m))%Q
                   else average_connection_duration m)
                  (failed_connections m) (heartbeat_success_count m)
                  (heartbeat_failure_count m)
    | _, _ => m
    end in
  mkLink (set_socket false false (wire_up (peer l)) (peer l)) None
         (mkMetrics (connect_count m) (disconnect_count m + 1)
                    (reconnect_count m) (last_connect_time m)
                    (total_connected_duration m)
                    (average_connection_duration m) (failed_connections m)
                    (heartbeat_success_count m) (heartbeat_failure_count m)).

(** [max(x, 1)] *)
Definition at_least_one (x : Q) : Q := if Qltb x 1 then 1%Q else x.

(** What [get_connection_stats] adds to the copy of the metrics. *)
Record Stats := mkStats {
  copied : Metrics;
  current_connection_duration : Q;
  stats_is_connected : bool;
  connection_uptime_percent : Q;
  heartbeat_success_rate : Q;
}.

(** [get_connection_stats]; [now1] and [now2] are the two readings of the
    clock, the first taken only for a connected client with a start time. *)
Definition get_connection_stats (now1 now2 : Q) (l : Link) : Stats :=
  let m := connection_metrics l in
  let current :=
    match started (_connection_start_time l) with
    | Some start => if is_connected (peer l) then (now1 - start)%Q else 0%Q
    | None => 0%Q
    end in
  mkStats m current (is_connected (peer l))
    (if float_truthy (last_connect_time m)
     then ((total_connected_duration m + current)
           / at_least_one (now2 - last_connect_time m) * 100)%Q
     else 0%Q)
    (inject_Z (heartbeat_success_count m)
     / inject_Z (Z.max (heartbeat_success_count m + heartbeat_failure_count m) 1)
     * 100)%Q.

End Connection.

(** ** Vocabulary for the connection *)

(** The calls a client's owner makes, with what the environment answers. *)
Inductive Call :=
| CallConnect (now : Q) (dial : Connection.Dial)
| CallDisconnect (now : Q).

Definition call (pid : Z) (capabilities : pyval) (l : Connection.Link)
  (c : Call) : Connection.Link :=
  match c with
  | CallConnect now dial => snd (Connection.connect pid capabilities now dial l)
  | CallDisconnect now => Connection.disconnect now l
  end.

Definition calls (pid : Z) (capabilities : pyval) (cs : list Call)
  (l : Connection.Link) : Connection.Link :=
  fold_left (call pid capabilities) cs l.

Definition is_accepted (c : Call) : bool :=
  match c with CallConnect _ (Connection.Accepted _) => true | _ => false end.
Definition is_disconnect (c : Call) : bool :=
  match c with CallDisconnect _ => true | _ => false end.

(** A connection that lasted from [fst] to [snd]: accepted on a working
    socket, then closed. *)
Definition session (times : Q * Q) : list Call :=
  [CallConnect (fst times) (Connection.Accepted true);
   CallDisconnect (snd times)].

Definition sessions (ts : list (Q * Q)) : list Call := flat_map session ts.

(** The time the sessions lasted, added up as [disconnect] adds it. *)
Definition time_connected (ts : list (Q * Q)) : Q :=
  fold_left (fun total times => (total + (snd times - fst times))%Q) ts 0%Q.

(** * The command-line agents, continued: the SARIF report, the summary
      and [main] *)

Module CliReport.

(** The [sarif_om] objects the agents build, with the attributes they set.
    An attribute that is not passed to the constructor is [None]. *)
Record Region := mkRegion {
  start_line : pyval;
  start_column : pyval;
  end_line : pyval;
  end_column : pyval;
}.

(** A [Location] with its [PhysicalLocation] and [ArtifactLocation]. *)
Record Location := mkLocation { uri : pyval; region : Region }.

(** A [Result] with the text of its [Message]. *)
Record Result := mkResult {
  rule_id : pyval;
  level : string;
  text : pyval;
  locations : list Location;
}.

Record ToolComponent := mkTool {
  name : string;
  version : pyval;
  information_uri : pyval;
}.

(** A [Run] with the driver of its [Tool]. *)
Record Run := mkRun { driver : ToolComponent; results : list Result }.

(** The [SarifLog] that [_generate_sarif_report] fills. *)
Record Report := mkReport { report_version : pyval; runs : list Run }.

Definition _location_to_dict (location : Location) : pyval :=
  let r := region location in
  let region_dict :=
    [("start_line", start_line r); ("start_column", start_column r)] ++
    (if py_truthy (end_line r) then [("end_line", end_line r)] else []) ++
    (if py_truthy (end_column r) then [("end_column", end_column r)] else []) in
  PDict [("physical_location",
          PDict ([("artifact_location", PDict [("uri", uri location)])] ++
                 match region_dict with
                 | [] => []
                 | _ => [("region", PDict region_dict)]
                 end))].

Definition _result_to_dict (result : Result) : pyval :=
  PDict [("rule_id", rule_id result);
         ("level", PStr (if String.eqb (level result) "" then "note"
                         else level result));
         ("message", PDict [("text", text result)]);
         ("locations",
          match locations result with
          | [] => PList []
          | ls => PList (map _location_to_dict ls)
          end)].

Definition _run_to_dict (run : Run) : pyval :=
  PDict [("tool",
          PDict [("driver",
                  PDict [("name", PStr (name (driver run)));
                         ("version", version (driver run));
                         ("information_uri", information_uri (driver run))])]);
         ("results", PList (map _result_to_dict (results run)))].

(** The dict [_generate_sarif_report] returns for the log it has filled. *)
Definition report_dict (report : Report) : pyval :=
  PDict [("$schema", PStr "https://json.schemastore.org/sarif-2.1.0");
         ("version", report_version report);
         ("runs", PList (map _run_to_dict (runs report)))].

(** The functions the two agents share word for word; they differ in the
    table of tools, in the conversion of a finding and in the name of one
    key of the summary. *)
Section Report.
Variable _get_tool_info : string -> ToolComponent.
Variable _finding_to_sarif_result : string -> pyval -> option Result.
Variable duration_key : string.

Definition _create_sarif_run (tool_name : string) (tool_results : ToolRun)
  : outcome Run :=
  let findings :=
    match tool_results with
    | Success findings _ _ => findings
    | Failure _ => PList []
    end in
  try! items := py_iter findings in
  Ret (mkRun (_get_tool_info tool_name)
             (omap (_finding_to_sarif_result tool_name) items)).

(** The loop over [results["findings"].items()]. *)
Fixpoint successful_runs (findings : list (string * ToolRun))
  : outcome (list Run) :=
  match findings with
  | [] => Ret []
  | (tool_name, tool_results) :: rest =>
      match tool_results with
      | Failure _ => successful_runs rest
      | Success _ _ _ =>
          try! run := _create_sarif_run tool_name tool_results in
          try! more := successful_runs rest in
          Ret (run :: more)
      end
  end.

Definition _generate_sarif_report (version : pyval)
  (findings : list (string * ToolRun)) : outcome Report :=
  try! runs := successful_runs findings in
  Ret (mkReport version runs).

(** [_generate_summary]; [stamp] is the wall-clock string. *)
Definition _generate_summary (findings : list (string * ToolRun))
  (tools_used : list string) (stamp : string) : pyval :=
  let total_findings :=
    fold_left
      (fun total entry =>
         match snd entry with
         | Success _ findings_count _ => total + findings_count
         | Failure _ => total
         end)
      findings 0 in
  let tool_summaries :=
    fold_left
      (fun summaries entry =>
         match snd entry with
         | Success _ findings_count _ =>
             dict_set (fst entry) (PInt findings_count) summaries
         | Failure error =>
             dict_set (fst entry) (PDict [("error", error)]) summaries
         end)
      findings [] in
  PDict [("total_findings", PInt total_findings);
         ("tools_summary", PDict tool_summaries);
         (duration_key, PStr stamp);
         ("tools_used", PList (map PStr tools_used))].
End Report.

(** The values of the dict an analysis returns. *)
Inductive Part :=
| Info (path timestamp : string) (tools_used : list string)
| Findings (found : list (string * ToolRun))
| Sarif (report : Report)
| Plain (v : pyval).

(** [--format] *)
Inductive Format := Text | Json | SarifFormat.

(** What [main] hands to [print] or writes to the output file:
    [json.dumps] of the whole result, [json.dumps] of one value, or [str]
    of a value. *)
Inductive Dump :=
| DumpResults (results : list (string * Part))
| DumpPart (p : Part)
| DumpStr (v : pyval).

(** How [main] ends: it prints, it writes the file, or it reports the
    exception and exits with status 1. *)
Inductive Ended :=
| Printed (what : Dump)
| Written (file : string) (what : Dump)
| ExitOne (e : exn).

(** The last two steps of [main]: formatting and output.  [open_error] is
    what opening the output file raises, if it does. *)
Definition emit (format : Format) (output : option string)
  (open_error : option exn) (results : list (string * Part)) : Ended :=
  let what :=
    match format with
    | Json => DumpResults results
    | SarifFormat =>
        DumpPart (default (Plain (PDict [])) (dict_get "sarif" results))
    | Text =>
        match default (Plain (PDict [])) (dict_get "summary" results) with
        | Plain (PDict d) => DumpPart (Plain (PDict d))
        | Plain v => DumpStr v
        | summary => DumpPart summary
        end
    end in
  match output with
  | None | Some "" => Printed what
  | Some file =>
      match open_error with
      | Some e => ExitOne e
      | None => Written file what
      end
  end.

End CliReport.

Module QualityCliReport.
Import CliReport QualityCli.

Definition _get_tool_info (tool_name : string) : ToolComponent :=
  default (mkTool tool_name PNone PNone)
    (dict_get tool_name
       [("ruff", mkTool "ruff" (PStr "0.13.1")
                        (PStr "https://github.com/astral-sh/ruff"));
        ("eslint", mkTool "eslint" (PStr "9.34.0") (PStr "https://eslint.org"));
        ("lizard", mkTool "lizard" (PStr "1.18.0")
                          (PStr "https://github.com/terryyin/lizard"))]).

Definition _create_ruff_location (finding : pyval) : outcome Location :=
  try! location_info := py_get finding "location" (PDict []) in
  try! filename := py_get finding "filename" (PStr "") in
  try! row := py_get location_info "row" (PInt 1) in
  try! column := py_get location_info "column" (PInt 1) in
  try! end_row := py_get location_info "end_row" row in
  try! end_column := py_get location_info "end_column" column in
  Ret (mkLocation filename (mkRegion row column end_row end_column)).

Definition _ruff_to_sarif (finding : pyval) : outcome Result :=
  try! fixed := py_get finding "fix" PNone in
  let fix_info := if py_truthy fixed then fixed else PDict [] in
  try! availability := py_get fix_info "availability" (PStr "") in
  let level := _rule_level_to_level availability in
  try! code := py_get finding "code" (PStr "") in
  try! message := py_get finding "message" (PStr "") in
  try! location := _create_ruff_location finding in
  Ret (mkResult code level message [location]).

Definition _create_eslint_location (finding : pyval) : outcome Location :=
  try! file_path := py_get finding "filePath" (PStr "") in
  try! line := py_get finding "line" (PInt 1) in
  try! column := py_get finding "column" (PInt 1) in
  try! end_line := py_get finding "endLine" line in
  try! end_column := py_get finding "endColumn" column in
  Ret (mkLocation file_path (mkRegion line column end_line end_column)).

Definition _eslint_to_sarif (finding : pyval) : outcome Result :=
  try! severity := py_get finding "severity" (PStr "error") in
  let level := _severity_to_level severity in
  try! rule := py_get finding "ruleId" (PStr "") in
  try! message := py_get finding "message" (PStr "") in
  try! location := _create_eslint_location finding in
  Ret (mkResult rule level message [location]).

Definition _create_lizard_location (finding : pyval) : outcome Location :=
  try! file := py_get finding "file" (PStr "") in
  try! line := py_get finding "line" (PInt 1) in
  Ret (mkLocation file (mkRegion line (PInt 1) line (PInt 1000))).

(** [v > 15] *)
Definition above_15 (v : pyval) : outcome bool :=
  match v with
  | PInt z => Ret (Z.ltb 15 z)
  | PFloat q => Ret (Qltb 15 q)
  | PBool _ => Ret false
  | _ => Raise (type_error "'>' not supported between these operands")
  end.

Definition _lizard_to_sarif (finding : pyval) : outcome Result :=
  try! complexity := py_get finding "cyclomatic_complexity" (PInt 0) in
  try! high := above_15 complexity in
  let level := if high then "warning" else "note" in
  try! name := py_get finding "name" (PStr "") in
  try! location := _create_lizard_location finding in
  Ret (mkResult (PStr "complexity") level
         (PFmt "Function '{finding.get('name', '')}' has high cyclomatic complexity: {finding.get('cyclomatic_complexity', 0)}"
               [name; complexity])
         [location]).

Definition _finding_to_sarif_result (tool_name : string) (finding : pyval)
  : option Result :=
  let converted :=
    if String.eqb tool_name "ruff" then Some (_ruff_to_sarif finding)
    else if String.eqb tool_name "eslint" then Some (_eslint_to_sarif finding)
    else if String.eqb tool_name "lizard" then Some (_lizard_to_sarif finding)
    else None in
  match converted with
  | Some (Ret result) => Some result
  | Some (Raise _) | None => None
  end.

Definition _generate_sarif_report :=
  CliReport._generate_sarif_report _get_tool_info _finding_to_sarif_result.
Definition _generate_summary :=
  CliReport._generate_summary "analysis_duration".

(** The entries of [self.config] that [analyze_directory] reads. *)
Record Config := mkConfig {
  ruff_enabled : pyval;
  eslint_enabled : pyval;
  lizard_enabled : pyval;
  output_version : pyval;
}.

Definition _get_default_config : Config :=
  mkConfig (PBool true) (PBool true) (PBool true) (PStr "2.1.0").

(** What one call of [analyze_directory] meets: the resolved path and
    whether it exists, the two wall-clock strings, and what the three
    runners return. *)
Record World := mkWorld {
  resolved : string;
  path_exists : bool;
  timestamp : string;
  ruff_results : ToolRun;
  eslint_results : ToolRun;
  lizard_results : ToolRun;
  summary_stamp : string;
}.

(** One tool of [analyze_directory]: the entry of [findings] and of
    [tools_used]. *)
Definition run_tool (enabled : pyval) (tool_name : string) (r : ToolRun)
  (acc : list (string * ToolRun) * list string)
  : list (string * ToolRun) * list string :=
  if py_truthy enabled
  then (dict_set tool_name r (fst acc), snd acc ++ [tool_name])
  else acc.

(** [analyze_directory].  The loop that rewrites the dict of a failed tool
    keeps its [success] and its [error], the two keys read afterwards. *)
Definition analyze_directory (config : Config) (w : World)
  : outcome (list (string * Part)) :=
  if negb (path_exists w)
  then Raise (Exn "ValueError"
                  ("Analysis path does not exist: " +:+ resolved w))
  else
    let acc := run_tool (ruff_enabled config) "ruff" (ruff_results w) ([], []) in
    let acc := run_tool (eslint_enabled config) "eslint" (eslint_results w) acc in
    let acc := run_tool (lizard_enabled config) "lizard" (lizard_results w) acc in
    let (findings, tools_used) := acc in
    try! report := _generate_sarif_report (output_version config) findings in
    Ret [("analysis_info", Info (resolved w) (timestamp w) tools_used);
         ("findings", Findings findings);
         ("sarif_report", Sarif report);
         ("summary",
          Plain (_generate_summary findings tools_used (summary_stamp w)))].

(** [main], for the arguments [--format] and [--output]. *)
Definition main (format : Format) (output : option string)
  (open_error : option exn) (w : World) : Ended :=
  match analyze_directory _get_default_config w with
  | Raise e => ExitOne e
  | Ret results => emit format output open_error results
  end.

End QualityCliReport.

Module SecurityCliReport.
Import CliReport.

Definition _get_tool_info (tool_name : string) : ToolComponent :=
  default (mkTool tool_name PNone PNone)
    (dict_get tool_name
       [("semgrep", mkTool "semgrep" (PStr "1.142.0")
                           (PStr "https://semgrep.dev"));
        ("gitleaks", mkTool "gitleaks" (PStr "8.28.0")
                            (PStr "https://github.com/zricethezav/gitleaks"));
        ("osv_scanner", mkTool "osv_scanner" (PStr "2.2.4")
                               (PStr "https://osv.dev"))]).

(** [self._severity_to_level(v)]: [v.upper()] is defined on strings only. *)
Definition level_of (severity : pyval) : outcome string :=
  match severity with
  | PStr s => Ret (SecurityCli._severity_to_level s)
  | _ => Raise (attribute_error "object has no attribute 'upper'")
  end.

Definition _create_location (file_path position : pyval) : outcome Location :=
  try! line := py_get position "line" (PInt 1) in
  try! col := py_get position "col" (PInt 1) in
  Ret (mkLocation file_path (mkRegion line col line col)).

Definition _create_location_from_file_line (file_path line : pyval)
  : Location :=
  mkLocation file_path (mkRegion line (PInt 1) line (PInt 1000)).

Definition _create_generic_location : Location :=
  mkLocation (PStr "project_root") (mkRegion (PInt 1) (PInt 1) PNone PNone).

Definition _semgrep_to_sarif (finding : pyval) : outcome Result :=
  try! meta := py_get finding "metadata" PNone in
  let metadata := if py_truthy meta then meta else PDict [] in
  try! severity := py_get metadata "severity" (PStr "") in
  try! level := level_of severity in
  try! check_id := py_get finding "check_id" (PStr "") in
  try! message := py_get finding "message" (PStr "") in
  try! path := py_get finding "path" (PStr "") in
  try! start := py_get finding "start" (PDict []) in
  try! location := _create_location path start in
  Ret (mkResult check_id level message [location]).

Definition _gitleaks_to_sarif (finding : pyval) : outcome Result :=
  try! rule := py_get finding "rule" (PStr "") in
  try! message := py_get finding "message" (PStr "") in
  try! file := py_get finding "file" (PStr "") in
  try! start_line := py_get finding "start_line" (PInt 1) in
  Ret (mkResult rule "error" message
                [_create_location_from_file_line file start_line]).

Definition _osv_to_sarif (finding : pyval) : outcome Result :=
  try! severity := py_get finding "severity" (PStr "MEDIUM") in
  try! level := level_of severity in
  try! id := py_get finding "id" (PStr "") in
  try! summary := py_get finding "summary" (PStr "") in
  Ret (mkResult id level summary [_create_generic_location]).

Definition _finding_to_sarif_result (tool_name : string) (finding : pyval)
  : option Result :=
  let converted :=
    if String.eqb tool_name "semgrep" then Some (_semgrep_to_sarif finding)
    else if String.eqb tool_name "gitleaks"
    then Some (_gitleaks_to_sarif finding)
    else if String.eqb tool_name "osv_scanner"
    then Some (_osv_to_sarif finding)
    else None in
  match converted with
  | Some (Ret result) => Some result
  | Some (Raise _) | None => None
  end.

Definition _generate_sarif_report :=
  CliReport._generate_sarif_report _get_tool_info _finding_to_sarif_result.
Definition _generate_summary :=
  CliReport._generate_summary "scan_duration".

(** The second loop of [_merge_sarif_reports]: the runs of the second
    report whose tool was not seen yet. *)
Fixpoint unique_runs (seen_tool_names : list string) (runs2 : list Run)
  : list Run :=
  match runs2 with
  | [] => []
  | run :: rest =>
      let tool_name := name (driver run) in
      if str_in tool_name seen_tool_names
      then unique_runs seen_tool_names rest
      else run :: unique_runs (seen_tool_names ++ [tool_name]) rest
  end.

(** [_merge_sarif_reports], on the reports [main] passes to it: both were
    built by [_generate_sarif_report], so both have [runs], every run has
    a tool, a driver and a name, and nothing raises. *)
Definition _merge_sarif_reports (report1 report2 : Report) : Report :=
  let seen_tool_names := map (fun run => name (driver run)) (runs report1) in
  mkReport (report_version report1)
           (runs report1 ++ unique_runs seen_tool_names (runs report2)).

(** The entries of [self.config] that [scan_directory] reads. *)
Record Config := mkConfig {
  semgrep_enabled : pyval;
  gitleaks_enabled : pyval;
  osv_scanner_enabled : pyval;
  output_version : pyval;
}.

Definition _get_default_config : Config :=
  mkConfig (PBool true) (PBool true) (PBool true) (PStr "2.1.0").

Record World := mkWorld {
  resolved : string;
  path_exists : bool;
  timestamp : string;
  semgrep_results : ToolRun;
  gitleaks_results : ToolRun;
  osv_results : ToolRun;
  summary_stamp : string;
}.

Definition run_tool (enabled : pyval) (tool_name : string) (r : ToolRun)
  (acc : list (string * ToolRun) * list string)
  : list (string * ToolRun) * list string :=
  if py_truthy enabled
  then (dict_set tool_name r (fst acc), snd acc ++ [tool_name])
  else acc.

Definition scan_directory (config : Config) (w : World)
  : outcome (list (string * Part)) :=
  if negb (path_exists w)
  then Raise (Exn "ValueError" ("Scan path does not exist: " +:+ resolved w))
  else
    let acc := run_tool (semgrep_enabled config) "semgrep"
                        (semgrep_results w) ([], []) in
    let acc := run_tool (gitleaks_enabled config) "gitleaks"
                        (gitleaks_results w) acc in
    let acc := run_tool (osv_scanner_enabled config) "osv_scanner"
                        (osv_results w) acc in
    let (findings, tools_used) := acc in
    try! report := _generate_sarif_report (output_version config) findings in
    Ret [("scan_info", Info (resolved w) (timestamp w) tools_used);
         ("findings", Findings findings);
         ("sarif_report", Sarif report);
         ("summary",
          Plain (_generate_summary findings tools_used (summary_stamp w)))].

(** The block of [main] under [if args.root_scope:], after the second
    scan returned. *)
Definition merge_root (results root_results : list (string * Part))
  : list (string * Part) :=
  match dict_get "findings" root_results with
  | Some (Findings root_found) =>
      match dict_get "osv_scanner" root_found with
      | Some root_osv =>
          let found :=
            match dict_get "findings" results with
            | Some (Findings found) => found
            | _ => []
            end in
          let results :=
            dict_set "findings" (Findings (dict_set "osv_scanner" root_osv found))
                     results in
          match dict_get "sarif_report" results,
                dict_get "sarif_report" root_results with
          | Some (Sarif report1), Some (Sarif report2) =>
              dict_set "sarif_report"
                       (Sarif (_merge_sarif_reports report1 report2)) results
          | _, _ => results
          end
      | None => results
      end
  | _ => results
  end.

(** [main]; [root] is the world of the second scan, for a non-empty
    [--root-scope]. *)
Definition main (format : Format) (output : option string)
  (open_error : option exn) (w : World) (root : option World) : Ended :=
  match scan_directory _get_default_config w with
  | Raise e => ExitOne e
  | Ret main_results =>
      match root with
      | None => emit format output open_error main_results
      | Some root_world =>
          match scan_directory _get_default_config root_world with
          | Raise e => ExitOne e
          | Ret root_results =>
              emit format output open_error
                   (merge_root main_results root_results)
          end
      end
  end.

End SecurityCliReport.

(** ** Vocabulary for the command-line reports *)

Definition succeeded (r : ToolRun) : bool :=
  match r with Success _ _ _ => true | Failure _ => false end.

(** The tools of a dict of findings that succeeded, in order. *)
Definition successful_tools (findings : list (string * ToolRun))
  : list string :=
  map fst (List.filter (fun entry => succeeded (snd entry)) findings).

(** The number of findings a tool handed over, when they can be counted. *)
Definition handed_over (r : ToolRun) : nat :=
  match r with
  | Success findings _ _ =>
      match py_iter findings with Ret items => length items | Raise _ => 0 end
  | Failure _ => 0%nat
  end.

Definition tool_names (report : CliReport.Report) : list string :=
  map (fun run => CliReport.name (CliReport.driver run))
      (CliReport.runs report).

(** A result with a SARIF level and one location. *)
Definition levelled (r : CliReport.Result) : Prop :=
  In (CliReport.level r) sarif_levels /\
  length (CliReport.locations r) = 1%nat.

(** The findings of a tool can be looped over. *)
Definition iterable (r : ToolRun) : Prop :=
  match r with
  | Success findings _ _ => exists items, py_iter findings = Ret items
  | Failure _ => True
  end.

(** The sum of what the successful tools counted. *)
Definition counted_by_tools (findings : list (string * ToolRun)) : Z :=
  fold_right Z.add 0
    (map (fun entry => match snd entry with
                       | Success _ n _ => n
                       | Failure _ => 0
                       end) findings).

(** The entry of a tool in [tools_summary]: its count, or its error. *)
Definition tool_summary (r : ToolRun) : pyval :=
  match r with
  | Success _ findings_count _ => PInt findings_count
  | Failure error => PDict [("error", error)]
  end.

(** Scenarios: a path where every tool times out, one where Semgrep finds
    nothing and the OSV scanner one vulnerability, and a root scope with
    another one. *)
Definition timed_out : ToolRun := Failure (PStr "Analysis timed out").

Definition quality_all_failed : QualityCliReport.World :=
  QualityCliReport.mkWorld "/repo" true "2025-01-01T00:00:00"
    timed_out timed_out timed_out "2025-01-01T00:01:00".

Definition osv_finding (id : string) : pyval :=
  PDict [("id", PStr id); ("severity", PStr "HIGH");
         ("summary", PStr "vulnerable dependency")].

Definition security_app : SecurityCliReport.World :=
  SecurityCliReport.mkWorld "/repo/app" true "2025-01-01T00:00:00"
    (Success (PList []) 0 None) (Failure (PStr "Scan timed out"))
    (Success (PList [osv_finding "OSV-1"]) 1 None) "2025-01-01T00:01:00".

Definition security_root : SecurityCliReport.World :=
  SecurityCliReport.mkWorld "/repo" true "2025-01-01T00:02:00"
    (Success (PList []) 0 None) (Success (PList []) 0 None)
    (Success (PList [osv_finding "OSV-2"; osv_finding "OSV-3"]) 2 None)
    "2025-01-01T00:03:00".

(** * The TypeScript plugin: [plugins/typescript_syntax.py] *)

Module TypeScriptSyntax.
Import Plugins.

(** One match of [error_pattern] in the compiler's output: the groups 1 to
    6, the two numbers already read with [int], and the whole match. *)
Record Match := mkMatch {
  m_file : string;
  m_line : Z;
  m_col : Z;
  m_severity : string;
  m_code : string;
  m_message : string;
  m_all : string;
}.

(** How running [tsc] ends: it exits, it runs out of time, or starting it
    or talking to it raises. *)
Inductive TscRun :=
| TscDone (stdout stderr : string)
| TscTimeout
| TscRaised (e : exn).

(** The same for [node --check]. *)
Inductive NodeRun :=
| NodeDone (returncode : Z) (stderr : string)
| NodeTimeout
| NodeRaised (e : exn).

(** The processes, the regular expressions and the file system. *)
Record Env := mkEnv {
  tsc : list string -> TscRun;
  (** [context.timeout_seconds] as the f-string prints it *)
  timeout_text : string;
  (** [error_pattern.finditer] *)
  finditer : string -> list Match;
  normpath : string -> string;
  path_exists : string -> bool;
  samefile : string -> string -> outcome bool;
  node : string -> NodeRun;
  (** [re.search(r'([^:]+):(\d+)', stderr)]: the file and the line *)
  search : string -> option (string * Z);
}.

Definition is_file_not_found (e : exn) : bool :=
  String.eqb (exn_type e) "FileNotFoundError".

(** [any(os.path.samefile(file_path, f) for f in files
         if os.path.exists(file_path))] *)
Fixpoint any_samefile (env : Env) (file_path : string) (files : list string)
  : outcome bool :=
  match files with
  | [] => Ret false
  | f :: rest =>
      if path_exists env file_path
      then try! same := samefile env file_path f in
           if same then Ret true else any_samefile env file_path rest
      else any_samefile env file_path rest
  end.

(** The severity and the rule of an error code. *)
Definition classify (error_code : string) : string * string :=
  if str_in error_code ["2304"; "2307"; "2552"]
  then ("high", "ts-type-" +:+ error_code)
  else if startswith "23" error_code
  then ("high", "ts-type-" +:+ error_code)
  else if str_in error_code ["1002"; "1003"; "1005"; "1108"]
  then ("critical", "ts-syntax-" +:+ error_code)
  else ("medium", "ts-general-" +:+ error_code).

Definition tsc_issue (file_path : string) (m : Match) : Issue :=
  issue file_path (snd (classify (m_code m))) (strip (m_message m))
        (fst (classify (m_code m))) (m_line m) (Some (m_col m)) None None
        ["typescript"; lower (m_code m)]
        [("error_code", PStr (m_code m)); ("compiler_output", PStr (m_all m))].

(** The loop of [_parse_tsc_output]: what [samefile] raises leaves it. *)
Fixpoint parse_matches (env : Env) (files : list string) (ms : list Match)
  : outcome (list Issue) :=
  match ms with
  | [] => Ret []
  | m :: rest =>
      let file_path := normpath env (strip (m_file m)) in
      try! ours := any_samefile env file_path files in
      try! more := parse_matches env files rest in
      Ret ((if ours then [tsc_issue file_path m] else []) ++ more)
  end.

Definition _parse_tsc_output (env : Env) (output : string)
  (files : list string) : outcome (list Issue) :=
  parse_matches env files (finditer env output).

(** The two outer handlers of [_analyze_typescript_files]. *)
Definition ts_exception (e : exn) : Issue :=
  if is_file_not_found e
  then issue "tool-error" "ts-missing-tool"
         "TypeScript compiler (tsc) not found. Install with: npm install -g typescript"
         "critical" 1 (Some 1) None None ["missing-tool"; "setup"]
         [("installation_command", PStr "npm install -g typescript")]
  else issue "process-error" "ts-process-error"
         ("Error running TypeScript compiler: " +:+ exn_about e)
         "high" 1 (Some 1) None None ["process"; "error"] [].

Definition _analyze_typescript_files (env : Env) (files : list string)
  : list Issue :=
  match tsc env files with
  | TscRaised e => [ts_exception e]
  | TscTimeout =>
      [issue "timeout-error" "ts-syntax-timeout"
         ("TypeScript syntax analysis timed out after " +:+ timeout_text env
          +:+ "s")
         "high" 1 (Some 1) None None ["timeout"; "performance"] []]
  | TscDone stdout stderr =>
      let from_stderr :=
        if negb (String.eqb stderr "")
        then _parse_tsc_output env stderr files
        else Ret [] in
      match from_stderr with
      | Raise e => [ts_exception e]
      | Ret issues =>
          if negb (String.eqb stdout "") && contains "error" (lower stdout)
          then match _parse_tsc_output env stdout files with
               | Raise e => issues ++ [ts_exception e]
               | Ret more => issues ++ more
               end
          else issues
      end
  end.

(** The body of the loop of [_analyze_javascript_files]. *)
Definition check_js (env : Env) (file_path : string) : list Issue :=
  match node env file_path with
  | NodeDone returncode stderr =>
      if Z.eqb returncode 0 then []
      else
        let (error_file, line_num) :=
          default (file_path, 1) (search env stderr) in
        [issue error_file "js-syntax-error"
           ("JavaScript syntax error: " +:+ strip stderr)
           "high" line_num (Some 1) None None ["syntax"; "javascript"] []]
  | NodeTimeout =>
      [issue file_path "js-syntax-timeout"
         "JavaScript syntax analysis timed out"
         "medium" 1 (Some 1) None None ["timeout"] []]
  | NodeRaised e =>
      if is_file_not_found e
      then [issue "tool-error" "js-missing-tool"
              "Node.js not found. Install Node.js to check JavaScript syntax"
              "critical" 1 (Some 1) None None ["missing-tool"; "setup"] []]
      else [issue file_path "js-process-error"
              ("Error checking JavaScript syntax: " +:+ exn_about e)
              "medium" 1 (Some 1) None None ["process"; "error"] []]
  end.

Definition _analyze_javascript_files (env : Env) (files : list string)
  : list Issue :=
  flat_map (check_js env) files.

Definition tool_info : pyval :=
  let rule id name text :=
    PDict [("id", PStr id); ("name", PStr name);
           ("description", PDict [("text", PStr text)]);
           ("defaultConfiguration", PDict [("level", PStr "error")])] in
  PDict
    [("name", PStr "TypeScript Syntax Validator");
     ("version", PStr "1.0.0");
     ("informationUri", PStr "https://www.typescriptlang.org/");
     ("rules",
      PList
        [rule "ts-syntax-error" "TypeScript Syntax Error"
              "TypeScript syntax error that prevents compilation";
         rule "ts-type-error" "TypeScript Type Error"
              "TypeScript type checking error";
         rule "js-syntax-error" "JavaScript Syntax Error"
              "JavaScript syntax error"])].

(** [len([i for i in issues if test(i.rule_id)])] *)
Definition count_rules (test : string -> bool) (issues : list Issue) : Z :=
  Z.of_nat (length (List.filter (fun i => test (qi_rule_id (seen i))) issues)).

(** [analyze].  The two analyses handle whatever is raised in them, so the
    handler of [analyze] itself has nothing to catch. *)
Definition analyze (env : Env) (files : list string) : PluginResult :=
  let ts_files :=
    List.filter (fun f => endswith ".ts" f || endswith ".tsx" f) files in
  let js_files :=
    List.filter
      (fun f => endswith ".js" f || endswith ".jsx" f || endswith ".mjs" f ||
                endswith ".cjs" f) files in
  let ts_issues :=
    match ts_files with
    | [] => []
    | _ => _analyze_typescript_files env ts_files
    end in
  let js_issues :=
    match js_files with
    | [] => []
    | _ => _analyze_javascript_files env js_files
    end in
  let issues := ts_issues ++ js_issues in
  mkResult "typescript_syntax" "1.0.0" issues
    (match issues with
     | [] => None
     | _ => Some (create_sarif_fragment tool_info issues)
     end)
    [("syntax_errors",
      0 + count_rules (String.eqb "ts-syntax-error") ts_issues
        + count_rules (String.eqb "js-syntax-error") js_issues);
     ("type_errors", 0 + count_rules (startswith "ts-type") ts_issues);
     ("semantic_errors", 0);
     ("files_processed", Z.of_nat (length files))]
    None (length files) "success" None.

Definition TypeScriptSyntaxPlugin (env : Env) : QualityPlugin :=
  mkPlugin "typescript_syntax" "1.0.0"
           [".ts"; ".tsx"; ".js"; ".jsx"; ".mjs"; ".cjs"]
           (fun files => Ret (analyze env files)) tool_info.

End TypeScriptSyntax.

(** ** Vocabulary for the TypeScript plugin *)

Definition is_digit (a : Ascii.ascii) : bool :=
  let n := Ascii.nat_of_ascii a in Nat.leb 48 n && Nat.leb n 57.

(** The codes the pattern [TS(\d+)] captures. *)
Definition digits (s : string) : Prop :=
  Forall (fun a => is_digit a = true) (String.list_ascii_of_string s).

(** The regular expression engine gives matches of the pattern. *)
Definition codes_are_digits (env : TypeScriptSyntax.Env) : Prop :=
  forall output m,
    In m (TypeScriptSyntax.finditer env output) ->
    digits (TypeScriptSyntax.m_code m).

Definition rule_of (i : Plugins.Issue) : string := qi_rule_id (Plugins.seen i).

(** A compiler that reports a missing semicolon and a type error in the
    one file it is given, and a [node] that finds nothing. *)
Definition tsc_two_errors : TypeScriptSyntax.Env :=
  TypeScriptSyntax.mkEnv
    (fun _ => TypeScriptSyntax.TscDone ""
                "a.ts(1,9): error TS1005: ';' expected.")
    "30"
    (fun output =>
       if String.eqb output "" then []
       else [TypeScriptSyntax.mkMatch "a.ts" 1 9 "error" "1005"
               "';' expected." "a.ts(1,9): error TS1005: ';' expected.";
             TypeScriptSyntax.mkMatch "a.ts" 2 1 "error" "2304"
               "Cannot find name 'x'."
               "a.ts(2,1): error TS2304: Cannot find name 'x'."])
    (fun p => p) (fun _ => true) (fun _ _ => Ret true)
    (fun _ => TypeScriptSyntax.NodeDone 0 "") (fun _ => None).

(** The rules the TypeScript half of the plugin can give an issue, and
    those of the JavaScript half. *)
Definition ts_rule (r : string) : Prop :=
  r = "ts-missing-tool" \/ r = "ts-process-error" \/ r = "ts-syntax-timeout" \/
  exists code,
    digits code /\
    (r = "ts-type-" +:+ code \/ r = "ts-syntax-" +:+ code \/
     r = "ts-general-" +:+ code).

Definition js_rule (r : string) : Prop :=
  r = "js-syntax-error" \/ r = "js-syntax-timeout" \/ r = "js-missing-tool" \/
  r = "js-process-error".

(** The severities the TypeScript plugin gives. *)
Definition ts_severity (s : string) : Prop :=
  s = "critical" \/ s = "high" \/ s = "medium".

(** * The quality agent, continued: [_run_quality_analysis] and
      [_run_syntax_plugins] *)

Module QualityRun.
Import QualityAgent QualityAnalysis Plugins.

(** The dict [results]. *)
Record Results := mkResults {
  all_findings : list QualityFinding;
  tools_used : gset string;
  analysis_time : list (string * Q);
  file_counts : list (string * Z);
  plugin_results : list (string * pyval);
}.

(** What the analysis meets: the two switches of the configuration that no
    code of the agent writes, what the three external tools return for the
    files they are given, the contents of the files, the time each step
    takes, and the two plugins of [self.plugins]. *)
Record Tools := mkTools {
  ruff_enabled : bool;
  eslint_enabled : bool;
  ruff_analysis : list string -> list QualityFinding;
  eslint_analysis : list string -> list QualityFinding;
  complexity_analysis : list string -> list QualityFinding;
  read_text : string -> option string;
  seconds : string -> Q;
  yaml_syntax : QualityPlugin;
  typescript_syntax : QualityPlugin;
}.

(** One of the four blocks of [_run_quality_analysis]. *)
Definition record_tool (tools : Tools) (tool key : string)
  (findings : list QualityFinding) (files : list string) (results : Results)
  : Results :=
  mkResults (all_findings results ++ findings)
            ({[tool]} ∪ tools_used results)
            (dict_set key (seconds tools key) (analysis_time results))
            (dict_set key (Z.of_nat (length files)) (file_counts results))
            (plugin_results results).

(** [plugin_names] *)
Definition scheduled (config : QualityConfig) : list string :=
  if String.eqb (analysis_mode config) "syntax_extended"
  then (if yaml_syntax_enabled config then ["yaml_syntax"] else []) ++
       (if typescript_syntax_enabled config then ["typescript_syntax"] else [])
  else if String.eqb (analysis_mode config) "yaml_strict"
  then (if yaml_syntax_enabled config then ["yaml_syntax"] else [])
  else [].

Definition stats_val (stats : list (string * Z)) : pyval :=
  PDict (map (fun kv => (fst kv, PInt (snd kv))) stats).

(** The body of the loop over [plugin_results]; [safe_analyze] handles what
    a plugin raises, so no result is an exception. *)
Definition record_plugin (tools : Tools) (files : list string)
  (results : Results) (plugin_name : string) : Results :=
  let plugin :=
    if String.eqb plugin_name "yaml_syntax" then yaml_syntax tools
    else typescript_syntax tools in
  let result := safe_analyze (seconds tools plugin_name) plugin files in
  let plugin_findings := _convert_plugin_issues (map seen (issues result)) in
  mkResults (all_findings results ++ plugin_findings)
            ({[plugin_name]} ∪ tools_used results)
            (dict_set plugin_name (default 0%Q (execution_time result))
                      (analysis_time results))
            (dict_set plugin_name (Z.of_nat (files_analyzed result))
                      (file_counts results))
            (dict_set plugin_name
                      (PDict [("status", PStr (status result));
                              ("issues_count",
                               PInt (Z.of_nat (length (issues result))));
                              ("stats", stats_val (stats result))])
                      (plugin_results results)).

Definition _run_syntax_plugins (tools : Tools) (config : QualityConfig)
  (files : list string) (results : Results) : Results :=
  fold_left (record_plugin tools files) (scheduled config) results.

Definition js_ts_file (f : string) : bool :=
  existsb (fun ext => endswith ext f)
          [".js"; ".jsx"; ".ts"; ".tsx"; ".mjs"; ".cjs"].

Definition has_files (files : list string) : bool :=
  match files with [] => false | _ => true end.

(** [_run_quality_analysis]; the findings it returns are also stored in
    [self.findings]. *)
Definition _run_quality_analysis (tools : Tools) (config : QualityConfig)
  (files : list string) : Results :=
  let results := mkResults [] ∅ [] [] [] in
  let python_files := List.filter (endswith ".py") files in
  let js_ts_files := List.filter js_ts_file files in
  let results :=
    if has_files python_files && ruff_enabled tools
    then record_tool tools "ruff" "ruff" (ruff_analysis tools python_files)
                     python_files results
    else results in
  let results :=
    if has_files js_ts_files && eslint_enabled tools
    then record_tool tools "eslint" "eslint"
                     (eslint_analysis tools js_ts_files) js_ts_files results
    else results in
  let results :=
    if has_files files && py_truthy (scan_complexity config)
    then record_tool tools "lizard" "complexity"
                     (complexity_analysis tools files) files results
    else results in
  let results :=
    if has_files files && py_truthy (scan_duplication config)
    then record_tool tools "duplication" "duplication"
                     (_run_duplication_detection (read_text tools)
                        (duplication_threshold config) files)
                     files results
    else results in
  _run_syntax_plugins tools config files results.

End QualityRun.

(** ** Vocabulary for the analysis *)

(** The tools a scope and a configuration call for. *)
Definition called_for (ruff eslint : bool)
  (config : QualityAgent.QualityConfig) (files : list string)
  (tool : string) : Prop :=
  (tool = "ruff" /\ ruff = true /\ exists f, In f files /\ endswith ".py" f = true) \/
  (tool = "eslint" /\ eslint = true /\
   exists f, In f files /\ QualityRun.js_ts_file f = true) \/
  (tool = "lizard" /\ files <> [] /\
   py_truthy (QualityAgent.scan_complexity config) = true) \/
  (tool = "duplication" /\ files <> [] /\
   py_truthy (QualityAgent.scan_duplication config) = true) \/
  (tool = "yaml_syntax" /\ QualityAgent.yaml_syntax_enabled config = true /\
   (QualityAgent.analysis_mode config = "syntax_extended" \/
    QualityAgent.analysis_mode config = "yaml_strict")) \/
  (tool = "typescript_syntax" /\
   QualityAgent.typescript_syntax_enabled config = true /\
   QualityAgent.analysis_mode config = "syntax_extended").

(** * The security agent, continued: the dependency scanners *)

Module SecurityDeps.
Import SecurityAgent.

Definition unhashable : exn := type_error "unhashable type".

(** [severity_map.get(v, dflt)] for a map keyed by strings and a value [v]
    of a decoded JSON document: a list or an object cannot be looked up. *)
Definition map_get (severity_map : list (string * string)) (v : pyval)
  (dflt : string) : outcome string :=
  match v with
  | PStr s => Ret (default dflt (dict_get s severity_map))
  | PList _ | PDict _ => Raise unhashable
  | _ => Ret dflt
  end.

Definition _convert_npm_severity (npm_severity : pyval) : outcome string :=
  map_get [("critical", "error"); ("high", "error"); ("moderate", "warning");
           ("low", "info"); ("info", "info")] npm_severity "warning".

Definition _convert_pip_severity (pip_severity : pyval) : outcome string :=
  map_get [("critical", "error"); ("high", "error"); ("medium", "warning");
           ("low", "info")] pip_severity "warning".

Definition _convert_osv_severity (osv_severity : pyval) : outcome string :=
  match osv_severity with
  | PStr s =>
      Ret (default "warning"
             (dict_get (upper s)
                [("CRITICAL", "error"); ("HIGH", "error");
                 ("MEDIUM", "warning"); ("LOW", "info")]))
  | _ => Raise no_upper
  end.

Definition npm_finding (advisory affected_package : pyval)
  : outcome SecurityFinding :=
  try! id := py_get advisory "id" (PStr "unknown") in
  try! title := py_get advisory "title" (PStr "") in
  try! sev_raw := py_get advisory "severity" (PStr "moderate") in
  try! sev := _convert_npm_severity sev_raw in
  try! advisory_id := py_get advisory "id" PNone in
  try! version := py_get advisory "version" PNone in
  try! url := py_get advisory "url" PNone in
  Ret (mkFinding (PFmt "npm-{advisory.get('id', 'unknown')}" [id]) title sev
         (PStr "package.json") (PInt 0) PNone PNone PNone PNone
         (PDict [("advisory_id", advisory_id); ("package", affected_package);
                 ("version", version); ("url", url)])).

(** Two nested loops that append one finding per inner record; the flag
    tells whether they ran to the end: an exception leaves both, with the
    findings appended so far. *)
Fixpoint nested_loops (inner : pyval -> outcome (list pyval))
  (finding : pyval -> pyval -> outcome SecurityFinding) (outer : list pyval)
  : list SecurityFinding * bool :=
  match outer with
  | [] => ([], true)
  | record :: rest =>
      match inner record with
      | Raise _ => ([], false)
      | Ret items =>
          let here := collect (finding record) items in
          if Nat.eqb (length here) (length items)
          then let (more, ok) := nested_loops inner finding rest in
               (here ++ more, ok)
          else (here, false)
      end
  end.

(** [_parse_npm_audit_output] on the decoded output. *)
Definition parse_npm (data : pyval) : list SecurityFinding :=
  match (try! advisories := py_get data "vulnerabilities" (PList []) in
         py_iter advisories) with
  | Ret advisories =>
      fst (nested_loops
             (fun advisory =>
                try! packages := py_get advisory "affectedPackages" (PList []) in
                py_iter packages)
             npm_finding advisories)
  | Raise _ => []
  end.

Definition pip_finding (vuln : pyval) : outcome SecurityFinding :=
  try! id := py_get vuln "id" (PStr "unknown") in
  try! advisory := py_get vuln "advisory" (PStr "") in
  try! sev_raw := py_get vuln "severity" (PStr "medium") in
  try! sev := _convert_pip_severity sev_raw in
  try! package := py_get vuln "package" PNone in
  try! version := py_get vuln "version" PNone in
  try! cve := py_get vuln "cve" PNone in
  Ret (mkFinding (PFmt "pip-{vuln.get('id', 'unknown')}" [id]) advisory sev
         (PStr "requirements.txt") (PInt 0) PNone PNone PNone PNone
         (PDict [("package", package); ("version", version); ("cve", cve)])).

(** [_parse_pip_audit_output] on the decoded output. *)
Definition parse_pip (data : pyval) : list SecurityFinding :=
  match (try! vulns := py_get data "vulnerabilities" (PList []) in
         py_iter vulns) with
  | Ret vulns => collect pip_finding vulns
  | Raise _ => []
  end.

Definition _parse_poetry_audit_output (output : string)
  : list SecurityFinding :=
  if contains "vulnerabilities found" output
  then flat_map
         (fun line =>
            if contains "CVE-" line || contains "vulnerability" line
            then [mkFinding (PStr "poetry-audit") (PStr (strip line)) "warning"
                            (PStr "pyproject.toml") (PInt 0)
                            PNone PNone PNone PNone PNone]
            else [])
         (split newline output)
  else [].

Definition osv_finding (vuln package : pyval) : outcome SecurityFinding :=
  try! id := py_get vuln "id" (PStr "unknown") in
  try! description := py_get vuln "description" (PStr "") in
  try! sev_raw := py_get vuln "severity" (PStr "moderate") in
  try! sev := _convert_osv_severity sev_raw in
  try! name := py_get package "package" (PStr "") in
  try! ecosystem := py_get package "ecosystem" (PStr "") in
  try! vulnerability_id := py_get vuln "id" PNone in
  try! aliases := py_get vuln "aliases" (PList []) in
  Ret (mkFinding (PFmt "osv-{vuln.get('id', 'unknown')}" [id]) description sev
         (PStr "package-lock.json") (PInt 0) PNone PNone PNone PNone
         (PDict [("package", name); ("ecosystem", ecosystem);
                 ("vulnerability_id", vulnerability_id);
                 ("aliases", aliases)])).

(** [_parse_osv_scanner_output] on the decoded report. *)
Definition parse_osv (data : pyval) : list SecurityFinding :=
  match (try! vulns := py_get data "results" (PList []) in py_iter vulns) with
  | Ret vulns =>
      fst (nested_loops
             (fun vuln =>
                try! packages := py_get vuln "packages" (PList []) in
                py_iter packages)
             osv_finding vulns)
  | Raise _ => []
  end.

(** The processes the dependency scanners start and the report the OSV
    scanner writes. *)
Record Scanners := mkScanners {
  npm_audit : Process;
  (** [pip-audit -r lockfile] *)
  pip_audit : string -> Process;
  (** [poetry audit], started when the loop is at [lockfile] *)
  poetry_audit : string -> Process;
  osv_scanner : Process;
  osv_report : ResultsFile;
}.

Section Run.
Variable env : Env.
Variable scanners : Scanners.

Definition _parse_npm_audit_output (output : string) : list SecurityFinding :=
  match json_loads env output with
  | Some data => parse_npm data
  | None => []
  end.

Definition _parse_pip_audit_output (output : string) : list SecurityFinding :=
  match json_loads env output with
  | Some data => parse_pip data
  | None => []
  end.

Definition _parse_osv_scanner_output : list SecurityFinding :=
  match osv_report scanners with
  | Parsed data => parse_osv data
  | Absent | Unparsable => []
  end.

Definition _run_npm_audit : list SecurityFinding :=
  match npm_audit scanners with
  | Completed returncode stdout stderr =>
      if Z.eqb returncode 0 then _parse_npm_audit_output stdout else []
  | TimeoutExpired | FileNotFound | SpawnError _ => []
  end.

Fixpoint _run_pip_audit (lockfiles : list string) : list SecurityFinding :=
  match lockfiles with
  | [] => []
  | lockfile :: rest =>
      if contains "requirements.txt" lockfile
      then match pip_audit scanners lockfile with
           | Completed returncode stdout stderr =>
               if Z.eqb returncode 0 then _parse_pip_audit_output stdout
               else _run_pip_audit rest
           | TimeoutExpired | FileNotFound | SpawnError _ => []
           end
      else if contains "poetry.lock" lockfile
      then match poetry_audit scanners lockfile with
           | Completed returncode stdout stderr =>
               if Z.eqb returncode 0 then _parse_poetry_audit_output stdout
               else _run_pip_audit rest
           | TimeoutExpired | FileNotFound | SpawnError _ => []
           end
      else _run_pip_audit rest
  end.

Definition _run_osv_scanner : list SecurityFinding :=
  match osv_scanner scanners with
  | Completed returncode stdout stderr =>
      if Z.eqb returncode 0 then _parse_osv_scanner_output else []
  | TimeoutExpired | FileNotFound | SpawnError _ => []
  end.

(** The dict [_run_dependency_analysis] returns. *)
Record Dependencies := mkDependencies {
  dep_findings : list SecurityFinding;
  dep_tools : gset string;
}.

Definition add_results (tool : string) (found : list SecurityFinding)
  (results : Dependencies) : Dependencies :=
  match found with
  | [] => results
  | _ => mkDependencies (dep_findings results ++ found)
                        ({[tool]} ∪ dep_tools results)
  end.

Definition lockfiles_of (scope : list string) : list string :=
  flat_map
    (fun pattern =>
       let pattern := abs_path env pattern in
       match fs_kind env pattern with
       | RegularFile => [pattern]
       | Missing | Directory _ => []
       end)
    scope.

Definition _run_dependency_analysis (config : SecurityConfig)
  (scope : list string) : Dependencies :=
  let results := mkDependencies [] ∅ in
  let lockfiles := lockfiles_of scope in
  let results :=
    if str_in "package-lock.json" (map basename lockfiles)
    then add_results "npm-audit" _run_npm_audit results
    else results in
  let results :=
    if existsb (fun f => contains "requirements.txt" f ||
                         contains "poetry.lock" f ||
                         contains "pipfile.lock" f) lockfiles
    then add_results "pip-audit" (_run_pip_audit lockfiles) results
    else results in
  if py_truthy (osv_scanner_enabled config)
  then add_results "osv-scanner" _run_osv_scanner results
  else results.
End Run.

End SecurityDeps.

(** ** Vocabulary for the dependency scanners *)

(** A finding as the dependency scanners make it: a standard severity, the
    line 0 and no column, in one of the four manifest files. *)
Definition manifest_finding (f : SecurityAgent.SecurityFinding) : Prop :=
  standard_severity (SecurityAgent.severity f) /\
  SecurityAgent.line_number f = PInt 0 /\
  SecurityAgent.column_number f = PNone /\
  In (SecurityAgent.file_path f)
     [PStr "package.json"; PStr "requirements.txt"; PStr "pyproject.toml";
      PStr "package-lock.json"].

(** * The command-line quality agent, continued: reading Lizard's table *)

Module LizardTable.
Import CliReport.

(** [s.split()]: the words between runs of white space; [current] is the
    word being read. *)
Fixpoint words_from (current s : string) : list string :=
  match s with
  | EmptyString =>
      if String.eqb current "" then [] else [current]
  | String a r =>
      if is_space a
      then if String.eqb current "" then words_from "" r
           else current :: words_from "" r
      else words_from (current +:+ String a EmptyString) r
  end.

Definition words (s : string) : list string := words_from "" s.

(** [s.isdigit()], for code points below 256: the ten digits and the
    superscripts one, two and three. *)
Definition digit_like (a : Ascii.ascii) : bool :=
  is_digit a ||
  let n := Ascii.nat_of_ascii a in
  Nat.eqb n 178 || Nat.eqb n 179 || Nat.eqb n 185.

Definition isdigit (s : string) : bool :=
  negb (String.eqb s "") &&
  forallb digit_like (String.list_ascii_of_string s).

(** The value of a string of the ten digits. *)
Definition decimal (s : string) : Z :=
  fold_left (fun n a => 10 * n + (Z.of_nat (Ascii.nat_of_ascii a) - 48))
            (String.list_ascii_of_string s) 0.

Definition value_error : exn :=
  Exn "ValueError" "invalid literal for int() with base 10".

(** [int(part) if part.isdigit() else 0]: [int] rejects a superscript. *)
Definition number (part : string) : outcome Z :=
  if isdigit part
  then if forallb is_digit (String.list_ascii_of_string part)
       then Ret (decimal part)
       else Raise value_error
  else Ret 0.

Definition at_sign : Ascii.ascii := Ascii.ascii_of_nat 64.
Definition colon : Ascii.ascii := Ascii.ascii_of_nat 58.

Definition table_header : string :=
  "NLOC    CCN   token  PARAM  length  location".

(** The dict appended for a row of the table, if one is. *)
Definition row (threshold : Z) (line : string) : list pyval :=
  let parts := words line in
  if Nat.leb 3 (length parts)
  then match (try! nloc := number (nth 0 parts "") in
              try! ccn := number (nth 1 parts "") in
              Ret (nloc, ccn)) with
       | Raise _ => []
       | Ret (nloc, ccn) =>
           if Z.ltb threshold ccn
           then
             let last_part := List.last parts "" in
             if contains "@" last_part
             then
               let name := nth 0 (split at_sign last_part) "" in
               let location := nth 1 (split at_sign last_part) "" in
               [PDict [("name", PStr name);
                       ("file",
                        PStr (if contains ":" location
                              then nth 0 (split colon location) ""
                              else ""));
                       ("line", PInt 0);
                       ("cyclomatic_complexity", PInt ccn);
                       ("nloc", PInt nloc)]]
             else []
           else []
       end
  else [].

(** The loop over the lines; [in_function_table] is set by the header. *)
Fixpoint rows (threshold : Z) (in_function_table : bool)
  (lines : list string) : list pyval :=
  match lines with
  | [] => []
  | line :: rest =>
      if contains table_header line then rows threshold true rest
      else
        (if in_function_table && negb (String.eqb (strip line) "") &&
            negb (startswith "---" (strip line)) &&
            negb (startswith "1 file" (strip line))
         then row threshold line
         else []) ++ rows threshold in_function_table rest
  end.

(** The findings [_run_lizard] reads off the text Lizard printed. *)
Definition complex_functions (threshold : Z) (lizard_text : string)
  : list pyval :=
  rows threshold false (split newline lizard_text).

Definition _run_lizard (threshold : Z) (temp_dir : bool) (p : Process)
  : ToolRun :=
  QualityCli._run_lizard (complex_functions threshold) temp_dir p.

End LizardTable.

(** ** Vocabulary for Lizard's findings *)

(** The region of the one location of a result, as the report prints it. *)
Definition printed_region (r : CliReport.Result) : option pyval :=
  match CliReport.locations r with
  | [location] =>
      match CliReport._location_to_dict location with
      | PDict [(_, PDict physical)] => dict_get "region" physical
      | _ => None
      end
  | _ => None
  end.

(** Two rows of Lizard's table: one function over the threshold. *)
Definition lizard_text : string :=
  "================================================" +:+ String newline (
  "  NLOC    CCN   token  PARAM  length  location  " +:+ String newline (
  "------------------------------------------------" +:+ String newline (
  "      40     17    210      2      45 parse@10-54@./src/app.py" +:+
  String newline
  "       5      2     30      1       6 main@60-65@./src/app.py"))).

(** The dict of a function Lizard found too complex. *)
Definition complex_function (name file : string) (ccn nloc : Z) : pyval :=
  PDict [("name", PStr name); ("file", PStr file); ("line", PInt 0);
         ("cyclomatic_complexity", PInt ccn); ("nloc", PInt nloc)].

(** The result the report makes of it. *)
Definition complexity_result (name file : string) (ccn : Z)
  : CliReport.Result :=
  CliReport.mkResult (PStr "complexity")
    (if Z.ltb 15 ccn then "warning" else "note")
    (PFmt "Function '{finding.get('name', '')}' has high cyclomatic complexity: {finding.get('cyclomatic_complexity', 0)}"
          [PStr name; PInt ccn])
    [CliReport.mkLocation (PStr file)
       (CliReport.mkRegion (PInt 0) (PInt 1) (PInt 0) (PInt 1000))].

(** ** Vocabulary for the analysis modes *)

(** [str(Path(p))] ends with [Path(p).suffix]. *)
Definition suffix_law (env : QualityAgent.Env) : Prop :=
  forall p,
    endswith (QualityAgent.path_suffix env p) (QualityAgent.path_str env p)
    = true.

Definition yaml_suffix (env : QualityAgent.Env) (p : string) : Prop :=
  lower (QualityAgent.path_suffix env p) = ".yaml" \/
  lower (QualityAgent.path_suffix env p) = ".yml".

(** A file system that knows two kinds of files, each of 100 bytes. *)
Definition two_kinds : QualityAgent.Env :=
  QualityAgent.mkEnv 0 0 0 0
    (fun _ => Some 100)
    (fun p => if endswith ".YAML" p then ".YAML"
              else if endswith ".py" p then ".py" else "")
    (fun p => p) [] (Ret ([], [])) None.

Definition quiet_tools : QualityRun.Tools :=
  QualityRun.mkTools true true (fun _ => []) (fun _ => []) (fun _ => [])
    (fun _ => None) (fun _ => 0%Q)
    (YamlSyntax.YAMLSyntaxPlugin
       (YamlSyntax.mkEnv (fun _ => Ret 0) (fun _ => Ret "")
                         (fun _ => YamlSyntax.Loaded)))
    (TypeScriptSyntax.TypeScriptSyntaxPlugin tsc_two_errors).

Definition strict_config : QualityAgent.QualityConfig :=
  QualityAgent.mkConfig (PInt 45) 5 (PBool true) (PBool true) (PInt 10)
                        (PFloat (8 # 10)) false true "yaml_strict".

(** * Properties *)
Lemma Qltb_lt x y : Qltb x y = true <-> (x < y)%Q.
Proof.
  unfold Qltb. rewrite negb_true_iff. split.
  - intros H. apply Qnot_le_lt. intros Hle.
    apply Qle_bool_iff in Hle. congruence.
  - intros H. destruct (Qle_bool y x) eqn:E; [|reflexivity].
    apply Qle_bool_iff in E. exfalso. apply (Qlt_not_le _ _ H E).
Qed.

Lemma Qltb_ge x y : Qltb x y = false <-> (y <= x)%Q.
Proof.
  unfold Qltb. rewrite negb_false_iff. apply Qle_bool_iff.
Qed.

Lemma py_int_nonneg x : (0 <= x)%Q -> 0 <= py_int x.
Proof.
  destruct x as [n d]. unfold Qle, py_int. simpl. intros H.
  apply Z.quot_pos; lia.
Qed.

Lemma py_int_floor x : (0 <= x)%Q -> py_int x = Qfloor x.
Proof.
  destruct x as [n d]. unfold Qle, py_int, Qfloor. simpl. intros H.
  apply Z.quot_div_nonneg; lia.
Qed.

(** ** Dictionaries *)

Section DictFacts.
Context {V : Type}.
Implicit Types (d : list (string * V)) (k : string).

Lemma dict_get_del_eq k d : dict_get k (dict_del k d) = None.
Proof.
  induction d as [|[k' v] d IH]; simpl; [reflexivity|].
  destruct (String.eqb k k') eqn:E; simpl; [exact IH|].
  rewrite E. exact IH.
Qed.

Lemma dict_mem_del_eq k d : dict_mem k (dict_del k d) = false.
Proof. unfold dict_mem. now rewrite dict_get_del_eq. Qed.

Lemma dict_get_del_ne k k' d :
  k <> k' -> dict_get k' (dict_del k d) = dict_get k' d.
Proof.
  intros Hne. induction d as [|[k0 v] d IH]; simpl; [reflexivity|].
  destruct (String.eqb k k0) eqn:E; simpl.
  - apply String.eqb_eq in E. subst k0.
    destruct (String.eqb k' k) eqn:E'; [|exact IH].
    apply String.eqb_eq in E'. congruence.
  - now rewrite IH.
Qed.

Lemma dict_del_filter k d :
  dict_del k d = List.filter (fun kv => negb (String.eqb k (fst kv))) d.
Proof.
  induction d as [|[k' v] d IH]; simpl; [reflexivity|].
  destruct (String.eqb k k'); simpl; now rewrite IH.
Qed.

Lemma dict_mem_In k d : dict_mem k d = true <-> In k (dict_keys d).
Proof.
  unfold dict_mem. induction d as [|[k' v] d IH]; simpl.
  - split; [discriminate|tauto].
  - destruct (String.eqb k k') eqn:E.
    + apply String.eqb_eq in E. subst. tauto.
    + apply String.eqb_neq in E. rewrite IH. split; [tauto|].
      intros [H|H]; [congruence|exact H].
Qed.

Lemma dict_get_set_eq k v d : dict_get k (dict_set k v d) = Some v.
Proof.
  induction d as [|[k' v'] d IH]; simpl.
  - now rewrite String.eqb_refl.
  - destruct (String.eqb k k') eqn:E; simpl.
    + now rewrite String.eqb_refl.
    + now rewrite E.
Qed.
End DictFacts.

(** ** C9: the entry goes before the message *)

Section SendTaskResponse.
Import SocketClient.

Lemma send_message_active_tasks m c r c' :
  send_message m c = (r, c') -> active_tasks c' = active_tasks c.
Proof.
  unfold send_message. intros H.
  destruct (negb (is_connected c) || negb (socket c)).
  - now inversion H.
  - destruct (wire_up c); now inversion H.
Qed.

Lemma send_task_response_unfold task_id status results duration c :
  send_task_response task_id status results duration c =
  send_message (task_response (agent_name c) task_id status results duration)
    (if dict_mem task_id (active_tasks c)
     then set_active_tasks (dict_del task_id) c else c).
Proof.
  unfold send_task_response, bind, get_state, modify, ret.
  destruct (dict_mem task_id (active_tasks c)); reflexivity.
Qed.

(** Whatever the state, no entry for the id is left after the call. *)
Lemma send_task_response_clears task_id status results duration c r c' :
  send_task_response task_id status results duration c = (r, c') ->
  dict_mem task_id (active_tasks c') = false.
Proof.
  rewrite send_task_response_unfold. intros H.
  apply send_message_active_tasks in H. rewrite H.
  destruct (dict_mem task_id (active_tasks c)) eqn:E; [|exact E].
  simpl. apply dict_mem_del_eq.
Qed.

(** C9.  When [send_task_response] is called for a task id that is in
    [active_tasks], the message is handed to [send_message] in a state from
    which the entry has already been deleted; the entry is absent from the
    state the call ends in, whatever [send_message] does; and when the client
    is not connected the call returns [False], sends nothing and leaves the
    state with the entry deleted. *)
Theorem send_task_response_removes_entry_first
  (c : Client) (task_id status : string) (results : pyval)
  (duration : option Z) :
  dict_mem task_id (active_tasks c) = true ->
  let c1 := set_active_tasks (dict_del task_id) c in
  dict_mem task_id (active_tasks c1) = false /\
  send_task_response task_id status results duration c =
    send_message (task_response (agent_name c) task_id status results duration) c1 /\
  dict_mem task_id
    (active_tasks (snd (send_task_response task_id status results duration c)))
    = false /\
  (is_connected c = false ->
   send_task_response task_id status results duration c = (Ret false, c1) /\
   outbox c1 = outbox c).
Proof.
  intros Hin c1. split; [apply dict_mem_del_eq|]. split.
  - rewrite send_task_response_unfold, Hin. reflexivity.
  - split.
    + destruct (send_task_response task_id status results duration c)
        as [r c'] eqn:E.
      simpl. eapply send_task_response_clears; exact E.
    + intros Hoff. rewrite send_task_response_unfold, Hin.
      unfold send_message. fold c1.
      assert (is_connected c1 = false) as -> by exact Hoff.
      simpl. split; reflexivity.
Qed.

Lemma send_task_response_removes_entry_first_witness :
  dict_mem "t1" (active_tasks c9_client) = true /\
  dict_mem "t1"
    (active_tasks (snd (send_task_response "t1" "done" (PDict []) None c9_client)))
    = false /\
  send_task_response "t1" "done" (PDict []) None c9_client
  = (Ret false, set_active_tasks (dict_del "t1") c9_client).
Proof.
  split; [reflexivity|].
  pose proof (send_task_response_removes_entry_first c9_client "t1" "done"
                (PDict []) None eq_refl) as (_ & _ & Hgone & Hoff).
  split; [exact Hgone|]. exact (proj1 (Hoff eq_refl)).
Defined.

End SendTaskResponse.

(** ** C4: the reconnect loop *)

Section MainLoop.
Import SocketClient.

Lemma main_loop_failures (n : nat) :
  forall (k : nat) (worlds : list World),
    (k + n = 30)%nat ->
    (n <= length worlds)%nat ->
    Forall fails_quietly (firstn n worlds) ->
    main_loop_from worlds (mkMain true false k)
    = (backoff_trace k n, MaxAttemptsReached).
Proof.
  induction n as [|n IH]; intros k worlds Hk Hlen Hall.
  - assert (k = 30%nat) as -> by lia.
    destruct worlds; reflexivity.
  - destruct worlds as [|w rest]; [simpl in Hlen; lia|].
    simpl in Hall. apply Forall_cons in Hall as [[Hfail Hstop] Hall].
    assert (Hlt : (max_reconnect_attempts <=? k)%nat = false).
    { apply Nat.leb_gt. unfold max_reconnect_attempts. lia. }
    cbn [main_loop_from m_is_running m_is_connected reconnect_attempts negb
         andb].
    rewrite Hlt.
    unfold main_iteration. cbn [m_is_connected reconnect_attempts].
    rewrite Hfail.
    assert (Hnext : after_sleep (during_sleep w) true false (S k)
                    = mkMain true false (S k)).
    { destruct (during_sleep w); try reflexivity. congruence. }
    rewrite Hnext.
    rewrite (IH (S k) rest); [|lia|simpl in Hlen; lia|exact Hall].
    reflexivity.
Qed.

(** C4.  While disconnected with fewer than 30 failed attempts, an attempt
    that fails is followed by a sleep of [min(10 * 2^attempts, 60)] seconds
    and counts one more failure; an attempt that succeeds sets the counter
    back to zero; and from any point with [k <= 30] failures counted, if the
    next [30 - k] attempts all fail and nobody stops the client, the loop
    makes exactly those attempts, with those sleeps, and exits. *)
Theorem main_loop_backoff
  (st : MainState) (w_fail w_ok : World) (worlds : list World) :
  m_is_running st = true ->
  m_is_connected st = false ->
  (reconnect_attempts st <= 30)%nat ->
  connect_result w_fail = false ->
  connect_result w_ok = true ->
  (30 - reconnect_attempts st <= length worlds)%nat ->
  Forall fails_quietly (firstn (30 - reconnect_attempts st) worlds) ->
  reconnect_interval = 10 /\ max_reconnect_attempts = 30%nat /\
  main_iteration w_fail st
  = ([AConnect false;
      ASleep (Z.min (10 * 2 ^ Z.of_nat (reconnect_attempts st)) 60)],
     after_sleep (during_sleep w_fail) true false
                 (S (reconnect_attempts st))) /\
  main_iteration w_ok st
  = ([AConnect true; ASleep 1], after_sleep (during_sleep w_ok) true true 0) /\
  main_loop_from worlds st
  = (backoff_trace (reconnect_attempts st) (30 - reconnect_attempts st),
     MaxAttemptsReached).
Proof.
  destruct st as [running connected k]. simpl.
  intros -> -> Hk Hf Hs Hlen Hall. repeat split.
  - unfold main_iteration. simpl. now rewrite Hf.
  - unfold main_iteration. simpl. now rewrite Hs.
  - apply main_loop_failures; [lia|exact Hlen|exact Hall].
Qed.

Lemma main_loop_backoff_witness :
  Forall fails_quietly (firstn 30 orchestrator_down) /\
  _main_loop false orchestrator_down
  = ([AConnect false; ASleep 10; AConnect false; ASleep 20;
      AConnect false; ASleep 40] ++
     flat_map (fun _ => [AConnect false; ASleep 60]) (seq 3 27),
     MaxAttemptsReached).
Proof.
  assert (Hall : Forall fails_quietly (firstn 30 orchestrator_down)).
  { cbn. repeat constructor; discriminate. }
  split; [exact Hall|].
  assert (Hlen : (30 - 0 <= length orchestrator_down)%nat) by (cbn; lia).
  exact (proj2 (proj2 (proj2 (proj2
    (main_loop_backoff (mkMain true false 0) (mkWorld false Quiet)
       (mkWorld true Quiet) orchestrator_down
       eq_refl eq_refl (Nat.le_0_l 30) eq_refl eq_refl Hlen Hall))))).
Defined.

End MainLoop.

(** ** C10: the severity breakdown *)

Section SeverityBreakdown.
Import QualityAgent.

Lemma count_severity_cons s f fs :
  count_severity s (f :: fs)
  = (Nat.b2n (String.eqb (severity f) s) + count_severity s fs)%nat.
Proof.
  unfold count_severity. simpl.
  destruct (String.eqb (severity f) s); reflexivity.
Qed.

(** One step of the loop on a dict with the three keys. *)
Lemma breakdown_step (f : QualityFinding) (e w i : nat) :
  (let b := [("error", e); ("warning", w); ("info", i)] in
   if dict_mem (severity f) b then bump (severity f) b else b)
  = [("error", (e + Nat.b2n (String.eqb (severity f) "error"))%nat);
     ("warning", (w + Nat.b2n (String.eqb (severity f) "warning"))%nat);
     ("info", (i + Nat.b2n (String.eqb (severity f) "info"))%nat)].
Proof.
  cbv zeta. unfold dict_mem, bump. simpl.
  destruct (String.eqb (severity f) "error") eqn:E1.
  { apply String.eqb_eq in E1. rewrite E1. simpl.
    now rewrite !Nat.add_0_r. }
  destruct (String.eqb (severity f) "warning") eqn:E2.
  { apply String.eqb_eq in E2. rewrite E2. simpl.
    now rewrite !Nat.add_0_r. }
  destruct (String.eqb (severity f) "info") eqn:E3.
  { apply String.eqb_eq in E3. rewrite E3. simpl.
    now rewrite !Nat.add_0_r. }
  simpl. now rewrite !Nat.add_0_r.
Qed.

Lemma breakdown_fold (fs : list QualityFinding) :
  forall e w i : nat,
    fold_left
      (fun breakdown finding =>
         if dict_mem (severity finding) breakdown
         then bump (severity finding) breakdown
         else breakdown)
      fs [("error", e); ("warning", w); ("info", i)]
    = [("error", (e + count_severity "error" fs)%nat);
       ("warning", (w + count_severity "warning" fs)%nat);
       ("info", (i + count_severity "info" fs)%nat)].
Proof.
  induction fs as [|f fs IH]; intros e w i.
  - simpl. unfold count_severity. simpl. now rewrite !Nat.add_0_r.
  - cbn [fold_left].
    pose proof (breakdown_step f e w i) as Hstep. cbv zeta in Hstep.
    rewrite Hstep, IH, !count_severity_cons, !Nat.add_assoc. reflexivity.
Qed.

Lemma breakdown_counts (fs : list QualityFinding) :
  _get_severity_breakdown fs
  = [("error", count_severity "error" fs);
     ("warning", count_severity "warning" fs);
     ("info", count_severity "info" fs)].
Proof. unfold _get_severity_breakdown. now rewrite breakdown_fold. Qed.

Lemma counted_once (f : QualityFinding) :
  (Nat.b2n (String.eqb (severity f) "error") +
   Nat.b2n (String.eqb (severity f) "warning") +
   Nat.b2n (String.eqb (severity f) "info") <= 1)%nat /\
  ((Nat.b2n (String.eqb (severity f) "error") +
    Nat.b2n (String.eqb (severity f) "warning") +
    Nat.b2n (String.eqb (severity f) "info") = 1)%nat
   <-> standard_severity (severity f)).
Proof.
  unfold standard_severity.
  destruct (String.eqb (severity f) "error") eqn:E1.
  { apply String.eqb_eq in E1. rewrite E1. simpl. split; [lia|tauto]. }
  destruct (String.eqb (severity f) "warning") eqn:E2.
  { apply String.eqb_eq in E2. rewrite E2. simpl. split; [lia|tauto]. }
  destruct (String.eqb (severity f) "info") eqn:E3.
  { apply String.eqb_eq in E3. rewrite E3. simpl. split; [lia|tauto]. }
  apply String.eqb_neq in E1, E2, E3. simpl. split; [lia|].
  split; [discriminate|]. intros [H|[H|H]]; congruence.
Qed.

Lemma counts_bounded (fs : list QualityFinding) :
  (count_severity "error" fs + count_severity "warning" fs +
   count_severity "info" fs <= length fs)%nat /\
  ((count_severity "error" fs + count_severity "warning" fs +
    count_severity "info" fs = length fs)%nat
   <-> Forall (fun f => standard_severity (severity f)) fs).
Proof.
  induction fs as [|f fs [IHle IHeq]].
  - unfold count_severity. simpl. split; [lia|]. split; auto.
  - rewrite !count_severity_cons. cbn [length].
    destruct (counted_once f) as [Hle Hone]. split; [lia|]. split.
    + intros H. constructor; [apply Hone|apply IHeq]; lia.
    + intros H. apply Forall_cons in H as [Hf Hfs].
      apply Hone in Hf. apply IHeq in Hfs. lia.
Qed.

Lemma plugin_not_standard s : plugin_severity s -> ~ standard_severity s.
Proof.
  unfold plugin_severity, standard_severity.
  intros [-> | [-> | [-> | ->]]] [H | [H | H]]; discriminate.
Qed.

Lemma count_severity_none s (fs : list QualityFinding) :
  Forall (fun f => severity f <> s) fs -> count_severity s fs = 0%nat.
Proof.
  induction 1 as [|f fs Hf _ IH]; [reflexivity|].
  rewrite count_severity_cons, IH.
  apply String.eqb_neq in Hf. now rewrite Hf.
Qed.

(** C10.  The breakdown has the three keys [error], [warning], [info], each
    with the number of findings whose severity is exactly that string; the
    three counters add up to at most the number of findings, and to exactly
    that number if and only if every finding has one of the three
    severities.  A finding converted from a plugin issue keeps the issue's
    severity string, so issues graded [critical], [high], [medium] or [low]
    leave all three counters at zero. *)
Theorem severity_breakdown_counts_standard_only
  (fs : list QualityFinding) (issues : list QaIssue) :
  let b := _get_severity_breakdown fs in
  b = [("error", count_severity "error" fs);
       ("warning", count_severity "warning" fs);
       ("info", count_severity "info" fs)] /\
  (counter "error" b + counter "warning" b + counter "info" b
   <= length fs)%nat /\
  ((counter "error" b + counter "warning" b + counter "info" b
    = length fs)%nat
   <-> Forall (fun f => standard_severity (severity f)) fs) /\
  map severity (_convert_plugin_issues issues) = map qi_severity issues /\
  (Forall (fun i => plugin_severity (qi_severity i)) issues ->
   _get_severity_breakdown (_convert_plugin_issues issues)
   = [("error", 0%nat); ("warning", 0%nat); ("info", 0%nat)]).
Proof.
  cbv zeta. rewrite breakdown_counts. unfold counter. cbn [dict_get].
  change (String.eqb "error" "error") with true.
  change (String.eqb "warning" "error") with false.
  change (String.eqb "warning" "warning") with true.
  change (String.eqb "info" "error") with false.
  change (String.eqb "info" "warning") with false.
  change (String.eqb "info" "info") with true.
  cbn [default].
  destruct (counts_bounded fs) as [Hle Heq].
  split; [reflexivity|]. split; [exact Hle|]. split; [exact Heq|].
  assert (Hsev : map severity (_convert_plugin_issues issues)
                 = map qi_severity issues).
  { unfold _convert_plugin_issues. rewrite map_map. reflexivity. }
  split; [exact Hsev|].
  intros Hplug. rewrite breakdown_counts.
  assert (Hnone : forall s, standard_severity s ->
            Forall (fun f => severity f <> s) (_convert_plugin_issues issues)).
  { intros s Hs. unfold _convert_plugin_issues.
    clear Hsev. induction Hplug as [|i rest Hi _ IH]; simpl;
      [constructor|]. constructor; [|exact IH].
    simpl. intros Heq'. rewrite Heq' in Hi.
    exact (plugin_not_standard s Hi Hs). }
  rewrite !count_severity_none; [reflexivity| | |];
    apply Hnone; unfold standard_severity; tauto.
Qed.

Lemma severity_breakdown_counts_standard_only_witness :
  Forall (fun i => plugin_severity (qi_severity i)) yaml_issues /\
  _get_severity_breakdown (_convert_plugin_issues yaml_issues)
  = [("error", 0%nat); ("warning", 0%nat); ("info", 0%nat)].
Proof.
  assert (H : Forall (fun i => plugin_severity (qi_severity i)) yaml_issues).
  { repeat constructor; unfold plugin_severity; simpl; tauto. }
  split; [exact H|].
  exact (proj2 (proj2 (proj2 (proj2
    (severity_breakdown_counts_standard_only [] yaml_issues)))) H).
Defined.

End SeverityBreakdown.

(** ** The sweep and the responses of a connected client *)

Section Sweep.

Lemma online_set_active_tasks f c : online c -> online (set_active_tasks f c).
Proof. intros H. exact H. Qed.

Lemma send_message_online m c :
  online c ->
  send_message m c = (Ret true, push_outbox (fill_agent (agent_name c) m) c).
Proof.
  intros (Hc & Hs & Hw). unfold send_message. now rewrite Hc, Hs, Hw.
Qed.

Lemma send_message_offline m c :
  is_connected c = false -> send_message m c = (Ret false, c).
Proof. intros H. unfold send_message. now rewrite H. Qed.

Lemma dict_del_absent {V} k (d : list (string * V)) :
  dict_mem k d = false -> dict_del k d = d.
Proof.
  unfold dict_mem. induction d as [|[k' v] d IH]; simpl; [reflexivity|].
  destruct (String.eqb k k'); [discriminate|].
  intros H. now rewrite IH.
Qed.

Lemma send_task_response_state task_id c :
  (if dict_mem task_id (active_tasks c)
   then set_active_tasks (dict_del task_id) c else c)
  = set_active_tasks (dict_del task_id) c.
Proof.
  destruct (dict_mem task_id (active_tasks c)) eqn:E; [reflexivity|].
  unfold set_active_tasks. rewrite (dict_del_absent _ _ E).
  now destruct c.
Qed.

Lemma send_task_response_online task_id status results duration c :
  online c ->
  send_task_response task_id status results duration c
  = (Ret true,
     push_outbox
       (fill_agent (agent_name c)
          (task_response (agent_name c) task_id status results duration))
       (set_active_tasks (dict_del task_id) c)).
Proof.
  intros Hon. rewrite send_task_response_unfold.
  rewrite (send_task_response_state task_id c).
  rewrite send_message_online; [reflexivity|exact Hon].
Qed.

Lemma send_task_response_offline task_id status results duration c :
  is_connected c = false ->
  send_task_response task_id status results duration c
  = (Ret false, set_active_tasks (dict_del task_id) c).
Proof.
  intros Hoff. rewrite send_task_response_unfold.
  rewrite (send_task_response_state task_id c).
  now rewrite send_message_offline.
Qed.

(** The state a connected client is in after a sweep of [ids]. *)
Lemma sweep_online reported (ids : list string) :
  forall c,
    online c ->
    NoDup ids ->
    (forall id, In id ids -> dict_mem id (active_tasks c) = true) ->
    sweep reported ids c
    = (Ret tt,
       mkClient (agent_name c) (is_connected c) (socket c) (wire_up c)
         (fold_left (fun d id => dict_del id d) ids (active_tasks c))
         (max_active_tasks c)
         (outbox c ++ map (timeout_message (agent_name c) reported) ids)).
Proof.
  induction ids as [|id rest IH]; intros c Hon Hnd Hin.
  - simpl. unfold ret. rewrite app_nil_r. now destruct c.
  - apply NoDup_cons in Hnd as [Hnotin Hnd].
    cbn [sweep]. unfold bind at 1. unfold get_state.
    rewrite (Hin id (or_introl eq_refl)).
    unfold bind at 1. unfold bind at 1. unfold modify.
    unfold bind at 1.
    rewrite send_task_response_online by (apply online_set_active_tasks, Hon).
    unfold ret at 1.
    rewrite IH.
    + cbn. rewrite <- app_assoc.
      rewrite (dict_del_absent id (dict_del id (active_tasks c)))
        by apply dict_mem_del_eq.
      reflexivity.
    + exact Hon.
    + exact Hnd.
    + intros id' Hid'. cbn.
      rewrite (dict_del_absent id (dict_del id (active_tasks c)))
        by apply dict_mem_del_eq.
      unfold dict_mem. rewrite dict_get_del_ne.
      * apply (Hin id' (or_intror Hid')).
      * intros ->. apply Hnotin.
        apply list_elem_of_In. exact Hid'.
Qed.

End Sweep.

(** ** Stepping through computations *)

Section Steps.
Context {S : Type}.

Lemma bind_get {B} (k : S -> M S B) (s : S) : bind get_state k s = k s s.
Proof. reflexivity. Qed.

Lemma bind_modify {B} (f : S -> S) (k : unit -> M S B) (s : S) :
  bind (modify f) k s = k tt (f s).
Proof. reflexivity. Qed.

Lemma bind_ret {A B} (a : A) (k : A -> M S B) (s : S) :
  bind (ret a) k s = k a s.
Proof. reflexivity. Qed.

Lemma bind_raise {A B} (e : exn) (k : A -> M S B) (s : S) :
  bind (raise e) k s = (Raise e, s).
Proof. reflexivity. Qed.

Lemma bind_bind {A B C} (c : M S A) (k : A -> M S B) (h : B -> M S C) s :
  bind (bind c k) h s = bind c (fun a => bind (k a) h) s.
Proof.
  unfold bind. destruct (c s) as [[a|e] s']; reflexivity.
Qed.

Lemma bind_step {A B} (c : M S A) (k : A -> M S B) s a s' :
  c s = (Ret a, s') -> bind c k s = k a s'.
Proof. intros H. unfold bind. now rewrite H. Qed.

Lemma try_ret {A} (c : M S A) h s a s' :
  c s = (Ret a, s') -> try_except c h s = (Ret a, s').
Proof. intros H. unfold try_except. now rewrite H. Qed.

Lemma try_raise {A} (c : M S A) h s e s' :
  c s = (Raise e, s') -> try_except c h s = h e s'.
Proof. intros H. unfold try_except. now rewrite H. Qed.

End Steps.

Section OnClient.
Context {S : Type} `{HasClient S}.

Lemma on_client_ret {A} (c : M Client A) (s : S) r cl :
  c (client s) = (r, cl) -> on_client c s = (r, with_client cl s).
Proof. intros Hc. unfold on_client. now rewrite Hc. Qed.

End OnClient.

Section Extends.

Lemma extends_refl c : online c -> extends_by [] c c.
Proof.
  intros H. unfold extends_by. rewrite app_nil_r. tauto.
Qed.

Lemma extends_trans m1 m2 c1 c2 c3 :
  extends_by m1 c1 c2 -> extends_by m2 c2 c3 -> extends_by (m1 ++ m2) c1 c3.
Proof.
  intros (Hn1 & Hm1 & _ & Ho1) (Hn2 & Hm2 & Hon & Ho2).
  unfold extends_by. rewrite Hn2, Hn1, Hm2, Hm1, Ho2, Ho1, app_assoc. tauto.
Qed.

Lemma response_extends task_id status results duration c :
  online c ->
  exists m c',
    send_task_response task_id status results duration c = (Ret true, c') /\
    extends_by [m] c c' /\
    response_to task_id m /\
    status_of m = Some (PStr status) /\
    results_of m = Some results /\
    active_tasks c' = dict_del task_id (active_tasks c).
Proof.
  intros Hon. eexists _, _. split.
  - apply send_task_response_online. exact Hon.
  - unfold extends_by, response_to, status_of, results_of, fill_agent.
    simpl. repeat split; try apply Hon.
Qed.

(** A sweep by a connected client ends without an exception and leaves the
    client connected. *)
Lemma sweep_extends reported (ids : list string) :
  forall c, online c ->
    exists msgs c', sweep reported ids c = (Ret tt, c') /\
                    extends_by msgs c c'.
Proof.
  induction ids as [|id rest IH]; intros c Hon.
  - exists [], c. split; [reflexivity|]. now apply extends_refl.
  - cbn [sweep]. rewrite bind_get.
    destruct (dict_mem id (active_tasks c)) eqn:E.
    + rewrite bind_bind, bind_modify, bind_bind.
      destruct (response_extends id "timeout" (timeout_results reported id)
                  None (set_active_tasks (dict_del id) c)
                  (online_set_active_tasks _ _ Hon))
        as (m & c1 & Hsend & Hext & _).
      rewrite (bind_step _ _ _ _ _ Hsend), bind_ret.
      destruct (IH c1) as (msgs & c2 & Hrest & Hext2); [apply Hext|].
      exists ([m] ++ msgs), c2. split; [exact Hrest|].
      eapply extends_trans; [|exact Hext2]. exact Hext.
    + rewrite bind_ret. apply IH. exact Hon.
Qed.

Lemma cleanup_extends now c :
  online c ->
  exists msgs c', _cleanup_timed_out_tasks now c = (Ret tt, c') /\
                  extends_by msgs c c'.
Proof.
  intros Hon. unfold _cleanup_timed_out_tasks. rewrite bind_get.
  now apply sweep_extends.
Qed.

End Extends.

#[global] Instance quality_lawful : LawfulClient QualityAgent.QAgent.
Proof. split; try reflexivity. now intros []. Qed.

#[global] Instance security_lawful : LawfulClient SecurityAgent.SAgent.
Proof. split; try reflexivity. now intros []. Qed.

#[global] Instance base_lawful : LawfulClient Client.
Proof. split; reflexivity. Qed.

Section AgentSteps.
Context {S : Type} `{LawfulClient S}.

Lemma heartbeat_sweeps_extends (times : list Q) :
  forall s : S,
    online (client s) ->
    exists msgs c',
      heartbeat_sweeps times s = (Ret tt, with_client c' s) /\
      extends_by msgs (client s) c'.
Proof.
  induction times as [|t rest IH]; intros s Hon.
  - exists [], (client s). split.
    + simpl. unfold ret. now rewrite with_client_same.
    + now apply extends_refl.
  - cbn [heartbeat_sweeps].
    destruct (cleanup_extends t (client s) Hon) as (m1 & c1 & Hsw & Hext).
    assert (Hstep : heartbeat_sweep t s = (Ret tt, with_client c1 s)).
    { unfold heartbeat_sweep. eapply try_ret. now apply on_client_ret. }
    rewrite (bind_step _ _ _ _ _ Hstep).
    destruct (IH (with_client c1 s)) as (m2 & c2 & Hrest & Hext2).
    { rewrite client_with_client. apply Hext. }
    rewrite client_with_client in Hext2. rewrite with_client_twice in Hrest.
    exists (m1 ++ m2), c2. split; [exact Hrest|].
    eapply extends_trans; eassumption.
Qed.

Lemma respond_extends task_id status results duration (s : S) :
  online (client s) ->
  exists m c',
    on_client (send_task_response task_id status results duration) s
    = (Ret true, with_client c' s) /\
    extends_by [m] (client s) c' /\
    response_to task_id m /\
    status_of m = Some (PStr status) /\
    results_of m = Some results /\
    active_tasks c' = dict_del task_id (active_tasks (client s)).
Proof.
  intros Hon.
  destruct (response_extends task_id status results duration (client s) Hon)
    as (m & c' & Hsend & Hrest).
  exists m, c'. split; [now apply on_client_ret|exact Hrest].
Qed.

End AgentSteps.

(** ** What the quality agent's handler writes when the client is online *)

Section QualityHandler.
Import QualityAgent.

Lemma quality_on_failure env task_id e (a : QAgent) :
  online (base a) ->
  exists m a',
    on_failure env task_id e a = (Ret tt, a') /\
    extends_by [m] (base a) (base a') /\
    response_to task_id m /\
    status_of m = Some (PStr "failed") /\
    active_tasks (base a') = dict_del task_id (active_tasks (base a)) /\
    consecutive_errors a' = consecutive_errors a + 1.
Proof.
  intros Hon. unfold on_failure. rewrite bind_modify.
  set (a1 := set_errors (consecutive_errors a + 1) a).
  destruct (respond_extends task_id "failed"
              (PDict [("error", PErr e);
                      ("error_type", PStr "quality_analysis_error")])
              (Some (duration_ms env)) a1)
      as (m & c' & Hsend & Hext & Hresp & Hst & _ & Hact); [exact Hon|].
  rewrite (bind_step _ _ _ _ _ Hsend).
  exists m, (with_client c' a1). repeat split; try apply Hext; try apply Hresp.
  - exact Hst.
  - exact Hact.
Qed.

(** The [try] block either ends with a [done] response or raises before any
    response of its own. *)
Lemma quality_analyse env task_id td (a : QAgent) :
  online (base a) ->
  (exists msgs m a',
      analyse env task_id td a = (Ret tt, a') /\
      extends_by (msgs ++ [m]) (base a) (base a') /\
      response_to task_id m /\
      status_of m = Some (PStr "done") /\
      dict_mem task_id (active_tasks (base a')) = false) \/
  (exists msgs e a',
      analyse env task_id td a = (Raise e, a') /\
      extends_by msgs (base a) (base a') /\
      consecutive_errors a' = consecutive_errors a).
Proof.
  intros Hon. unfold analyse. rewrite bind_modify, bind_get.
  set (a1 := set_config _ a).
  destruct (_filter_quality_files env (config a1) (default [] (td_scope td)))
    as [|file files] eqn:Hfiles.
  - left.
    destruct (respond_extends task_id "done"
                (empty_results (default "" (td_output td))) (Some 0) a1)
      as (m & c' & Hsend & Hext & Hresp & Hst & _ & Hact); [exact Hon|].
    rewrite (bind_step _ _ _ _ _ Hsend).
    exists [], m, (with_client c' a1). repeat split; try apply Hext;
      try apply Hresp; try exact Hst.
    simpl. rewrite Hact. apply dict_mem_del_eq.
  - destruct (heartbeat_sweeps_extends (sweeps env) a1)
      as (msgs & c1 & Hsw & Hext1); [exact Hon|].
    rewrite (bind_step _ _ _ _ _ Hsw).
    set (a2 := with_client c1 a1) in *.
    destruct (analysis env) as [[fs tools]|e].
    + rewrite bind_modify.
      destruct (report_fault env) as [e|].
      * right. exists msgs, e, (set_findings fs a2).
        split; [reflexivity|]. split; [exact Hext1|reflexivity].
      * left. rewrite bind_get.
        set (a3 := set_findings fs a2).
        assert (Hon3 : online (base a3)) by apply Hext1.
        destruct (respond_extends task_id "done"
                    (done_results a3 tools (length (file :: files))
                       (default "" (td_output td)))
                    (Some (duration_ms env)) a3)
      as (m & c' & Hsend & Hext & Hresp & Hst & _ & Hact); [exact Hon3|].
        rewrite (bind_step _ _ _ _ _ Hsend).
        exists msgs, m, (set_last_successful_run (t_success env)
                           (set_errors 0 (with_client c' a3))).
        split; [reflexivity|]. split.
        { eapply extends_trans; [exact Hext1|exact Hext]. }
        split; [exact Hresp|]. split; [exact Hst|].
        simpl. rewrite Hact. apply dict_mem_del_eq.
    + right. exists msgs, e, a2. split; [reflexivity|].
      split; [exact Hext1|reflexivity].
Qed.

Lemma quality_handler_responds env task_id td (a : QAgent) :
  online (base a) ->
  exists msgs m a',
    QualityAgent.handle_task env task_id td a = (Ret tt, a') /\
    extends_by (msgs ++ [m]) (base a) (base a') /\
    response_to task_id m /\
    (status_of m = Some (PStr "done") \/ status_of m = Some (PStr "failed")) /\
    dict_mem task_id (active_tasks (base a')) = false.
Proof.
  intros Hon. unfold QualityAgent.handle_task. rewrite bind_get.
  destruct (cooldown_active a (t_gate env)).
  - destruct (respond_extends task_id "failed"
                (cooldown_results a (t_gate env)) None a)
      as (m & c' & Hsend & Hext & Hresp & Hst & _ & Hact); [exact Hon|].
    rewrite (bind_step _ _ _ _ _ Hsend).
    exists [], m, (with_client c' a). repeat split; try apply Hext;
      try apply Hresp.
    + right. exact Hst.
    + simpl. rewrite Hact. apply dict_mem_del_eq.
  - destruct (quality_analyse env task_id td a Hon)
      as [(msgs & m & a' & Hrun & Hext & Hresp & Hst & Hgone)
         |(msgs & e & a' & Hrun & Hext & _)].
    + rewrite (try_ret _ _ _ _ _ Hrun).
      exists msgs, m, a'. repeat split; try apply Hext; try apply Hresp;
        [left; exact Hst|exact Hgone].
    + rewrite (try_raise _ _ _ _ _ Hrun).
      assert (Hon' : online (base a')) by apply Hext.
      destruct (quality_on_failure env task_id e a' Hon')
        as (m & a'' & Hfail & Hext2 & Hresp & Hst & Hact & _).
      exists msgs, m, a''. split; [exact Hfail|]. split.
      { eapply extends_trans; eassumption. }
      split; [exact Hresp|]. split; [right; exact Hst|].
      rewrite Hact. apply dict_mem_del_eq.
Qed.

End QualityHandler.

(** ** What the security agent's handler writes when the client is online *)

Section SecurityHandler.
Import SecurityAgent.

Lemma security_on_failure env task_id e (a : SAgent) :
  online (base a) ->
  exists m a',
    on_failure env task_id e a = (Ret tt, a') /\
    extends_by [m] (base a) (base a') /\
    response_to task_id m /\
    status_of m = Some (PStr "failed") /\
    active_tasks (base a') = dict_del task_id (active_tasks (base a)) /\
    consecutive_errors a' = consecutive_errors a + 1 /\
    findings a' = findings a.
Proof.
  intros Hon. unfold on_failure. rewrite bind_modify.
  set (a1 := set_errors (consecutive_errors a + 1) a).
  destruct (respond_extends task_id "failed"
              (PDict [("error", PErr e); ("error_type", PStr (exn_type e))])
              (Some (duration_ms env)) a1)
    as (m & c' & Hsend & Hext & Hresp & Hst & _ & Hact); [exact Hon|].
  rewrite (bind_step _ _ _ _ _ Hsend).
  exists m, (with_client c' a1). repeat split; try apply Hext; try apply Hresp.
  - exact Hst.
  - exact Hact.
Qed.

(** [_run_security_analysis] returns; it stores new findings only when some
    file is eligible. *)
Lemma security_run env scope (a : SAgent) :
  online (base a) ->
  exists msgs results a',
    _run_security_analysis env scope a = (Ret results, a') /\
    extends_by msgs (base a) (base a') /\
    consecutive_errors a' = consecutive_errors a /\
    (_filter_security_files env scope = [] ->
     a' = a /\ results = mkResults [] [] 0 0).
Proof.
  intros Hon. unfold _run_security_analysis.
  destruct (_filter_security_files env scope) as [|file files].
  - exists [], (mkResults [] [] 0 0), a. split; [reflexivity|].
    split; [now apply extends_refl|]. split; [reflexivity|]. now intros _.
  - destruct (heartbeat_sweeps_extends (sweeps env) a)
      as (msgs & c1 & Hsw & Hext1); [exact Hon|].
    rewrite (bind_step _ _ _ _ _ Hsw), bind_get, bind_modify.
    eexists msgs, _, _. split; [reflexivity|].
    split; [exact Hext1|]. split; [reflexivity|]. discriminate.
Qed.

Lemma security_analyse env task_id td (a : SAgent) :
  online (base a) ->
  (exists msgs m a',
      analyse env task_id td a = (Ret tt, a') /\
      extends_by (msgs ++ [m]) (base a) (base a') /\
      response_to task_id m /\
      status_of m = Some (PStr "done") /\
      dict_mem task_id (active_tasks (base a')) = false) \/
  (exists msgs e a',
      analyse env task_id td a = (Raise e, a') /\
      extends_by msgs (base a) (base a') /\
      consecutive_errors a' = consecutive_errors a).
Proof.
  intros Hon. unfold analyse. rewrite bind_modify.
  set (a1 := set_config _ a).
  destruct (security_run env (default [] (td_scope td)) a1 Hon)
    as (msgs & results & a2 & Hrun & Hext1 & Herr & _).
  rewrite (bind_step _ _ _ _ _ Hrun), bind_get.
  unfold lift_outcome at 1. unfold bind at 1.
  destruct (_generate_sarif_report _ _ _) as [report|e].
  2:{ right. exists msgs, e, a2. split; [reflexivity|].
      split; [exact Hext1|exact Herr]. }
  unfold lift_outcome at 1. unfold bind at 1.
  destruct (done_results _ _ _) as [payload|e].
  2:{ right. exists msgs, e, a2. split; [reflexivity|].
      split; [exact Hext1|exact Herr]. }
  left.
  assert (Hon2 : online (base a2)) by apply Hext1.
  destruct (respond_extends task_id "done" payload (Some (duration_ms env)) a2)
    as (m & c' & Hsend & Hext & Hresp & Hst & _ & Hact); [exact Hon2|].
  rewrite (bind_step _ _ _ _ _ Hsend).
  exists msgs, m, (set_last_successful_run (t_success env)
                     (set_errors 0 (with_client c' a2))).
  split; [reflexivity|]. split.
  { eapply extends_trans; [exact Hext1|exact Hext]. }
  split; [exact Hresp|]. split; [exact Hst|].
  simpl. rewrite Hact. apply dict_mem_del_eq.
Qed.

Lemma security_handler_responds env task_id td (a : SAgent) :
  online (base a) ->
  exists msgs m a',
    SecurityAgent.handle_task env task_id td a = (Ret tt, a') /\
    extends_by (msgs ++ [m]) (base a) (base a') /\
    response_to task_id m /\
    (status_of m = Some (PStr "done") \/ status_of m = Some (PStr "failed")) /\
    dict_mem task_id (active_tasks (base a')) = false.
Proof.
  intros Hon. unfold SecurityAgent.handle_task. rewrite bind_get.
  destruct (cooldown_active a (t_gate env)).
  - destruct (respond_extends task_id "failed"
                (cooldown_results a (t_gate env)) None a)
      as (m & c' & Hsend & Hext & Hresp & Hst & _ & Hact); [exact Hon|].
    rewrite (bind_step _ _ _ _ _ Hsend).
    exists [], m, (with_client c' a). repeat split; try apply Hext;
      try apply Hresp.
    + right. exact Hst.
    + simpl. rewrite Hact. apply dict_mem_del_eq.
  - destruct (security_analyse env task_id td a Hon)
      as [(msgs & m & a' & Hrun & Hext & Hresp & Hst & Hgone)
         |(msgs & e & a' & Hrun & Hext & _)].
    + rewrite (try_ret _ _ _ _ _ Hrun).
      exists msgs, m, a'. repeat split; try apply Hext; try apply Hresp;
        [left; exact Hst|exact Hgone].
    + rewrite (try_raise _ _ _ _ _ Hrun).
      assert (Hon' : online (base a')) by apply Hext.
      destruct (security_on_failure env task_id e a' Hon')
        as (m & a'' & Hfail & Hext2 & Hresp & Hst & Hact & _).
      exists msgs, m, a''. split; [exact Hfail|]. split.
      { eapply extends_trans; eassumption. }
      split; [exact Hresp|]. split; [right; exact Hst|].
      rewrite Hact. apply dict_mem_del_eq.
Qed.

End SecurityHandler.

(** ** The sweep, exactly *)

Section SweepExact.

Lemma timed_out_in now (d : list (string * ActiveTask)) id :
  In id (timed_out_tasks now d) -> In id (dict_keys d).
Proof.
  unfold timed_out_tasks, dict_keys. induction d as [|[k t] d IH]; simpl.
  - tauto.
  - destruct (expired now t); simpl; tauto.
Qed.

Lemma timed_out_NoDup now (d : list (string * ActiveTask)) :
  NoDup (dict_keys d) -> NoDup (timed_out_tasks now d).
Proof.
  unfold timed_out_tasks, dict_keys.
  induction d as [|[k t] d IH]; simpl; intros Hnd.
  - constructor.
  - apply NoDup_cons in Hnd as [Hk Hnd]. destruct (expired now t); simpl.
    + apply NoDup_cons. split; [|now apply IH].
      intros Hin. apply Hk. apply list_elem_of_In.
      apply (timed_out_in now d k). apply list_elem_of_In. exact Hin.
    + now apply IH.
Qed.

Lemma dict_get_fold_del {V} (ids : list string) :
  forall (d : list (string * V)) k,
    dict_get k (fold_left (fun d id => dict_del id d) ids d)
    = if str_in k ids then None else dict_get k d.
Proof.
  induction ids as [|id rest IH]; intros d k; [reflexivity|].
  cbn [fold_left]. rewrite IH. unfold str_in. cbn [existsb].
  destruct (String.eqb k id) eqn:E.
  - apply String.eqb_eq in E. subst id. simpl.
    rewrite dict_get_del_eq. now destruct (existsb _ rest).
  - simpl. apply String.eqb_neq in E.
    rewrite dict_get_del_ne by congruence. reflexivity.
Qed.

(** A sweep by a connected client writes one timeout response for each
    expired entry, in dict order, and deletes exactly those entries. *)
Lemma cleanup_online now c :
  online c ->
  NoDup (dict_keys (active_tasks c)) ->
  exists c',
    _cleanup_timed_out_tasks now c = (Ret tt, c') /\
    outbox c' = outbox c ++
                map (timeout_message (agent_name c)
                       (loop_timeout (active_tasks c)))
                    (timed_out_tasks now (active_tasks c)) /\
    (forall id, dict_get id (active_tasks c')
                = if str_in id (timed_out_tasks now (active_tasks c))
                  then None else dict_get id (active_tasks c)).
Proof.
  intros Hon Hnd. unfold _cleanup_timed_out_tasks. rewrite bind_get.
  rewrite sweep_online.
  - eexists. split; [reflexivity|]. simpl. split; [reflexivity|].
    intros id. apply dict_get_fold_del.
  - exact Hon.
  - now apply timed_out_NoDup.
  - intros id Hid. apply dict_mem_In. eapply timed_out_in. exact Hid.
Qed.

End SweepExact.

(** ** Accepted tasks *)

Section Accepted.
Context {S E : Type} `{Agent S E} `{!LawfulClient S}.

Lemma handle_task_overloaded env now (msg : TaskMessage) td (s : S) :
  tm_data msg = Some td ->
  data_missing (tm_data msg) = false ->
  max_active_tasks (client s) <= Z.of_nat (length (active_tasks (client s))) ->
  _handle_task env now msg s
  = bind (on_client (send_task_response (tm_id msg) "rejected"
                       (overload_results (client s)) None))
         (fun _ => ret tt) s.
Proof.
  intros Hd Hm Hover. unfold _handle_task. rewrite Hd. rewrite Hd in Hm.
  rewrite Hm, bind_get.
  apply Z.leb_le in Hover. now rewrite Hover.
Qed.

Lemma handle_task_accepted env now (msg : TaskMessage) td (s : S) :
  tm_data msg = Some td ->
  accepted msg (client s) ->
  _handle_task env now msg s
  = try_except (handle_task env (tm_id msg) td)
      (fun e => bind (on_client (send_task_response (tm_id msg) "failed"
                                   (PDict [("error", PErr e)]) None))
                     (fun _ => ret tt))
      (with_client (set_active_tasks
                      (dict_set (tm_id msg) (new_active td now)) (client s)) s).
Proof.
  intros Hd [Hm Hroom]. unfold _handle_task. rewrite Hd. rewrite Hd in Hm.
  rewrite Hm, bind_get.
  apply Z.leb_gt in Hroom. rewrite Hroom.
  reflexivity.
Qed.

End Accepted.

Section AcceptedResponds.
Context {S E : Type} `{Agent S E} `{!LawfulClient S}.

(** The handler of the subclass ends with a response when the client is
    online. *)
Hypothesis handler_responds :
  forall (env : E) task_id td (s : S),
    online (client s) ->
    exists msgs m s',
      handle_task env task_id td s = (Ret tt, s') /\
      extends_by (msgs ++ [m]) (client s) (client s') /\
      response_to task_id m /\
      (status_of m = Some (PStr "done") \/ status_of m = Some (PStr "failed")) /\
      dict_mem task_id (active_tasks (client s')) = false.

Lemma accepted_task_gets_response env now (msg : TaskMessage) td (s : S) :
  tm_data msg = Some td ->
  accepted msg (client s) ->
  online (client s) ->
  exists msgs m s',
    _handle_task env now msg s = (Ret tt, s') /\
    outbox (client s') = outbox (client s) ++ msgs ++ [m] /\
    response_to (tm_id msg) m /\
    (status_of m = Some (PStr "done") \/ status_of m = Some (PStr "failed")) /\
    dict_mem (tm_id msg) (active_tasks (client s')) = false.
Proof.
  intros Hd Hacc Hon.
  rewrite (handle_task_accepted env now msg td s Hd Hacc).
  set (s1 := with_client _ s).
  assert (Hc1 : client s1 = set_active_tasks
                  (dict_set (tm_id msg) (new_active td now)) (client s)).
  { unfold s1. now rewrite client_with_client. }
  destruct (handler_responds env (tm_id msg) td s1)
    as (msgs & m & s' & Hrun & Hext & Hresp & Hst & Hgone).
  { rewrite Hc1. exact Hon. }
  exists msgs, m, s'. split; [now apply try_ret|].
  split; [|tauto].
  destruct Hext as (_ & _ & _ & Hout). rewrite Hout, Hc1. reflexivity.
Qed.

End AcceptedResponds.

(** ** C1: responses and terminal events *)

Section Responses.

(** C1, as the code has it.  Each terminal event of a task deletes the
    [ActiveTask] entry and then hands one response with the task's id to the
    socket: a connected client writes exactly that one message, a client
    that is not connected writes nothing.  The heartbeat sweep does this
    once for every expired entry, in dict order, and for no other entry.
    A task message that passes the gate of a connected quality or security
    agent makes the handler return after writing a [done] or [failed]
    response with the task's id as its last message; the messages before it
    are those of the heartbeat sweeps that ran meanwhile. *)
Theorem responses_follow_terminal_events
  (c c_off : Client) (now : Q) (task_id status : string) (results : pyval)
  (duration : option Z)
  (qa : QualityAgent.QAgent) (qenv : QualityAgent.Env)
  (sa : SecurityAgent.SAgent) (senv : SecurityAgent.Env)
  (msg : TaskMessage) (td : TaskData) (t0 : Q) :
  online c ->
  NoDup (dict_keys (active_tasks c)) ->
  is_connected c_off = false ->
  tm_data msg = Some td ->
  accepted msg (QualityAgent.base qa) ->
  online (QualityAgent.base qa) ->
  accepted msg (SecurityAgent.base sa) ->
  online (SecurityAgent.base sa) ->
  (exists m c',
     send_task_response task_id status results duration c = (Ret true, c') /\
     outbox c' = outbox c ++ [m] /\
     response_to task_id m /\
     status_of m = Some (PStr status) /\
     dict_mem task_id (active_tasks c') = false) /\
  (exists c',
     send_task_response task_id status results duration c_off
     = (Ret false, c') /\
     outbox c' = outbox c_off /\
     dict_mem task_id (active_tasks c') = false) /\
  (exists c',
     _cleanup_timed_out_tasks now c = (Ret tt, c') /\
     outbox c' = outbox c ++
                 map (timeout_message (agent_name c)
                        (loop_timeout (active_tasks c)))
                     (timed_out_tasks now (active_tasks c)) /\
     (forall id, dict_get id (active_tasks c')
                 = if str_in id (timed_out_tasks now (active_tasks c))
                   then None else dict_get id (active_tasks c))) /\
  (exists msgs m qa',
     _handle_task qenv t0 msg qa = (Ret tt, qa') /\
     outbox (QualityAgent.base qa')
     = outbox (QualityAgent.base qa) ++ msgs ++ [m] /\
     response_to (tm_id msg) m /\
     (status_of m = Some (PStr "done") \/ status_of m = Some (PStr "failed")) /\
     dict_mem (tm_id msg) (active_tasks (QualityAgent.base qa')) = false) /\
  (exists msgs m sa',
     _handle_task senv t0 msg sa = (Ret tt, sa') /\
     outbox (SecurityAgent.base sa')
     = outbox (SecurityAgent.base sa) ++ msgs ++ [m] /\
     response_to (tm_id msg) m /\
     (status_of m = Some (PStr "done") \/ status_of m = Some (PStr "failed")) /\
     dict_mem (tm_id msg) (active_tasks (SecurityAgent.base sa')) = false).
Proof.
  intros Hon Hnd Hoff Hd Hqacc Hqon Hsacc Hson.
  split; [|split; [|split; [|split]]].
  - destruct (response_extends task_id status results duration c Hon)
      as (m & c' & Hsend & Hext & Hresp & Hst & _ & Hact).
    exists m, c'. split; [exact Hsend|]. split; [apply Hext|].
    split; [exact Hresp|]. split; [exact Hst|].
    rewrite Hact. apply dict_mem_del_eq.
  - eexists. split.
    + now apply send_task_response_offline.
    + split; [reflexivity|]. apply dict_mem_del_eq.
  - now apply cleanup_online.
  - exact (@accepted_task_gets_response
             QualityAgent.QAgent QualityAgent.Env QualityAgent.quality_client
             QualityAgent.quality_agent quality_lawful
             quality_handler_responds qenv t0 msg td qa Hd Hqacc Hqon).
  - exact (@accepted_task_gets_response
             SecurityAgent.SAgent SecurityAgent.Env
             SecurityAgent.security_client SecurityAgent.security_agent
             security_lawful
             security_handler_responds senv t0 msg td sa Hd Hsacc Hson).
Qed.

Lemma responses_follow_terminal_events_witness :
  online overdue_client /\
  NoDup (dict_keys (active_tasks overdue_client)) /\
  is_connected c9_client = false /\
  accepted short_task (QualityAgent.base (quality_online 0)) /\
  accepted short_task (SecurityAgent.base (security_online 0)) /\
  exists c',
    _cleanup_timed_out_tasks 50 overdue_client = (Ret tt, c') /\
    outbox c' = [timeout_message "quality" (PFloat 300) "t0"] /\
    dict_mem "t0" (active_tasks c') = false /\
    dict_mem "t9" (active_tasks c') = true.
Proof.
  assert (Hon : online overdue_client) by (repeat split).
  assert (Hnd : NoDup (dict_keys (active_tasks overdue_client))).
  { apply NoDup_ListNoDup. repeat constructor; simpl; intuition discriminate. }
  assert (Hq : accepted short_task (QualityAgent.base (quality_online 0)))
    by (split; reflexivity).
  assert (Hs : accepted short_task (SecurityAgent.base (security_online 0)))
    by (split; reflexivity).
  split; [exact Hon|]. split; [exact Hnd|]. split; [reflexivity|].
  split; [exact Hq|]. split; [exact Hs|].
  destruct (responses_follow_terminal_events
              overdue_client c9_client 50 "t0" "done" (PDict []) None
              (quality_online 0) slow_tools (security_online 0) (app_scan 100)
              short_task _ 100 Hon Hnd eq_refl eq_refl
              Hq (conj eq_refl (conj eq_refl eq_refl))
              Hs (conj eq_refl (conj eq_refl eq_refl)))
    as (_ & _ & (c' & Hrun & Hout & Hget) & _).
  exists c'. split; [exact Hrun|]. split; [exact Hout|].
  unfold dict_mem. rewrite !Hget. split; reflexivity.
Defined.

(** C1 as stated fails.  Task [t1] is accepted by a connected quality agent;
    the heartbeat sweep finds it past its deadline while the tools still
    run and writes a [timeout] response; the handler then finishes and
    writes a [done] response with the same id.  And when the client is not
    connected, the same task gets no response at all. *)
Lemma c1_two_responses_for_one_id :
  accepted short_task (QualityAgent.base (quality_online 0)) /\
  statuses "t1"
    (QualityAgent.base
       (snd (_handle_task slow_tools 100 short_task (quality_online 0))))
  = [Some (PStr "timeout"); Some (PStr "done")] /\
  statuses "t1"
    (QualityAgent.base
       (snd (_handle_task slow_tools 100 short_task (quality_offline 0))))
  = [].
Proof.
  split; [split; reflexivity|]. split; vm_compute; reflexivity.
Qed.

End Responses.

(** ** C3: the cooldown *)

Section Cooldown.

Lemma py_int_positive x : (1 <= x)%Q -> 1 <= py_int x.
Proof.
  intros Hx. rewrite py_int_floor by lra.
  change 1 with (Qfloor 1). now apply Qfloor_resp_le.
Qed.

Lemma quality_cooldown_iff (a : QualityAgent.QAgent) (t : Q) :
  QualityAgent.cooldown_active a t = true <->
  QualityAgent.max_consecutive_errors a <= QualityAgent.consecutive_errors a /\
  (t - QualityAgent.last_successful_run a
   < inject_Z (QualityAgent.error_threshold_cooldown a))%Q.
Proof.
  unfold QualityAgent.cooldown_active.
  rewrite andb_true_iff, Z.leb_le, Qltb_lt. reflexivity.
Qed.

Lemma security_cooldown_iff (a : SecurityAgent.SAgent) (t : Q) :
  SecurityAgent.cooldown_active a t = true <->
  SecurityAgent.max_consecutive_errors a <= SecurityAgent.consecutive_errors a /\
  (t - SecurityAgent.last_successful_run a
   < inject_Z (SecurityAgent.error_threshold_cooldown a))%Q.
Proof.
  unfold SecurityAgent.cooldown_active.
  rewrite andb_true_iff, Z.leb_le, Qltb_lt. reflexivity.
Qed.

Lemma quality_cooldown_elapsed (a : QualityAgent.QAgent) (t : Q) :
  (inject_Z (QualityAgent.error_threshold_cooldown a)
   <= t - QualityAgent.last_successful_run a)%Q ->
  QualityAgent.cooldown_active a t = false.
Proof.
  intros Hle. unfold QualityAgent.cooldown_active.
  apply Qltb_ge in Hle. rewrite Hle. apply andb_false_r.
Qed.

Lemma security_cooldown_elapsed (a : SecurityAgent.SAgent) (t : Q) :
  (inject_Z (SecurityAgent.error_threshold_cooldown a)
   <= t - SecurityAgent.last_successful_run a)%Q ->
  SecurityAgent.cooldown_active a t = false.
Proof.
  intros Hle. unfold SecurityAgent.cooldown_active.
  apply Qltb_ge in Hle. rewrite Hle. apply andb_false_r.
Qed.

Lemma quality_remaining_bounds (a : QualityAgent.QAgent) (t : Q) :
  QualityAgent.cooldown_active a t = true ->
  0 <= QualityAgent.cooldown_remaining a t /\
  ((t - QualityAgent.last_successful_run a
    <= inject_Z (QualityAgent.error_threshold_cooldown a) - 1)%Q ->
   1 <= QualityAgent.cooldown_remaining a t).
Proof.
  intros Hact. apply quality_cooldown_iff in Hact as [_ Hlt].
  unfold QualityAgent.cooldown_remaining. split.
  - apply py_int_nonneg. lra.
  - intros Hle. apply py_int_positive. lra.
Qed.

Lemma security_remaining_bounds (a : SecurityAgent.SAgent) (t : Q) :
  SecurityAgent.cooldown_active a t = true ->
  0 <= SecurityAgent.cooldown_remaining a t /\
  ((t - SecurityAgent.last_successful_run a
    <= inject_Z (SecurityAgent.error_threshold_cooldown a) - 1)%Q ->
   1 <= SecurityAgent.cooldown_remaining a t).
Proof.
  intros Hact. apply security_cooldown_iff in Hact as [_ Hlt].
  unfold SecurityAgent.cooldown_remaining. split.
  - apply py_int_nonneg. lra.
  - intros Hle. apply py_int_positive. lra.
Qed.

(** The reply of the quality agent during the cooldown: one [failed]
    response; nothing but the client changes. *)
Lemma quality_cooldown_reply env task_id td (a : QualityAgent.QAgent) :
  online (QualityAgent.base a) ->
  QualityAgent.cooldown_active a (QualityAgent.t_gate env) = true ->
  exists m c',
    QualityAgent.handle_task env task_id td a = (Ret tt, with_client c' a) /\
    outbox c' = outbox (QualityAgent.base a) ++ [m] /\
    response_to task_id m /\
    status_of m = Some (PStr "failed") /\
    result_field "cooldown_remaining" m
    = Some (PInt (QualityAgent.cooldown_remaining a (QualityAgent.t_gate env))) /\
    active_tasks c' = dict_del task_id (active_tasks (QualityAgent.base a)).
Proof.
  intros Hon Hact. unfold QualityAgent.handle_task.
  rewrite bind_get, Hact.
  destruct (respond_extends task_id "failed"
              (QualityAgent.cooldown_results a (QualityAgent.t_gate env))
              None a)
    as (m & c' & Hsend & Hext & Hresp & Hst & Hres & Hdel); [exact Hon|].
  rewrite (bind_step _ _ _ _ _ Hsend).
  exists m, c'. split; [reflexivity|]. split; [apply Hext|].
  split; [exact Hresp|]. split; [exact Hst|]. split; [|exact Hdel].
  unfold result_field. rewrite Hres. reflexivity.
Qed.

Lemma security_cooldown_reply env task_id td (a : SecurityAgent.SAgent) :
  online (SecurityAgent.base a) ->
  SecurityAgent.cooldown_active a (SecurityAgent.t_gate env) = true ->
  exists m c',
    SecurityAgent.handle_task env task_id td a = (Ret tt, with_client c' a) /\
    outbox c' = outbox (SecurityAgent.base a) ++ [m] /\
    response_to task_id m /\
    status_of m = Some (PStr "failed") /\
    result_field "cooldown_remaining" m
    = Some (PInt (SecurityAgent.cooldown_remaining a (SecurityAgent.t_gate env))).
Proof.
  intros Hon Hact. unfold SecurityAgent.handle_task.
  rewrite bind_get, Hact.
  destruct (respond_extends task_id "failed"
              (SecurityAgent.cooldown_results a (SecurityAgent.t_gate env))
              None a)
    as (m & c' & Hsend & Hext & Hresp & Hst & Hres & _); [exact Hon|].
  rewrite (bind_step _ _ _ _ _ Hsend).
  exists m, c'. split; [reflexivity|]. split; [apply Hext|].
  split; [exact Hresp|]. split; [exact Hst|].
  unfold result_field. rewrite Hres. reflexivity.
Qed.

(** C3, as the code has it.  The thresholds default to 10 errors and 300
    seconds.  The cooldown is active exactly when [consecutive_errors] is at
    least [max_consecutive_errors] and fewer than [error_threshold_cooldown]
    seconds have passed since [last_successful_run].  A task that reaches
    the handler of a connected agent while the cooldown is active gets one
    [failed] response whose [cooldown_remaining] is the whole number of
    seconds left: never negative, and at least 1 when at least one second
    is left; the analysis is not run and no counter changes.  Once
    [error_threshold_cooldown] seconds have passed since the last success,
    the handler runs the analysis whatever the error count. *)
Theorem cooldown_rejects_until_elapsed
  (qa qa' : QualityAgent.QAgent) (qenv qenv' : QualityAgent.Env)
  (sa sa' : SecurityAgent.SAgent) (senv senv' : SecurityAgent.Env)
  (task_id : string) (td : TaskData) :
  online (QualityAgent.base qa) ->
  QualityAgent.cooldown_active qa (QualityAgent.t_gate qenv) = true ->
  (inject_Z (QualityAgent.error_threshold_cooldown qa')
   <= QualityAgent.t_gate qenv' - QualityAgent.last_successful_run qa')%Q ->
  online (SecurityAgent.base sa) ->
  SecurityAgent.cooldown_active sa (SecurityAgent.t_gate senv) = true ->
  (inject_Z (SecurityAgent.error_threshold_cooldown sa')
   <= SecurityAgent.t_gate senv' - SecurityAgent.last_successful_run sa')%Q ->
  (forall now,
      QualityAgent.max_consecutive_errors (QualityAgent.init now) = 10 /\
      QualityAgent.error_threshold_cooldown (QualityAgent.init now) = 300 /\
      SecurityAgent.max_consecutive_errors (SecurityAgent.init now) = 10 /\
      SecurityAgent.error_threshold_cooldown (SecurityAgent.init now) = 300) /\
  (QualityAgent.max_consecutive_errors qa <= QualityAgent.consecutive_errors qa /\
   (QualityAgent.t_gate qenv - QualityAgent.last_successful_run qa
    < inject_Z (QualityAgent.error_threshold_cooldown qa))%Q) /\
  (exists m c',
      QualityAgent.handle_task qenv task_id td qa = (Ret tt, with_client c' qa) /\
      outbox c' = outbox (QualityAgent.base qa) ++ [m] /\
      response_to task_id m /\
      status_of m = Some (PStr "failed") /\
      result_field "cooldown_remaining" m
      = Some (PInt (QualityAgent.cooldown_remaining qa (QualityAgent.t_gate qenv)))) /\
  (0 <= QualityAgent.cooldown_remaining qa (QualityAgent.t_gate qenv) /\
   ((QualityAgent.t_gate qenv - QualityAgent.last_successful_run qa
     <= inject_Z (QualityAgent.error_threshold_cooldown qa) - 1)%Q ->
    1 <= QualityAgent.cooldown_remaining qa (QualityAgent.t_gate qenv))) /\
  QualityAgent.handle_task qenv' task_id td qa'
  = try_except (QualityAgent.analyse qenv' task_id td)
               (QualityAgent.on_failure qenv' task_id) qa' /\
  (SecurityAgent.max_consecutive_errors sa <= SecurityAgent.consecutive_errors sa /\
   (SecurityAgent.t_gate senv - SecurityAgent.last_successful_run sa
    < inject_Z (SecurityAgent.error_threshold_cooldown sa))%Q) /\
  (exists m c',
      SecurityAgent.handle_task senv task_id td sa = (Ret tt, with_client c' sa) /\
      outbox c' = outbox (SecurityAgent.base sa) ++ [m] /\
      response_to task_id m /\
      status_of m = Some (PStr "failed") /\
      result_field "cooldown_remaining" m
      = Some (PInt (SecurityAgent.cooldown_remaining sa (SecurityAgent.t_gate senv)))) /\
  (0 <= SecurityAgent.cooldown_remaining sa (SecurityAgent.t_gate senv) /\
   ((SecurityAgent.t_gate senv - SecurityAgent.last_successful_run sa
     <= inject_Z (SecurityAgent.error_threshold_cooldown sa) - 1)%Q ->
    1 <= SecurityAgent.cooldown_remaining sa (SecurityAgent.t_gate senv))) /\
  SecurityAgent.handle_task senv' task_id td sa'
  = try_except (SecurityAgent.analyse senv' task_id td)
               (SecurityAgent.on_failure senv' task_id) sa'.
Proof.
  intros Hqon Hqact Hqel Hson Hsact Hsel.
  split; [intros now; repeat split; reflexivity|].
  split; [now apply quality_cooldown_iff|].
  split.
  { destruct (quality_cooldown_reply qenv task_id td qa Hqon Hqact)
      as (m & c' & H1 & H2 & H3 & H4 & H5 & _).
    exists m, c'. tauto. }
  split; [now apply quality_remaining_bounds|].
  split.
  { unfold QualityAgent.handle_task. rewrite bind_get.
    now rewrite (quality_cooldown_elapsed _ _ Hqel). }
  split; [now apply security_cooldown_iff|].
  split; [now apply security_cooldown_reply|].
  split; [now apply security_remaining_bounds|].
  unfold SecurityAgent.handle_task. rewrite bind_get.
  now rewrite (security_cooldown_elapsed _ _ Hsel).
Qed.

Lemma cooldown_rejects_until_elapsed_witness :
  QualityAgent.cooldown_active cooling 100 = true /\
  SecurityAgent.cooldown_active security_cooling 100 = true /\
  (exists m c',
      QualityAgent.handle_task (quick_tools 100) "t2" one_task cooling
      = (Ret tt, with_client c' cooling) /\
      outbox c' = [m] /\
      status_of m = Some (PStr "failed") /\
      result_field "cooldown_remaining" m = Some (PInt 200)) /\
  QualityAgent.handle_task (quick_tools 300) "t2" one_task cooling
  = try_except (QualityAgent.analyse (quick_tools 300) "t2" one_task)
               (QualityAgent.on_failure (quick_tools 300) "t2") cooling.
Proof.
  assert (Hq : online (QualityAgent.base cooling)) by (repeat split).
  assert (Hs : online (SecurityAgent.base security_cooling))
    by (repeat split).
  assert (Hqel : (inject_Z (QualityAgent.error_threshold_cooldown cooling)
                  <= QualityAgent.t_gate (quick_tools 300)
                     - QualityAgent.last_successful_run cooling)%Q)
    by (vm_compute; discriminate).
  assert (Hsel : (inject_Z (SecurityAgent.error_threshold_cooldown security_cooling)
                  <= SecurityAgent.t_gate (app_scan 100)
                     - SecurityAgent.last_successful_run
                         (security_online (-200)))%Q)
    by (vm_compute; discriminate).
  pose proof (cooldown_rejects_until_elapsed
                cooling cooling (quick_tools 100) (quick_tools 300)
                security_cooling (security_online (-200)) (app_scan 100)
                (app_scan 100)
                "t2" one_task Hq eq_refl Hqel Hs eq_refl Hsel)
    as (_ & _ & (m & c' & Hrun & Hout & _ & Hst & Hfield) & _ & Hopen & _).
  split; [reflexivity|]. split; [reflexivity|]. split; [|exact Hopen].
  exists m, c'. split; [exact Hrun|]. split; [exact Hout|].
  split; [exact Hst|exact Hfield].
Defined.

(** C3 as stated fails in two ways.  Ten tasks fail within ten seconds of
    the agent's start; a task that arrives half a second before the
    cooldown ends is answered [failed] with [cooldown_remaining] equal to 0,
    which is not positive.  And when the ten failures are forty seconds
    apart, the tenth comes 400 seconds after the last success: the counter
    has reached 10, yet the task sent one second later is analysed and
    answered [done]; no cooldown is entered. *)
Lemma c3_remaining_zero_and_no_cooldown :
  QualityAgent.consecutive_errors (after_failures quick_failures) = 10 /\
  QualityAgent.cooldown_active (after_failures quick_failures) (599 # 2) = true /\
  replies "t2" "cooldown_remaining"
    (QualityAgent.base
       (snd (_handle_task (quick_tools (599 # 2)) (599 # 2) next_task
               (after_failures quick_failures))))
  = [(Some (PStr "failed"), Some (PInt 0))] /\
  QualityAgent.consecutive_errors (after_failures slow_failures) = 10 /\
  replies "t2" "findings_count"
    (QualityAgent.base
       (snd (_handle_task (quick_tools 401) 401 next_task
               (after_failures slow_failures))))
  = [(Some (PStr "done"), Some (PInt 0))].
Proof.
  repeat split; vm_compute; reflexivity.
Qed.

End Cooldown.

(** ** C2: the order of the admission gate *)

Section Gate.

(** C2, as the code has it.  For a task message with data received by a
    connected quality agent, [_handle_task] tests the number of active tasks
    first: at or over [max_active_tasks] it replies [rejected] with the
    overload message and runs no handler, whether or not the cooldown is
    active.  Only below the limit is the [ActiveTask] entry inserted, and
    then the handler runs: if the cooldown is active it replies [failed]
    with [cooldown_remaining] and the entry is deleted again; otherwise the
    task goes to the analysis, with the entry in place. *)
Theorem gate_tests_overload_before_cooldown
  (a_full a_cool a_open : QualityAgent.QAgent) (env : QualityAgent.Env)
  (now : Q) (msg : TaskMessage) (td : TaskData) :
  tm_data msg = Some td ->
  data_missing (tm_data msg) = false ->
  online (QualityAgent.base a_full) ->
  max_active_tasks (QualityAgent.base a_full)
  <= Z.of_nat (length (active_tasks (QualityAgent.base a_full))) ->
  online (QualityAgent.base a_cool) ->
  Z.of_nat (length (active_tasks (QualityAgent.base a_cool)))
  < max_active_tasks (QualityAgent.base a_cool) ->
  QualityAgent.cooldown_active a_cool (QualityAgent.t_gate env) = true ->
  Z.of_nat (length (active_tasks (QualityAgent.base a_open)))
  < max_active_tasks (QualityAgent.base a_open) ->
  QualityAgent.cooldown_active a_open (QualityAgent.t_gate env) = false ->
  (exists m c',
      _handle_task env now msg a_full = (Ret tt, with_client c' a_full) /\
      outbox c' = outbox (QualityAgent.base a_full) ++ [m] /\
      response_to (tm_id msg) m /\
      status_of m = Some (PStr "rejected") /\
      results_of m = Some (overload_results (QualityAgent.base a_full))) /\
  (exists m c',
      _handle_task env now msg a_cool = (Ret tt, with_client c' a_cool) /\
      outbox c' = outbox (QualityAgent.base a_cool) ++ [m] /\
      response_to (tm_id msg) m /\
      status_of m = Some (PStr "failed") /\
      result_field "cooldown_remaining" m
      = Some (PInt (QualityAgent.cooldown_remaining a_cool
                      (QualityAgent.t_gate env))) /\
      active_tasks c'
      = dict_del (tm_id msg)
          (dict_set (tm_id msg) (new_active td now)
                    (active_tasks (QualityAgent.base a_cool)))) /\
  (let admitted :=
     with_client
       (set_active_tasks (dict_set (tm_id msg) (new_active td now))
                         (QualityAgent.base a_open)) a_open in
   dict_get (tm_id msg) (active_tasks (QualityAgent.base admitted))
   = Some (new_active td now) /\
   _handle_task env now msg a_open
   = try_except
       (try_except (QualityAgent.analyse env (tm_id msg) td)
                   (QualityAgent.on_failure env (tm_id msg)))
       (fun e => bind (on_client (send_task_response (tm_id msg) "failed"
                                    (PDict [("error", PErr e)]) None))
                      (fun _ => ret tt))
       admitted).
Proof.
  intros Hd Hm Hfon Hfull Hcon Hcroom Hcool Horoom Hopen.
  split; [|split].
  - rewrite (@handle_task_overloaded _ _ QualityAgent.quality_client
               QualityAgent.quality_agent env now msg td a_full Hd Hm Hfull).
    destruct (respond_extends (tm_id msg) "rejected"
                (overload_results (QualityAgent.base a_full)) None a_full)
      as (m & c' & Hsend & Hext & Hresp & Hst & Hres & _); [exact Hfon|].
    rewrite (bind_step _ _ _ _ _ Hsend).
    exists m, c'. split; [reflexivity|]. split; [apply Hext|]. tauto.
  - rewrite (@handle_task_accepted _ _ QualityAgent.quality_client
               QualityAgent.quality_agent env now msg td a_cool Hd
               (conj Hm Hcroom)).
    set (a1 := with_client _ a_cool).
    destruct (quality_cooldown_reply env (tm_id msg) td a1)
      as (m & c' & Hrun & Hout & Hresp & Hst & Hfield & Hdel);
      [exact Hcon|exact Hcool|].
    exists m, c'. split; [|tauto].
    apply try_ret. exact Hrun.
  - cbv zeta. split; [apply dict_get_set_eq|].
    rewrite (@handle_task_accepted _ _ QualityAgent.quality_client
               QualityAgent.quality_agent env now msg td a_open Hd
               (conj Hm Horoom)).
    set (a1 := with_client _ a_open).
    change (handle_task env (tm_id msg) td)
      with (QualityAgent.handle_task env (tm_id msg) td).
    unfold try_except at 1. unfold QualityAgent.handle_task at 1.
    rewrite bind_get.
    change (QualityAgent.cooldown_active a1 (QualityAgent.t_gate env))
      with (QualityAgent.cooldown_active a_open (QualityAgent.t_gate env)).
    rewrite Hopen. reflexivity.
Qed.

Lemma gate_tests_overload_before_cooldown_witness :
  QualityAgent.cooldown_active busy_and_cooling 100 = true /\
  QualityAgent.cooldown_active cooling 100 = true /\
  QualityAgent.cooldown_active (quality_online 0) 100 = false /\
  (exists m c',
      _handle_task (quick_tools 100) 100 next_task busy_and_cooling
      = (Ret tt, with_client c' busy_and_cooling) /\
      outbox c' = [m] /\
      status_of m = Some (PStr "rejected")) /\
  (exists m c',
      _handle_task (quick_tools 100) 100 next_task cooling
      = (Ret tt, with_client c' cooling) /\
      outbox c' = [m] /\
      status_of m = Some (PStr "failed")).
Proof.
  assert (Hfon : online (QualityAgent.base busy_and_cooling))
    by (repeat split).
  assert (Hcon : online (QualityAgent.base cooling)) by (repeat split).
  assert (Hfull : max_active_tasks (QualityAgent.base busy_and_cooling)
                  <= Z.of_nat (length (active_tasks
                                         (QualityAgent.base busy_and_cooling))))
    by (cbn; lia).
  pose proof (gate_tests_overload_before_cooldown
                busy_and_cooling cooling (quality_online 0) (quick_tools 100)
                100 next_task one_task eq_refl eq_refl
                Hfon Hfull Hcon eq_refl eq_refl eq_refl eq_refl)
    as ((m1 & c1 & Hrun1 & Hout1 & _ & Hst1 & _)
        & (m2 & c2 & Hrun2 & Hout2 & _ & Hst2 & _) & _).
  split; [reflexivity|]. split; [reflexivity|]. split; [reflexivity|].
  split; [exists m1, c1|exists m2, c2]; tauto.
Defined.

(** C2 as stated fails.  The agent is over its limit and its cooldown is
    active; the task is answered [rejected], with no [cooldown_remaining]:
    the overload test comes first. *)
Lemma c2_overload_wins_over_cooldown :
  QualityAgent.cooldown_active busy_and_cooling 100 = true /\
  max_active_tasks (QualityAgent.base busy_and_cooling)
  <= Z.of_nat (length (active_tasks (QualityAgent.base busy_and_cooling))) /\
  replies "t2" "cooldown_remaining"
    (QualityAgent.base
       (snd (_handle_task (quick_tools 100) 100 next_task busy_and_cooling)))
  = [(Some (PStr "rejected"), None)].
Proof.
  split; [reflexivity|]. split; [cbn; lia|]. vm_compute. reflexivity.
Qed.

End Gate.

(** ** C8: a scope without eligible files *)

Section EmptyScope.

(** The quality agent answers [done] with no findings and no tools. *)
Lemma quality_empty_scope env task_id td (a : QualityAgent.QAgent) :
  online (QualityAgent.base a) ->
  QualityAgent.cooldown_active a (QualityAgent.t_gate env) = false ->
  QualityAgent._filter_quality_files env
    (QualityAgent.set_mode (default "standard" (td_mode td))
       (QualityAgent._update_config (default [] (td_config td))
          (QualityAgent.config a)))
    (default [] (td_scope td)) = [] ->
  exists m a',
    QualityAgent.handle_task env task_id td a = (Ret tt, a') /\
    outbox (QualityAgent.base a') = outbox (QualityAgent.base a) ++ [m] /\
    response_to task_id m /\
    status_of m = Some (PStr "done") /\
    result_field "findings_count" m = Some (PInt 0) /\
    result_field "tools_used" m = Some (PList []).
Proof.
  intros Hon Hopen Hnone. unfold QualityAgent.handle_task.
  rewrite bind_get, Hopen.
  assert (Hrun : exists m a',
             QualityAgent.analyse env task_id td a = (Ret tt, a') /\
             outbox (QualityAgent.base a') = outbox (QualityAgent.base a) ++ [m] /\
             response_to task_id m /\
             status_of m = Some (PStr "done") /\
             result_field "findings_count" m = Some (PInt 0) /\
             result_field "tools_used" m = Some (PList [])).
  { unfold QualityAgent.analyse. rewrite bind_modify, bind_get.
    set (a1 := QualityAgent.set_config _ a).
    change (QualityAgent.config a1)
      with (QualityAgent.set_mode (default "standard" (td_mode td))
              (QualityAgent._update_config (default [] (td_config td))
                 (QualityAgent.config a))).
    rewrite Hnone.
    destruct (respond_extends task_id "done"
                (QualityAgent.empty_results (default "" (td_output td)))
                (Some 0) a1)
      as (m & c' & Hsend & Hext & Hresp & Hst & Hres & _); [exact Hon|].
    rewrite (bind_step _ _ _ _ _ Hsend).
    exists m, (with_client c' a1). split; [reflexivity|].
    split; [apply Hext|]. split; [exact Hresp|]. split; [exact Hst|].
    unfold result_field. rewrite Hres. split; reflexivity. }
  destruct Hrun as (m & a' & Hrun & Hrest).
  exists m, a'. split; [|exact Hrest]. now apply try_ret.
Qed.

(** The security agent does the same when it holds no findings from an
    earlier task. *)
Lemma security_empty_scope_fresh env task_id td (a : SecurityAgent.SAgent) :
  online (SecurityAgent.base a) ->
  SecurityAgent.cooldown_active a (SecurityAgent.t_gate env) = false ->
  SecurityAgent._filter_security_files env (default [] (td_scope td)) = [] ->
  SecurityAgent.findings a = [] ->
  exists m a',
    SecurityAgent.handle_task env task_id td a = (Ret tt, a') /\
    outbox (SecurityAgent.base a') = outbox (SecurityAgent.base a) ++ [m] /\
    response_to task_id m /\
    status_of m = Some (PStr "done") /\
    result_field "findings_count" m = Some (PInt 0) /\
    result_field "tools_used" m = Some (PList []).
Proof.
  intros Hon Hopen Hnone Hfresh. unfold SecurityAgent.handle_task.
  rewrite bind_get, Hopen.
  assert (Hrun : exists m a',
             SecurityAgent.analyse env task_id td a = (Ret tt, a') /\
             outbox (SecurityAgent.base a') = outbox (SecurityAgent.base a) ++ [m] /\
             response_to task_id m /\
             status_of m = Some (PStr "done") /\
             result_field "findings_count" m = Some (PInt 0) /\
             result_field "tools_used" m = Some (PList [])).
  { unfold SecurityAgent.analyse. rewrite bind_modify.
    set (a1 := SecurityAgent.set_config _ a).
    unfold SecurityAgent._run_security_analysis. rewrite Hnone, bind_ret.
    rewrite bind_get.
    change (SecurityAgent.findings a1) with (SecurityAgent.findings a).
    rewrite Hfresh. cbn [SecurityAgent._generate_sarif_report
                           SecurityAgent.sarif_results obind].
    unfold SecurityAgent.lift_outcome at 1. unfold bind at 1.
    unfold SecurityAgent.lift_outcome at 1. unfold bind at 1.
    cbn [SecurityAgent.done_results SecurityAgent._get_severity_breakdown
           SecurityAgent.breakdown_from SecurityAgent._generate_summary obind].
    match goal with
    | |- context [on_client (send_task_response _ _ ?payload _)] =>
        destruct (respond_extends task_id "done" payload
                    (Some (SecurityAgent.duration_ms env)) a1)
          as (m & c' & Hsend & Hext & Hresp & Hst & Hres & _); [exact Hon|]
    end.
    rewrite (bind_step _ _ _ _ _ Hsend).
    eexists m, _. split; [reflexivity|].
    split; [apply Hext|]. split; [exact Hresp|]. split; [exact Hst|].
    unfold result_field. rewrite Hres. split; reflexivity. }
  destruct Hrun as (m & a' & Hrun & Hrest).
  exists m, a'. split; [|exact Hrest]. now apply try_ret.
Qed.

(** An empty scope leaves [self.findings] as the previous task set it. *)
Lemma security_empty_scope_keeps_findings env (a : SecurityAgent.SAgent) scope :
  SecurityAgent._filter_security_files env scope = [] ->
  SecurityAgent._run_security_analysis env scope a
  = (Ret (SecurityAgent.mkResults [] [] 0 0), a).
Proof.
  intros Hnone. unfold SecurityAgent._run_security_analysis.
  now rewrite Hnone.
Qed.

(** C8 at its failing input.  A connected security agent with the default
    configuration first scans [app.py]; the run leaves the two keys of the
    dependency result in [self.findings].  The next task has an empty scope:
    no file is eligible, the gate is open, and the stale findings are
    counted again; the answer is [failed] with [AttributeError], and carries
    no [findings_count] and no [tools_used]. *)
Theorem security_empty_scope_after_scan :
  SecurityAgent._filter_security_files (app_scan 200) [] = [] /\
  SecurityAgent.findings after_scan
  = [SecurityAgent.AKey "findings"; SecurityAgent.AKey "tools_used"] /\
  SecurityAgent.cooldown_active after_scan 200 = false /\
  accepted scan_nothing (SecurityAgent.base after_scan) /\
  online (SecurityAgent.base after_scan) /\
  let answered :=
    SecurityAgent.base (snd (_handle_task (app_scan 200) 200 scan_nothing
                               after_scan)) in
  replies "t2" "error_type" answered
  = [(Some (PStr "failed"), Some (PStr "AttributeError"))] /\
  replies "t2" "findings_count" answered = [(Some (PStr "failed"), None)] /\
  replies "t2" "tools_used" answered = [(Some (PStr "failed"), None)].
Proof.
  split; [reflexivity|]. split; [vm_compute; reflexivity|].
  split; [vm_compute; reflexivity|].
  split; [split; vm_compute; reflexivity|].
  split; [repeat split|].
  cbv zeta. repeat split; vm_compute; reflexivity.
Qed.

End EmptyScope.

(** ** C5: SARIF levels *)

Section SarifLevels.

(** The socket security agent writes the severity itself as the level. *)
Lemma sarif_level_is_severity relpath context f r :
  SecurityAgent.sarif_result relpath context (SecurityAgent.AFinding f) = Ret r ->
  exists d, r = PDict d /\
            dict_get "level" d = Some (PStr (lower (SecurityAgent.severity f))).
Proof.
  unfold SecurityAgent.sarif_result.
  destruct (relpath _ _) as [uri|e]; cbn [obind]; [|discriminate].
  intros [= <-]. eexists. split; reflexivity.
Qed.

(** The command-line agents map every severity into the SARIF levels, and
    [info] to [note]. *)
Lemma quality_cli_levels (sev : pyval) :
  In (QualityCli._severity_to_level sev) sarif_levels /\
  QualityCli._severity_to_level (PStr "error") = "error" /\
  QualityCli._severity_to_level (PStr "warning") = "warning" /\
  QualityCli._severity_to_level (PStr "info") = "note".
Proof.
  split; [|repeat split].
  unfold QualityCli._severity_to_level, sarif_levels.
  destruct sev as [|b|z|q|s|t h|e|l|d]; try (simpl; tauto).
  - destruct b; simpl; tauto.
  - destruct (Z.eqb z 2); [simpl; tauto|].
    destruct (Z.eqb z 1); simpl; tauto.
  - destruct (str_in (lower s) ["error"]); [simpl; tauto|].
    destruct (str_in (lower s) ["warning"; "warn"]); simpl; tauto.
Qed.

Lemma security_cli_levels (sev : string) :
  In (SecurityCli._severity_to_level sev) sarif_levels /\
  SecurityCli._severity_to_level "error" = "error" /\
  SecurityCli._severity_to_level "warning" = "warning" /\
  SecurityCli._severity_to_level "info" = "note".
Proof.
  split; [|repeat split].
  unfold SecurityCli._severity_to_level, sarif_levels.
  destruct (str_in (upper sev) ["ERROR"; "HIGH"; "CRITICAL"]); [simpl; tauto|].
  destruct (str_in (upper sev) ["WARNING"; "MEDIUM"]); simpl; tauto.
Qed.

(** C5 at its failing input.  Semgrep reports a result of severity INFO; the
    parser normalizes it to [info]; the SARIF report of the socket security
    agent gives it the level [info], which is not a SARIF level, where the
    command-line agent writes [note]. *)
Theorem sarif_level_of_info_finding :
  SecurityAgent.parse_semgrep (semgrep_output [semgrep_info]) = [info_finding] /\
  SecurityAgent.severity info_finding = "info" /\
  result_levels
    (SecurityAgent._generate_sarif_report relpath_same []
       [SecurityAgent.AFinding info_finding])
  = [Some (PStr "info")] /\
  ~ In "info" sarif_levels /\
  QualityCli._severity_to_level (PStr (SecurityAgent.severity info_finding))
  = "note".
Proof.
  split; [vm_compute; reflexivity|]. split; [reflexivity|].
  split; [vm_compute; reflexivity|]. split; [|reflexivity].
  unfold sarif_levels. simpl. intuition discriminate.
Qed.

End SarifLevels.

(** ** C7: exit codes *)

Section ExitCodes.

(** The command-line agents: any code but 0 and 1 is a failure that carries
    the tool's standard error; 0 and 1 are treated alike. *)
Lemma cli_exit_code_policy (returncode : Z) (stdout stderr : string)
  (f : ResultsFile) (complex_functions : string -> list pyval) :
  (returncode <> 0 -> returncode <> 1 ->
   QualityCli._run_ruff true (Completed returncode stdout stderr) f
   = Failure (PStr stderr) /\
   QualityCli._run_eslint true (Completed returncode stdout stderr) f
   = Failure (PStr stderr) /\
   QualityCli._run_lizard complex_functions true
     (Completed returncode stdout stderr)
   = Failure (PStr stderr) /\
   SecurityCli._run_semgrep true (Completed returncode stdout stderr) f
   = Failure (PStr stderr)) /\
  QualityCli._run_ruff true (Completed 1 stdout stderr) f
  = QualityCli._run_ruff true (Completed 0 stdout stderr) f /\
  QualityCli._run_eslint true (Completed 1 stdout stderr) f
  = QualityCli._run_eslint true (Completed 0 stdout stderr) f /\
  QualityCli._run_lizard complex_functions true (Completed 1 stdout stderr)
  = Success (PList (complex_functions stdout))
            (Z.of_nat (length (complex_functions stdout))) None /\
  SecurityCli._run_semgrep true (Completed 1 stdout stderr) f
  = SecurityCli._run_semgrep true (Completed 0 stdout stderr) f /\
  (forall data, exists total,
      QualityCli._run_ruff true (Completed 1 stdout stderr) (Parsed data)
      = Success data total None).
Proof.
  split; [|repeat split; try reflexivity].
  - intros H0 H1. apply Z.eqb_neq in H0, H1.
    unfold QualityCli._run_ruff, QualityCli._run_eslint,
      QualityCli._run_lizard, SecurityCli._run_semgrep.
    simpl. rewrite H0, H1. simpl. repeat split; reflexivity.
  - intros data. eexists. reflexivity.
Qed.

(** C7 at its failing input.  In the socket security agent a Semgrep run
    that exits with 1 is discarded whatever it printed, although the same
    output would be parsed and kept with code 0; the command-line agent
    keeps it for both.  With the [CompletedProcess] call as it is written,
    the run is discarded for code 0 as well.  The socket quality agent does
    not look at Ruff's exit code at all: output printed with code 2 is
    parsed like any other. *)
Theorem semgrep_exit_code_one_is_dropped
  (json_loads : string -> option pyval) (completed_process : outcome unit)
  (rules : pyval) (stdout stderr : string) (returncode returncode' : Z) :
  SecurityAgent._run_semgrep json_loads completed_process rules
    (Completed 1 stdout stderr) = [] /\
  SecurityAgent._run_semgrep
    (loads_only "out" (semgrep_output [semgrep_info])) (Ret tt)
    (PList [PStr "p/security-audit"]) (Completed 0 "out" "")
  = [info_finding] /\
  SecurityAgent._run_semgrep
    (loads_only "out" (semgrep_output [semgrep_info])) (Ret tt)
    (PList [PStr "p/security-audit"]) (Completed 1 "out" "")
  = [] /\
  SecurityCli._run_semgrep true (Completed 1 "out" "")
    (Parsed (PDict [("results", PList [semgrep_info])]))
  = Success (PList [semgrep_info]) 1 None /\
  SecurityAgent._run_semgrep
    (loads_only "out" (semgrep_output [semgrep_info]))
    SecurityAgent.completed_process_cmd
    (PList [PStr "p/security-audit"]) (Completed 0 "out" "")
  = [] /\
  QualityAgent._run_ruff_analysis json_loads
    (Completed returncode stdout stderr)
  = QualityAgent._run_ruff_analysis json_loads
      (Completed returncode' stdout stderr) /\
  length (QualityAgent._run_ruff_analysis
            (loads_only "out" (PList [ruff_no_location]))
            (Completed 2 "out" "")) = 1%nat.
Proof.
  split.
  { unfold SecurityAgent._run_semgrep.
    destruct (negb (py_truthy rules)); [reflexivity|].
    destruct completed_process; reflexivity. }
  repeat split; vm_compute; reflexivity.
Qed.

End ExitCodes.

(** ** C6: what the parsers put in a finding *)

Section Parsers.

Lemma collect_Forall {A B} (f : A -> outcome B) (P : B -> Prop) items :
  (forall x y, f x = Ret y -> P y) -> Forall P (collect f items).
Proof.
  intros Hf. induction items as [|x rest IH]; simpl; [constructor|].
  destruct (f x) as [y|e] eqn:E; constructor; [eapply Hf; exact E|exact IH].
Qed.

(** Peel one [try!] off a hypothesis that says the whole returned. *)
Ltac peel H :=
  match type of H with
  | obind ?o _ = Ret _ =>
      let v := fresh "v" in
      let E := fresh "E" in
      destruct o as [v|] eqn:E; cbn [obind] in H; [|discriminate H]
  end.

Lemma py_get_dict d k dflt v :
  py_get (PDict d) k dflt = Ret v -> v = default dflt (dict_get k d).
Proof. simpl. now intros [= <-]. Qed.

Lemma py_get_reported record outer inner dflt mid v :
  py_get (PDict record) outer (PDict []) = Ret mid ->
  py_get mid inner dflt = Ret v ->
  Some v = reported outer inner dflt record.
Proof.
  intros Hmid Hv. apply py_get_dict in Hmid. subst mid. unfold reported.
  destruct (dict_get outer record) as [[| | | | | | | |inside]|];
    simpl in Hv; try discriminate; now inversion Hv.
Qed.

Lemma ruff_severity_standard v :
  standard_severity (QualityAgent._map_ruff_severity v).
Proof. unfold standard_severity. destruct v; simpl; tauto. Qed.

Lemma eslint_severity_standard v :
  standard_severity (QualityAgent._map_eslint_severity v).
Proof.
  unfold standard_severity, QualityAgent._map_eslint_severity.
  destruct (QualityAgent.is_two v); tauto.
Qed.

Lemma semgrep_severity_standard v s :
  SecurityAgent._convert_semgrep_severity v = Ret s -> standard_severity s.
Proof.
  unfold SecurityAgent._convert_semgrep_severity, standard_severity.
  destruct v as [| | | |raw| | | |]; try discriminate. intros [= <-]. simpl.
  destruct (String.eqb (upper raw) "ERROR"); [tauto|].
  destruct (String.eqb (upper raw) "WARNING"); [tauto|].
  destruct (String.eqb (upper raw) "INFO"); simpl; tauto.
Qed.

Lemma ruff_finding_fields item f :
  QualityAgent.ruff_finding item = Ret f ->
  standard_severity (QualityAgent.severity f) /\
  exists record,
    item = PDict record /\
    Some (QualityAgent.line_number f)
    = reported "location" "row" (PInt 0) record /\
    Some (QualityAgent.end_line_number f)
    = reported "end_location" "row" PNone record.
Proof.
  intros H. destruct item as [| | | | | | | |record]; try discriminate H.
  unfold QualityAgent.ruff_finding in H.
  do 16 peel H. injection H as <-. simpl. split.
  - apply ruff_severity_standard.
  - exists record. split; [reflexivity|]. split.
    + eapply (py_get_reported record "location" "row"); eassumption.
    + eapply (py_get_reported record "end_location" "row"); eassumption.
Qed.

Lemma eslint_finding_fields file_result message f :
  QualityAgent.eslint_finding file_result message = Ret f ->
  standard_severity (QualityAgent.severity f) /\
  exists record,
    message = PDict record /\
    QualityAgent.line_number f = default (PInt 0) (dict_get "line" record) /\
    QualityAgent.end_line_number f = default PNone (dict_get "endLine" record).
Proof.
  intros H. destruct message as [| | | | | | | |record]; try discriminate H.
  unfold QualityAgent.eslint_finding in H.
  do 14 peel H. injection H as <-. simpl. split.
  - apply eslint_severity_standard.
  - exists record. split; [reflexivity|].
    split; now apply py_get_dict.
Qed.

Lemma semgrep_finding_fields result f :
  SecurityAgent.semgrep_finding result = Ret f ->
  standard_severity (SecurityAgent.severity f) /\
  exists record,
    result = PDict record /\
    Some (SecurityAgent.line_number f) = reported "start" "line" (PInt 0) record.
Proof.
  intros H. destruct result as [| | | | | | | |record]; try discriminate H.
  unfold SecurityAgent.semgrep_finding in H.
  do 12 peel H. injection H as <-. simpl. split.
  - eapply semgrep_severity_standard. eassumption.
  - exists record. split; [reflexivity|].
    eapply (py_get_reported record "start" "line"); eassumption.
Qed.

Lemma gitleaks_finding_fields finding f :
  SecurityAgent.gitleaks_finding finding = Ret f ->
  SecurityAgent.severity f = "error" /\
  exists record,
    finding = PDict record /\
    SecurityAgent.line_number f = default (PInt 0) (dict_get "line" record).
Proof.
  intros H. destruct finding as [| | | | | | | |record]; try discriminate H.
  unfold SecurityAgent.gitleaks_finding in H.
  do 7 peel H. injection H as <-. simpl. split; [reflexivity|].
  exists record. split; [reflexivity|]. now apply py_get_dict.
Qed.

Lemma eslint_files_standard file_results :
  Forall (fun f => standard_severity (QualityAgent.severity f))
         (fst (QualityAgent.eslint_files file_results)).
Proof.
  induction file_results as [|file_result rest IH]; simpl; [constructor|].
  destruct (obind _ _) as [messages|e]; [|constructor].
  assert (Hhere : Forall (fun f => standard_severity (QualityAgent.severity f))
                    (collect (QualityAgent.eslint_finding file_result) messages)).
  { apply collect_Forall. intros x y Hxy.
    now apply eslint_finding_fields in Hxy. }
  destruct (Nat.eqb _ _); [|exact Hhere].
  destruct (QualityAgent.eslint_files rest) as [more ok]. simpl in *.
  apply Forall_app. split; assumption.
Qed.

Lemma semgrep_runs_standard runs :
  Forall (fun f => standard_severity (SecurityAgent.severity f))
         (fst (SecurityAgent.semgrep_runs runs)).
Proof.
  induction runs as [|run rest IH]; simpl; [constructor|].
  destruct (obind _ _) as [results|e]; [|constructor].
  assert (Hhere : Forall (fun f => standard_severity (SecurityAgent.severity f))
                    (collect SecurityAgent.semgrep_finding results)).
  { apply collect_Forall. intros x y Hxy.
    now apply semgrep_finding_fields in Hxy. }
  destruct (Nat.eqb _ _); [|exact Hhere].
  destruct (SecurityAgent.semgrep_runs rest) as [more ok]. simpl in *.
  apply Forall_app. split; assumption.
Qed.

End Parsers.

Section ParserInvariant.

(** C6, as the code has it.  Every finding that the Ruff, ESLint, Semgrep
    and Gitleaks parsers produce, from any decoded output, has a severity
    among [error], [warning] and [info].  Its start line is the line the
    record reports and is 0 when the record has no location (Ruff), no
    [start] (Semgrep) or no [line] (ESLint, Gitleaks); its end line is the
    reported end row, or [None]; neither is checked against the other. *)
Theorem parsers_normalize_severity_and_copy_lines
  (doc ruff_record eslint_file eslint_record semgrep_record gitleaks_record
     : pyval)
  (rf ef : QualityAgent.QualityFinding)
  (sf gf : SecurityAgent.SecurityFinding) :
  QualityAgent.ruff_finding ruff_record = Ret rf ->
  QualityAgent.eslint_finding eslint_file eslint_record = Ret ef ->
  SecurityAgent.semgrep_finding semgrep_record = Ret sf ->
  SecurityAgent.gitleaks_finding gitleaks_record = Ret gf ->
  Forall (fun f => standard_severity (QualityAgent.severity f))
         (QualityAgent.parse_ruff doc) /\
  Forall (fun f => standard_severity (QualityAgent.severity f))
         (QualityAgent.parse_eslint doc) /\
  Forall (fun f => standard_severity (SecurityAgent.severity f))
         (SecurityAgent.parse_semgrep doc) /\
  Forall (fun f => standard_severity (SecurityAgent.severity f))
         (SecurityAgent.parse_gitleaks doc) /\
  (exists record,
      ruff_record = PDict record /\
      Some (QualityAgent.line_number rf)
      = reported "location" "row" (PInt 0) record /\
      Some (QualityAgent.end_line_number rf)
      = reported "end_location" "row" PNone record /\
      (dict_get "location" record = None ->
       QualityAgent.line_number rf = PInt 0)) /\
  (exists record,
      eslint_record = PDict record /\
      QualityAgent.line_number ef = default (PInt 0) (dict_get "line" record) /\
      QualityAgent.end_line_number ef
      = default PNone (dict_get "endLine" record)) /\
  (exists record,
      semgrep_record = PDict record /\
      Some (SecurityAgent.line_number sf)
      = reported "start" "line" (PInt 0) record /\
      (dict_get "start" record = None ->
       SecurityAgent.line_number sf = PInt 0)) /\
  (exists record,
      gitleaks_record = PDict record /\
      SecurityAgent.line_number gf = default (PInt 0) (dict_get "line" record)).
Proof.
  intros Hrf Hef Hsf Hgf.
  split.
  { unfold QualityAgent.parse_ruff. destruct (py_iter doc); [|constructor].
    apply collect_Forall. intros x y Hxy.
    now apply ruff_finding_fields in Hxy. }
  split.
  { unfold QualityAgent.parse_eslint. destruct (py_iter doc); [|constructor].
    apply eslint_files_standard. }
  split.
  { unfold SecurityAgent.parse_semgrep.
    destruct (obind _ _); [|constructor]. apply semgrep_runs_standard. }
  split.
  { unfold SecurityAgent.parse_gitleaks.
    destruct (obind _ _); [|constructor].
    apply collect_Forall. intros x y Hxy.
    apply gitleaks_finding_fields in Hxy as [Hsev _].
    rewrite Hsev. unfold standard_severity. tauto. }
  split.
  { destruct (ruff_finding_fields _ _ Hrf) as (_ & record & -> & Hl & He).
    exists record. split; [reflexivity|]. split; [exact Hl|].
    split; [exact He|]. intros Hnone. unfold reported in Hl.
    rewrite Hnone in Hl. now inversion Hl. }
  split.
  { destruct (eslint_finding_fields _ _ _ Hef) as (_ & record & -> & Hl & He).
    exists record. tauto. }
  split.
  { destruct (semgrep_finding_fields _ _ Hsf) as (_ & record & -> & Hl).
    exists record. split; [reflexivity|]. split; [exact Hl|].
    intros Hnone. unfold reported in Hl. rewrite Hnone in Hl.
    now inversion Hl. }
  destruct (gitleaks_finding_fields _ _ Hgf) as (_ & record & -> & Hl).
  exists record. tauto.
Qed.

Lemma parsers_normalize_severity_and_copy_lines_witness :
  QualityAgent.ruff_finding ruff_backwards = Ret ruff_backwards_finding /\
  SecurityAgent.semgrep_finding semgrep_info = Ret info_finding /\
  Forall (fun f => standard_severity (SecurityAgent.severity f))
         (SecurityAgent.parse_semgrep (semgrep_output [semgrep_info])) /\
  exists record,
    ruff_backwards = PDict record /\
    Some (QualityAgent.line_number ruff_backwards_finding)
    = reported "location" "row" (PInt 0) record.
Proof.
  assert (Hrf : QualityAgent.ruff_finding ruff_backwards
                = Ret ruff_backwards_finding) by reflexivity.
  assert (Hsf : SecurityAgent.semgrep_finding semgrep_info = Ret info_finding)
    by reflexivity.
  assert (Hef : QualityAgent.eslint_finding (PDict []) eslint_message
                = Ret eslint_message_finding) by reflexivity.
  assert (Hgf : SecurityAgent.gitleaks_finding gitleaks_record_
                = Ret gitleaks_record_finding) by reflexivity.
  pose proof (parsers_normalize_severity_and_copy_lines
                (semgrep_output [semgrep_info]) ruff_backwards (PDict [])
                eslint_message semgrep_info gitleaks_record_
                ruff_backwards_finding eslint_message_finding info_finding
                gitleaks_record_finding Hrf Hef Hsf Hgf)
    as (_ & _ & Hsem & _ & (record & Hrec & Hline & _) & _).
  split; [exact Hrf|]. split; [exact Hsf|]. split; [exact Hsem|].
  exists record. split; [exact Hrec|exact Hline].
Defined.

(** C6 as stated fails.  A Ruff record without [location] yields a finding
    whose start line is 0, and so does a Semgrep result without [start]; a
    Ruff record that reports an end row below its start row yields a
    finding whose end line is below its start line. *)
Lemma c6_start_line_zero_and_end_before_start :
  map QualityAgent.line_number (QualityAgent.parse_ruff (PList [ruff_no_location]))
  = [PInt 0] /\
  map SecurityAgent.line_number
      (SecurityAgent.parse_semgrep (semgrep_output [semgrep_no_start]))
  = [PInt 0] /\
  map (fun f => (QualityAgent.line_number f, QualityAgent.end_line_number f))
      (QualityAgent.parse_ruff (PList [ruff_backwards]))
  = [(PInt 5, PInt 3)] /\
  ~ (1 <= 0) /\ ~ (5 <= 3).
Proof.
  repeat split; try (vm_compute; reflexivity); lia.
Qed.

End ParserInvariant.

Set Warnings "-clear-no-such-hyp".

(** * Further properties of the code *)

(** ** The security agent: what a task with files can end in *)

Section SecurityOutcomes.
Import SecurityAgent.

(** Counting severities stops at the first element that is a string. *)
Lemma breakdown_from_key b (fs : list SecurityFinding) key rest :
  breakdown_from b (map AFinding fs ++ AKey key :: rest) = Raise no_severity.
Proof.
  revert b. induction fs as [|f fs IH]; intros b; simpl; [reflexivity|].
  apply IH.
Qed.

Lemma run_semgrep_cmd json_loads rules p :
  _run_semgrep json_loads completed_process_cmd rules p = [].
Proof.
  unfold _run_semgrep. destruct (negb (py_truthy rules)); [reflexivity|].
  now destruct p.
Qed.

Lemma run_gitleaks_cmd report p :
  _run_gitleaks completed_process_cmd report p = [].
Proof. unfold _run_gitleaks. now destruct p. Qed.

(** [_run_security_analysis] when some file is eligible: the sweeps of the
    heartbeat thread run, then the findings are stored. *)
Lemma security_run_files env scope (a : SAgent) file files :
  online (base a) ->
  _filter_security_files env scope = file :: files ->
  exists msgs c1 fs tools,
    extends_by msgs (base a) c1 /\
    _run_security_analysis env scope a
    = (Ret (mkResults fs tools (scan_time env) (length (file :: files))),
       set_findings fs (with_client c1 a)) /\
    fs = map AFinding
           (_run_semgrep (json_loads env) (completed_process env)
              (semgrep_rules (config a)) (semgrep_process env)) ++
         map AFinding
           (if py_truthy (scan_secrets (config a)) &&
               py_truthy (gitleaks_enabled (config a))
            then _run_gitleaks (completed_process env) (gitleaks_report env)
                   (gitleaks_process env)
            else []) ++
         (if py_truthy (scan_dependencies (config a))
          then [AKey "findings"; AKey "tools_used"] else []) /\
    (fs = [] -> tools = []).
Proof.
  intros Hon Hfiles. unfold _run_security_analysis. rewrite Hfiles.
  destruct (heartbeat_sweeps_extends (sweeps env) a)
    as (msgs & c1 & Hsw & Hext); [exact Hon|].
  rewrite (bind_step _ _ _ _ _ Hsw), bind_get, bind_modify.
  eexists msgs, c1, _, _. split; [exact Hext|]. split; [reflexivity|].
  split; [reflexivity|].
  cbn [config security_client with_client].
  intros Hnil. apply app_eq_nil in Hnil as [H1 Hnil].
  apply app_eq_nil in Hnil as [H2 H3].
  apply map_eq_nil in H1, H2. rewrite H1, H2.
  destruct (py_truthy (scan_dependencies (config a))); [discriminate|].
  cbn [nonempty]. rewrite !(left_id_L ∅ (∪)). apply elements_empty.
Qed.

(** The answer [on_failure] writes, with its payload. *)
Lemma security_failure_payload env task_id e (a : SAgent) :
  online (base a) ->
  exists m a',
    on_failure env task_id e a = (Ret tt, a') /\
    outbox (base a') = outbox (base a) ++ [m] /\
    response_to task_id m /\
    status_of m = Some (PStr "failed") /\
    results_of m = Some (PDict [("error", PErr e);
                                ("error_type", PStr (exn_type e))]) /\
    consecutive_errors a' = consecutive_errors a + 1 /\
    findings a' = findings a.
Proof.
  intros Hon. unfold on_failure. rewrite bind_modify.
  set (a1 := set_errors (consecutive_errors a + 1) a).
  destruct (respond_extends task_id "failed"
              (PDict [("error", PErr e); ("error_type", PStr (exn_type e))])
              (Some (duration_ms env)) a1)
    as (m & c' & Hsend & Hext & Hresp & Hst & Hres & _); [exact Hon|].
  rewrite (bind_step _ _ _ _ _ Hsend).
  exists m, (with_client c' a1). split; [reflexivity|].
  split; [apply Hext|]. split; [exact Hresp|]. split; [exact Hst|].
  split; [exact Hres|]. split; reflexivity.
Qed.

(** X1.  While dependency scanning is switched on (the default), no task
    whose scope holds an eligible file can succeed on the security agent:
    [results["findings"].extend(dep_results)] appends the two keys of the
    dependency result to the findings, the severity count then meets a
    string, and the handler answers [failed].  The answer is the last
    message written, it carries no [findings_count], the error counter
    grows by one, and the findings kept by the agent end with the two
    keys.  Whenever the SARIF report itself could be built, the reported
    [error_type] is [AttributeError]. *)
Theorem dependency_scan_fails_the_task
  (env : Env) (task_id : string) (td : TaskData) (a : SAgent) :
  online (base a) ->
  cooldown_active a (t_gate env) = false ->
  py_truthy (scan_dependencies
               (_update_config (default [] (td_config td)) (config a))) = true ->
  _filter_security_files env (default [] (td_scope td)) <> [] ->
  exists msgs m a',
    handle_task env task_id td a = (Ret tt, a') /\
    outbox (base a') = outbox (base a) ++ msgs ++ [m] /\
    response_to task_id m /\
    status_of m = Some (PStr "failed") /\
    result_field "findings_count" m = None /\
    consecutive_errors a' = consecutive_errors a + 1 /\
    (exists fs, findings a'
                = map AFinding fs ++ [AKey "findings"; AKey "tools_used"]) /\
    (forall report,
        _generate_sarif_report (relpath env) (default [] (td_context td))
          (findings a') = Ret report ->
        result_field "error_type" m = Some (PStr "AttributeError")).
Proof.
  intros Hon Hopen Hdeps Hfiles.
  destruct (_filter_security_files env (default [] (td_scope td)))
    as [|file files] eqn:Hsel; [congruence|]. clear Hfiles.
  unfold handle_task. cbn [SocketClient.handle_task security_agent].
  unfold SecurityAgent.handle_task. rewrite bind_get, Hopen.
  unfold analyse. unfold try_except. rewrite bind_modify.
  set (a1 := set_config _ a).
  destruct (security_run_files env (default [] (td_scope td)) a1 file files
              Hon Hsel) as (msgs & c1 & fs & tools & Hext & Hrun & Hfs & _).
  rewrite (bind_step _ _ _ _ _ Hrun), bind_get.
  set (a2 := set_findings fs (with_client c1 a1)).
  change (config a1)
    with (_update_config (default [] (td_config td)) (config a)) in Hfs.
  rewrite Hdeps in Hfs.
  assert (Hshape : exists found,
             fs = map AFinding found ++ [AKey "findings"; AKey "tools_used"]).
  { eexists (_ ++ _). rewrite map_app, <- app_assoc. exact Hfs. }
  destruct Hshape as (found & Hshape).
  assert (Hcount : done_results fs
                     (mkResults fs tools (scan_time env) (length (file :: files)))
                     (default "" (td_output td)) = Raise no_severity).
  { unfold done_results, _get_severity_breakdown.
    rewrite Hshape, breakdown_from_key. reflexivity. }
  assert (Hon2 : online (base a2)) by apply Hext.
  change (findings a2) with fs.
  unfold lift_outcome at 1. unfold bind at 1.
  destruct (_generate_sarif_report (relpath env) (default [] (td_context td)) fs)
    as [report|e] eqn:Hreport.
  - unfold lift_outcome at 1. unfold bind at 1. rewrite Hcount.
    destruct (security_failure_payload env task_id no_severity a2 Hon2)
      as (m & a' & Hfail & Hout & Hresp & Hst & Hres & Herr & Hkeep).
    exists msgs, m, a'. split; [exact Hfail|]. split.
    { rewrite Hout. change (base a2) with c1.
      destruct Hext as (_ & _ & _ & ->). now rewrite app_assoc. }
    split; [exact Hresp|]. split; [exact Hst|]. split.
    { unfold result_field. now rewrite Hres. }
    split; [exact Herr|]. split.
    { exists found. now rewrite Hkeep. }
    intros _ _. unfold result_field. now rewrite Hres.
  - destruct (security_failure_payload env task_id e a2 Hon2)
      as (m & a' & Hfail & Hout & Hresp & Hst & Hres & Herr & Hkeep).
    exists msgs, m, a'. split; [exact Hfail|]. split.
    { rewrite Hout. change (base a2) with c1.
      destruct Hext as (_ & _ & _ & ->). now rewrite app_assoc. }
    split; [exact Hresp|]. split; [exact Hst|]. split.
    { unfold result_field. now rewrite Hres. }
    split; [exact Herr|]. split.
    { exists found. now rewrite Hkeep. }
    intros report Hok. rewrite Hkeep in Hok. change (findings a2) with fs in Hok.
    congruence.
Qed.

Lemma dependency_scan_fails_the_task_witness :
  online (base (security_online 0)) /\
  _filter_security_files (app_scan 100) ["app.py"] <> [] /\
  exists msgs m a',
    handle_task (app_scan 100) "t1" scan_app_data (security_online 0)
    = (Ret tt, a') /\
    outbox (base a') = outbox (base (security_online 0)) ++ msgs ++ [m] /\
    status_of m = Some (PStr "failed") /\
    consecutive_errors a' = 1.
Proof.
  assert (Hon : online (base (security_online 0))) by (repeat split).
  assert (Hfiles : _filter_security_files (app_scan 100)
                     (default [] (td_scope scan_app_data)) <> [])
    by (vm_compute; discriminate).
  split; [exact Hon|]. split; [exact Hfiles|].
  destruct (dependency_scan_fails_the_task (app_scan 100) "t1" scan_app_data
              (security_online 0) Hon eq_refl eq_refl Hfiles)
    as (msgs & m & a' & Hrun & Hout & _ & Hst & _ & Herr & _).
  exists msgs, m, a'. split; [exact Hrun|]. split; [exact Hout|].
  split; [exact Hst|exact Herr].
Defined.

(** X2.  As [_run_semgrep] and [_run_gitleaks] are written, the record of
    the finished process is built with [CompletedProcess(cmd=...)], which
    raises, so both return no findings whatever the tools printed and
    however they exited.  With dependency scanning switched off, a task
    whose scope holds an eligible file is therefore always answered [done]
    with [findings_count] 0 and an empty [tools_used]; the agent keeps no
    findings and its error counter is back at zero. *)
Theorem scanners_never_report
  (env : Env) (task_id : string) (td : TaskData) (a : SAgent) :
  online (base a) ->
  cooldown_active a (t_gate env) = false ->
  completed_process env = completed_process_cmd ->
  py_truthy (scan_dependencies
               (_update_config (default [] (td_config td)) (config a))) = false ->
  _filter_security_files env (default [] (td_scope td)) <> [] ->
  exists msgs m a',
    handle_task env task_id td a = (Ret tt, a') /\
    outbox (base a') = outbox (base a) ++ msgs ++ [m] /\
    response_to task_id m /\
    status_of m = Some (PStr "done") /\
    result_field "findings_count" m = Some (PInt 0) /\
    result_field "tools_used" m = Some (PList []) /\
    findings a' = [] /\
    consecutive_errors a' = 0.
Proof.
  intros Hon Hopen Hcmd Hdeps Hfiles.
  destruct (_filter_security_files env (default [] (td_scope td)))
    as [|file files] eqn:Hsel; [congruence|]. clear Hfiles.
  unfold handle_task. cbn [SocketClient.handle_task security_agent].
  unfold SecurityAgent.handle_task. rewrite bind_get, Hopen.
  unfold analyse. unfold try_except. rewrite bind_modify.
  set (a1 := set_config _ a).
  destruct (security_run_files env (default [] (td_scope td)) a1 file files
              Hon Hsel) as (msgs & c1 & fs & tools & Hext & Hrun & Hfs & Htools).
  change (config a1)
    with (_update_config (default [] (td_config td)) (config a)) in Hfs.
  rewrite Hdeps, Hcmd, run_semgrep_cmd, run_gitleaks_cmd in Hfs.
  assert (Hnil : fs = []).
  { rewrite Hfs. now destruct (_ && _). }
  clear Hfs. specialize (Htools Hnil). subst fs tools.
  rewrite (bind_step _ _ _ _ _ Hrun), bind_get.
  set (a2 := set_findings [] (with_client c1 a1)).
  change (findings a2) with (@nil Found).
  cbn [_generate_sarif_report sarif_results obind].
  unfold lift_outcome at 1. unfold bind at 1.
  unfold lift_outcome at 1. unfold bind at 1.
  cbn [done_results _get_severity_breakdown breakdown_from _generate_summary
         obind].
  assert (Hon2 : online (base a2)) by apply Hext.
  match goal with
  | |- context [on_client (send_task_response _ _ ?payload _)] =>
      destruct (respond_extends task_id "done" payload
                  (Some (duration_ms env)) a2)
        as (m & c' & Hsend & Hext2 & Hresp & Hst & Hres & _); [exact Hon2|]
  end.
  rewrite (bind_step _ _ _ _ _ Hsend).
  eexists msgs, m, _. split; [reflexivity|]. split.
  { cbn [base set_last_successful_run set_errors with_client security_client].
    destruct Hext2 as (_ & _ & _ & ->). destruct Hext as (_ & _ & _ & Hout1).
    rewrite app_assoc. change (outbox (base a)) with (outbox (base a1)).
    rewrite <- Hout1. reflexivity. }
  split; [exact Hresp|]. split; [exact Hst|].
  unfold result_field. rewrite Hres. repeat split.
Qed.

Lemma scanners_never_report_witness :
  online (base (security_online 0)) /\
  _filter_security_files (app_scan 100) ["app.py"] <> [] /\
  exists msgs m a',
    handle_task (app_scan 100) "t1" scan_app_no_deps (security_online 0)
    = (Ret tt, a') /\
    outbox (base a') = outbox (base (security_online 0)) ++ msgs ++ [m] /\
    status_of m = Some (PStr "done") /\
    result_field "findings_count" m = Some (PInt 0).
Proof.
  assert (Hon : online (base (security_online 0))) by (repeat split).
  assert (Hfiles : _filter_security_files (app_scan 100)
                     (default [] (td_scope scan_app_no_deps)) <> [])
    by (vm_compute; discriminate).
  split; [exact Hon|]. split; [exact Hfiles|].
  destruct (scanners_never_report (app_scan 100) "t1" scan_app_no_deps
              (security_online 0) Hon eq_refl eq_refl eq_refl Hfiles)
    as (msgs & m & a' & Hrun & Hout & _ & Hst & Hcount & _).
  exists msgs, m, a'. split; [exact Hrun|]. split; [exact Hout|].
  split; [exact Hst|exact Hcount].
Defined.

End SecurityOutcomes.

(** ** The quality agent: categories are counted once each *)

Section CategoryBreakdown.
Import QualityAgent.

Lemma dict_get_set_ne {V} k k' (v : V) d :
  k <> k' -> dict_get k (dict_set k' v d) = dict_get k d.
Proof.
  intros Hne. induction d as [|[k0 v0] d IH]; simpl.
  - apply String.eqb_neq in Hne. now rewrite Hne.
  - destruct (String.eqb k' k0) eqn:E; simpl.
    + apply String.eqb_eq in E. subst k0.
      apply String.eqb_neq in Hne. now rewrite Hne.
    + destruct (String.eqb k k0); [reflexivity|exact IH].
Qed.

Lemma dict_keys_set {V} k (v : V) d :
  dict_keys (dict_set k v d)
  = if dict_mem k d then dict_keys d else dict_keys d ++ [k].
Proof.
  unfold dict_mem, dict_keys. induction d as [|[k0 v0] d IH]; simpl.
  - reflexivity.
  - destruct (String.eqb k k0) eqn:E; simpl.
    + apply String.eqb_eq in E. now subst.
    + rewrite IH. now destruct (dict_get k d).
Qed.

(** One more finding adds one to the sum of the counters. *)
Lemma counted_bump k (b : list (string * nat)) :
  counted (dict_set k (default 0%nat (dict_get k b) + 1)%nat b)
  = (counted b + 1)%nat.
Proof.
  unfold counted. induction b as [|[k0 n] b IH]; simpl; [reflexivity|].
  destruct (String.eqb k k0) eqn:E; simpl.
  - lia.
  - rewrite IH. lia.
Qed.

Lemma category_fold (fs : list QualityFinding) :
  forall b : list (string * nat),
    NoDup (dict_keys b) ->
    let b' := fold_left
                (fun breakdown finding =>
                   let cat := match category finding with
                              | Some "" | None => "other"
                              | Some c => c
                              end in
                   dict_set cat
                     (default 0%nat (dict_get cat breakdown) + 1)%nat breakdown)
                fs b in
    counted b' = (counted b + length fs)%nat /\
    NoDup (dict_keys b') /\
    forall k, counter k b'
              = (counter k b +
                 length (List.filter (fun f => String.eqb (category_key f) k) fs))%nat.
Proof.
  induction fs as [|f fs IH]; intros b Hnd; cbv zeta.
  - simpl. split; [lia|]. split; [exact Hnd|]. intros k. lia.
  - cbn [fold_left]. fold (category_key f).
    set (b1 := dict_set (category_key f) _ b).
    assert (Hnd1 : NoDup (dict_keys b1)).
    { unfold b1. rewrite dict_keys_set.
      destruct (dict_mem (category_key f) b) eqn:E; [exact Hnd|].
      apply NoDup_app. split; [exact Hnd|]. split.
      - intros x Hx ->%list_elem_of_singleton.
        apply list_elem_of_In, dict_mem_In in Hx. congruence.
      - apply NoDup_singleton. }
    destruct (IH b1 Hnd1) as (Hsum & Hnd' & Hkey). cbv zeta in *.
    split.
    { rewrite Hsum. unfold b1. rewrite counted_bump. cbn [length]. lia. }
    split; [exact Hnd'|].
    intros k. rewrite Hkey. unfold counter, b1. cbn [List.filter].
    destruct (String.eqb (category_key f) k) eqn:E.
    + apply String.eqb_eq in E. subst k. rewrite dict_get_set_eq.
      change (default 0%nat (Some ?v)) with v. cbn [length]. lia.
    + apply String.eqb_neq in E. rewrite dict_get_set_ne by congruence.
      lia.
Qed.

Lemma filed_under_own_key (f : QualityFinding) fs :
  In f fs ->
  (0 < length (List.filter
                 (fun g => String.eqb (category_key g) (category_key f)) fs))%nat.
Proof.
  induction fs as [|g fs IH]; intros Hf; [destruct Hf|]. cbn [List.filter].
  destruct Hf as [->|Hf].
  - rewrite String.eqb_refl. simpl. lia.
  - destruct (String.eqb (category_key g) (category_key f)); simpl; [lia|].
    now apply IH.
Qed.

(** X3.  The category breakdown counts every finding exactly once: the
    counter of a category is the number of findings filed under it (under
    [other] when a finding has no category), no category is listed twice,
    and the counters add up to the number of findings, whatever their
    severities are. *)
Theorem category_breakdown_counts_every_finding (fs : list QualityFinding) :
  counted (_get_category_breakdown fs) = length fs /\
  NoDup (dict_keys (_get_category_breakdown fs)) /\
  (forall k,
      counter k (_get_category_breakdown fs)
      = length (List.filter (fun f => String.eqb (category_key f) k) fs)) /\
  (forall f, In f fs ->
             dict_mem (category_key f) (_get_category_breakdown fs) = true).
Proof.
  destruct (category_fold fs [] (NoDup_nil_2 (A:=string))) as (Hsum & Hnd & Hkey).
  cbv zeta in *. fold (_get_category_breakdown fs) in *.
  split; [exact Hsum|]. split; [exact Hnd|]. split.
  { intros k. rewrite Hkey. reflexivity. }
  intros f Hf.
  assert (Hpos : (0 < counter (category_key f) (_get_category_breakdown fs))%nat).
  { rewrite Hkey. simpl. now apply filed_under_own_key. }
  unfold counter, dict_mem in *.
  destruct (dict_get (category_key f) (_get_category_breakdown fs));
    [reflexivity|simpl in Hpos; lia].
Qed.

End CategoryBreakdown.

(** ** The quality agent: settings of a task stay in force *)

Section Frames.
Context {S : Type} `{LawfulClient S}.

(** A method of the base class changes nothing but the client. *)
Lemma on_client_frame {A} (c : M Client A) (s : S) :
  exists r cl, on_client c s = (r, with_client cl s).
Proof.
  unfold on_client. destruct (c (client s)) as [r cl]. now exists r, cl.
Qed.

Lemma heartbeat_sweeps_frame (times : list Q) :
  forall s : S, exists cl, heartbeat_sweeps times s = (Ret tt, with_client cl s).
Proof.
  induction times as [|t rest IH]; intros s.
  - exists (client s). simpl. unfold ret. now rewrite with_client_same.
  - cbn [heartbeat_sweeps].
    assert (Hstep : exists cl, heartbeat_sweep t s = (Ret tt, with_client cl s)).
    { unfold heartbeat_sweep, try_except.
      destruct (on_client_frame (_cleanup_timed_out_tasks t) s)
        as ([[]|e] & cl & ->); now exists cl. }
    destruct Hstep as (cl & Hstep). rewrite (bind_step _ _ _ _ _ Hstep).
    destruct (IH (with_client cl s)) as (cl' & ->).
    exists cl'. now rewrite with_client_twice.
Qed.

End Frames.

Section Settings.
Import QualityAgent.

Lemma quality_respond_config task_id status results duration (a : QAgent) :
  exists r a',
    on_client (send_task_response task_id status results duration) a = (r, a') /\
    config a' = config a /\ findings a' = findings a.
Proof.
  destruct (on_client_frame
              (send_task_response task_id status results duration) a)
    as (r & cl & ->).
  now exists r, (with_client cl a).
Qed.

(** Whichever way the [try] block ends, the configuration it installed at
    its start is the one left behind. *)
Lemma quality_analyse_config env task_id td (a : QAgent) :
  config (snd (analyse env task_id td a))
  = set_mode (default "standard" (td_mode td))
      (_update_config (default [] (td_config td)) (config a)).
Proof.
  unfold analyse. rewrite bind_modify, bind_get.
  set (a1 := set_config _ a).
  destruct (_filter_quality_files env (config a1) (default [] (td_scope td)))
    as [|file files].
  - destruct (quality_respond_config task_id "done"
                (empty_results (default "" (td_output td))) (Some 0) a1)
      as (r & a' & Hsend & Hcfg & _).
    unfold bind at 1. rewrite Hsend. destruct r; simpl; exact Hcfg.
  - destruct (heartbeat_sweeps_frame (sweeps env) a1) as (cl & Hsw).
    rewrite (bind_step _ _ _ _ _ Hsw).
    destruct (analysis env) as [[fs tools]|e]; [|reflexivity].
    rewrite bind_modify.
    destruct (report_fault env) as [e|]; [reflexivity|].
    rewrite bind_get.
    set (a3 := set_findings fs (with_client cl a1)).
    destruct (quality_respond_config task_id "done"
                (done_results a3 tools (length (file :: files))
                   (default "" (td_output td)))
                (Some (duration_ms env)) a3)
      as (r & a' & Hsend & Hcfg & _).
    unfold bind at 1. rewrite Hsend. destruct r; simpl; exact Hcfg.
Qed.

Lemma quality_handle_config env task_id td (a : QAgent) :
  config (snd (QualityAgent.handle_task env task_id td a))
  = if cooldown_active a (t_gate env) then config a
    else set_mode (default "standard" (td_mode td))
           (_update_config (default [] (td_config td)) (config a)).
Proof.
  unfold QualityAgent.handle_task. rewrite bind_get.
  destruct (cooldown_active a (t_gate env)).
  - destruct (quality_respond_config task_id "failed"
                (cooldown_results a (t_gate env)) None a)
      as (r & a' & Hsend & Hcfg & _).
    unfold bind at 1. rewrite Hsend. destruct r; simpl; exact Hcfg.
  - pose proof (quality_analyse_config env task_id td a) as Hcfg.
    unfold try_except.
    destruct (analyse env task_id td a) as [[[]|e] a1]; simpl in Hcfg;
      [exact Hcfg|].
    unfold on_failure. rewrite bind_modify.
    set (a2 := set_errors _ a1).
    destruct (quality_respond_config task_id "failed"
                (PDict [("error", PErr e);
                        ("error_type", PStr "quality_analysis_error")])
                (Some (duration_ms env)) a2)
      as (r & a' & Hsend & Hcfg' & _).
    unfold bind at 1. rewrite Hsend. destruct r; simpl; rewrite Hcfg'; exact Hcfg.
Qed.

(** X4.  Settings sent with a task are written into the agent's own
    configuration at the start of the [try] block and are never restored:
    after a task that passed the cooldown test, whether it ended [done] or
    [failed], the configuration is the old one updated with the task's
    settings and mode.  A later task that does not mention a setting
    therefore runs with the value an earlier task sent, while the analysis
    mode is set anew by every task and the file-size limit by none. *)
Theorem task_settings_stay_in_force
  (env1 env2 : Env) (id1 id2 : string) (td1 td2 : TaskData) (a : QAgent)
  (v : pyval) :
  let a1 := snd (QualityAgent.handle_task env1 id1 td1 a) in
  let a2 := snd (QualityAgent.handle_task env2 id2 td2 a1) in
  cooldown_active a (t_gate env1) = false ->
  cooldown_active a1 (t_gate env2) = false ->
  dict_get "complexity_threshold" (default [] (td_config td1)) = Some v ->
  dict_get "complexity_threshold" (default [] (td_config td2)) = None ->
  config a1 = set_mode (default "standard" (td_mode td1))
                (_update_config (default [] (td_config td1)) (config a)) /\
  complexity_threshold (config a1) = v /\
  complexity_threshold (config a2) = v /\
  analysis_mode (config a2) = default "standard" (td_mode td2) /\
  max_file_size_mb (config a2) = max_file_size_mb (config a).
Proof.
  cbv zeta. intros Hopen1 Hopen2 Hset Hunset.
  pose proof (quality_handle_config env1 id1 td1 a) as H1.
  rewrite Hopen1 in H1.
  pose proof (quality_handle_config env2 id2 td2
                (snd (QualityAgent.handle_task env1 id1 td1 a))) as H2.
  rewrite Hopen2 in H2.
  split; [exact H1|]. rewrite H2, H1.
  unfold set_mode, _update_config, set_key. cbn.
  rewrite Hset, Hunset. cbn. repeat split.
Qed.

Lemma task_settings_stay_in_force_witness :
  status_of
    (default (mkMsg "" "" None None)
       (last (outbox (base (snd (QualityAgent.handle_task (broken_tools 1) "t1"
                                   strict_task (quality_online 0)))))))
  = Some (PStr "failed") /\
  complexity_threshold
    (config (snd (QualityAgent.handle_task (quick_tools 2) "t2" one_task
                    (snd (QualityAgent.handle_task (broken_tools 1) "t1"
                            strict_task (quality_online 0))))))
  = PInt 3.
Proof.
  split; [vm_compute; reflexivity|].
  exact (proj1 (proj2 (proj2
    (task_settings_stay_in_force (broken_tools 1) (quick_tools 2) "t1" "t2"
       strict_task one_task (quality_online 0) (PInt 3)
       eq_refl eq_refl eq_refl eq_refl)))).
Defined.

End Settings.

(** ** The security agent: which files are scanned *)

Section SecurityFiles.
Import SecurityAgent.

Lemma ascii_lower_upper a : ascii_lower (ascii_upper a) = ascii_lower a.
Proof. destruct a as [[] [] [] [] [] [] [] []]; reflexivity. Qed.

Lemma ascii_lower_lower a : ascii_lower (ascii_lower a) = ascii_lower a.
Proof. destruct a as [[] [] [] [] [] [] [] []]; reflexivity. Qed.

Lemma lower_upper s : lower (upper s) = lower s.
Proof.
  unfold lower, upper. induction s as [|a s IH]; simpl; [reflexivity|].
  now rewrite ascii_lower_upper, IH.
Qed.

Lemma lower_lower s : lower (lower s) = lower s.
Proof.
  unfold lower. induction s as [|a s IH]; simpl; [reflexivity|].
  now rewrite ascii_lower_lower, IH.
Qed.

(** X5.  The files the security agent scans are listed once each.  A path
    is among them exactly when it is a regular file named in the scope
    (made absolute), whatever its name or extension, or a security-relevant
    file found under a directory named in the scope; paths that do not
    exist are dropped.  Relevance is decided on the lower-cased path, so it
    does not depend on letter case. *)
Theorem security_file_selection (env : Env) (scope : list string) (p : string) :
  NoDup (_filter_security_files env scope) /\
  (In p (_filter_security_files env scope) <->
   exists q, In q scope /\
     (fs_kind env (abs_path env q) = RegularFile /\ p = abs_path env q \/
      exists walk, fs_kind env (abs_path env q) = Directory walk /\
                   In p walk /\ _is_security_relevant_file p = true)) /\
  _is_security_relevant_file (upper p) = _is_security_relevant_file p /\
  _is_security_relevant_file (lower p) = _is_security_relevant_file p.
Proof.
  unfold _filter_security_files. split; [apply NoDup_remove_dups|]. split.
  - rewrite <- list_elem_of_In, elem_of_remove_dups, list_elem_of_In.
    rewrite in_flat_map. split.
    + intros (q & Hq & Hp). exists q. split; [exact Hq|].
      destruct (fs_kind env (abs_path env q)) as [| |walk]; simpl in Hp.
      * destruct Hp.
      * left. destruct Hp as [<-|[]]. now split.
      * right. exists walk. split; [reflexivity|].
        apply filter_In in Hp. exact Hp.
    + intros (q & Hq & [[Hk ->]|(walk & Hk & Hin & Hrel)]); exists q;
        (split; [exact Hq|]); rewrite Hk.
      * now left.
      * apply filter_In. now split.
  - unfold _is_security_relevant_file. now rewrite lower_upper, lower_lower.
Qed.

End SecurityFiles.

(** ** The heartbeat thread *)

Section HeartbeatLoop.
Import SocketThreads.

Lemma beat_guarded pid b c :
  exists raised c',
    try_except (bind (beat pid b) (fun _ => ret false)) (fun _ => ret true) c
    = (Ret raised, c').
Proof.
  unfold try_except, bind.
  destruct (beat pid b c) as [[[]|e] c']; now eexists _, _.
Qed.

(** X6.  The heartbeat thread never gives up on errors.  Its error counter
    is set back to zero at the start of every iteration, so after a failed
    iteration it stands at 1 and the limit of 5 is never reached: whatever
    the client state, the counter at entry and the failures on the way, the
    loop ends exactly when it finds the stop event set, and no exception
    leaves it. *)
Theorem heartbeat_loop_ends_only_on_stop
  (pid : Z) (beats : list Beat) (consecutive_errors : Z) (c : Client) :
  exists c',
    heartbeat_from pid beats consecutive_errors c
    = (Ret (if existsb stop_requested beats then StopEvent else StillLooping),
       c').
Proof.
  revert consecutive_errors c.
  induction beats as [|b rest IH]; intros n c; cbn [heartbeat_from existsb].
  - now exists c.
  - destruct (stop_requested b); cbn [orb]; [now exists c|].
    destruct (beat_guarded pid b c) as (raised & c1 & Hbeat).
    rewrite (bind_step _ _ _ _ _ Hbeat).
    destruct raised.
    + change (Z.leb max_consecutive_errors (0 + 1)) with false. cbv iota.
      apply IH.
    + apply IH.
Qed.

Lemma broken_send m c :
  wire_broken c -> send_message m c = (Raise send_failure, c).
Proof.
  intros (Hc & Hs & Hw). unfold send_message. now rewrite Hc, Hs, Hw.
Qed.

Lemma broken_response task_id status results duration c :
  wire_broken c ->
  exists c',
    send_task_response task_id status results duration c
    = (Raise send_failure, c') /\
    wire_broken c' /\ outbox c' = outbox c.
Proof.
  intros Hb. rewrite send_task_response_unfold.
  destruct (dict_mem task_id (active_tasks c));
    (rewrite broken_send; [eexists; split; [reflexivity|]; split;
                             [exact Hb|reflexivity]|exact Hb]).
Qed.

Lemma broken_sweep reported (ids : list string) :
  forall c, wire_broken c ->
    exists r c', sweep reported ids c = (r, c') /\
                 wire_broken c' /\ outbox c' = outbox c.
Proof.
  induction ids as [|id rest IH]; intros c Hb.
  - exists (Ret tt), c. now split.
  - cbn [sweep]. rewrite bind_get.
    destruct (dict_mem id (active_tasks c)).
    + rewrite bind_bind, bind_modify, bind_bind.
      destruct (broken_response id "timeout" (timeout_results reported id) None
                  (set_active_tasks (dict_del id) c) Hb)
        as (c1 & Hsend & Hb1 & Hout).
      unfold bind at 1. rewrite Hsend.
      exists (Raise send_failure), c1. now split.
    + rewrite bind_ret. now apply IH.
Qed.

(** With a failing socket every beat ends in an exception. *)
Lemma broken_beat pid b c :
  wire_broken c ->
  exists e c', beat pid b c = (Raise e, c') /\
               wire_broken c' /\ outbox c' = outbox c.
Proof.
  intros Hb. unfold beat, _cleanup_timed_out_tasks. rewrite bind_bind, bind_get.
  destruct (broken_sweep (loop_timeout (active_tasks c))
              (timed_out_tasks (sweep_time b) (active_tasks c)) c Hb)
    as ([[]|e] & c1 & Hsw & Hb1 & Hout).
  - rewrite (bind_step _ _ _ _ _ Hsw), bind_get.
    destruct Hb1 as (Hc & Hs & Hw). rewrite Hc.
    unfold bind at 1. rewrite broken_send by (repeat split; assumption).
    exists send_failure, c1. repeat split; assumption.
  - unfold bind at 1. rewrite Hsw. exists e, c1. now split.
Qed.

(** X7.  A socket whose writes fail is never noticed by the heartbeat
    thread.  [send_message] then raises out of its own handler, so
    [is_connected] is not cleared; every beat ends in an exception that the
    loop swallows; and after any number of beats the client is still marked
    connected, nothing has been written, and the loop is still running.
    The main loop, which reconnects only when [is_connected] is false,
    therefore only sleeps. *)
Theorem heartbeat_keeps_broken_connection
  (pid : Z) (beats : list Beat) (c : Client) :
  wire_broken c ->
  Forall (fun b => stop_requested b = false) beats ->
  exists c',
    _heartbeat_loop pid beats c = (Ret StillLooping, c') /\
    wire_broken c' /\
    outbox c' = outbox c /\
    forall (w : World) (attempts : nat),
      fst (main_iteration w (mkMain true (is_connected c') attempts))
      = [ASleep 1].
Proof.
  unfold _heartbeat_loop. generalize 0 as n. intros n Hb Hall. revert n c Hb.
  induction Hall as [|b rest Hgo _ IH]; intros n c Hb.
  - exists c. split; [reflexivity|]. split; [exact Hb|].
    split; [reflexivity|]. intros w k. destruct Hb as (Hc & _).
    unfold main_iteration. cbn. now rewrite Hc.
  - cbn [heartbeat_from]. rewrite Hgo.
    destruct (broken_beat pid b c Hb) as (e & c1 & Hbeat & Hb1 & Hout).
    assert (Hguard : try_except (bind (beat pid b) (fun _ => ret false))
                       (fun _ => ret true) c = (Ret true, c1)).
    { unfold try_except, bind. now rewrite Hbeat. }
    rewrite (bind_step _ _ _ _ _ Hguard).
    change (Z.leb max_consecutive_errors (0 + 1)) with false. cbv iota.
    destruct (IH (0 + 1) c1 Hb1) as (c' & Hrun & Hb' & Hout' & Hmain).
    exists c'. split; [exact Hrun|]. split; [exact Hb'|].
    split; [congruence|exact Hmain].
Qed.

Lemma heartbeat_keeps_broken_connection_witness :
  wire_broken broken_wire_client /\
  exists c',
    _heartbeat_loop 4242 three_beats broken_wire_client
    = (Ret StillLooping, c') /\
    is_connected c' = true /\ outbox c' = [].
Proof.
  assert (Hb : wire_broken broken_wire_client) by (repeat split).
  assert (Hall : Forall (fun b => stop_requested b = false) three_beats)
    by (repeat constructor).
  split; [exact Hb|].
  destruct (heartbeat_keeps_broken_connection 4242 three_beats
              broken_wire_client Hb Hall) as (c' & Hrun & Hb' & Hout & _).
  exists c'. split; [exact Hrun|]. split; [apply Hb'|exact Hout].
Defined.

Lemma fold_del_keeps (ids : list string) :
  forall k (t : ActiveTask) d,
    ~ In k ids ->
    fold_left (fun d id => dict_del id d) ids ((k, t) :: d)
    = (k, t) :: fold_left (fun d id => dict_del id d) ids d.
Proof.
  induction ids as [|id rest IH]; intros k t d Hk; [reflexivity|].
  cbn [fold_left dict_del].
  destruct (String.eqb id k) eqn:E.
  - apply String.eqb_eq in E. subst id. exfalso. apply Hk. now left.
  - apply IH. intros Hin. apply Hk. now right.
Qed.

(** Deleting the expired ids leaves the entries that are still in time. *)
Lemma sweep_leaves_in_time now (d : list (string * ActiveTask)) :
  NoDup (dict_keys d) ->
  fold_left (fun d id => dict_del id d) (timed_out_tasks now d) d
  = in_time now d.
Proof.
  unfold timed_out_tasks, in_time, dict_keys.
  induction d as [|[k t] d IH]; intros Hnd; [reflexivity|].
  apply NoDup_cons in Hnd as [Hk Hnd]. cbn [List.filter map snd fst].
  destruct (expired now t) eqn:E; cbn [negb map fst fold_left dict_del].
  - rewrite String.eqb_refl.
    rewrite dict_del_absent; [now apply IH|].
    destruct (dict_mem k d) eqn:Hm; [|reflexivity].
    apply dict_mem_In in Hm. exfalso. apply Hk. now apply list_elem_of_In.
  - rewrite fold_del_keeps; [now rewrite IH|].
    intros Hin. apply Hk. apply list_elem_of_In.
    apply (timed_out_in now d k). exact Hin.
Qed.

(** X8.  One beat of a connected client whose socket works: the sweep
    writes a timeout response for every entry past its deadline, then one
    heartbeat message is written, and no exception is raised.  The
    heartbeat is built after the sweep: its [active_tasks] is the number of
    entries still in time, and its [status] is [idle] exactly when there is
    none; those entries are what the client holds afterwards. *)
Theorem heartbeat_reports_tasks_in_time
  (pid : Z) (b : Beat) (c : Client) :
  online c ->
  NoDup (dict_keys (active_tasks c)) ->
  exists hb c',
    beat pid b c = (Ret tt, c') /\
    outbox c' = outbox c ++
                map (timeout_message (agent_name c)
                       (loop_timeout (active_tasks c)))
                    (timed_out_tasks (sweep_time b) (active_tasks c)) ++
                [hb] /\
    active_tasks c' = in_time (sweep_time b) (active_tasks c) /\
    msg_type hb = "heartbeat" /\
    msg_agent hb = Some (agent_name c) /\
    data_field "active_tasks" hb
    = Some (PInt (Z.of_nat (length (in_time (sweep_time b) (active_tasks c))))) /\
    data_field "active_tasks_limit" hb = Some (PInt (max_active_tasks c)) /\
    (data_field "status" hb = Some (PStr "idle") <->
     in_time (sweep_time b) (active_tasks c) = []) /\
    (data_field "status" hb = Some (PStr "busy") <->
     in_time (sweep_time b) (active_tasks c) <> []).
Proof.
  intros Hon Hnd. unfold beat, _cleanup_timed_out_tasks.
  rewrite bind_bind, bind_get.
  rewrite (bind_step _ _ _ _ _
             (sweep_online (loop_timeout (active_tasks c))
                (timed_out_tasks (sweep_time b) (active_tasks c)) c Hon
                (timed_out_NoDup _ _ Hnd)
                (fun id Hid => proj2 (dict_mem_In id (active_tasks c))
                                 (timed_out_in _ _ id Hid)))).
  rewrite sweep_leaves_in_time by exact Hnd.
  set (c1 := mkClient _ _ _ _ _ _ _).
  rewrite bind_get.
  assert (Hon1 : online c1) by exact Hon.
  destruct Hon as (Hc & Hs & Hw). change (is_connected c1) with (is_connected c).
  rewrite Hc.
  rewrite (bind_step _ _ _ _ _ (send_message_online _ c1 Hon1)).
  eexists _, _. split; [reflexivity|].
  split. { cbn. now rewrite <- app_assoc. }
  split; [reflexivity|]. split; [reflexivity|]. split; [reflexivity|].
  split; [reflexivity|]. split; [reflexivity|].
  unfold data_field. cbn.
  destruct (in_time (sweep_time b) (active_tasks c)); split; split;
    intros H; try reflexivity; try discriminate; congruence.
Qed.

Lemma heartbeat_reports_tasks_in_time_witness :
  online overdue_client /\
  NoDup (dict_keys (active_tasks overdue_client)) /\
  exists hb c',
    beat 4242 (mkBeat false 50 50 50) overdue_client = (Ret tt, c') /\
    outbox c' = [timeout_message "quality" (PFloat 300) "t0"; hb] /\
    data_field "active_tasks" hb = Some (PInt 1) /\
    dict_keys (active_tasks c') = ["t9"].
Proof.
  assert (Hon : online overdue_client) by (repeat split).
  assert (Hnd : NoDup (dict_keys (active_tasks overdue_client))).
  { apply NoDup_ListNoDup. repeat constructor; simpl; intuition discriminate. }
  split; [exact Hon|]. split; [exact Hnd|].
  destruct (heartbeat_reports_tasks_in_time 4242 (mkBeat false 50 50 50)
              overdue_client Hon Hnd)
    as (hb & c' & Hrun & Hout & Hact & _ & _ & Hcount & _).
  exists hb, c'. split; [exact Hrun|]. split; [exact Hout|].
  split; [exact Hcount|]. now rewrite Hact.
Defined.

End HeartbeatLoop.

(** ** Events *)

Section Events.
Import SocketThreads.

Lemma dict_get_absent {V} k (d : list (string * V)) :
  ~ In k (dict_keys d) -> dict_get k d = None.
Proof.
  intros Hk. destruct (dict_get k d) eqn:E; [|reflexivity].
  exfalso. apply Hk. apply dict_mem_In. unfold dict_mem. now rewrite E.
Qed.

(** Reading a key after [{**base, **extra}]. *)
Lemma dict_get_update {V} k (extra : list (string * V)) :
  forall base,
    NoDup (dict_keys extra) ->
    dict_get k (dict_update base extra)
    = match dict_get k extra with
      | Some v => Some v
      | None => dict_get k base
      end.
Proof.
  unfold dict_update.
  induction extra as [|[k1 v1] rest IH]; intros base Hnd; [reflexivity|].
  apply NoDup_cons in Hnd as [Hk1 Hnd]. cbn [fold_left fst snd dict_get].
  rewrite IH by exact Hnd.
  destruct (String.eqb k k1) eqn:E.
  - apply String.eqb_eq in E. subst k1.
    rewrite dict_get_absent, dict_get_set_eq; [reflexivity|].
    intros Hin. apply Hk1. now apply list_elem_of_In.
  - apply String.eqb_neq in E.
    rewrite dict_get_set_ne by exact E. reflexivity.
Qed.

(** X9.  [send_event] lets the caller's data overwrite the fields it sets
    itself.  A connected client writes exactly one message of type [event],
    named after the clock reading; in its data every key of the caller's
    dict carries the caller's value, also for [type], [agent] and [status],
    and only the keys the caller left out carry the event type, the agent's
    own name and [active].  A client that is not connected writes nothing
    and returns [False]. *)
Theorem send_event_data_overrides
  (now : Q) (event_type : string) (data : list (string * pyval))
  (c c_off : Client) :
  online c ->
  NoDup (dict_keys data) ->
  is_connected c_off = false ->
  (exists m,
      send_event now event_type data c = (Ret true, push_outbox m c) /\
      msg_type m = "event" /\
      msg_id m = "event-" +:+ pretty (py_int now) /\
      msg_agent m = Some (agent_name c) /\
      forall k,
        data_field k m
        = match dict_get k data with
          | Some v => Some v
          | None => dict_get k (event_defaults event_type (agent_name c))
          end) /\
  send_event now event_type data c_off = (Ret false, c_off).
Proof.
  intros Hon Hnd Hoff. unfold send_event. split.
  - rewrite bind_get. rewrite send_message_online by exact Hon.
    eexists. split; [reflexivity|]. split; [reflexivity|].
    split; [reflexivity|]. split; [reflexivity|].
    intros k. unfold data_field. cbn [msg_data fill_agent msg_agent].
    now apply dict_get_update.
  - rewrite bind_get. now apply send_message_offline.
Qed.

Lemma send_event_data_overrides_witness :
  online (online_client "quality") /\
  NoDup (dict_keys progress_data) /\
  exists m,
    send_event 1730000000 "progress" progress_data (online_client "quality")
    = (Ret true, push_outbox m (online_client "quality")) /\
    msg_id m = "event-1730000000" /\
    data_field "agent" m = Some (PStr "security") /\
    data_field "status" m = Some (PStr "active").
Proof.
  assert (Hon : online (online_client "quality")) by (repeat split).
  assert (Hnd : NoDup (dict_keys progress_data)).
  { apply NoDup_ListNoDup. repeat constructor; simpl; intuition discriminate. }
  split; [exact Hon|]. split; [exact Hnd|].
  destruct (send_event_data_overrides 1730000000 "progress" progress_data
              (online_client "quality") c9_client Hon Hnd eq_refl)
    as ((m & Hrun & _ & Hid & _ & Hdata) & _).
  exists m. split; [exact Hrun|]. split; [exact Hid|].
  split; [exact (Hdata "agent")|exact (Hdata "status")].
Defined.

End Events.

(** ** Duplication: the similarity of two texts *)

Section Similarity.
Import QualityAnalysis.

Lemma split_from_nonempty sep s : forall acc, split_from sep acc s <> [].
Proof.
  induction s as [|a r IH]; intros acc; simpl; [discriminate|].
  destruct (Ascii.eqb a sep); [discriminate|apply IH].
Qed.

(** A text always has a line: the guard [if not lines1 or not lines2] never
    fires. *)
Lemma line_set_nonempty content : line_set content <> ∅.
Proof.
  unfold line_set, split.
  destruct (split_from newline "" content) as [|l ls] eqn:E.
  - now apply split_from_nonempty in E.
  - simpl. set_solver.
Qed.

Lemma ratio_bounds (a b : nat) :
  (0 < b)%nat -> (a <= b)%nat ->
  let s := (inject_Z (Z.of_nat a) / inject_Z (Z.of_nat b))%Q in
  (0 <= s)%Q /\ (s <= 1)%Q /\ (s == 1 <-> a = b)%Q /\ (s == 0 <-> a = 0%nat)%Q.
Proof.
  intros Hb Hab s.
  assert (Hpos : (0 < inject_Z (Z.of_nat b))%Q).
  { change 0%Q with (inject_Z 0). rewrite <- Zlt_Qlt. lia. }
  assert (Hne : ~ (inject_Z (Z.of_nat b) == 0)%Q) by lra.
  assert (Hmul : (s * inject_Z (Z.of_nat b) == inject_Z (Z.of_nat a))%Q).
  { unfold s. field. exact Hne. }
  assert (Ha : (0 <= inject_Z (Z.of_nat a))%Q).
  { change 0%Q with (inject_Z 0). rewrite <- Zle_Qle. lia. }
  assert (Hle : (inject_Z (Z.of_nat a) <= inject_Z (Z.of_nat b))%Q).
  { rewrite <- Zle_Qle. lia. }
  repeat split.
  - unfold s. apply Qle_shift_div_l; [exact Hpos|]. lra.
  - unfold s. apply Qle_shift_div_r; [exact Hpos|]. lra.
  - intros H1. rewrite H1 in Hmul.
    assert (Heq : (inject_Z (Z.of_nat b) == inject_Z (Z.of_nat a))%Q) by lra.
    unfold Qeq in Heq. simpl in Heq. lia.
  - intros ->. unfold s. field. exact Hne.
  - intros H0. rewrite H0 in Hmul.
    assert (Heq : (inject_Z (Z.of_nat a) == inject_Z 0)%Q)
      by (change (inject_Z 0) with 0%Q; lra).
    unfold Qeq in Heq. simpl in Heq. lia.
  - intros ->. unfold s. simpl. field. exact Hne.
Qed.

(** X10.  [_calculate_similarity] is the Jaccard index of the two sets of
    lines.  A text always has at least one line (the empty text has the
    empty line), so the early return for an empty set is never taken.  The
    result does not depend on the order of the arguments, lies between 0
    and 1, is 1 exactly when the two texts have the same set of lines, in
    whatever order and however often repeated, and is 0 exactly when they
    share no line. *)
Theorem similarity_is_jaccard (content1 content2 : string) :
  line_set content1 <> ∅ /\
  _calculate_similarity content1 content2
  = (inject_Z (Z.of_nat (size (line_set content1 ∩ line_set content2))) /
     inject_Z (Z.of_nat (size (line_set content1 ∪ line_set content2))))%Q /\
  _calculate_similarity content2 content1
  = _calculate_similarity content1 content2 /\
  (0 <= _calculate_similarity content1 content2)%Q /\
  (_calculate_similarity content1 content2 <= 1)%Q /\
  ((_calculate_similarity content1 content2 == 1)%Q <->
   line_set content1 = line_set content2) /\
  ((_calculate_similarity content1 content2 == 0)%Q <->
   line_set content1 ## line_set content2).
Proof.
  assert (Hform : forall c1 c2,
             _calculate_similarity c1 c2
             = (inject_Z (Z.of_nat (size (line_set c1 ∩ line_set c2))) /
                inject_Z (Z.of_nat (size (line_set c1 ∪ line_set c2))))%Q).
  { intros c1 c2. unfold _calculate_similarity. cbv zeta.
    fold (line_set c1) (line_set c2).
    rewrite (bool_decide_eq_false_2 _ (line_set_nonempty c1)).
    rewrite (bool_decide_eq_false_2 _ (line_set_nonempty c2)).
    cbn [orb].
    rewrite bool_decide_eq_false_2; [reflexivity|].
    pose proof (line_set_nonempty c1). set_solver. }
  split; [apply line_set_nonempty|]. split; [apply Hform|].
  split.
  { rewrite !Hform.
    now rewrite (comm_L (∩) (line_set content2)),
                (comm_L (∪) (line_set content2)). }
  rewrite Hform.
  set (L1 := line_set content1). set (L2 := line_set content2).
  assert (Hb : (0 < size (L1 ∪ L2))%nat).
  { destruct (size (L1 ∪ L2)) eqn:E; [|lia].
    apply size_empty_inv in E. pose proof (line_set_nonempty content1).
    fold L1 in H. set_solver. }
  assert (Hab : (size (L1 ∩ L2) <= size (L1 ∪ L2))%nat).
  { apply subseteq_size. set_solver. }
  destruct (ratio_bounds _ _ Hb Hab) as (H0 & H1 & Hone & Hzero).
  cbv zeta in *. split; [exact H0|]. split; [exact H1|]. split.
  - rewrite Hone. clear Hone Hzero H0 H1. split.
    + intros Hsize.
      assert (Heq : L1 ∩ L2 = L1 ∪ L2).
      { apply set_subseteq_size_eq; [set_solver|lia]. }
      apply set_eq. intros x. split; intros Hx.
      * assert (x ∈ L1 ∩ L2) by (rewrite Heq; set_solver). set_solver.
      * assert (x ∈ L1 ∩ L2) by (rewrite Heq; set_solver). set_solver.
    + intros ->. now rewrite (idemp_L (∩)), (idemp_L (∪)).
  - rewrite Hzero. clear Hone Hzero H0 H1. split.
    + intros Hsize. apply size_empty_inv in Hsize. set_solver.
    + intros Hdisj. apply size_empty_iff. set_solver.
Qed.

End Similarity.

(** ** Duplication: which pairs are reported *)

Section DuplicationPairs.
Import QualityAgent QualityAnalysis.
Variable read_text : string -> option string.

Lemma In_dict_set {V} k (v : V) d k' v' :
  NoDup (dict_keys d) ->
  In (k', v') (dict_set k v d) <->
  (k' = k /\ v' = v) \/ (k' <> k /\ In (k', v') d).
Proof.
  unfold dict_keys. induction d as [|[k0 v0] d IH]; intros Hnd; simpl.
  - split; [intros [[= <- <-]|[]]; now left|].
    intros [[-> ->]|[_ []]]. now left.
  - apply NoDup_cons in Hnd as [Hk0 Hnd]. specialize (IH Hnd).
    destruct (String.eqb k k0) eqn:E; simpl.
    + apply String.eqb_eq in E. subst k0. split.
      * intros [[= <- <-]|Hin]; [now left|]. right. split; [|now right].
        intros ->. apply Hk0. apply list_elem_of_In.
        apply (in_map fst) in Hin. exact Hin.
      * intros [[-> ->]|[Hne [[= <- <-]|Hin]]]; [now left|congruence|now right].
    + apply String.eqb_neq in E. rewrite IH. split.
      * intros [[= <- <-]|[[-> ->]|[Hne Hin]]].
        -- right. split; [congruence|now left].
        -- now left.
        -- right. split; [exact Hne|now right].
      * intros [[-> ->]|[Hne [[= <- <-]|Hin]]].
        -- right. now left.
        -- now left.
        -- right. right. now split.
Qed.

Lemma dict_keys_set_NoDup {V} k (v : V) d :
  NoDup (dict_keys d) -> NoDup (dict_keys (dict_set k v d)).
Proof.
  intros Hnd. rewrite dict_keys_set.
  destruct (dict_mem k d) eqn:E; [exact Hnd|].
  apply NoDup_app. split; [exact Hnd|]. split; [|apply NoDup_singleton].
  intros x Hx ->%list_elem_of_singleton.
  apply list_elem_of_In, dict_mem_In in Hx. congruence.
Qed.

(** What [file_contents] holds: each readable path of the scope once, with
    its text. *)
Lemma file_contents_spec (files : list string) :
  NoDup (dict_keys (file_contents read_text files)) /\
  forall k v, In (k, v) (file_contents read_text files) <->
              In k files /\ read_text k = Some v.
Proof.
  unfold file_contents.
  assert (Hgen : forall (d : list (string * string)) (seen : list string),
             NoDup (dict_keys d) ->
             (forall k v, In (k, v) d <-> In k seen /\ read_text k = Some v) ->
             let d' := fold_left
                         (fun d file_path =>
                            match read_text file_path with
                            | Some content => dict_set file_path content d
                            | None => d
                            end) files d in
             NoDup (dict_keys d') /\
             forall k v, In (k, v) d' <->
                         In k (seen ++ files) /\ read_text k = Some v).
  { induction files as [|p files IH]; intros d seen Hnd Hd; cbv zeta.
    - simpl. rewrite app_nil_r. now split.
    - cbn [fold_left].
      replace (seen ++ p :: files) with ((seen ++ [p]) ++ files)
        by now rewrite <- app_assoc.
      apply IH.
      + destruct (read_text p); [now apply dict_keys_set_NoDup|exact Hnd].
      + intros k v. rewrite in_app_iff. simpl.
        destruct (read_text p) as [content|] eqn:E.
        * rewrite In_dict_set by exact Hnd. rewrite Hd. split.
          -- intros [[-> ->]|[Hne [Hin Hr]]]; [|tauto].
             split; [tauto|exact E].
          -- intros [[Hin|[<-|[]]] Hr].
             ++ destruct (String.eqb_spec k p) as [->|Hne].
                ** left. split; congruence.
                ** right. tauto.
             ++ left. split; congruence.
        * rewrite Hd. split; [tauto|].
          intros [[Hin|[<-|[]]] Hr]; [tauto|congruence]. }
  destruct (Hgen [] [] (NoDup_nil_2 (A:=string))) as [Hnd Hin].
  { intros k v. simpl. tauto. }
  split; [exact Hnd|exact Hin].
Qed.

Lemma compare_with_In threshold file1 content1 later f :
  In f (fst (compare_with threshold file1 content1 later)) ->
  exists file2 content2,
    In (file2, content2) later /\
    f = duplication_finding file1 file2
          (_calculate_similarity content1 content2) /\
    float_gt (_calculate_similarity content1 content2) threshold = Ret true.
Proof.
  induction later as [|[file2 content2] rest IH]; simpl; [tauto|].
  destruct (float_gt _ threshold) as [above|e] eqn:E; [|simpl; tauto].
  destruct (compare_with threshold file1 content1 rest) as [more ok].
  simpl in *. rewrite in_app_iff. intros [Hhere|Hmore].
  - destruct above; [|destruct Hhere]. destruct Hhere as [<-|[]].
    exists file2, content2. split; [now left|]. now split.
  - destruct (IH Hmore) as (f2 & c2 & Hin & Hf & Hgt).
    exists f2, c2. split; [now right|]. now split.
Qed.

Lemma compare_all_In threshold file_list f :
  NoDup (dict_keys file_list) ->
  In f (fst (compare_all threshold file_list)) ->
  exists file1 content1 file2 content2,
    In (file1, content1) file_list /\ In (file2, content2) file_list /\
    file1 <> file2 /\
    f = duplication_finding file1 file2
          (_calculate_similarity content1 content2) /\
    float_gt (_calculate_similarity content1 content2) threshold = Ret true.
Proof.
  unfold dict_keys.
  induction file_list as [|[file1 content1] later IH]; intros Hnd;
    simpl; [tauto|].
  apply NoDup_cons in Hnd as [Hk Hnd].
  pose proof (compare_with_In threshold file1 content1 later f) as Hhere.
  destruct (compare_with threshold file1 content1 later) as [here ok].
  assert (Hfrom_here : In f here ->
            exists f1 c1 f2 c2,
              ((file1, content1) = (f1, c1) \/ In (f1, c1) later) /\
              ((file1, content1) = (f2, c2) \/ In (f2, c2) later) /\
              f1 <> f2 /\
              f = duplication_finding f1 f2 (_calculate_similarity c1 c2) /\
              float_gt (_calculate_similarity c1 c2) threshold = Ret true).
  { intros Hin. destruct (Hhere Hin) as (f2 & c2 & Hl & Hf & Hgt).
    exists file1, content1, f2, c2. split; [now left|]. split; [now right|].
    split; [|now split].
    intros <-. apply Hk. apply list_elem_of_In.
    apply (in_map fst) in Hl. exact Hl. }
  destruct ok; [|exact Hfrom_here].
  destruct (compare_all threshold later) as [more ok'].
  simpl in *. rewrite in_app_iff. intros [Hin|Hin]; [now apply Hfrom_here|].
  destruct (IH Hnd Hin) as (f1 & c1 & f2 & c2 & H1 & H2 & Hrest).
  exists f1, c1, f2, c2. split; [now right|]. split; [now right|exact Hrest].
Qed.

(** With a numeric threshold the loops run to their end and miss no pair. *)
Lemma compare_with_complete threshold file1 content1 later :
  (forall x, exists b, float_gt x threshold = Ret b) ->
  snd (compare_with threshold file1 content1 later) = true /\
  forall file2 content2,
    In (file2, content2) later ->
    float_gt (_calculate_similarity content1 content2) threshold = Ret true ->
    In (duplication_finding file1 file2
          (_calculate_similarity content1 content2))
       (fst (compare_with threshold file1 content1 later)).
Proof.
  intros Hnum. induction later as [|[f2 c2] rest [IHok IH]]; simpl.
  - split; [reflexivity|tauto].
  - destruct (Hnum (_calculate_similarity content1 c2)) as (b & Hb).
    rewrite Hb.
    destruct (compare_with threshold file1 content1 rest) as [more ok].
    simpl in *. split; [exact IHok|].
    intros file2 content2 [[= <- <-]|Hin] Hgt; apply in_app_iff.
    + left. rewrite Hb in Hgt. injection Hgt as ->. now left.
    + right. now apply IH.
Qed.

Lemma compare_all_complete threshold file_list :
  (forall x, exists b, float_gt x threshold = Ret b) ->
  forall before file1 content1 between file2 content2 after,
    file_list = before ++ (file1, content1) :: between ++
                (file2, content2) :: after ->
    float_gt (_calculate_similarity content1 content2) threshold = Ret true ->
    In (duplication_finding file1 file2
          (_calculate_similarity content1 content2))
       (fst (compare_all threshold file_list)).
Proof.
  intros Hnum before. revert file_list.
  induction before as [|[f0 c0] before IH];
    intros file_list file1 content1 between file2 content2 after -> Hgt.
  - cbn [app compare_all].
    destruct (compare_with_complete threshold file1 content1
                (between ++ (file2, content2) :: after) Hnum) as [Hok Hall].
    destruct (compare_with threshold file1 content1 _) as [here ok].
    simpl in Hok. subst ok.
    destruct (compare_all threshold _) as [more ok'].
    simpl. apply in_app_iff. left. apply Hall; [|exact Hgt].
    apply in_app_iff. right. now left.
  - cbn [app compare_all].
    destruct (compare_with_complete threshold f0 c0
                (before ++ (file1, content1) :: between ++
                 (file2, content2) :: after) Hnum) as [Hok _].
    destruct (compare_with threshold f0 c0 _) as [here ok].
    simpl in Hok. subst ok.
    pose proof (IH _ file1 content1 between file2 content2 after eq_refl Hgt)
      as Hin.
    destruct (compare_all threshold _) as [more ok'].
    simpl in *. apply in_app_iff. now right.
Qed.

Lemma two_positions {A} (x y : A) (l : list A) :
  In x l -> In y l -> x <> y ->
  (exists before between after, l = before ++ x :: between ++ y :: after) \/
  (exists before between after, l = before ++ y :: between ++ x :: after).
Proof.
  intros Hx Hy Hne. apply in_split in Hx as (l1 & l2 & ->).
  apply in_app_iff in Hy as [Hy|[Hy|Hy]]; [|congruence|].
  - right. apply in_split in Hy as (l3 & l4 & ->).
    exists l3, l4, l2. now rewrite <- app_assoc.
  - left. apply in_split in Hy as (l3 & l4 & ->). now exists l1, l3, l4.
Qed.

(** X11.  Duplication detection compares every two different readable files
    of the scope once.  For a numeric threshold: every finding is a warning
    at line 1 that names two different files of the scope whose similarity
    is above the threshold, so a file is never reported as a duplicate of
    itself, not even when the scope lists it twice; and every pair of
    different readable files whose similarity is above the threshold is
    reported, under one of the two files. *)
Theorem duplication_reports_pairs_of_distinct_files
  (threshold : pyval) (files : list string) :
  (forall x, exists b, float_gt x threshold = Ret b) ->
  (forall f,
      In f (_run_duplication_detection read_text threshold files) ->
      severity f = "warning" /\ line_number f = PInt 1 /\
      category f = Some "duplication" /\
      exists file1 file2 content1 content2,
        file_path f = PStr file1 /\ similar_file f = Some (PStr file2) /\
        file1 <> file2 /\ In file1 files /\ In file2 files /\
        read_text file1 = Some content1 /\ read_text file2 = Some content2 /\
        score f = PFloat (_calculate_similarity content1 content2) /\
        float_gt (_calculate_similarity content1 content2) threshold
        = Ret true) /\
  (forall file1 file2 content1 content2,
      In file1 files -> In file2 files -> file1 <> file2 ->
      read_text file1 = Some content1 -> read_text file2 = Some content2 ->
      float_gt (_calculate_similarity content1 content2) threshold = Ret true ->
      In (duplication_finding file1 file2
            (_calculate_similarity content1 content2))
         (_run_duplication_detection read_text threshold files) \/
      In (duplication_finding file2 file1
            (_calculate_similarity content2 content1))
         (_run_duplication_detection read_text threshold files)).
Proof.
  intros Hnum. unfold _run_duplication_detection.
  destruct (file_contents_spec files) as [Hnd Hspec]. split.
  - intros f Hf.
    destruct (compare_all_In threshold _ f Hnd Hf)
      as (f1 & c1 & f2 & c2 & H1 & H2 & Hne & -> & Hgt).
    apply Hspec in H1 as [Hin1 Hr1]. apply Hspec in H2 as [Hin2 Hr2].
    split; [reflexivity|]. split; [reflexivity|]. split; [reflexivity|].
    exists f1, f2, c1, c2. repeat split; assumption.
  - intros f1 f2 c1 c2 Hin1 Hin2 Hne Hr1 Hr2 Hgt.
    assert (H1 : In (f1, c1) (file_contents read_text files))
      by now apply Hspec.
    assert (H2 : In (f2, c2) (file_contents read_text files))
      by now apply Hspec.
    destruct (two_positions _ _ _ H1 H2) as [(b & m & a & Heq)|(b & m & a & Heq)].
    { congruence. }
    + left. eapply compare_all_complete; eassumption.
    + right. eapply compare_all_complete; [exact Hnum|exact Heq|].
      destruct (similarity_is_jaccard c1 c2) as (_ & _ & -> & _). exact Hgt.
Qed.

End DuplicationPairs.

Lemma duplication_reports_pairs_of_distinct_files_witness :
  (forall x, exists b, QualityAnalysis.float_gt x (PFloat (8 # 10)) = Ret b) /\
  QualityAnalysis._run_duplication_detection disk (PFloat (8 # 10)) listed_twice
  = [QualityAnalysis.duplication_finding "a.py" "b.py" (2 # 2)] /\
  forall f,
    In f (QualityAnalysis._run_duplication_detection disk (PFloat (8 # 10))
            listed_twice) ->
    QualityAgent.severity f = "warning".
Proof.
  assert (Hnum : forall x, exists b,
             QualityAnalysis.float_gt x (PFloat (8 # 10)) = Ret b)
    by (intros x; eexists; reflexivity).
  split; [exact Hnum|]. split; [vm_compute; reflexivity|].
  intros f Hf.
  exact (proj1 (proj1 (duplication_reports_pairs_of_distinct_files
                         disk (PFloat (8 # 10)) listed_twice Hnum) f Hf)).
Defined.

(** ** The top issues of the quality report *)

Section StableSort.
Import QualityReport.
Context {A : Type}.
Implicit Types (x y : (Z * Q) * A) (l : list ((Z * Q) * A)).

Lemma key_lt_false a b : key_lt a b = false -> key_le b a.
Proof.
  unfold key_lt, key_le. intros H.
  apply orb_false_iff in H as [Hlt H]. apply Z.ltb_ge in Hlt.
  destruct (Z.eqb (fst a) (fst b)) eqn:E.
  - apply Z.eqb_eq in E. simpl in H. apply Qltb_ge in H. right. now split.
  - apply Z.eqb_neq in E. left. lia.
Qed.

Lemma key_lt_true a b : key_lt a b = true -> key_le a b.
Proof.
  unfold key_lt, key_le. intros H.
  apply orb_true_iff in H as [H|H].
  - left. now apply Z.ltb_lt.
  - apply andb_true_iff in H as [E H]. apply Z.eqb_eq in E.
    apply Qltb_lt in H. right. split; [exact E|lra].
Qed.

Lemma key_le_trans a b c : key_le a b -> key_le b c -> key_le a c.
Proof.
  unfold key_le. intros [H1|[H1 H1']] [H2|[H2 H2']].
  - left. lia.
  - left. lia.
  - left. lia.
  - right. split; [lia|lra].
Qed.

Lemma insert_by_perm x l : Permutation (insert_by x l) (x :: l).
Proof.
  induction l as [|y l IH]; simpl; [reflexivity|].
  destruct (key_lt (fst y) (fst x)); [|reflexivity].
  rewrite IH. apply perm_swap.
Qed.

Lemma sorted_perm l : Permutation (sorted l) l.
Proof.
  induction l as [|x l IH]; simpl; [reflexivity|].
  rewrite insert_by_perm. now constructor.
Qed.

Lemma insert_by_sorted x l :
  StronglySorted (fun a b => key_le (fst a) (fst b)) l ->
  StronglySorted (fun a b => key_le (fst a) (fst b)) (insert_by x l).
Proof.
  induction 1 as [|y l Hs IH Hall]; simpl.
  - constructor; constructor.
  - destruct (key_lt (fst y) (fst x)) eqn:E.
    + constructor; [exact IH|].
      apply key_lt_true in E.
      assert (Hin : Forall (fun b => key_le (fst y) (fst b)) (x :: l))
        by (constructor; assumption).
      eapply Permutation_Forall; [|exact Hin].
      symmetry. apply insert_by_perm.
    + apply key_lt_false in E.
      constructor; [constructor; assumption|].
      constructor; [exact E|].
      eapply Forall_impl; [exact Hall|].
      intros b Hb. simpl in *. eapply key_le_trans; eassumption.
Qed.

Lemma sorted_sorted l :
  StronglySorted (fun a b => key_le (fst a) (fst b)) (sorted l).
Proof.
  induction l as [|x l IH]; simpl; [constructor|].
  now apply insert_by_sorted.
Qed.

End StableSort.

Section SortedFacts.
Context {A : Type} (R : A -> A -> Prop).

Lemma StronglySorted_split (l1 l2 : list A) :
  StronglySorted R (l1 ++ l2) ->
  StronglySorted R l1 /\
  forall x y, In x l1 -> In y l2 -> R x y.
Proof.
  induction l1 as [|a l1 IH]; simpl; intros Hs.
  - split; [constructor|tauto].
  - apply StronglySorted_inv in Hs as [Hs Hall].
    destruct (IH Hs) as [Hs1 Hcross]. split.
    + constructor; [exact Hs1|].
      apply Forall_app in Hall as [Hall _]. exact Hall.
    + intros x y [<-|Hx] Hy; [|now apply Hcross].
      apply Forall_app in Hall as [_ Hall].
      rewrite Forall_forall in Hall. apply Hall.
      now apply list_elem_of_In.
Qed.

End SortedFacts.

Section TopIssues.
Import QualityAgent QualityReport.

Lemma keyed_spec fs :
  Forall (fun f => exists q, neg_score (score f) = Ret q) fs ->
  exists ks, keyed fs = Ret ks /\ map snd ks = fs /\ Forall keyed_right ks.
Proof.
  induction 1 as [|f fs [q Hq] _ (ks & Hks & Hmap & Hall)]; simpl.
  - exists []. repeat split. constructor.
  - rewrite Hq, Hks. cbn [obind]. eexists. split; [reflexivity|].
    split; [simpl; now rewrite Hmap|].
    constructor; [|exact Hall]. exists q. now split.
Qed.

Lemma keyed_order kf kg :
  keyed_right kf -> keyed_right kg ->
  key_le (fst kf) (fst kg) -> ranks_before (snd kf) (snd kg).
Proof.
  intros (s & Hs & Hk) (t & Ht & Hk') Hle.
  unfold ranks_before, score_or_zero. rewrite Hs, Ht.
  unfold key_le in Hle. rewrite Hk, Hk' in Hle. simpl in Hle.
  destruct Hle as [Hlt|[Heq Hle]]; [now left|].
  right. split; [exact Heq|lra].
Qed.

Lemma sorted_map_snd (R := fun a b : (Z * Q) * QualityFinding =>
                             key_le (fst a) (fst b)) l :
  Forall keyed_right l ->
  StronglySorted R l -> StronglySorted ranks_before (map snd l).
Proof.
  intros Hall Hs. induction Hs as [|x l Hs IH Hx]; simpl; [constructor|].
  apply Forall_cons in Hall as [Hkx Hall].
  constructor; [now apply IH|].
  apply Forall_map.
  rewrite Forall_forall in Hx, Hall. apply Forall_forall.
  intros y Hy. apply keyed_order; [exact Hkx|now apply Hall|now apply Hx].
Qed.

(** X12.  [_get_top_issues] lists the ten findings that rank first, in
    rank order.  When every score is missing or a number, the call returns
    the summaries of [min(10, n)] of the [n] findings; together with the
    findings left out they are all the findings, each once; they are in
    order of rank (errors, then warnings, then everything else) and, within
    a rank, of falling score; and each of them ranks before every finding
    left out.  A finding whose severity is neither [error] nor [warning]
    is in the last rank: the severities [critical] and [high] of plugin
    issues count like [info]. *)
Theorem top_issues_are_the_first_ten_by_rank (fs : list QualityFinding) :
  Forall (fun f => exists q, neg_score (score f) = Ret q) fs ->
  (exists chosen rest,
      _get_top_issues fs = Ret (map top_issue chosen) /\
      Permutation (chosen ++ rest) fs /\
      length chosen = Nat.min 10 (length fs) /\
      StronglySorted ranks_before chosen /\
      forall f g, In f chosen -> In g rest -> ranks_before f g) /\
  forall f, plugin_severity (severity f) -> severity_rank f = 2.
Proof.
  intros Hscores. split.
  - destruct (keyed_spec fs Hscores) as (ks & Hks & Hmap & Hall).
    unfold _get_top_issues. rewrite Hks. cbn [obind].
    pose proof (sorted_perm ks) as Hperm.
    pose proof (sorted_sorted ks) as Hsorted.
    assert (Hall' : Forall keyed_right (sorted ks)).
    { eapply Permutation_Forall; [|exact Hall]. now symmetry. }
    rewrite <- (firstn_skipn 10 (sorted ks)) in Hsorted, Hall'.
    apply StronglySorted_split in Hsorted as [Hfirst Hcross].
    apply Forall_app in Hall' as [Hall1 Hall2].
    exists (map snd (firstn 10 (sorted ks))), (map snd (skipn 10 (sorted ks))).
    split; [now rewrite map_map|]. split.
    { rewrite <- map_app, firstn_skipn, <- Hmap.
      now apply Permutation_map. }
    split.
    { rewrite length_map, length_firstn, (Permutation_length Hperm), <- Hmap,
        length_map. reflexivity. }
    split; [now apply sorted_map_snd|].
    intros f g Hf Hg.
    apply in_map_iff in Hf as (kf & <- & Hf).
    apply in_map_iff in Hg as (kg & <- & Hg).
    rewrite Forall_forall in Hall1, Hall2.
    apply keyed_order.
    + apply Hall1. now apply list_elem_of_In.
    + apply Hall2. now apply list_elem_of_In.
    + now apply Hcross.
  - intros f Hplug. unfold severity_rank.
    destruct Hplug as [-> | [-> | [-> | ->]]]; reflexivity.
Qed.

Lemma top_issues_are_the_first_ten_by_rank_witness :
  Forall (fun f => exists q, neg_score (score f) = Ret q) twelve_findings /\
  exists chosen rest,
    _get_top_issues twelve_findings = Ret (map top_issue chosen) /\
    Permutation (chosen ++ rest) twelve_findings /\
    length chosen = 10%nat /\
    map severity chosen = repeat "error" 10.
Proof.
  assert (Hscores : Forall (fun f => exists q, neg_score (score f) = Ret q)
                      twelve_findings).
  { unfold twelve_findings. cbn.
    repeat (constructor; [eexists; reflexivity|]). constructor. }
  split; [exact Hscores|].
  destruct (top_issues_are_the_first_ten_by_rank twelve_findings Hscores)
    as [(chosen & rest & Hrun & Hperm & Hlen & _) _].
  exists chosen, rest. split; [exact Hrun|]. split; [exact Hperm|].
  split; [exact Hlen|].
  assert (Hval : _get_top_issues twelve_findings
                 = Ret (map top_issue
                          (map (fun i => scored_finding "lizard" "error"
                                           (PInt (29 - Z.of_nat i)))
                               (seq 0 10))))
    by (vm_compute; reflexivity).
  assert (Hsame : map top_issue chosen
                  = map top_issue
                      (map (fun i => scored_finding "lizard" "error"
                                       (PInt (29 - Z.of_nat i)))
                           (seq 0 10)))
    by congruence.
  assert (Hsev : forall l l', map top_issue l = map top_issue l' ->
                              map severity l = map severity l').
  { induction l as [|a l IH]; intros [|b l'] Heq; try discriminate;
      [reflexivity|].
    simpl in Heq. inversion Heq as [[Ht Hr Hm Hs Hp Hl Hsc Hrest]].
    cbn [map]. f_equal; [exact Hs|now apply IH]. }
  rewrite (Hsev _ _ Hsame). reflexivity.
Defined.

End TopIssues.

(** ** Plugins: the SARIF fragment of a list of issues *)

Section SarifFragment.
Import Plugins.

Lemma plugin_levels severity :
  In (_map_severity_to_sarif_level severity) sarif_levels /\
  (standard_severity severity ->
   _map_severity_to_sarif_level severity = "warning").
Proof.
  unfold _map_severity_to_sarif_level, sarif_levels. cbn [dict_get].
  split.
  - destruct (String.eqb severity "critical"); [simpl; tauto|].
    destruct (String.eqb severity "high"); [simpl; tauto|].
    destruct (String.eqb severity "medium"); [simpl; tauto|].
    destruct (String.eqb severity "low"); simpl; tauto.
  - intros [-> | [-> | ->]]; reflexivity.
Qed.

(** X13.  The SARIF fragment a plugin builds from its issues has one result
    for each issue, in order, and every level in it is a SARIF level:
    [critical] and [high] give [error], [medium] gives [warning], [low]
    gives [note], and any other severity, the agents' own [error], [info]
    and [warning] among them, gives [warning].  The region of a result
    starts at the issue's line; it has an [endColumn] only when the issue
    has both an end line and an end column, so an end column without an end
    line is dropped.  The issue's data is written last into the properties
    and so replaces a fingerprint or tags of the same name. *)
Theorem sarif_fragment_of_issues
  (tool_info : pyval) (issues : list Issue) (i : Issue) :
  result_levels (Ret (create_sarif_fragment tool_info issues))
  = map (fun i => Some (PStr (_map_severity_to_sarif_level
                                (qi_severity (seen i))))) issues /\
  Forall (fun level => exists l, level = Some (PStr l) /\ In l sarif_levels)
         (result_levels (Ret (create_sarif_fragment tool_info issues))) /\
  (standard_severity (qi_severity (seen i)) ->
   _map_severity_to_sarif_level (qi_severity (seen i)) = "warning") /\
  region_of (sarif_result i) = Some (PDict (region i)) /\
  dict_get "startLine" (region i) = Some (PInt (qi_start_line (seen i))) /\
  dict_get "endColumn" (region i)
  = match qi_end_line (seen i), qi_end_column (seen i) with
    | Some _, Some column => Some (PInt column)
    | _, _ => None
    end /\
  (forall k v, NoDup (dict_keys (qi_data (seen i))) ->
               dict_get k (qi_data (seen i)) = Some v ->
               dict_get k (properties i) = Some v).
Proof.
  assert (Hlevels : result_levels (Ret (create_sarif_fragment tool_info issues))
                    = map (fun i => Some (PStr (_map_severity_to_sarif_level
                                                  (qi_severity (seen i)))))
                          issues).
  { unfold create_sarif_fragment, result_levels. cbn [dict_get String.eqb].
    cbn. rewrite map_map. reflexivity. }
  split; [exact Hlevels|]. split.
  { rewrite Hlevels. apply Forall_map. apply Forall_forall. intros j _.
    eexists. split; [reflexivity|]. apply plugin_levels. }
  split; [apply plugin_levels|].
  split; [reflexivity|].
  split; [reflexivity|].
  split.
  { unfold region. cbn.
    destruct (qi_start_column (seen i)), (qi_end_line (seen i)),
      (qi_end_column (seen i)); reflexivity. }
  intros k v Hnd Hget. unfold properties. cbv zeta.
  destruct (qi_data (seen i)) as [|kv data] eqn:Hdata; [discriminate|].
  rewrite dict_get_update by exact Hnd. now rewrite Hget.
Qed.

Lemma sarif_fragment_of_issues_witness :
  standard_severity (qi_severity (seen loose_issue)) /\
  NoDup (dict_keys (qi_data (seen loose_issue))) /\
  result_levels (Ret (create_sarif_fragment (PDict []) [loose_issue]))
  = [Some (PStr "warning")] /\
  dict_get "endColumn" (region loose_issue) = None /\
  dict_get "tags" (properties loose_issue) = Some (PStr "mine").
Proof.
  assert (Hstd : standard_severity (qi_severity (seen loose_issue)))
    by (left; reflexivity).
  assert (Hnd : NoDup (dict_keys (qi_data (seen loose_issue)))).
  { apply NoDup_ListNoDup. repeat constructor; simpl; intuition discriminate. }
  split; [exact Hstd|]. split; [exact Hnd|].
  destruct (sarif_fragment_of_issues (PDict []) [loose_issue] loose_issue)
    as (Hlevels & _ & _ & _ & _ & Hend & Hdata).
  split; [exact Hlevels|]. split; [exact Hend|].
  exact (Hdata "tags" (PStr "mine") Hnd eq_refl).
Defined.

End SarifFragment.

(** ** The YAML plugin: what it reports *)

Section YamlIssues.
Import Plugins YamlSyntax.

Lemma rstrip_by_length drop s :
  (String.length (rstrip_by drop s) <= String.length s)%nat.
Proof.
  induction s as [|a r IH]; simpl; [lia|].
  destruct (rstrip_by drop r) as [|b kept]; [destruct (drop a)|]; simpl in *; lia.
Qed.

Lemma lstrip_by_length drop s :
  (String.length (lstrip_by drop s) <= String.length s)%nat.
Proof.
  induction s as [|a r IH]; simpl; [lia|].
  destruct (drop a); simpl; lia.
Qed.

Lemma startswith_tab_length line :
  startswith (String tab EmptyString) line = true -> 1 <= len line.
Proof.
  unfold len. destruct line as [|a r]; simpl; [discriminate|lia].
Qed.

Lemma report_tallied ok i k acc :
  tallied ok acc ->
  well_placed i ->
  plugin_severity (qi_severity (seen i)) ->
  ok (qi_file (seen i)) ->
  dict_get "plugin" (qi_data (seen i)) = None ->
  tallied ok (report i k acc).
Proof.
  intros [Hsum Hall] Hplace Hsev Hok Hdata. split.
  - unfold report. cbn [found stats_of]. rewrite length_app, Nat2Z.inj_add.
    rewrite <- Hsum. unfold stats_total, stats_dict in *.
    destruct k; cbn; lia.
  - unfold report. cbn [found]. apply Forall_app. split; [exact Hall|].
    constructor; [|constructor]. auto.
Qed.

Lemma tab_lines_tallied (ok : string -> Prop) file_path lines :
  ok file_path ->
  forall line_num acc,
    1 <= line_num -> tallied ok acc ->
    tallied ok (tab_lines file_path line_num lines acc).
Proof.
  intros Hok. induction lines as [|line rest IH]; intros line_num acc Hn Hacc;
    [exact Hacc|].
  cbn [tab_lines]. apply IH; [lia|].
  destruct (negb (String.eqb (strip line) "") &&
            startswith (String tab EmptyString) line) eqn:Htest; [|exact Hacc].
  apply andb_true_iff in Htest as [_ Htab].
  apply report_tallied; [exact Hacc| |right; left; reflexivity|exact Hok|reflexivity].
  split; [exact Hn|]. split; [right; reflexivity|].
  exists 1. split; [reflexivity|]. split; [lia|].
  intros e [= <-]. now apply startswith_tab_length.
Qed.

Lemma check_colon_tallied (ok : string -> Prop) file_path line_num stripped acc :
  ok file_path -> 1 <= line_num -> tallied ok acc ->
  tallied ok (check_colon file_path line_num stripped acc).
Proof.
  intros Hok Hn Hacc. unfold check_colon.
  destruct (String.index 0 ":" stripped) as [colon_pos|]; [|exact Hacc].
  destruct (negb (startswith "-" stripped) &&
            Z.ltb (Z.of_nat colon_pos) (len stripped - 1)); [|exact Hacc].
  cbv zeta.
  match goal with |- tallied _ (if ?b then _ else _) => destruct b end;
    [|exact Hacc].
  apply report_tallied;
    [exact Hacc| |right; right; left; reflexivity|exact Hok|reflexivity].
  split; [exact Hn|]. split; [left; reflexivity|].
  exists (Z.of_nat colon_pos + 2). split; [reflexivity|]. split; [lia|].
  intros e [=].
Qed.

Lemma check_indentation_tallied (ok : string -> Prop) file_path line_num line acc :
  ok file_path -> 1 <= line_num -> tallied ok acc ->
  tallied ok (check_indentation file_path line_num line acc).
Proof.
  intros Hok Hn Hacc. unfold check_indentation. cbv zeta.
  destruct (Z.ltb 20 (len line - len (lstrip_spaces line))) eqn:Hdeep;
    [|exact Hacc].
  apply Z.ltb_lt in Hdeep.
  apply report_tallied;
    [exact Hacc| |right; right; right; reflexivity|exact Hok|reflexivity].
  split; [exact Hn|]. split; [right; reflexivity|].
  exists 1. split; [reflexivity|]. split; [lia|].
  intros e [= <-]. lia.
Qed.

Lemma check_trailing_tallied (ok : string -> Prop) file_path line_num line acc :
  ok file_path -> 1 <= line_num -> tallied ok acc ->
  tallied ok (check_trailing file_path line_num line acc).
Proof.
  intros Hok Hn Hacc. unfold check_trailing.
  destruct (endswith " " line); [|exact Hacc].
  apply report_tallied;
    [exact Hacc| |right; right; right; reflexivity|exact Hok|reflexivity].
  split; [exact Hn|]. split; [right; reflexivity|].
  exists (len (rstrip line) + 1). split; [reflexivity|].
  split; [unfold len; lia|].
  intros e [= <-]. unfold len, rstrip.
  pose proof (rstrip_by_length is_space line). lia.
Qed.

Lemma structure_lines_tallied (ok : string -> Prop) file_path lines :
  ok file_path ->
  forall line_num acc,
    1 <= line_num -> tallied ok acc ->
    tallied ok (structure_lines file_path line_num lines acc).
Proof.
  intros Hok. induction lines as [|line rest IH]; intros line_num acc Hn Hacc;
    [exact Hacc|].
  cbn [structure_lines]. cbv zeta. apply IH; [lia|].
  destruct (String.eqb (strip line) "" || startswith "#" (strip line));
    [exact Hacc|].
  apply check_trailing_tallied, check_indentation_tallied,
    check_colon_tallied; auto.
Qed.

Lemma file_error_tallied (ok : string -> Prop) file_path e acc :
  ok file_path -> tallied ok acc -> tallied ok (file_error file_path e acc).
Proof.
  intros Hok Hacc.
  apply report_tallied;
    [exact Hacc| |left; reflexivity|exact Hok|reflexivity].
  split; [cbn; lia|]. split; [left; reflexivity|].
  exists 1. split; [reflexivity|]. split; [lia|]. intros e' [=].
Qed.

Lemma syntax_issue_placed file_path e problem_mark :
  well_placed (syntax_issue file_path e problem_mark) /\
  qi_severity (seen (syntax_issue file_path e problem_mark)) = "high" /\
  qi_file (seen (syntax_issue file_path e problem_mark)) = file_path /\
  dict_get "plugin" (qi_data (seen (syntax_issue file_path e problem_mark)))
  = None.
Proof.
  destruct problem_mark as [[line column]|];
    (split; [|split; [|split]; reflexivity]);
    (split; [cbn; lia|]); (split; [left; reflexivity|]).
  - exists (Z.of_nat column + 1). split; [reflexivity|]. split; [lia|].
    intros e' [=].
  - exists 1. split; [reflexivity|]. split; [lia|]. intros e' [=].
Qed.

Lemma check_file_tallied (ok : string -> Prop) env file_path acc :
  ok file_path -> tallied ok acc -> tallied ok (check_file env file_path acc).
Proof.
  intros Hok Hacc. unfold check_file.
  destruct (getsize env file_path) as [file_size|e];
    [|now apply file_error_tallied].
  destruct (Z.eqb file_size 0).
  { apply report_tallied;
      [exact Hacc| |right; right; right; reflexivity|exact Hok|reflexivity].
    split; [cbn; lia|]. split; [left; reflexivity|].
    exists 1. split; [reflexivity|]. split; [lia|]. intros e' [=]. }
  destruct (read_text env file_path) as [content|e];
    [|now apply file_error_tallied].
  cbv zeta.
  assert (Htabs : tallied ok
            (if contains (String tab EmptyString) content
             then tab_lines file_path 1 (split newline content) acc
             else acc)).
  { destruct (contains _ content); [|exact Hacc].
    apply tab_lines_tallied; [exact Hok|lia|exact Hacc]. }
  destruct (safe_load env content) as [|e mark|e].
  - apply structure_lines_tallied; [exact Hok|lia|exact Htabs].
  - apply structure_lines_tallied; [exact Hok|lia|].
    destruct (syntax_issue_placed file_path e mark) as (Hp & Hs & Hf & Hd).
    apply report_tallied; [exact Htabs|exact Hp| | |exact Hd].
    + rewrite Hs. right; left; reflexivity.
    + rewrite Hf. exact Hok.
  - now apply file_error_tallied.
Qed.

Lemma check_files_tallied (ok : string -> Prop) env files :
  Forall ok files ->
  forall acc, tallied ok acc ->
    tallied ok (fold_left (fun acc file_path => check_file env file_path acc)
                          files acc).
Proof.
  induction 1 as [|file_path rest Hok _ IH]; intros acc Hacc; [exact Hacc|].
  cbn [fold_left]. apply IH. now apply check_file_tallied.
Qed.

(** X14.  Whatever the files hold and however reading or parsing them ends,
    the YAML plugin returns a result: its three counters add up to the
    number of issues, every issue is about one of the files it was given,
    is graded [critical], [high], [medium] or [low], and points at a line
    and a column that are at least 1, with an end on the same line and not
    before the start where it has one.  The result counts every file it was
    given as analysed, also those it could not read, and its SARIF fragment
    is missing exactly when there is no issue. *)
Theorem yaml_issues_are_counted_and_placed
  (env : YamlSyntax.Env) (files : list string) :
  let result := YamlSyntax.analyze env files in
  stats_total (stats result) = Z.of_nat (length (issues result)) /\
  Forall (fun i => well_placed i /\
                   plugin_severity (qi_severity (seen i)) /\
                   In (qi_file (seen i)) files)
         (issues result) /\
  files_analyzed result = length files /\
  status result = "success" /\
  (sarif_fragment result = None <-> issues result = []).
Proof.
  cbv zeta. unfold analyze. cbn [stats issues files_analyzed status sarif_fragment].
  assert (Hinv : tallied (fun f => In f files)
            (fold_left (fun acc file_path => check_file env file_path acc)
                       files (mkAcc [] (mkStats 0 0 0)))).
  { apply check_files_tallied.
    - apply Forall_forall. intros f Hf. now apply list_elem_of_In.
    - split; [reflexivity|constructor]. }
  destruct Hinv as [Hsum Hall].
  split; [exact Hsum|]. split.
  { eapply Forall_impl; [exact Hall|]. cbv beta. tauto. }
  split; [reflexivity|]. split; [reflexivity|].
  destruct (found _); split; intros H; try reflexivity; discriminate.
Qed.

End YamlIssues.

(** ** The YAML plugin behind [safe_analyze] and [_convert_plugin_issues] *)

Section YamlFindings.
Import Plugins YamlSyntax QualityAgent.

Lemma yaml_filter files :
  List.filter
    (fun f => existsb (fun ext => endswith ext f) [".yaml"; ".yml"]) files
  = List.filter yaml_file files.
Proof.
  apply filter_ext. intros f. unfold yaml_file. cbn [existsb].
  now rewrite orb_false_r.
Qed.

Lemma plugin_severities_skipped (fs : list QualityFinding) :
  Forall (fun f => plugin_severity (severity f)) fs ->
  forall b, dict_keys b = ["error"; "warning"; "info"] ->
    fold_left
      (fun breakdown finding =>
         if dict_mem (severity finding) breakdown
         then bump (severity finding) breakdown else breakdown) fs b
    = b.
Proof.
  induction 1 as [|f rest Hf _ IH]; intros b Hkeys; [reflexivity|].
  cbn [fold_left].
  assert (Hmem : dict_mem (severity f) b = false).
  { destruct b as [|[k1 v1] [|[k2 v2] [|[k3 v3] [|? ?]]]]; try discriminate.
    injection Hkeys as -> -> ->.
    destruct Hf as [-> | [-> | [-> | ->]]]; reflexivity. }
  rewrite Hmem. now apply IH.
Qed.

(** X15.  The YAML plugin never fails behind [safe_analyze]: the result is
    [skipped], with no issue, when no file of the scope ends in [.yaml] or
    [.yml], and [success] otherwise, also when files cannot be read or
    parsed.  It counts the YAML files as analysed and every issue is about
    one of them.  No issue names its plugin in its data, so every finding
    the quality agent makes of the issues has the tool [unknown]; it has the
    category [syntax] and keeps the plugin's own severity, and the severity
    breakdown of these findings counts none of them. *)
Theorem yaml_findings_reach_the_agent
  (elapsed : Q) (env : YamlSyntax.Env) (files : list string) :
  let result := safe_analyze elapsed (YAMLSyntaxPlugin env) files in
  let yaml_files := List.filter yaml_file files in
  status result = match yaml_files with [] => "skipped" | _ => "success" end /\
  (yaml_files = [] -> issues result = []) /\
  files_analyzed result = length yaml_files /\
  Forall (fun i => In (qi_file (seen i)) yaml_files) (issues result) /\
  length (plugin_findings result) = length (issues result) /\
  Forall (fun f => tool f = PStr "unknown" /\ category f = Some "syntax" /\
                   plugin_severity (severity f))
         (plugin_findings result) /\
  _get_severity_breakdown (plugin_findings result)
  = [("error", 0%nat); ("warning", 0%nat); ("info", 0%nat)].
Proof.
  cbv zeta.
  assert (Hfindings : forall found,
            Forall (fun i => plugin_severity (qi_severity (seen i)) /\
                             dict_get "plugin" (qi_data (seen i)) = None)
                   found ->
            length (_convert_plugin_issues (map seen found)) = length found /\
            Forall (fun f => tool f = PStr "unknown" /\
                             category f = Some "syntax" /\
                             plugin_severity (severity f))
                   (_convert_plugin_issues (map seen found)) /\
            _get_severity_breakdown (_convert_plugin_issues (map seen found))
            = [("error", 0%nat); ("warning", 0%nat); ("info", 0%nat)]).
  { intros found Hr.
    assert (Hall : Forall (fun f => tool f = PStr "unknown" /\
                                    category f = Some "syntax" /\
                                    plugin_severity (severity f))
                          (_convert_plugin_issues (map seen found))).
    { unfold _convert_plugin_issues.
      apply Forall_map, Forall_map. eapply Forall_impl; [exact Hr|].
      intros i [Hsev Hdata]. unfold convert_issue. cbn.
      rewrite Hdata. split; [now destruct (qi_data (seen i))|].
      split; [reflexivity|exact Hsev]. }
    split.
    { unfold _convert_plugin_issues. now rewrite !length_map. }
    split; [exact Hall|].
    apply plugin_severities_skipped; [|reflexivity].
    eapply Forall_impl; [exact Hall|]. cbv beta. tauto. }
  unfold plugin_findings.
  unfold safe_analyze.
  change (get_supported_extensions (YAMLSyntaxPlugin env))
    with [".yaml"; ".yml"].
  rewrite yaml_filter.
  destruct (List.filter yaml_file files) as [|f rest] eqn:Hfiles.
  { cbn [status issues files_analyzed length].
    split; [reflexivity|]. split; [reflexivity|]. split; [reflexivity|].
    split; [constructor|]. apply Hfindings. constructor. }
  change (Plugins.analyze (YAMLSyntaxPlugin env) (f :: rest))
    with (Ret (YamlSyntax.analyze env (f :: rest))).
  cbv iota beta.
  assert (Hinv : tallied (fun p => In p (f :: rest))
            (fold_left (fun acc file_path => check_file env file_path acc)
                       (f :: rest) (mkAcc [] (mkStats 0 0 0)))).
  { apply check_files_tallied.
    - apply Forall_forall. intros p Hp. now apply list_elem_of_In.
    - split; [reflexivity|constructor]. }
  destruct Hinv as [_ Hall].
  cbn [status issues files_analyzed].
  split; [reflexivity|]. split; [discriminate|]. split; [reflexivity|].
  split.
  { unfold YamlSyntax.analyze. cbn [issues].
    eapply Forall_impl; [exact Hall|]. cbv beta. tauto. }
  apply Hfindings. unfold YamlSyntax.analyze. cbn [issues].
  eapply Forall_impl; [exact Hall|]. cbv beta. tauto.
Qed.

End YamlFindings.

(** ** The connection metrics *)

Section ConnectionMetrics.
Import Connection.
Variable pid : Z.
Variable capabilities : pyval.

Lemma connect_metrics now dial l :
  let m := connection_metrics l in
  let m' := connection_metrics (snd (connect pid capabilities now dial l)) in
  connect_count m'
  = (if is_accepted (CallConnect now dial) then connect_count m + 1
     else connect_count m) /\
  disconnect_count m' = disconnect_count m /\
  reconnect_count m' = reconnect_count m /\
  failed_connections m' = failed_connections m /\
  heartbeat_success_count m' = heartbeat_success_count m /\
  heartbeat_failure_count m' = heartbeat_failure_count m /\
  total_connected_duration m' = total_connected_duration m /\
  average_connection_duration m' = average_connection_duration m.
Proof.
  cbv zeta. unfold connect. destruct dial as [| |wire]; cbn [snd is_accepted].
  1,2: repeat split; reflexivity.
  destruct (_send_registration pid capabilities _) as [[b|e] c];
    repeat split; reflexivity.
Qed.

Lemma disconnect_metrics now l :
  let m := connection_metrics l in
  let m' := connection_metrics (disconnect now l) in
  connect_count m' = connect_count m /\
  disconnect_count m' = disconnect_count m + 1 /\
  reconnect_count m' = reconnect_count m /\
  failed_connections m' = failed_connections m /\
  heartbeat_success_count m' = heartbeat_success_count m /\
  heartbeat_failure_count m' = heartbeat_failure_count m.
Proof.
  cbv zeta. unfold disconnect.
  destruct (socket (peer l)), (started (_connection_start_time l));
    repeat split; reflexivity.
Qed.

Lemma calls_metrics cs :
  forall l,
    let m := connection_metrics l in
    let m' := connection_metrics (calls pid capabilities cs l) in
    connect_count m'
    = connect_count m + Z.of_nat (length (List.filter is_accepted cs)) /\
    disconnect_count m'
    = disconnect_count m + Z.of_nat (length (List.filter is_disconnect cs)) /\
    reconnect_count m' = reconnect_count m /\
    failed_connections m' = failed_connections m /\
    heartbeat_success_count m' = heartbeat_success_count m /\
    heartbeat_failure_count m' = heartbeat_failure_count m.
Proof.
  induction cs as [|c rest IH]; intros l; cbv zeta.
  { cbn. repeat split; lia. }
  change (calls pid capabilities (c :: rest) l)
    with (calls pid capabilities rest (call pid capabilities l c)).
  destruct (IH (call pid capabilities l c)) as (H1 & H2 & H3 & H4 & H5 & H6).
  rewrite H1, H2, H3, H4, H5, H6. clear IH H1 H2 H3 H4 H5 H6.
  destruct c as [now dial|now]; cbn [call].
  - destruct (connect_metrics now dial l) as (H1 & H2 & H3 & H4 & H5 & H6 & _).
    rewrite H1, H2, H3, H4, H5, H6.
    cbn [List.filter is_disconnect].
    destruct (is_accepted (CallConnect now dial));
      cbn [length]; repeat split; lia.
  - destruct (disconnect_metrics now l) as (H1 & H2 & H3 & H4 & H5 & H6).
    rewrite H1, H2, H3, H4, H5, H6.
    cbn [List.filter is_accepted is_disconnect length]. repeat split; lia.
Qed.

(** X16.  Of the nine connection metrics, [connect] and [disconnect] write
    five.  After any sequence of calls on a new client, whatever the dialling
    and the clock gave, [connect_count] is the number of accepted
    connections and [disconnect_count] the number of calls of [disconnect],
    with or without a connection to close; a refused connection is counted
    nowhere: [failed_connections], [reconnect_count] and the two heartbeat
    counters are still 0, and [get_connection_stats] reports a heartbeat
    success rate of 0. *)
Theorem connection_counters_count_calls
  (name : string) (cs : list Call) (now1 now2 : Q) :
  let l := calls pid capabilities cs (Connection.init name) in
  let m := connection_metrics l in
  connect_count m = Z.of_nat (length (List.filter is_accepted cs)) /\
  disconnect_count m = Z.of_nat (length (List.filter is_disconnect cs)) /\
  failed_connections m = 0 /\
  reconnect_count m = 0 /\
  heartbeat_success_count m = 0 /\
  heartbeat_failure_count m = 0 /\
  heartbeat_success_rate (get_connection_stats now1 now2 l) = 0%Q.
Proof.
  cbv zeta.
  destruct (calls_metrics cs (Connection.init name))
    as (H1 & H2 & H3 & H4 & H5 & H6).
  cbn [Connection.init connection_metrics connect_count disconnect_count
       reconnect_count failed_connections heartbeat_success_count
       heartbeat_failure_count] in *.
  repeat split; try assumption; try lia.
  unfold get_connection_stats. cbn [heartbeat_success_rate].
  rewrite H5, H6. reflexivity.
Qed.

Lemma session_metrics times l :
  float_truthy (fst times) = true ->
  let m := connection_metrics l in
  let m' := connection_metrics (calls pid capabilities (session times) l) in
  total_connected_duration m'
  = (total_connected_duration m + (snd times - fst times))%Q /\
  disconnect_count m' = disconnect_count m + 1 /\
  average_connection_duration m'
  = (if Z.ltb 0 (disconnect_count m)
     then ((total_connected_duration m + (snd times - fst times))
           / inject_Z (disconnect_count m))%Q
     else average_connection_duration m).
Proof.
  intros Htrue. cbv zeta. unfold session, calls. cbn [fold_left call].
  unfold connect, _send_registration, bind, get_state, send_message.
  cbn [set_socket is_connected socket wire_up negb orb snd
       agent_name peer _connection_start_time connection_metrics].
  unfold disconnect.
  cbn [peer push_outbox socket _connection_start_time started
       connection_metrics].
  rewrite Htrue.
  cbn [connection_metrics total_connected_duration disconnect_count
       average_connection_duration connect_count].
  repeat split; reflexivity.
Qed.

Lemma sessions_metrics ts :
  Forall (fun times => float_truthy (fst times) = true) ts ->
  forall l,
    let m := connection_metrics l in
    let m' := connection_metrics (calls pid capabilities (sessions ts) l) in
    total_connected_duration m'
    = fold_left (fun total times => (total + (snd times - fst times))%Q) ts
                (total_connected_duration m) /\
    disconnect_count m' = disconnect_count m + Z.of_nat (length ts).
Proof.
  induction 1 as [|times rest Htrue _ IH]; intros l; cbv zeta.
  { cbn. split; [reflexivity|lia]. }
  unfold sessions, calls. cbn [flat_map]. rewrite fold_left_app.
  fold (calls pid capabilities (session times) l).
  fold (sessions rest).
  fold (calls pid capabilities (sessions rest)
              (calls pid capabilities (session times) l)).
  destruct (IH (calls pid capabilities (session times) l)) as [H1 H2].
  destruct (session_metrics times l Htrue) as (H3 & H4 & _).
  rewrite H1, H2, H3, H4. cbn [fold_left length]. split; [reflexivity|lia].
Qed.

(** X17.  [disconnect] divides the time connected by the number of earlier
    disconnects, not by the number of connections.  After [n] connections
    of a new client, each accepted and later closed, the total is the sum
    of their durations and [disconnect_count] is [n], but the average is 0
    for [n = 1] and the total divided by [n - 1] for [n >= 2]. *)
Theorem average_divides_by_earlier_disconnects
  (name : string) (ts : list (Q * Q)) :
  Forall (fun times => float_truthy (fst times) = true) ts ->
  let m := connection_metrics
             (calls pid capabilities (sessions ts) (Connection.init name)) in
  total_connected_duration m = time_connected ts /\
  disconnect_count m = Z.of_nat (length ts) /\
  average_connection_duration m
  = (if Nat.leb (length ts) 1 then 0
     else time_connected ts / inject_Z (Z.of_nat (length ts) - 1))%Q.
Proof.
  intros Htrue. cbv zeta.
  destruct (sessions_metrics ts Htrue (Connection.init name)) as [Htotal Hcount].
  cbn [Connection.init connection_metrics total_connected_duration
       disconnect_count] in Htotal, Hcount.
  split; [exact Htotal|]. split; [lia|].
  destruct ts as [|last earlier _] using rev_ind; [reflexivity|].
  apply Forall_app in Htrue as [Hearlier Hlast].
  apply Forall_inv in Hlast.
  unfold sessions, calls. rewrite flat_map_app, fold_left_app.
  cbn [flat_map]. rewrite app_nil_r.
  fold (sessions earlier).
  fold (calls pid capabilities (sessions earlier) (Connection.init name)).
  set (l := calls pid capabilities (sessions earlier) (Connection.init name)).
  fold (calls pid capabilities (session last) l).
  destruct (session_metrics last l Hlast) as (_ & _ & Haverage).
  rewrite Haverage.
  destruct (sessions_metrics earlier Hearlier (Connection.init name))
    as [Htotal' Hcount'].
  fold l in Htotal', Hcount'.
  cbn [Connection.init connection_metrics total_connected_duration
       disconnect_count] in Htotal', Hcount'.
  rewrite Hcount', Htotal'. rewrite length_app. cbn [length].
  destruct earlier as [|first earlier].
  { cbn. subst l. reflexivity. }
  replace (Nat.leb (length (first :: earlier) + 1) 1) with false
    by (symmetry; apply Nat.leb_gt; cbn [length]; lia).
  replace (Z.ltb 0 (0 + Z.of_nat (length (first :: earlier)))) with true
    by (symmetry; apply Z.ltb_lt; cbn [length]; lia).
  unfold time_connected. rewrite fold_left_app. cbn [fold_left].
  f_equal. f_equal. lia.
Qed.

(** X18.  The uptime percentage divides all the time ever connected by the
    time since the last connect.  For a client that was connected before
    and is connected again since [t], read at least a second later: the
    current duration is the time since [t] and the reported
    [connection_uptime_percent] is at least 100, as soon as the earlier
    connections lasted as long as the two clock readings of the call lie
    apart. *)
Theorem uptime_percent_is_at_least_100
  (name : string) (ts : list (Q * Q)) (t now1 now2 : Q) :
  Forall (fun times => float_truthy (fst times) = true) ts ->
  float_truthy t = true ->
  (1 <= now2 - t)%Q ->
  (now2 - now1 <= time_connected ts)%Q ->
  let l := calls pid capabilities
             (sessions ts ++ [CallConnect t (Accepted true)])
             (Connection.init name) in
  let stats := get_connection_stats now1 now2 l in
  stats_is_connected stats = true /\
  current_connection_duration stats = (now1 - t)%Q /\
  connection_uptime_percent stats
  = ((time_connected ts + (now1 - t)) / (now2 - t) * 100)%Q /\
  (100 <= connection_uptime_percent stats)%Q.
Proof.
  intros Htrue Ht Hlate Hgap. cbv zeta.
  unfold calls. rewrite fold_left_app.
  fold (calls pid capabilities (sessions ts) (Connection.init name)).
  set (l := calls pid capabilities (sessions ts) (Connection.init name)).
  destruct (sessions_metrics ts Htrue (Connection.init name)) as [Htotal _].
  fold l in Htotal.
  cbn [Connection.init connection_metrics total_connected_duration] in Htotal.
  fold (time_connected ts) in Htotal.
  cbn [fold_left call].
  unfold connect, _send_registration, bind, get_state, send_message.
  cbn [set_socket is_connected socket wire_up negb orb snd agent_name].
  unfold get_connection_stats.
  cbn [peer push_outbox is_connected _connection_start_time started
       connection_metrics last_connect_time total_connected_duration
       stats_is_connected current_connection_duration
       connection_uptime_percent].
  rewrite Ht, Htotal.
  assert (Hone : at_least_one (now2 - t) = (now2 - t)%Q).
  { unfold at_least_one. apply Qltb_ge in Hlate. now rewrite Hlate. }
  rewrite Hone.
  split; [reflexivity|]. split; [reflexivity|]. split; [reflexivity|].
  assert (Hpos : (0 < now2 - t)%Q) by lra.
  apply Qle_trans with (1 * 100)%Q; [lra|].
  apply Qmult_le_compat_r; [|discriminate].
  apply Qle_shift_div_l; [exact Hpos|].
  change (is_connected (set_socket true true true (peer l))) with true.
  cbv iota. lra.
Qed.

End ConnectionMetrics.

Lemma average_divides_by_earlier_disconnects_witness :
  Forall (fun times => Connection.float_truthy (fst times) = true)
         [(1%Q, 5%Q); (10%Q, 13%Q)] /\
  Connection.average_connection_duration
    (Connection.connection_metrics
       (calls 1 PNone (sessions [(1%Q, 5%Q); (10%Q, 13%Q)])
              (Connection.init "quality")))
  = ((0 + (5 - 1) + (13 - 10)) / inject_Z 1)%Q.
Proof.
  assert (H : Forall (fun times => Connection.float_truthy (fst times) = true)
                     [(1%Q, 5%Q); (10%Q, 13%Q)])
    by (repeat constructor).
  split; [exact H|].
  destruct (average_divides_by_earlier_disconnects 1 PNone "quality" _ H)
    as (_ & _ & Haverage).
  rewrite Haverage. reflexivity.
Defined.

Lemma uptime_percent_is_at_least_100_witness :
  (Connection.connection_uptime_percent
     (Connection.get_connection_stats 30 30
        (calls 1 PNone
           (sessions [(1%Q, 5%Q)] ++
            [CallConnect 10 (Connection.Accepted true)])
           (Connection.init "quality")))
   == 120)%Q.
Proof.
  assert (H : Forall (fun times => Connection.float_truthy (fst times) = true)
                     [(1%Q, 5%Q)])
    by (repeat constructor).
  destruct (uptime_percent_is_at_least_100 1 PNone "quality"
              [(1%Q, 5%Q)] 10 30 30 H eq_refl)
    as (_ & _ & Hpercent & _).
  - vm_compute. discriminate.
  - vm_compute. discriminate.
  - rewrite Hpercent. reflexivity.
Defined.

(** ** The command-line agents: report, summary and [main] *)

(** Peel every [try!] off the hypotheses that say the whole returned. *)
Ltac peel_goal :=
  repeat match goal with
         | H : obind ?o _ = Ret _ |- _ =>
             let v := fresh "v" in
             let E := fresh "E" in
             destruct o as [v|] eqn:E; cbn [obind] in H; [|discriminate H]
         end.

Section CliReports.
Import CliReport.

Lemma length_omap_le {A B} (f : A -> option B) (l : list A) :
  (length (omap f l) <= length l)%nat.
Proof.
  induction l as [|x l IH]; [reflexivity|].
  cbn. destruct (f x); cbn; lia.
Qed.

Lemma Forall_omap {A B} (f : A -> option B) (P : B -> Prop) (l : list A) :
  (forall x y, f x = Some y -> P y) -> Forall P (omap f l).
Proof.
  intros Hf. induction l as [|x l IH]; [constructor|].
  cbn. destruct (f x) as [y|] eqn:E; [constructor; eauto|exact IH].
Qed.

Lemma quality_tool_name tool_name :
  name (QualityCliReport._get_tool_info tool_name) = tool_name.
Proof.
  unfold QualityCliReport._get_tool_info. cbn [dict_get].
  destruct (String.eqb tool_name "ruff") eqn:E1;
    [now apply String.eqb_eq in E1|].
  destruct (String.eqb tool_name "eslint") eqn:E2;
    [now apply String.eqb_eq in E2|].
  destruct (String.eqb tool_name "lizard") eqn:E3;
    [now apply String.eqb_eq in E3|].
  reflexivity.
Qed.

Lemma security_tool_name tool_name :
  name (SecurityCliReport._get_tool_info tool_name) = tool_name.
Proof.
  unfold SecurityCliReport._get_tool_info. cbn [dict_get].
  destruct (String.eqb tool_name "semgrep") eqn:E1;
    [now apply String.eqb_eq in E1|].
  destruct (String.eqb tool_name "gitleaks") eqn:E2;
    [now apply String.eqb_eq in E2|].
  destruct (String.eqb tool_name "osv_scanner") eqn:E3;
    [now apply String.eqb_eq in E3|].
  reflexivity.
Qed.

Lemma cli_severity_levels sev :
  In (QualityCli._severity_to_level sev) sarif_levels.
Proof.
  unfold QualityCli._severity_to_level, sarif_levels.
  destruct sev as [|b|z|q|s|t h|e|l|d]; try (simpl; tauto).
  - destruct b; simpl; tauto.
  - destruct (Z.eqb z 2); [simpl; tauto|].
    destruct (Z.eqb z 1); simpl; tauto.
  - cbv zeta. destruct (str_in (lower s) ["error"]); [simpl; tauto|].
    destruct (str_in (lower s) ["warning"; "warn"]); simpl; tauto.
Qed.

Lemma cli_rule_levels v :
  QualityCli._rule_level_to_level v = "warning" \/
  QualityCli._rule_level_to_level v = "note".
Proof.
  unfold QualityCli._rule_level_to_level.
  destruct v as [|b|z|q|s|t h|e|l|d]; try (right; reflexivity).
  destruct (String.eqb s "incomplete") eqn:E.
  - apply String.eqb_eq in E as ->. left; reflexivity.
  - right. repeat (destruct s as [|[[] [] [] [] [] [] [] []] s];
                   try reflexivity; try discriminate).
Qed.

Lemma security_severity_levels s :
  In (SecurityCli._severity_to_level s) sarif_levels.
Proof.
  unfold SecurityCli._severity_to_level, sarif_levels. cbv zeta.
  destruct (str_in (upper s) ["ERROR"; "HIGH"; "CRITICAL"]); [simpl; tauto|].
  destruct (str_in (upper s) ["WARNING"; "MEDIUM"]); simpl; tauto.
Qed.

Lemma quality_result_levelled tool_name finding r :
  QualityCliReport._finding_to_sarif_result tool_name finding = Some r ->
  levelled r /\ (tool_name = "ruff" -> level r <> "error").
Proof.
  unfold QualityCliReport._finding_to_sarif_result.
  destruct (String.eqb tool_name "ruff") eqn:E1.
  { destruct (QualityCliReport._ruff_to_sarif finding) as [r'|] eqn:H;
      [|discriminate].
    intros [= <-]. unfold QualityCliReport._ruff_to_sarif in H. peel_goal.
    injection H as <-. cbn [level locations]. unfold levelled.
    cbn [level locations length].
    destruct (cli_rule_levels v0) as [-> | ->];
      (split; [split; [simpl; tauto|reflexivity]|discriminate]). }
  destruct (String.eqb tool_name "eslint") eqn:E2.
  { destruct (QualityCliReport._eslint_to_sarif finding) as [r'|] eqn:H;
      [|discriminate].
    intros [= <-]. unfold QualityCliReport._eslint_to_sarif in H. peel_goal.
    injection H as <-. split.
    - split; [apply cli_severity_levels|reflexivity].
    - intros ->. discriminate. }
  destruct (String.eqb tool_name "lizard") eqn:E3; [|discriminate].
  destruct (QualityCliReport._lizard_to_sarif finding) as [r'|] eqn:H;
    [|discriminate].
  intros [= <-]. unfold QualityCliReport._lizard_to_sarif in H. peel_goal.
  injection H as <-. split.
  - split; [|reflexivity]. cbn [level]. destruct v0; simpl; tauto.
  - intros ->. discriminate.
Qed.

Lemma security_result_levelled tool_name finding r :
  SecurityCliReport._finding_to_sarif_result tool_name finding = Some r ->
  levelled r /\ (tool_name = "gitleaks" -> level r = "error").
Proof.
  unfold SecurityCliReport._finding_to_sarif_result.
  destruct (String.eqb tool_name "semgrep") eqn:E1.
  { destruct (SecurityCliReport._semgrep_to_sarif finding) as [r'|] eqn:H;
      [|discriminate].
    intros [= <-]. unfold SecurityCliReport._semgrep_to_sarif in H. peel_goal.
    injection H as <-. split.
    - split; [|reflexivity]. cbn [level].
      unfold SecurityCliReport.level_of in *.
      match goal with
      | E : match ?s with _ => _ end = Ret _ |- _ =>
          destruct s; try discriminate; injection E as <-
      end.
      apply security_severity_levels.
    - intros ->. discriminate. }
  destruct (String.eqb tool_name "gitleaks") eqn:E2.
  { destruct (SecurityCliReport._gitleaks_to_sarif finding) as [r'|] eqn:H;
      [|discriminate].
    intros [= <-]. unfold SecurityCliReport._gitleaks_to_sarif in H. peel_goal.
    injection H as <-. split; [|reflexivity].
    split; [simpl; tauto|reflexivity]. }
  destruct (String.eqb tool_name "osv_scanner") eqn:E3; [|discriminate].
  destruct (SecurityCliReport._osv_to_sarif finding) as [r'|] eqn:H;
    [|discriminate].
  intros [= <-]. unfold SecurityCliReport._osv_to_sarif in H. peel_goal.
  injection H as <-. split.
  - split; [|reflexivity]. cbn [level].
    unfold SecurityCliReport.level_of in *.
    match goal with
    | E : match ?s with _ => _ end = Ret _ |- _ =>
        destruct s; try discriminate; injection E as <-
    end.
    apply security_severity_levels.
  - intros ->. apply String.eqb_eq in E3. discriminate.
Qed.

Section Shared.
Variable info : string -> ToolComponent.
Variable convert : string -> pyval -> option Result.
Hypothesis info_name : forall tool_name, name (info tool_name) = tool_name.
Hypothesis convert_levelled :
  forall tool_name finding r, convert tool_name finding = Some r -> levelled r.

Lemma successful_runs_spec findings :
  Forall (fun entry => iterable (snd entry)) findings ->
  exists runs,
    successful_runs info convert findings = Ret runs /\
    map (fun run => name (driver run)) runs = successful_tools findings /\
    Forall (fun run => Forall levelled (results run)) runs /\
    Forall2 (fun run entry =>
               (length (results run) <= handed_over (snd entry))%nat)
            runs (List.filter (fun entry => succeeded (snd entry)) findings).
Proof.
  induction 1 as [|[tool_name tool_results] rest Hiter _ IH].
  { exists []. repeat split; constructor. }
  destruct IH as (runs & Hruns & Hnames & Hlevels & Hcounts).
  destruct tool_results as [found total warning|error];
    cbn [successful_runs successful_tools List.filter succeeded snd map fst].
  - destruct Hiter as [items Hitems].
    unfold _create_sarif_run. rewrite Hitems. cbn [obind]. rewrite Hruns.
    cbn [obind]. eexists. split; [reflexivity|].
    cbn [map driver name results]. rewrite info_name.
    split; [now rewrite Hnames|]. split.
    + constructor; [|exact Hlevels]. cbn [results].
      apply Forall_omap. intros x y. apply convert_levelled.
    + constructor; [|exact Hcounts].
      cbn [results snd handed_over]. rewrite Hitems. apply length_omap_le.
  - exists runs. repeat split; assumption.
Qed.

Lemma successful_runs_none findings :
  Forall (fun entry => succeeded (snd entry) = false) findings ->
  successful_runs info convert findings = Ret [].
Proof.
  induction 1 as [|[tool_name tool_results] rest Hfail _ IH]; [reflexivity|].
  destruct tool_results; [discriminate|]. exact IH.
Qed.

Lemma successful_runs_names findings :
  forall runs,
    successful_runs info convert findings = Ret runs ->
    map (fun run => name (driver run)) runs = successful_tools findings.
Proof.
  induction findings as [|[tool_name tool_results] rest IH]; intros runs.
  { now intros [= <-]. }
  destruct tool_results as [found total warning|error];
    cbn [successful_runs successful_tools List.filter succeeded snd map fst].
  - intros H. peel_goal. injection H as <-.
    unfold _create_sarif_run in *. peel_goal.
    match goal with E : Ret _ = Ret _ |- _ => injection E as <- end.
    cbn [map driver name]. rewrite info_name. f_equal. now apply IH.
  - apply IH.
Qed.
End Shared.

(** X19.  The SARIF report of the two command-line agents has one run for
    each tool that succeeded, in the order the tools ran, and none for a
    tool that failed.  Whenever the findings of the successful tools can be
    looped over, the report is built; each of its results has a level among
    [error], [warning] and [note] and exactly one location; and a run has
    at most as many results as its tool handed over findings, since a
    finding that cannot be converted is left out without notice. *)
Theorem cli_report_has_a_run_per_successful_tool
  (version : pyval) (findings : list (string * ToolRun)) :
  Forall (fun entry => iterable (snd entry)) findings ->
  (exists report,
      QualityCliReport._generate_sarif_report version findings = Ret report /\
      report_version report = version /\
      tool_names report = successful_tools findings /\
      Forall (fun run => Forall levelled (results run)) (runs report) /\
      Forall2 (fun run entry =>
                 (length (results run) <= handed_over (snd entry))%nat)
              (runs report)
              (List.filter (fun entry => succeeded (snd entry)) findings)) /\
  (exists report,
      SecurityCliReport._generate_sarif_report version findings = Ret report /\
      report_version report = version /\
      tool_names report = successful_tools findings /\
      Forall (fun run => Forall levelled (results run)) (runs report) /\
      Forall2 (fun run entry =>
                 (length (results run) <= handed_over (snd entry))%nat)
              (runs report)
              (List.filter (fun entry => succeeded (snd entry)) findings)).
Proof.
  intros Hiter. split.
  - destruct (successful_runs_spec QualityCliReport._get_tool_info
                QualityCliReport._finding_to_sarif_result quality_tool_name
                (fun t f r H => proj1 (quality_result_levelled t f r H))
                findings Hiter)
      as (runs & Hruns & Hnames & Hlevels & Hcounts).
    exists (mkReport version runs).
    unfold QualityCliReport._generate_sarif_report, _generate_sarif_report.
    rewrite Hruns. repeat split; assumption.
  - destruct (successful_runs_spec SecurityCliReport._get_tool_info
                SecurityCliReport._finding_to_sarif_result security_tool_name
                (fun t f r H => proj1 (security_result_levelled t f r H))
                findings Hiter)
      as (runs & Hruns & Hnames & Hlevels & Hcounts).
    exists (mkReport version runs).
    unfold SecurityCliReport._generate_sarif_report, _generate_sarif_report.
    rewrite Hruns. repeat split; assumption.
Qed.

Lemma analyze_directory_shape w results :
  QualityCliReport.analyze_directory QualityCliReport._get_default_config w
  = Ret results ->
  let findings := [("ruff", QualityCliReport.ruff_results w);
                   ("eslint", QualityCliReport.eslint_results w);
                   ("lizard", QualityCliReport.lizard_results w)] in
  let tools_used := ["ruff"; "eslint"; "lizard"] in
  QualityCliReport.path_exists w = true /\
  exists report,
    QualityCliReport._generate_sarif_report (PStr "2.1.0") findings
    = Ret report /\
    results
    = [("analysis_info",
        Info (QualityCliReport.resolved w) (QualityCliReport.timestamp w)
             tools_used);
       ("findings", Findings findings);
       ("sarif_report", Sarif report);
       ("summary",
        Plain (QualityCliReport._generate_summary findings tools_used
                 (QualityCliReport.summary_stamp w)))].
Proof.
  unfold QualityCliReport.analyze_directory.
  destruct (QualityCliReport.path_exists w); [|discriminate].
  cbn -[QualityCliReport._generate_sarif_report
        QualityCliReport._generate_summary].
  destruct (QualityCliReport._generate_sarif_report _ _) as [report|e];
    [|discriminate].
  cbn [obind]. intros [= <-]. split; [reflexivity|].
  exists report. split; reflexivity.
Qed.

Lemma scan_directory_shape w results :
  SecurityCliReport.scan_directory SecurityCliReport._get_default_config w
  = Ret results ->
  let findings := [("semgrep", SecurityCliReport.semgrep_results w);
                   ("gitleaks", SecurityCliReport.gitleaks_results w);
                   ("osv_scanner", SecurityCliReport.osv_results w)] in
  let tools_used := ["semgrep"; "gitleaks"; "osv_scanner"] in
  SecurityCliReport.path_exists w = true /\
  exists report,
    SecurityCliReport._generate_sarif_report (PStr "2.1.0") findings
    = Ret report /\
    results
    = [("scan_info",
        Info (SecurityCliReport.resolved w) (SecurityCliReport.timestamp w)
             tools_used);
       ("findings", Findings findings);
       ("sarif_report", Sarif report);
       ("summary",
        Plain (SecurityCliReport._generate_summary findings tools_used
                 (SecurityCliReport.summary_stamp w)))].
Proof.
  unfold SecurityCliReport.scan_directory.
  destruct (SecurityCliReport.path_exists w); [|discriminate].
  cbn -[SecurityCliReport._generate_sarif_report
        SecurityCliReport._generate_summary].
  destruct (SecurityCliReport._generate_sarif_report _ _) as [report|e];
    [|discriminate].
  cbn [obind]. intros [= <-]. split; [reflexivity|].
  exists report. split; reflexivity.
Qed.

Lemma emit_sarif_format output open_error results :
  dict_get "sarif" results = None ->
  emit SarifFormat output open_error results
  = match output with
    | None | Some "" => Printed (DumpPart (Plain (PDict [])))
    | Some file =>
        match open_error with
        | Some e => ExitOne e
        | None => Written file (DumpPart (Plain (PDict [])))
        end
    end.
Proof. intros H. unfold emit. rewrite H. reflexivity. Qed.

(** X20.  [--format sarif] never prints the report.  Both command-line
    agents store it under the key [sarif_report] and read the key [sarif],
    so whenever the analysis returns, with or without [--root-scope], what
    is printed, or written to the output file, is the empty object, while
    the result does hold a report. *)
Theorem sarif_format_prints_the_empty_object
  (qw : QualityCliReport.World) (sw : SecurityCliReport.World)
  (root : option SecurityCliReport.World)
  (quality_results security_results : list (string * Part))
  (file : string) :
  QualityCliReport.analyze_directory QualityCliReport._get_default_config qw
  = Ret quality_results ->
  SecurityCliReport.scan_directory SecurityCliReport._get_default_config sw
  = Ret security_results ->
  (forall w, root = Some w ->
             exists root_results,
               SecurityCliReport.scan_directory
                 SecurityCliReport._get_default_config w
               = Ret root_results) ->
  file <> "" ->
  (exists report, dict_get "sarif_report" quality_results = Some (Sarif report)) /\
  (exists report, dict_get "sarif_report" security_results = Some (Sarif report)) /\
  QualityCliReport.main SarifFormat None None qw
  = Printed (DumpPart (Plain (PDict []))) /\
  QualityCliReport.main SarifFormat (Some file) None qw
  = Written file (DumpPart (Plain (PDict []))) /\
  SecurityCliReport.main SarifFormat None None sw root
  = Printed (DumpPart (Plain (PDict []))) /\
  SecurityCliReport.main SarifFormat (Some file) None sw root
  = Written file (DumpPart (Plain (PDict []))).
Proof.
  intros Hq Hs Hroot Hfile.
  destruct (analyze_directory_shape qw _ Hq) as (_ & qreport & _ & ->).
  destruct (scan_directory_shape sw _ Hs) as (_ & sreport & Hsreport & Hsr).
  split; [exists qreport; reflexivity|].
  split; [exists sreport; subst security_results; reflexivity|].
  assert (Hwritten : forall results,
            dict_get "sarif" results = None ->
            emit SarifFormat (Some file) None results
            = Written file (DumpPart (Plain (PDict [])))).
  { intros results H. rewrite (emit_sarif_format _ _ _ H).
    destruct file as [|a rest]; [contradiction|reflexivity]. }
  unfold QualityCliReport.main. rewrite Hq.
  split; [reflexivity|]. split; [now apply Hwritten|].
  unfold SecurityCliReport.main. rewrite Hs.
  destruct root as [w|].
  2:{ subst security_results. split; [reflexivity|now apply Hwritten]. }
  destruct (Hroot w eq_refl) as [root_results Hr]. rewrite Hr.
  destruct (scan_directory_shape w _ Hr) as (_ & rreport & _ & ->).
  subst security_results.
  assert (Hkey : dict_get "sarif"
                   (SecurityCliReport.merge_root
                      [("scan_info",
                        Info (SecurityCliReport.resolved sw)
                             (SecurityCliReport.timestamp sw)
                             ["semgrep"; "gitleaks"; "osv_scanner"]);
                       ("findings",
                        Findings
                          [("semgrep", SecurityCliReport.semgrep_results sw);
                           ("gitleaks", SecurityCliReport.gitleaks_results sw);
                           ("osv_scanner", SecurityCliReport.osv_results sw)]);
                       ("sarif_report", Sarif sreport);
                       ("summary",
                        Plain (SecurityCliReport._generate_summary
                                 [("semgrep", SecurityCliReport.semgrep_results sw);
                                  ("gitleaks", SecurityCliReport.gitleaks_results sw);
                                  ("osv_scanner", SecurityCliReport.osv_results sw)]
                                 ["semgrep"; "gitleaks"; "osv_scanner"]
                                 (SecurityCliReport.summary_stamp sw)))]
                      [("scan_info",
                        Info (SecurityCliReport.resolved w)
                             (SecurityCliReport.timestamp w)
                             ["semgrep"; "gitleaks"; "osv_scanner"]);
                       ("findings",
                        Findings
                          [("semgrep", SecurityCliReport.semgrep_results w);
                           ("gitleaks", SecurityCliReport.gitleaks_results w);
                           ("osv_scanner", SecurityCliReport.osv_results w)]);
                       ("sarif_report", Sarif rreport);
                       ("summary",
                        Plain (SecurityCliReport._generate_summary
                                 [("semgrep", SecurityCliReport.semgrep_results w);
                                  ("gitleaks", SecurityCliReport.gitleaks_results w);
                                  ("osv_scanner", SecurityCliReport.osv_results w)]
                                 ["semgrep"; "gitleaks"; "osv_scanner"]
                                 (SecurityCliReport.summary_stamp w)))])
                 = None) by reflexivity.
  split.
  - now rewrite (emit_sarif_format _ _ _ Hkey).
  - now apply Hwritten.
Qed.

Section Merge.
Import SecurityCliReport.

Lemma str_in_In x l : str_in x l = true <-> In x l.
Proof.
  unfold str_in. rewrite existsb_exists. split.
  - intros (y & Hy & Heq). apply String.eqb_eq in Heq. now subst.
  - intros H. exists x. split; [exact H|apply String.eqb_refl].
Qed.

Lemma str_in_not x l : str_in x l = false <-> ~ In x l.
Proof.
  rewrite <- str_in_In. destruct (str_in x l); split; congruence.
Qed.

Lemma unique_runs_sound rs :
  forall seen run,
    In run (unique_runs seen rs) ->
    In run rs /\ ~ In (name (driver run)) seen.
Proof.
  induction rs as [|r rest IH]; intros seen run; cbn [unique_runs];
    [contradiction|].
  destruct (str_in (name (driver r)) seen) eqn:E.
  - intros H. destruct (IH _ _ H). split; [now right|assumption].
  - intros [<- | H].
    + split; [now left|now apply str_in_not].
    + destruct (IH _ _ H) as [Hin Hnot]. split; [now right|].
      intros Hseen. apply Hnot. apply in_or_app. now left.
Qed.

Lemma unique_runs_NoDup rs :
  forall seen, NoDup (map (fun run => name (driver run)) (unique_runs seen rs)).
Proof.
  induction rs as [|r rest IH]; intros seen; cbn [unique_runs];
    [apply NoDup_nil_2|].
  destruct (str_in (name (driver r)) seen); [apply IH|].
  cbn [map]. apply NoDup_cons_2; [|apply IH].
  intros Hin%list_elem_of_In. apply in_map_iff in Hin as (run & Hname & Hrun).
  destruct (unique_runs_sound _ _ _ Hrun) as [_ Hnot].
  apply Hnot. apply in_or_app. right. rewrite Hname. now left.
Qed.

Lemma unique_runs_complete rs :
  forall seen run,
    In run rs ->
    In (name (driver run))
       (seen ++ map (fun run => name (driver run)) (unique_runs seen rs)).
Proof.
  induction rs as [|r rest IH]; intros seen run; [contradiction|].
  cbn [unique_runs].
  destruct (str_in (name (driver r)) seen) eqn:E.
  - intros [<- | H]; [|now apply IH].
    apply in_or_app. left. now apply str_in_In.
  - cbn [map]. intros [<- | H].
    + apply in_or_app. right. now left.
    + specialize (IH (seen ++ [name (driver r)]) run H).
      rewrite <- app_assoc in IH. exact IH.
Qed.

Lemma unique_runs_seen rs :
  forall seen,
    (forall run, In run rs -> In (name (driver run)) seen) ->
    unique_runs seen rs = [].
Proof.
  induction rs as [|r rest IH]; intros seen Hall; [reflexivity|].
  cbn [unique_runs].
  assert (E : str_in (name (driver r)) seen = true)
    by (apply str_in_In, Hall; now left).
  rewrite E. apply IH. intros run H. apply Hall. now right.
Qed.

Lemma unique_runs_filter rs :
  forall seen,
    NoDup (map (fun run => name (driver run)) rs) ->
    unique_runs seen rs
    = List.filter (fun run => negb (str_in (name (driver run)) seen)) rs.
Proof.
  induction rs as [|r rest IH]; intros seen Hnd; [reflexivity|].
  cbn [unique_runs List.filter map] in *.
  apply NoDup_cons in Hnd as [Hfresh Hnd].
  destruct (str_in (name (driver r)) seen) eqn:E; cbn [negb]; [now apply IH|].
  f_equal. rewrite (IH _ Hnd). apply filter_ext_in. intros run Hrun.
  f_equal. destruct (str_in (name (driver run)) seen) eqn:E'.
  - apply str_in_In. apply in_or_app. left. now apply str_in_In.
  - apply str_in_not. intros Hin. apply in_app_or in Hin as [Hin | [Heq | []]].
    + apply str_in_not in E'. contradiction.
    + apply Hfresh. apply list_elem_of_In. rewrite Heq.
      apply in_map_iff. now exists run.
Qed.

(** X21.  [_merge_sarif_reports] keeps the first report and adds from the
    second the first run of every tool the first does not name.  The runs
    of the first report stay in front, in order; every run added is a run of
    the second report for a tool the first has none of, and no two runs
    added name the same tool.  The merged report names the tools of both
    reports, names every tool once when the first report does, keeps the
    version of the first, and merging the second report in again changes
    nothing. *)
Theorem merge_keeps_the_first_report (report1 report2 : Report) :
  let merged := _merge_sarif_reports report1 report2 in
  (exists added,
      runs merged = runs report1 ++ added /\
      Forall (fun run => In run (runs report2) /\
                         ~ In (name (driver run)) (tool_names report1)) added /\
      NoDup (map (fun run => name (driver run)) added)) /\
  (forall tool_name,
      In tool_name (tool_names merged) <->
      In tool_name (tool_names report1) \/ In tool_name (tool_names report2)) /\
  (NoDup (tool_names report1) -> NoDup (tool_names merged)) /\
  report_version merged = report_version report1 /\
  _merge_sarif_reports merged report2 = merged.
Proof.
  cbv zeta. unfold _merge_sarif_reports, tool_names. cbn [runs report_version].
  set (names1 := map (fun run => name (driver run)) (runs report1)).
  set (added := unique_runs names1 (runs report2)).
  assert (Hsound : Forall (fun run => In run (runs report2) /\
                                      ~ In (name (driver run)) names1) added).
  { apply Forall_forall. intros run Hrun%list_elem_of_In.
    now apply unique_runs_sound. }
  assert (Hnames : forall tool_name,
            In tool_name (map (fun run => name (driver run))
                              (runs report1 ++ added)) <->
            In tool_name names1 \/
            In tool_name (map (fun run => name (driver run)) (runs report2))).
  { intros tool_name. rewrite map_app, in_app_iff. fold names1. split.
    - intros [H | H]; [now left|]. right.
      apply in_map_iff in H as (run & <- & Hrun).
      apply in_map_iff. exists run. split; [reflexivity|].
      now apply (unique_runs_sound _ _ _ Hrun).
    - intros [H | H]; [now left|].
      apply in_map_iff in H as (run & <- & Hrun).
      apply in_app_iff. now apply unique_runs_complete. }
  split.
  { exists added. split; [reflexivity|]. split; [exact Hsound|].
    apply unique_runs_NoDup. }
  split; [exact Hnames|]. split.
  { intros Hnd. rewrite map_app. fold names1. apply NoDup_app.
    split; [exact Hnd|]. split; [|apply unique_runs_NoDup].
    intros x Hx%list_elem_of_In Hy%list_elem_of_In.
    apply in_map_iff in Hy as (run & <- & Hrun).
    now apply (unique_runs_sound _ _ _ Hrun). }
  split; [reflexivity|].
  f_equal. rewrite unique_runs_seen; [now rewrite app_nil_r|].
  intros run Hrun. apply Hnames. right. apply in_map_iff. now exists run.
Qed.

Lemma three_tools_NoDup (a b c : string) (ra rb rc : ToolRun) :
  a <> b -> a <> c -> b <> c ->
  NoDup (successful_tools [(a, ra); (b, rb); (c, rc)]).
Proof.
  intros Hab Hac Hbc. unfold successful_tools. cbn.
  apply NoDup_ListNoDup.
  destruct (succeeded ra), (succeeded rb), (succeeded rc); cbn;
    repeat constructor; cbn; intuition congruence.
Qed.

(** X22.  With [--root-scope], the entry of [osv_scanner] in the findings
    is replaced by that of the second scan, and nothing else is brought up
    to date: the summary is still that of the first scan and counts its
    OSV findings, and the merged report keeps every run of the first scan
    and takes from the second only the runs of tools that failed in the
    first.  So when OSV succeeded on the first scope, the OSV run of the
    report is the first scan's while the findings are the second's. *)
Theorem root_scope_replaces_the_findings_only
  (sw w : World) (main_results root_results : list (string * Part)) :
  scan_directory _get_default_config sw = Ret main_results ->
  scan_directory _get_default_config w = Ret root_results ->
  let results := merge_root main_results root_results in
  let main_findings := [("semgrep", semgrep_results sw);
                        ("gitleaks", gitleaks_results sw);
                        ("osv_scanner", osv_results sw)] in
  dict_get "findings" results
  = Some (Findings [("semgrep", semgrep_results sw);
                    ("gitleaks", gitleaks_results sw);
                    ("osv_scanner", osv_results w)]) /\
  dict_get "summary" results
  = Some (Plain (_generate_summary main_findings
                   ["semgrep"; "gitleaks"; "osv_scanner"] (summary_stamp sw))) /\
  dict_get "scan_info" results = dict_get "scan_info" main_results /\
  exists report1 report2 merged,
    dict_get "sarif_report" main_results = Some (Sarif report1) /\
    dict_get "sarif_report" root_results = Some (Sarif report2) /\
    dict_get "sarif_report" results = Some (Sarif merged) /\
    runs merged
    = runs report1 ++
      List.filter
        (fun run => negb (str_in (name (driver run))
                                 (successful_tools main_findings)))
        (runs report2) /\
    (succeeded (osv_results sw) = true ->
     forall run, In run (runs merged) ->
                 name (driver run) = "osv_scanner" -> In run (runs report1)).
Proof.
  intros Hmain Hroot. cbv zeta.
  destruct (scan_directory_shape sw _ Hmain) as (_ & report1 & H1 & ->).
  destruct (scan_directory_shape w _ Hroot) as (_ & report2 & H2 & ->).
  split; [reflexivity|]. split; [reflexivity|]. split; [reflexivity|].
  exists report1, report2, (_merge_sarif_reports report1 report2).
  split; [reflexivity|]. split; [reflexivity|]. split; [reflexivity|].
  unfold SecurityCliReport._generate_sarif_report,
    CliReport._generate_sarif_report in H1, H2.
  destruct (successful_runs _ _ [("semgrep", semgrep_results sw); _; _])
    as [runs1|] eqn:E1; [|discriminate].
  destruct (successful_runs _ _ [("semgrep", semgrep_results w); _; _])
    as [runs2|] eqn:E2; [|discriminate].
  cbn [obind] in H1, H2. injection H1 as <-. injection H2 as <-.
  pose proof (successful_runs_names _ _ security_tool_name _ _ E1) as Hn1.
  pose proof (successful_runs_names _ _ security_tool_name _ _ E2) as Hn2.
  assert (Hruns : runs (_merge_sarif_reports (mkReport (PStr "2.1.0") runs1)
                                             (mkReport (PStr "2.1.0") runs2))
                  = runs1 ++ List.filter
                            (fun run => negb (str_in (name (driver run))
                               (successful_tools
                                  [("semgrep", semgrep_results sw);
                                   ("gitleaks", gitleaks_results sw);
                                   ("osv_scanner", osv_results sw)]))) runs2).
  { unfold _merge_sarif_reports. cbn [runs]. rewrite Hn1. f_equal.
    apply unique_runs_filter. rewrite Hn2.
    apply three_tools_NoDup; discriminate. }
  split; [exact Hruns|].
  intros Hosv run Hin Hname. rewrite Hruns in Hin.
  apply in_app_or in Hin as [Hin | Hin]; [exact Hin|].
  apply filter_In in Hin as [_ Hnew].
  apply negb_true_iff, str_in_not in Hnew. exfalso. apply Hnew.
  rewrite Hname. unfold successful_tools. cbn. rewrite Hosv.
  destruct (succeeded (semgrep_results sw)),
    (succeeded (gitleaks_results sw)); cbn; tauto.
Qed.

End Merge.

(** X23.  A tool that fails does not fail the run.  Whenever the path
    exists and the findings of the tools that succeeded can be looped over,
    [main] with the default format prints the summary and ends normally,
    also when every tool failed.  In the summary, [total_findings] is the
    sum of what the successful tools counted, [tools_used] names all three
    tools whether they succeeded or not, and [tools_summary] gives for each
    tool its count or its error. *)
Theorem failed_tools_do_not_fail_the_run
  (qw : QualityCliReport.World) (sw : SecurityCliReport.World) :
  QualityCliReport.path_exists qw = true ->
  SecurityCliReport.path_exists sw = true ->
  let quality_findings := [("ruff", QualityCliReport.ruff_results qw);
                           ("eslint", QualityCliReport.eslint_results qw);
                           ("lizard", QualityCliReport.lizard_results qw)] in
  let security_findings := [("semgrep", SecurityCliReport.semgrep_results sw);
                            ("gitleaks", SecurityCliReport.gitleaks_results sw);
                            ("osv_scanner", SecurityCliReport.osv_results sw)] in
  Forall (fun entry => iterable (snd entry)) quality_findings ->
  Forall (fun entry => iterable (snd entry)) security_findings ->
  QualityCliReport.main Text None None qw
  = Printed (DumpPart (Plain (PDict
      [("total_findings", PInt (counted_by_tools quality_findings));
       ("tools_summary",
        PDict (map (fun entry => (fst entry, tool_summary (snd entry)))
                   quality_findings));
       ("analysis_duration", PStr (QualityCliReport.summary_stamp qw));
       ("tools_used", PList [PStr "ruff"; PStr "eslint"; PStr "lizard"])]))) /\
  SecurityCliReport.main Text None None sw None
  = Printed (DumpPart (Plain (PDict
      [("total_findings", PInt (counted_by_tools security_findings));
       ("tools_summary",
        PDict (map (fun entry => (fst entry, tool_summary (snd entry)))
                   security_findings));
       ("scan_duration", PStr (SecurityCliReport.summary_stamp sw));
       ("tools_used",
        PList [PStr "semgrep"; PStr "gitleaks"; PStr "osv_scanner"])]))).
Proof.
  intros Hq Hs. cbv zeta. intros Hqi Hsi.
  destruct (successful_runs_spec QualityCliReport._get_tool_info
              QualityCliReport._finding_to_sarif_result quality_tool_name
              (fun t f r H => proj1 (quality_result_levelled t f r H))
              _ Hqi) as (qruns & Hqruns & _).
  destruct (successful_runs_spec SecurityCliReport._get_tool_info
              SecurityCliReport._finding_to_sarif_result security_tool_name
              (fun t f r H => proj1 (security_result_levelled t f r H))
              _ Hsi) as (sruns & Hsruns & _).
  split.
  - unfold QualityCliReport.main, QualityCliReport.analyze_directory.
    rewrite Hq.
    cbn -[successful_runs QualityCliReport._generate_summary].
    unfold QualityCliReport._generate_sarif_report,
      CliReport._generate_sarif_report.
    rewrite Hqruns.
    cbn -[QualityCliReport._generate_summary].
    do 3 f_equal.
    unfold QualityCliReport._generate_summary, _generate_summary,
      counted_by_tools.
    destruct (QualityCliReport.ruff_results qw),
      (QualityCliReport.eslint_results qw),
      (QualityCliReport.lizard_results qw); cbn;
      match goal with
      | |- PDict ((_, PInt ?x) :: _) = PDict ((_, PInt ?y) :: _) =>
          replace x with y by lia
      end; reflexivity.
  - unfold SecurityCliReport.main, SecurityCliReport.scan_directory.
    rewrite Hs.
    cbn -[successful_runs SecurityCliReport._generate_summary].
    unfold SecurityCliReport._generate_sarif_report,
      CliReport._generate_sarif_report.
    rewrite Hsruns.
    cbn -[SecurityCliReport._generate_summary].
    do 3 f_equal.
    unfold SecurityCliReport._generate_summary, _generate_summary,
      counted_by_tools.
    destruct (SecurityCliReport.semgrep_results sw),
      (SecurityCliReport.gitleaks_results sw),
      (SecurityCliReport.osv_results sw); cbn;
      match goal with
      | |- PDict ((_, PInt ?x) :: _) = PDict ((_, PInt ?y) :: _) =>
          replace x with y by lia
      end; reflexivity.
Qed.

End CliReports.

Lemma cli_report_has_a_run_per_successful_tool_witness :
  Forall (fun entry => iterable (snd entry))
         [("gitleaks", Failure (PStr "Scan timed out"));
          ("osv_scanner", Success (PList [osv_finding "OSV-1"; PInt 7]) 2 None)] /\
  exists report,
    SecurityCliReport._generate_sarif_report (PStr "2.1.0")
      [("gitleaks", Failure (PStr "Scan timed out"));
       ("osv_scanner", Success (PList [osv_finding "OSV-1"; PInt 7]) 2 None)]
    = Ret report /\
    tool_names report = ["osv_scanner"].
Proof.
  assert (H : Forall (fun entry => iterable (snd entry))
                [("gitleaks", Failure (PStr "Scan timed out"));
                 ("osv_scanner",
                  Success (PList [osv_finding "OSV-1"; PInt 7]) 2 None)]).
  { repeat constructor. cbn. eexists. reflexivity. }
  split; [exact H|].
  destruct (cli_report_has_a_run_per_successful_tool (PStr "2.1.0") _ H)
    as [_ (report & Hreport & _ & Hnames & _)].
  exists report. split; [exact Hreport|]. rewrite Hnames. reflexivity.
Defined.

Lemma sarif_format_prints_the_empty_object_witness :
  QualityCliReport.main CliReport.SarifFormat None None quality_all_failed
  = CliReport.Printed (CliReport.DumpPart (CliReport.Plain (PDict []))) /\
  SecurityCliReport.main CliReport.SarifFormat (Some "out.sarif") None
    security_app (Some security_root)
  = CliReport.Written "out.sarif"
      (CliReport.DumpPart (CliReport.Plain (PDict []))).
Proof.
  destruct (sarif_format_prints_the_empty_object
              quality_all_failed security_app (Some security_root) _ _
              "out.sarif" eq_refl eq_refl)
    as (_ & _ & Hq & _ & _ & Hs).
  - intros w [= <-]. eexists. reflexivity.
  - discriminate.
  - split; [exact Hq|exact Hs].
Defined.

Lemma root_scope_replaces_the_findings_only_witness :
  exists main_results root_results,
    SecurityCliReport.scan_directory SecurityCliReport._get_default_config
      security_app = Ret main_results /\
    SecurityCliReport.scan_directory SecurityCliReport._get_default_config
      security_root = Ret root_results /\
    dict_get "findings" (SecurityCliReport.merge_root main_results root_results)
    = Some (CliReport.Findings
              [("semgrep", Success (PList []) 0 None);
               ("gitleaks", Failure (PStr "Scan timed out"));
               ("osv_scanner",
                Success (PList [osv_finding "OSV-2"; osv_finding "OSV-3"])
                        2 None)]).
Proof.
  eexists. eexists. split; [reflexivity|]. split; [reflexivity|].
  exact (proj1 (root_scope_replaces_the_findings_only
                  security_app security_root _ _ eq_refl eq_refl)).
Defined.

Lemma failed_tools_do_not_fail_the_run_witness :
  QualityCliReport.main CliReport.Text None None quality_all_failed
  = CliReport.Printed (CliReport.DumpPart (CliReport.Plain (PDict
      [("total_findings", PInt 0);
       ("tools_summary",
        PDict [("ruff", PDict [("error", PStr "Analysis timed out")]);
               ("eslint", PDict [("error", PStr "Analysis timed out")]);
               ("lizard", PDict [("error", PStr "Analysis timed out")])]);
       ("analysis_duration", PStr "2025-01-01T00:01:00");
       ("tools_used", PList [PStr "ruff"; PStr "eslint"; PStr "lizard"])]))).
Proof.
  refine (proj1 (failed_tools_do_not_fail_the_run
                   quality_all_failed security_app eq_refl eq_refl _ _)).
  - repeat constructor.
  - repeat constructor; cbn; eexists; reflexivity.
Defined.

(** ** The TypeScript plugin: what its counters count *)

Section TypeScriptCounters.
Import Plugins TypeScriptSyntax.

Lemma not_digits_error : ~ digits "error".
Proof. intros H. inversion H as [|a l Ha _]. discriminate Ha. Qed.

Lemma classify_rule code :
  digits code ->
  ts_rule (snd (classify code)) /\
  ts_severity (fst (classify code)).
Proof.
  intros Hd. unfold classify.
  destruct (str_in code ["2304"; "2307"; "2552"]).
  { split; [|right; left; reflexivity].
    do 3 right. exists code. split; [exact Hd|]. left; reflexivity. }
  destruct (startswith "23" code).
  { split; [|right; left; reflexivity].
    do 3 right. exists code. split; [exact Hd|]. left; reflexivity. }
  destruct (str_in code ["1002"; "1003"; "1005"; "1108"]).
  { split; [|left; reflexivity].
    do 3 right. exists code. split; [exact Hd|]. right; left; reflexivity. }
  split; [|right; right; reflexivity].
  do 3 right. exists code. split; [exact Hd|]. right; right; reflexivity.
Qed.

Lemma ts_exception_rule e :
  ts_rule (rule_of (ts_exception e)) /\
  ts_severity (qi_severity (seen (ts_exception e))).
Proof.
  unfold ts_exception. destruct (is_file_not_found e); cbn.
  - split; [left; reflexivity|left; reflexivity].
  - split; [right; left; reflexivity|right; left; reflexivity].
Qed.

Lemma parse_matches_rules env files ms :
  (forall m, In m ms -> digits (m_code m)) ->
  forall issues,
    parse_matches env files ms = Ret issues ->
    Forall (fun i => ts_rule (rule_of i) /\
                     ts_severity (qi_severity (seen i))) issues.
Proof.
  induction ms as [|m rest IH]; intros Hd issues.
  { intros [= <-]. constructor. }
  cbn [parse_matches]. cbv zeta.
  destruct (any_samefile env _ files) as [ours|]; [|discriminate].
  cbn [obind].
  destruct (parse_matches env files rest) as [more|] eqn:E; [|discriminate].
  cbn [obind]. intros [= <-].
  apply Forall_app. split.
  - destruct ours; [|constructor]. constructor; [|constructor].
    apply classify_rule. apply Hd. now left.
  - apply IH; [|reflexivity]. intros m' Hm'. apply Hd. now right.
Qed.

Lemma typescript_rules env files :
  codes_are_digits env ->
  Forall (fun i => ts_rule (rule_of i) /\
                   ts_severity (qi_severity (seen i)))
         (_analyze_typescript_files env files).
Proof.
  intros Hd. unfold _analyze_typescript_files.
  destruct (tsc env files) as [stdout stderr| |e].
  - assert (Hparse : forall output issues,
              _parse_tsc_output env output files = Ret issues ->
              Forall (fun i => ts_rule (rule_of i) /\
                               ts_severity (qi_severity (seen i))) issues).
    { intros output issues. apply parse_matches_rules.
      intros m. apply Hd. }
    cbv zeta.
    destruct (if negb (String.eqb stderr "")
              then _parse_tsc_output env stderr files else Ret [])
      as [issues|e] eqn:E.
    2:{ constructor; [apply ts_exception_rule|constructor]. }
    assert (Hissues : Forall (fun i => ts_rule (rule_of i) /\
                                       ts_severity (qi_severity (seen i)))
                             issues).
    { destruct (negb (String.eqb stderr "")).
      - now apply (Hparse stderr).
      - injection E as <-. constructor. }
    destruct (negb (String.eqb stdout "") && contains "error" (lower stdout));
      [|exact Hissues].
    destruct (_parse_tsc_output env stdout files) as [more|e] eqn:E'.
    + apply Forall_app. split; [exact Hissues|now apply (Hparse stdout)].
    + apply Forall_app. split; [exact Hissues|].
      constructor; [apply ts_exception_rule|constructor].
  - constructor; [|constructor]. cbn. split.
    + right; right; left; reflexivity.
    + right; left; reflexivity.
  - constructor; [apply ts_exception_rule|constructor].
Qed.

Lemma javascript_rules env files :
  Forall (fun i => js_rule (rule_of i) /\
                   ts_severity (qi_severity (seen i)))
         (_analyze_javascript_files env files).
Proof.
  unfold _analyze_javascript_files.
  induction files as [|f rest IH]; [constructor|].
  cbn [flat_map]. apply Forall_app. split; [|exact IH].
  unfold check_js. destruct (node env f) as [returncode stderr| |e].
  - destruct (Z.eqb returncode 0); [constructor|].
    destruct (default (f, 1) (search env stderr)) as [error_file line_num].
    constructor; [|constructor]. cbn. split.
    + left; reflexivity.
    + right; left; reflexivity.
  - constructor; [|constructor]. cbn. split.
    + right; left; reflexivity.
    + right; right; reflexivity.
  - destruct (is_file_not_found e); (constructor; [|constructor]); cbn; split.
    + right; right; left; reflexivity.
    + left; reflexivity.
    + right; right; right; reflexivity.
    + right; right; reflexivity.
Qed.

Lemma ts_rule_facts r :
  ts_rule r ->
  String.eqb "ts-syntax-error" r = false /\
  String.eqb "js-syntax-error" r = false /\
  r <> "ts-syntax-error" /\
  r <> "ts-type-error" /\ r <> "typescript-plugin-error".
Proof.
  assert (Hne : forall code a b,
            digits code -> a +:+ "error" = b -> a +:+ code <> b).
  { intros code a b Hd <- Heq. apply not_digits_error.
    induction a as [|c a IH].
    - change (code = "error") in Heq. now subst.
    - change (String c (a +:+ code) = String c (a +:+ "error")) in Heq.
      injection Heq as H. now apply IH. }
  intros [-> | [-> | [-> | (code & Hd & [-> | [-> | ->]])]]].
  1-3: repeat split; (reflexivity || discriminate).
  - assert (H : "ts-type-" +:+ code <> "ts-type-error")
      by now apply (Hne code "ts-type-").
    repeat split; try reflexivity; try discriminate; exact H.
  - assert (H : "ts-syntax-" +:+ code <> "ts-syntax-error")
      by now apply (Hne code "ts-syntax-").
    repeat split; try reflexivity; try discriminate; try exact H.
    apply String.eqb_neq. congruence.
  - repeat split; (reflexivity || discriminate).
Qed.

Lemma js_rule_facts r :
  js_rule r ->
  startswith "ts-type" r = false /\
  r <> "ts-syntax-error" /\ r <> "ts-type-error" /\
  r <> "typescript-plugin-error".
Proof.
  intros [-> | [-> | [-> | ->]]]; repeat split; (reflexivity || discriminate).
Qed.

Lemma count_rules_app test issues1 issues2 :
  count_rules test (issues1 ++ issues2)
  = count_rules test issues1 + count_rules test issues2.
Proof.
  unfold count_rules. rewrite List.filter_app, length_app. lia.
Qed.

Lemma count_rules_none test issues :
  Forall (fun i => test (rule_of i) = false) issues ->
  count_rules test issues = 0.
Proof.
  unfold count_rules, rule_of. induction 1 as [|i rest Hi _ IH]; [reflexivity|].
  cbn [List.filter]. rewrite Hi. exact IH.
Qed.

Lemma typescript_stats_lookup (a b c d : Z) :
  let stats := [("syntax_errors", a); ("type_errors", b);
                ("semantic_errors", c); ("files_processed", d)] in
  dict_get "syntax_errors" stats = Some a /\
  dict_get "type_errors" stats = Some b /\
  dict_get "semantic_errors" stats = Some c /\
  dict_get "files_processed" stats = Some d.
Proof. repeat split; reflexivity. Qed.


End TypeScriptCounters.


(** ** The quality agent: which tools an analysis names *)

Section ToolsUsed.
Import QualityAgent QualityRun.

Lemma has_files_filter (test : string -> bool) files :
  has_files (List.filter test files) = true <->
  exists f, In f files /\ test f = true.
Proof.
  split.
  - destruct (List.filter test files) as [|f rest] eqn:E; [discriminate|].
    intros _. exists f. apply filter_In. rewrite E. now left.
  - intros (f & Hf & Ht).
    assert (Hin : In f (List.filter test files)) by now apply filter_In.
    now destruct (List.filter test files).
Qed.

Lemma has_files_nonempty files : has_files files = true <-> files <> [].
Proof. destruct files; cbn; split; congruence. Qed.

Lemma record_tool_used tools tool key findings files results t :
  t ∈ tools_used (record_tool tools tool key findings files results) <->
  t = tool \/ t ∈ tools_used results.
Proof. cbn [record_tool tools_used]. set_solver. Qed.

Lemma plugins_used tools files names :
  forall results t,
    t ∈ tools_used (fold_left (record_plugin tools files) names results) <->
    In t names \/ t ∈ tools_used results.
Proof.
  induction names as [|n rest IH]; intros results t; cbn [fold_left In].
  { tauto. }
  rewrite IH. cbn [record_plugin tools_used]. cbv zeta. cbn [tools_used].
  rewrite elem_of_union, elem_of_singleton. intuition congruence.
Qed.

Lemma scheduled_spec config t :
  In t (scheduled config) <->
  (t = "yaml_syntax" /\ yaml_syntax_enabled config = true /\
   (analysis_mode config = "syntax_extended" \/
    analysis_mode config = "yaml_strict")) \/
  (t = "typescript_syntax" /\ typescript_syntax_enabled config = true /\
   analysis_mode config = "syntax_extended").
Proof.
  unfold scheduled.
  destruct (String.eqb (analysis_mode config) "syntax_extended") eqn:E1.
  { apply String.eqb_eq in E1.
    destruct (yaml_syntax_enabled config), (typescript_syntax_enabled config);
      cbn; rewrite E1; intuition congruence. }
  apply String.eqb_neq in E1.
  destruct (String.eqb (analysis_mode config) "yaml_strict") eqn:E2.
  { apply String.eqb_eq in E2.
    destruct (yaml_syntax_enabled config); cbn; rewrite E2;
      intuition congruence. }
  apply String.eqb_neq in E2. cbn. intuition congruence.
Qed.

Lemma tools_used_spec tools config files t :
  t ∈ tools_used (_run_quality_analysis tools config files) <->
  called_for (ruff_enabled tools) (eslint_enabled tools) config files t.
Proof.
  unfold _run_quality_analysis, _run_syntax_plugins, called_for. cbv zeta.
  rewrite plugins_used, scheduled_spec.
  assert (E1 : (ruff_enabled tools = true /\
                exists f, In f files /\ endswith ".py" f = true) <->
               has_files (List.filter (endswith ".py") files)
               && ruff_enabled tools = true).
  { rewrite andb_true_iff, has_files_filter. tauto. }
  assert (E2 : (eslint_enabled tools = true /\
                exists f, In f files /\ js_ts_file f = true) <->
               has_files (List.filter js_ts_file files)
               && eslint_enabled tools = true).
  { rewrite andb_true_iff, has_files_filter. tauto. }
  assert (E3 : (files <> [] /\ py_truthy (scan_complexity config) = true) <->
               has_files files && py_truthy (scan_complexity config) = true).
  { rewrite andb_true_iff, has_files_nonempty. tauto. }
  assert (E4 : (files <> [] /\ py_truthy (scan_duplication config) = true) <->
               has_files files && py_truthy (scan_duplication config) = true).
  { rewrite andb_true_iff, has_files_nonempty. tauto. }
  rewrite E1, E2, E3, E4. clear E1 E2 E3 E4.
  destruct (has_files (List.filter (endswith ".py") files) && ruff_enabled tools),
    (has_files (List.filter js_ts_file files) && eslint_enabled tools),
    (has_files files && py_truthy (scan_complexity config)),
    (has_files files && py_truthy (scan_duplication config));
    rewrite ?record_tool_used; cbn [tools_used];
    rewrite elem_of_empty; intuition congruence.
Qed.

Lemma scheduled_plugin_results tools config files :
  dict_keys (plugin_results (_run_quality_analysis tools config files))
  = scheduled config.
Proof.
  unfold _run_quality_analysis, _run_syntax_plugins. cbv zeta.
  match goal with
  | |- context [fold_left _ _ ?s] =>
      assert (Hstart : plugin_results s = []);
      [|generalize dependent s; intros start Hstart]
  end.
  { destruct (has_files (List.filter (endswith ".py") files)
              && ruff_enabled tools),
      (has_files (List.filter js_ts_file files) && eslint_enabled tools),
      (has_files files && py_truthy (scan_complexity config)),
      (has_files files && py_truthy (scan_duplication config));
      reflexivity. }
  unfold scheduled.
  destruct (String.eqb (analysis_mode config) "syntax_extended");
    [|destruct (String.eqb (analysis_mode config) "yaml_strict")];
    destruct (yaml_syntax_enabled config);
    try destruct (typescript_syntax_enabled config);
    cbn [fold_left app record_plugin plugin_results]; cbv zeta;
    cbn [plugin_results]; rewrite Hstart; reflexivity.
Qed.

(** X25.  Which tools an analysis names is decided before any of them
    runs.  [tools_used] holds [ruff] exactly when a file of the scope ends
    in [.py], [eslint] exactly when one ends in a JavaScript or TypeScript
    extension, [lizard] and [duplication] exactly when their switch is on
    and there is a file at all, and a plugin exactly when the mode and its
    switch schedule it.  So two analyses of the same files under the same
    configuration name the same tools, whatever the tools and the plugins
    did: a tool that is not installed, or a plugin that was skipped or
    failed, is named all the same. *)
Theorem tools_used_is_decided_by_the_scope
  (tools tools' : Tools) (config : QualityConfig) (files : list string) :
  (forall tool,
      tool ∈ tools_used (_run_quality_analysis tools config files) <->
      called_for (ruff_enabled tools) (eslint_enabled tools) config files tool) /\
  (ruff_enabled tools' = ruff_enabled tools ->
   eslint_enabled tools' = eslint_enabled tools ->
   tools_used (_run_quality_analysis tools' config files)
   = tools_used (_run_quality_analysis tools config files)) /\
  dict_keys (plugin_results (_run_quality_analysis tools config files))
  = scheduled config.
Proof.
  split; [intros tool; apply tools_used_spec|]. split.
  - intros Hr He. apply set_eq. intros tool.
    rewrite !tools_used_spec, Hr, He. reflexivity.
  - apply scheduled_plugin_results.
Qed.

End ToolsUsed.

(** ** The security agent: what the dependency scanners return *)

Section DependencyFindings.
Import SecurityAgent SecurityDeps.

Lemma map_get_standard severity_map v dflt s :
  Forall (fun kv => standard_severity (snd kv)) severity_map ->
  standard_severity dflt ->
  map_get severity_map v dflt = Ret s ->
  standard_severity s.
Proof.
  intros Hmap Hdflt. unfold map_get.
  destruct v as [|b|z|q|k|t h|e|l|d]; try (intros [= <-]; exact Hdflt);
    try discriminate.
  intros [= <-]. induction Hmap as [|[k' v'] rest Hkv _ IH]; [exact Hdflt|].
  cbn [dict_get]. destruct (String.eqb k k'); [exact Hkv|exact IH].
Qed.

Lemma npm_severity_standard v s :
  _convert_npm_severity v = Ret s -> standard_severity s.
Proof.
  apply map_get_standard.
  - repeat (constructor; [cbn; unfold standard_severity; auto|]).
    constructor.
  - right; left; reflexivity.
Qed.

Lemma pip_severity_standard v s :
  _convert_pip_severity v = Ret s -> standard_severity s.
Proof.
  apply map_get_standard.
  - repeat (constructor; [cbn; unfold standard_severity; auto|]).
    constructor.
  - right; left; reflexivity.
Qed.

Lemma osv_severity_standard v s :
  _convert_osv_severity v = Ret s -> standard_severity s.
Proof.
  unfold _convert_osv_severity. destruct v; try discriminate.
  intros [= <-]. cbn [dict_get].
  repeat match goal with
         | |- context [String.eqb ?a ?b] => destruct (String.eqb a b)
         end; cbn; unfold standard_severity; auto.
Qed.

Lemma npm_finding_manifest advisory package f :
  npm_finding advisory package = Ret f -> manifest_finding f.
Proof.
  unfold npm_finding. intros H. peel_goal. injection H as <-.
  repeat split; cbn; auto. eapply npm_severity_standard; eassumption.
Qed.

Lemma pip_finding_manifest vuln f :
  pip_finding vuln = Ret f -> manifest_finding f.
Proof.
  unfold pip_finding. intros H. peel_goal. injection H as <-.
  repeat split; cbn; auto. eapply pip_severity_standard; eassumption.
Qed.

Lemma osv_finding_manifest vuln package f :
  osv_finding vuln package = Ret f -> manifest_finding f.
Proof.
  unfold osv_finding. intros H. peel_goal. injection H as <-.
  repeat split; cbn; auto. eapply osv_severity_standard; eassumption.
Qed.

Lemma collect_all {A B} (f : A -> outcome B) (P : B -> Prop) items :
  (forall x y, f x = Ret y -> P y) -> Forall P (collect f items).
Proof.
  intros Hf. induction items as [|x rest IH]; cbn [collect]; [constructor|].
  destruct (f x) as [y|] eqn:E; [|constructor].
  constructor; [eauto|exact IH].
Qed.

Lemma nested_loops_all inner finding (P : SecurityFinding -> Prop) outer :
  (forall record item f, finding record item = Ret f -> P f) ->
  Forall P (fst (nested_loops inner finding outer)).
Proof.
  intros Hf. induction outer as [|record rest IH]; cbn [nested_loops];
    [constructor|].
  destruct (inner record) as [items|]; [|constructor].
  cbv zeta.
  assert (Hhere : Forall P (collect (finding record) items))
    by (apply collect_all; eauto).
  destruct (Nat.eqb _ _); [|exact Hhere].
  destruct (nested_loops inner finding rest) as [more ok]. cbn [fst] in *.
  apply Forall_app. now split.
Qed.

Lemma parse_npm_manifest data : Forall manifest_finding (parse_npm data).
Proof.
  unfold parse_npm.
  destruct (obind _ _) as [advisories|]; [|constructor].
  apply nested_loops_all. intros record item f. apply npm_finding_manifest.
Qed.

Lemma parse_pip_manifest data : Forall manifest_finding (parse_pip data).
Proof.
  unfold parse_pip.
  destruct (obind _ _) as [vulns|]; [|constructor].
  apply collect_all. intros x y. apply pip_finding_manifest.
Qed.

Lemma parse_osv_manifest data : Forall manifest_finding (parse_osv data).
Proof.
  unfold parse_osv.
  destruct (obind _ _) as [vulns|]; [|constructor].
  apply nested_loops_all. intros record item f. apply osv_finding_manifest.
Qed.

Lemma poetry_manifest output :
  Forall manifest_finding (_parse_poetry_audit_output output).
Proof.
  unfold _parse_poetry_audit_output.
  destruct (contains "vulnerabilities found" output); [|constructor].
  induction (split newline output) as [|line rest IH]; [constructor|].
  cbn [flat_map]. apply Forall_app. split; [|exact IH].
  destruct (contains "CVE-" line || contains "vulnerability" line);
    [|constructor].
  constructor; [|constructor].
  repeat split; cbn; auto. right; left; reflexivity.
Qed.

Section Scan.
Variable env : Env.
Variable scanners : Scanners.

Lemma npm_audit_manifest :
  Forall manifest_finding (_run_npm_audit env scanners).
Proof.
  unfold _run_npm_audit, _parse_npm_audit_output.
  destruct (npm_audit scanners) as [rc out err| | |e]; try constructor.
  destruct (Z.eqb rc 0); [|constructor].
  destruct (json_loads env out); [apply parse_npm_manifest|constructor].
Qed.

Lemma pip_audit_manifest lockfiles :
  Forall manifest_finding (_run_pip_audit env scanners lockfiles).
Proof.
  induction lockfiles as [|lockfile rest IH]; cbn [_run_pip_audit];
    [constructor|].
  destruct (contains "requirements.txt" lockfile).
  { destruct (pip_audit scanners lockfile) as [rc out err| | |e];
      try constructor.
    destruct (Z.eqb rc 0); [|exact IH].
    unfold _parse_pip_audit_output.
    destruct (json_loads env out); [apply parse_pip_manifest|constructor]. }
  destruct (contains "poetry.lock" lockfile); [|exact IH].
  destruct (poetry_audit scanners lockfile) as [rc out err| | |e];
    try constructor.
  destruct (Z.eqb rc 0); [apply poetry_manifest|exact IH].
Qed.

Lemma osv_scanner_manifest :
  Forall manifest_finding (_run_osv_scanner scanners).
Proof.
  unfold _run_osv_scanner, _parse_osv_scanner_output.
  destruct (osv_scanner scanners) as [rc out err| | |e]; try constructor.
  destruct (Z.eqb rc 0); [|constructor].
  destruct (osv_report scanners); try constructor. apply parse_osv_manifest.
Qed.

Lemma add_results_spec tool found results (names : list string) :
  Forall manifest_finding found ->
  In tool names ->
  Forall manifest_finding (dep_findings results) /\
  (forall t, t ∈ dep_tools results -> In t names) /\
  (dep_tools results = ∅ <-> dep_findings results = []) ->
  let results' := add_results tool found results in
  Forall manifest_finding (dep_findings results') /\
  (forall t, t ∈ dep_tools results' -> In t names) /\
  (dep_tools results' = ∅ <-> dep_findings results' = []).
Proof.
  intros Hfound Htool (Hall & Hnames & Hempty). cbv zeta.
  unfold add_results.
  destruct found as [|f rest];
    [split; [exact Hall|split; [exact Hnames|exact Hempty]]|].
  cbn [dep_findings dep_tools]. split; [|split].
  - apply Forall_app. now split.
  - intros t [->%elem_of_singleton | Ht]%elem_of_union; auto.
  - split.
    + intros H. exfalso. assert (Hin : tool ∈ ({[tool]} ∪ dep_tools results))
        by set_solver.
      rewrite H in Hin. set_solver.
    + intros H. apply app_eq_nil in H as [_ H]. discriminate.
Qed.
End Scan.


End DependencyFindings.

(** ** The command-line quality agent: Lizard's findings in the report *)

Section LizardFindings.
Import CliReport LizardTable.

Lemma row_spec threshold line f :
  In f (row threshold line) ->
  exists name file ccn nloc,
    f = complex_function name file ccn nloc /\ threshold < ccn.
Proof.
  unfold row. cbv zeta.
  destruct (Nat.leb 3 (length (words line))); [|contradiction].
  destruct (obind _ _) as [[nloc ccn]|]; [|contradiction].
  destruct (Z.ltb threshold ccn) eqn:E; [|contradiction].
  apply Z.ltb_lt in E.
  destruct (contains "@" (List.last (words line) "")); [|contradiction].
  intros [<- | []]. do 4 eexists. split; [reflexivity|exact E].
Qed.

Lemma rows_spec threshold lines :
  forall in_function_table f,
    In f (rows threshold in_function_table lines) ->
    exists name file ccn nloc,
      f = complex_function name file ccn nloc /\ threshold < ccn.
Proof.
  induction lines as [|line rest IH]; intros flag f; cbn [rows];
    [contradiction|].
  destruct (contains table_header line); [apply IH|].
  intros [H | H]%in_app_or; [|now apply IH in H].
  destruct (flag && _ && _ && _); [|contradiction].
  now apply row_spec in H.
Qed.

Lemma lizard_result name file ccn nloc :
  QualityCliReport._finding_to_sarif_result "lizard"
    (complex_function name file ccn nloc)
  = Some (complexity_result name file ccn) /\
  printed_region (complexity_result name file ccn)
  = Some (PDict [("start_line", PInt 0); ("start_column", PInt 1);
                 ("end_column", PInt 1000)]).
Proof. split; reflexivity. Qed.

(** X27.  Where the report of the command-line quality agent puts
    Lizard's findings.  When Lizard exits with 0 or 1, every function read
    off its table has a complexity above the threshold and is given the
    line 0; each becomes one result of the rule [complexity], at level
    [warning] when the complexity is above 15 and [note] otherwise; none
    is dropped; and the region printed for it starts at line 0, has no end
    line and ends at column 1000. *)
Theorem lizard_results_point_at_line_zero
  (threshold returncode : Z) (stdout stderr : string) :
  returncode = 0 \/ returncode = 1 ->
  let findings := complex_functions threshold stdout in
  _run_lizard threshold true (Completed returncode stdout stderr)
  = Success (PList findings) (Z.of_nat (length findings)) None /\
  exists run,
    _create_sarif_run QualityCliReport._get_tool_info
      QualityCliReport._finding_to_sarif_result "lizard"
      (Success (PList findings) (Z.of_nat (length findings)) None)
    = Ret run /\
    name (driver run) = "lizard" /\
    Forall2 (fun f r =>
               exists name file ccn nloc,
                 f = complex_function name file ccn nloc /\
                 threshold < ccn /\
                 r = complexity_result name file ccn /\
                 printed_region r
                 = Some (PDict [("start_line", PInt 0);
                                ("start_column", PInt 1);
                                ("end_column", PInt 1000)]))
            findings (results run).
Proof.
  intros Hrc. cbv zeta. split.
  { unfold _run_lizard, QualityCli._run_lizard. cbn [negb].
    destruct Hrc as [-> | ->]; reflexivity. }
  unfold _create_sarif_run. cbn [py_iter obind].
  eexists. split; [reflexivity|]. cbn [driver results name].
  split; [reflexivity|].
  assert (Hall : forall f, In f (complex_functions threshold stdout) ->
            exists name file ccn nloc,
              f = complex_function name file ccn nloc /\ threshold < ccn).
  { intros f. apply rows_spec. }
  induction (complex_functions threshold stdout) as [|f rest IH];
    [constructor|].
  destruct (Hall f (or_introl eq_refl)) as (name & file & ccn & nloc & -> & Hccn).
  cbn [omap list_omap].
  change (omap (QualityCliReport._finding_to_sarif_result "lizard")
               (complex_function name file ccn nloc :: rest))
    with (complexity_result name file ccn ::
          omap (QualityCliReport._finding_to_sarif_result "lizard") rest).
  constructor.
  - exists name, file, ccn, nloc. repeat split; [exact Hccn].
  - apply IH. intros f' Hf'. apply Hall. now right.
Qed.

Lemma lizard_results_point_at_line_zero_witness :
  LizardTable.complex_functions 10 lizard_text
  = [complex_function "parse" "" 17 40] /\
  exists run,
    CliReport._create_sarif_run QualityCliReport._get_tool_info
      QualityCliReport._finding_to_sarif_result "lizard"
      (LizardTable._run_lizard 10 true (Completed 1 lizard_text ""))
    = Ret run /\
    map printed_region (CliReport.results run)
    = [Some (PDict [("start_line", PInt 0); ("start_column", PInt 1);
                    ("end_column", PInt 1000)])].
Proof.
  split; [reflexivity|].
  destruct (lizard_results_point_at_line_zero 10 1 lizard_text ""
              (or_intror eq_refl)) as (Hrun & run & Hcreate & _ & _).
  exists run. rewrite Hrun. split; [exact Hcreate|].
  revert Hcreate. vm_compute. now intros [= <-].
Defined.

End LizardFindings.

(** ** The quality agent: what a mode selects and runs *)

Section Modes.
Import QualityAgent QualityRun.

Lemma prefix_nil b : String.prefix "" b = true.
Proof. now destruct b. Qed.

Lemma prefix_comparable a :
  forall b x,
    String.prefix a x = true -> String.prefix b x = true ->
    (String.length b <= String.length a)%nat ->
    String.prefix b a = true.
Proof.
  induction a as [|c a IH]; intros b x Ha Hb Hlen.
  - destruct b; [reflexivity|cbn in Hlen; lia].
  - destruct b as [|d b]; [reflexivity|].
    destruct x as [|e x]; [discriminate|].
    cbn in Ha, Hb |- *.
    destruct (Ascii.ascii_dec c e) as [->|]; [|discriminate].
    destruct (Ascii.ascii_dec d e) as [->|]; [|discriminate].
    destruct (Ascii.ascii_dec e e); [|congruence].
    apply (IH b x Ha Hb). cbn in Hlen. lia.
Qed.

Lemma prefix_str_map f a :
  forall b, String.prefix a b = true ->
            String.prefix (str_map f a) (str_map f b) = true.
Proof.
  induction a as [|c a IH]; intros b; [intros _; apply prefix_nil|].
  destruct b as [|d b]; [discriminate|]. cbn.
  destruct (Ascii.ascii_dec c d) as [->|]; [|discriminate].
  destruct (Ascii.ascii_dec (f d) (f d)); [|congruence]. apply IH.
Qed.

Lemma str_map_rev_app f s :
  forall acc, str_map f (String.rev_app s acc)
              = String.rev_app (str_map f s) (str_map f acc).
Proof.
  induction s as [|c s IH]; intros acc; [reflexivity|].
  cbn. now rewrite IH.
Qed.

Lemma length_rev_app s :
  forall acc, String.length (String.rev_app s acc)
              = (String.length s + String.length acc)%nat.
Proof.
  induction s as [|c s IH]; intros acc; [reflexivity|].
  cbn. rewrite IH. cbn. lia.
Qed.

Lemma length_str_map f s : String.length (str_map f s) = String.length s.
Proof. induction s as [|c s IH]; cbn; congruence. Qed.

Lemma suffix_clash s ext f :
  endswith s f = true -> endswith ext f = true ->
  (String.length ext <= String.length s)%nat ->
  endswith (lower ext) (lower s) = true.
Proof.
  unfold endswith, lower, String.rev. intros Hs Hext Hlen.
  rewrite <- !(str_map_rev_app ascii_lower _ "").
  apply prefix_str_map.
  apply (prefix_comparable _ _ _ Hs Hext).
  rewrite !length_rev_app. lia.
Qed.

Lemma selected_spec env config scope f :
  In f (_filter_quality_files env config scope) ->
  exists q, In q scope /\ f = path_str env q /\
            str_in (lower (path_suffix env q)) (quality_extensions config)
            = true.
Proof.
  unfold _filter_quality_files. intros (q & Hq & Hf)%in_flat_map.
  exists q. split; [exact Hq|].
  destruct (fs_size env q) as [size|]; [|contradiction].
  destruct (Z.ltb _ size); [contradiction|].
  destruct (str_in _ _) eqn:E; [|contradiction].
  destruct Hf as [<- | []]. now split.
Qed.

Lemma yaml_file_is_no_source env q ext :
  suffix_law env -> yaml_suffix env q ->
  In ext [".py"; ".js"; ".jsx"; ".ts"; ".tsx"; ".mjs"; ".cjs"] ->
  endswith ext (path_str env q) = false.
Proof.
  intros Hlaw Hyaml Hext.
  destruct (endswith ext (path_str env q)) eqn:E; [|reflexivity].
  exfalso.
  assert (Hlen : (String.length ext <= String.length (path_suffix env q))%nat).
  { pose proof (length_str_map ascii_lower (path_suffix env q)) as Hl.
    change (str_map ascii_lower (path_suffix env q))
      with (lower (path_suffix env q)) in Hl.
    rewrite <- Hl.
    destruct Hyaml as [-> | ->];
      cbn in Hext; intuition (subst; cbn; lia). }
  pose proof (suffix_clash _ _ _ (Hlaw q) E Hlen) as Hclash.
  destruct Hyaml as [H | H]; rewrite H in Hclash;
    cbn in Hext; intuition (subst; discriminate).
Qed.

(** X28.  What a mode selects and runs.  In the mode [yaml_strict] only
    files with a YAML suffix are selected, whether or not the YAML plugin
    is switched on; Ruff, ESLint and the TypeScript plugin are never named,
    but Lizard and the duplication check are, on the YAML files, whenever
    their switch is on and a file was selected.  In every mode other than
    [syntax_extended] and [yaml_strict], the default among them, no file
    with a YAML suffix is selected and no plugin runs. *)
Theorem modes_select_and_run
  (env : Env) (tools : Tools) (config : QualityConfig) (scope : list string) :
  suffix_law env ->
  let files := _filter_quality_files env config scope in
  let r := _run_quality_analysis tools config files in
  (analysis_mode config = "yaml_strict" ->
   Forall (fun f => exists q, In q scope /\ f = path_str env q /\
                              yaml_suffix env q) files /\
   ("ruff" ∉ tools_used r) /\ ("eslint" ∉ tools_used r) /\
   ("typescript_syntax" ∉ tools_used r) /\
   ("yaml_syntax" ∈ tools_used r <-> yaml_syntax_enabled config = true) /\
   (files <> [] -> py_truthy (scan_complexity config) = true ->
    "lizard" ∈ tools_used r) /\
   (files <> [] -> py_truthy (scan_duplication config) = true ->
    "duplication" ∈ tools_used r)) /\
  (analysis_mode config <> "syntax_extended" ->
   analysis_mode config <> "yaml_strict" ->
   Forall (fun f => exists q, In q scope /\ f = path_str env q /\
                              ~ yaml_suffix env q) files /\
   ("yaml_syntax" ∉ tools_used r) /\ ("typescript_syntax" ∉ tools_used r) /\
   plugin_results r = []).
Proof.
  intros Hlaw. cbv zeta. split.
  - intros Hmode.
    assert (Hexts : quality_extensions config = [".yaml"; ".yml"]).
    { unfold quality_extensions. now rewrite Hmode. }
    assert (Hfiles : Forall (fun f => exists q, In q scope /\
                                f = path_str env q /\ yaml_suffix env q)
                            (_filter_quality_files env config scope)).
    { apply Forall_forall. intros f Hf%list_elem_of_In.
      destruct (selected_spec _ _ _ _ Hf) as (q & Hq & -> & Hin).
      exists q. split; [exact Hq|]. split; [reflexivity|].
      rewrite Hexts in Hin. apply str_in_In in Hin.
      unfold yaml_suffix.
      destruct Hin as [E | [E | []]]; [left|right]; congruence. }
    split; [exact Hfiles|].
    rewrite !tools_used_spec. unfold called_for. rewrite Hmode.
    assert (Hno : forall f ext,
              In f (_filter_quality_files env config scope) ->
              In ext [".py"; ".js"; ".jsx"; ".ts"; ".tsx"; ".mjs"; ".cjs"] ->
              endswith ext f = false).
    { intros f ext Hf Hext.
      apply list_elem_of_In in Hf.
      destruct (proj1 (Forall_forall _ _) Hfiles f Hf) as (q & _ & -> & Hy).
      now apply yaml_file_is_no_source. }
    split.
    { intros [(_ & _ & f & Hf & Hpy) | H]; [|intuition discriminate].
      rewrite (Hno f ".py" Hf) in Hpy; [discriminate|cbn; auto]. }
    split.
    { intros [H | [(_ & _ & f & Hf & Hjs) | H]];
        [intuition discriminate| |intuition discriminate].
      unfold js_ts_file in Hjs. apply existsb_exists in Hjs as (ext & Hext & He).
      rewrite (Hno f ext Hf) in He; [discriminate|].
      cbn in Hext |- *. tauto. }
    split; [intuition discriminate|].
    split; [intuition discriminate|].
    split; intros Hne Hon; do 2 right; [left|right; left]; now repeat split.
  - intros Hne1 Hne2.
    assert (Hexts : quality_extensions config
                    = [".py"; ".js"; ".jsx"; ".ts"; ".tsx"; ".mjs"; ".cjs"]).
    { unfold quality_extensions.
      apply String.eqb_neq in Hne1, Hne2. rewrite Hne2.
      cbn [str_in existsb]. rewrite Hne1, Hne2.
      now rewrite andb_false_r, app_nil_r. }
    split.
    { apply Forall_forall. intros f Hf%list_elem_of_In.
      destruct (selected_spec _ _ _ _ Hf) as (q & Hq & -> & Hin).
      exists q. split; [exact Hq|]. split; [reflexivity|].
      intros [Hy | Hy]; rewrite Hexts, Hy in Hin; discriminate. }
    rewrite !tools_used_spec. unfold called_for.
    split; [intuition congruence|]. split; [intuition congruence|].
    pose proof (scheduled_plugin_results tools config
                  (_filter_quality_files env config scope)) as Hkeys.
    unfold scheduled in Hkeys.
    apply String.eqb_neq in Hne1, Hne2. rewrite Hne1, Hne2 in Hkeys.
    unfold dict_keys in Hkeys. now apply map_eq_nil in Hkeys.
Qed.

End Modes.

Lemma modes_select_and_run_witness :
  suffix_law two_kinds /\
  QualityAgent._filter_quality_files two_kinds strict_config
    ["a.YAML"; "b.py"; "c.txt"] = ["a.YAML"] /\
  "lizard" ∈ QualityRun.tools_used
    (QualityRun._run_quality_analysis quiet_tools strict_config
       (QualityAgent._filter_quality_files two_kinds strict_config
          ["a.YAML"; "b.py"; "c.txt"])).
Proof.
  assert (H : suffix_law two_kinds).
  { intros p. cbn.
    destruct (endswith ".YAML" p) eqn:E1; [exact E1|].
    destruct (endswith ".py" p) eqn:E2; [exact E2|].
    apply prefix_nil. }
  split; [exact H|]. split; [reflexivity|].
  destruct (modes_select_and_run two_kinds quiet_tools strict_config
              ["a.YAML"; "b.py"; "c.txt"] H) as [Hstrict _].
  destruct (Hstrict eq_refl) as (_ & _ & _ & _ & _ & Hlizard & _).
  apply Hlizard; [discriminate|reflexivity].
Defined.
